(** * securedoc: the access reconciliation layer, its two adapters and the
    Document record, embedded from the JavaScript sources.

    The development follows the layout of the repository:
    - [Document]            models/Document.js (record and instance methods)
    - [ServiceConfig]       services/index.js (adapter selection, development mode)
    - [DevIPFSService]      services/ipfs-dev.js (and the identical cipher
                            framing of services/ipfs.js)
    - [DevBlockchainService] services/blockchain-dev.js
    - [Documents]           routes/documents.js
    - [Sharing]             routes/sharing.js

    Asynchronous handlers are written in a state-and-exception monad over
    the [World] (the two collections, the two adapter states, the ambient
    clock and the log of calls that left the handler). *)

From Stdlib Require Import ZArith String Ascii Strings.Byte List Bool Lia DecimalString.
From stdpp Require Import gmap strings list fin_maps.

Local Open Scope string_scope.
Local Open Scope Z_scope.

(** ** Values thrown and returned *)

Inductive outcome (A : Type) : Type :=
| Returned (value : A)
| Thrown (message : string).
Arguments Returned {A} value.
Arguments Thrown {A} message.

(** An asynchronous computation over a state [S]: it ends by returning a
    value or by throwing an [Error] with a message; the state it leaves
    behind is kept in both cases. *)
Definition Async (S A : Type) : Type := S -> outcome A * S.

Definition ret {S A} (a : A) : Async S A := fun s => (Returned a, s).

Definition throw {S A} (message : string) : Async S A :=
  fun s => (Thrown message, s).

Definition bind {S A B} (c : Async S A) (k : A -> Async S B) : Async S B :=
  fun s =>
    match c s with
    | (Returned a, s') => k a s'
    | (Thrown e, s') => (Thrown e, s')
    end.

(** [try { c } catch (error) { handler error }] *)
Definition try_catch {S A} (c : Async S A) (handler : string -> Async S A)
  : Async S A :=
  fun s =>
    match c s with
    | (Returned a, s') => (Returned a, s')
    | (Thrown e, s') => handler e s'
    end.

Definition get {S} : Async S S := fun s => (Returned s, s).
Definition modify {S} (f : S -> S) : Async S unit := fun s => (Returned tt, f s).

Notation "x <- c ;; k" := (bind c (fun x => k))
  (at level 100, c at next level, right associativity, only parsing).
Notation "c ;;; k" := (bind c (fun _ => k))
  (at level 100, right associativity, only parsing).

(** ** JavaScript strings (ASCII fragment)

    A string is a sequence of ASCII characters.  On such strings the
    functions below are those of JavaScript; on a string with other
    characters [toLowerCase], [trim] and [length] of JavaScript, which
    know the letters and the white space of Unicode and count UTF-16
    code units, can differ from them. *)

Module Js.

(** [String.prototype.toLowerCase] on the ASCII letters. *)
Definition lowerAscii (c : ascii) : ascii :=
  let n := nat_of_ascii c in
  if (Nat.leb 65 n && Nat.leb n 90)%bool then ascii_of_nat (n + 32) else c.

Fixpoint toLowerCase (s : string) : string :=
  match s with
  | EmptyString => EmptyString
  | String c s' => String (lowerAscii c) (toLowerCase s')
  end.

(** White space removed by [trim]: tab, line feed, vertical tab, form
    feed, carriage return and space. *)
Definition isSpace (c : ascii) : bool :=
  let n := nat_of_ascii c in
  ((Nat.leb 9 n && Nat.leb n 13) || Nat.eqb n 32)%bool.

Fixpoint trimStart (s : string) : string :=
  match s with
  | EmptyString => EmptyString
  | String c s' => if isSpace c then trimStart s' else s
  end.

Fixpoint trimEnd (s : string) : string :=
  match s with
  | EmptyString => EmptyString
  | String c s' =>
      match trimEnd s' with
      | EmptyString => if isSpace c then EmptyString else String c EmptyString
      | t => String c t
      end
  end.

Definition trim (s : string) : string := trimEnd (trimStart s).

(** A value is falsy when it is absent or the empty string. *)
Definition falsy (v : option string) : bool :=
  match v with
  | None => true
  | Some s => bool_decide (s = "")
  end.

Definition truthy (v : option string) : bool := negb (falsy v).

(** The one-character string holding a double quote. *)
Definition quote : string := String (ascii_of_nat 34) EmptyString.

(** [a === b] on strings. *)
Definition eqs (a b : string) : bool := bool_decide (a = b).

(** [text.includes(needle)] *)
Definition contains (text needle : string) : bool :=
  match index 0 needle text with
  | Some _ => true
  | None => false
  end.

(** [xs.includes(x)] *)
Definition includes (xs : list string) (x : string) : bool :=
  existsb (eqs x) xs.

End Js.

(** ** Identifiers and time *)

(** A Mongo [ObjectId], through its [toString()]. *)
Definition ObjectId : Type := string.

(** A [Date], in milliseconds since the epoch. *)
Definition Date : Type := Z.

(** ** The ambient clock and entropy

    [Date.now()], [Math.random()] and [crypto.randomBytes] are readings of
    the environment.  An [Ambient.t] is the sequence of readings still to
    come and the position of the next one; every reading advances it. *)

Module Ambient.

Record t : Type := mk {
  reading : nat -> N;
  cursor : nat
}.

Definition advance (a : t) : t := mk (reading a) (S (cursor a)).

Definition read : Async t N :=
  fun a => (Returned (reading a (cursor a)), advance a).

(** [Date.now()] / [new Date()] *)
Definition now : Async t Date :=
  n <- read ;; ret (Z.of_N n).

Definition byte_of_reading (n : N) : byte :=
  match Byte.of_N (n mod 256) with
  | Some b => b
  | None => Byte.x00
  end.

(** The bytes the readings [from], ..., [from + count - 1] after the
    cursor will give. *)
Definition upcoming (a : t) (from count : nat) : list byte :=
  map (fun i => byte_of_reading (reading a (cursor a + from + i)))
      (seq 0 count).

(** [crypto.randomBytes(n)] *)
Fixpoint randomBytes (n : nat) : Async t (list byte) :=
  match n with
  | O => ret []
  | S n' =>
      r <- read ;;
      rest <- randomBytes n' ;;
      ret (byte_of_reading r :: rest)
  end.

(** [Math.floor(Math.random() * bound)] *)
Definition randomBelow (bound : N) : Async t N :=
  r <- read ;; ret (r mod bound)%N.

End Ambient.

(** ** models/Document.js *)

Module Share.
Record t : Type := mk {
  user : ObjectId;
  sharedAt : Date;
  permissions : string
}.
End Share.

Module Document.

Record t : Type := mk {
  title : string;
  originalName : string;
  mimeType : string;
  size : nat;
  ipfsHash : string;
  blockchainDocumentId : string;
  owner : ObjectId;
  isEncrypted : bool;
  encryptionKey : option string;
  sharedWith : list Share.t;
  downloadCount : nat;
  lastAccessedAt : Date;
  isActive : bool
}.

Definition set_sharedWith (d : t) (l : list Share.t) : t :=
  mk (title d) (originalName d) (mimeType d) (size d) (ipfsHash d)
     (blockchainDocumentId d) (owner d) (isEncrypted d) (encryptionKey d)
     l (downloadCount d) (lastAccessedAt d) (isActive d).

Definition set_isActive (d : t) (b : bool) : t :=
  mk (title d) (originalName d) (mimeType d) (size d) (ipfsHash d)
     (blockchainDocumentId d) (owner d) (isEncrypted d) (encryptionKey d)
     (sharedWith d) (downloadCount d) (lastAccessedAt d) b.

Definition set_title (d : t) (s : string) : t :=
  mk s (originalName d) (mimeType d) (size d) (ipfsHash d)
     (blockchainDocumentId d) (owner d) (isEncrypted d) (encryptionKey d)
     (sharedWith d) (downloadCount d) (lastAccessedAt d) (isActive d).

Definition set_lastAccessedAt (d : t) (now : Date) : t :=
  mk (title d) (originalName d) (mimeType d) (size d) (ipfsHash d)
     (blockchainDocumentId d) (owner d) (isEncrypted d) (encryptionKey d)
     (sharedWith d) (downloadCount d) now (isActive d).

Definition set_downloadCount (d : t) (n : nat) : t :=
  mk (title d) (originalName d) (mimeType d) (size d) (ipfsHash d)
     (blockchainDocumentId d) (owner d) (isEncrypted d) (encryptionKey d)
     (sharedWith d) n (lastAccessedAt d) (isActive d).

Definition set_encryptionKey (d : t) (k : option string) : t :=
  mk (title d) (originalName d) (mimeType d) (size d) (ipfsHash d)
     (blockchainDocumentId d) (owner d) (isEncrypted d) k
     (sharedWith d) (downloadCount d) (lastAccessedAt d) (isActive d).

(** [encryptionKey] is declared [select: false]: a query leaves it
    out of the document it loads. *)
Definition deselect (d : t) : t := set_encryptionKey d None.

(** [share => share.user.toString() === userId.toString()] *)
Definition isShareOf (userId : ObjectId) (share : Share.t) : bool :=
  Js.eqs (Share.user share) userId.

(** [documentSchema.methods.hasAccess] *)
Definition hasAccess (d : t) (userId : ObjectId) : bool :=
  if Js.eqs (owner d) userId then true
  else existsb (isShareOf userId) (sharedWith d).

(** [documentSchema.methods.getUserPermission]; [None] is [null]. *)
Definition getUserPermission (d : t) (userId : ObjectId) : option string :=
  if Js.eqs (owner d) userId then Some "owner"
  else
    match find (isShareOf userId) (sharedWith d) with
    | Some sharedEntry => Some (Share.permissions sharedEntry)
    | None => None
    end.

(** The entry returned by [sharedWith.find] is an alias into the array:
    assigning to its fields rewrites the first matching element. *)
Fixpoint updateFirst (userId : ObjectId) (permissions : string) (now : Date)
         (l : list Share.t) : list Share.t :=
  match l with
  | [] => []
  | share :: rest =>
      if isShareOf userId share
      then Share.mk (Share.user share) now permissions :: rest
      else share :: updateFirst userId permissions now rest
  end.

(** [documentSchema.methods.shareWith]: the boolean it returns and the
    document it leaves; [new Date()] is read only where an entry is
    written. *)
Definition shareWith (d : t) (userId : ObjectId) (permissions : string)
  : Async Ambient.t (bool * t) :=
  if Js.eqs (owner d) userId then ret (false, d)
  else
    match find (isShareOf userId) (sharedWith d) with
    | Some existingShare =>
        if negb (Js.eqs (Share.permissions existingShare) permissions)
        then
          now <- Ambient.now ;;
          ret (true, set_sharedWith d
                       (updateFirst userId permissions now (sharedWith d)))
        else ret (false, d)
    | None =>
        now <- Ambient.now ;;
        ret (true, set_sharedWith d
                     (sharedWith d ++ [Share.mk userId now permissions]))
    end.

(** [documentSchema.methods.unshareWith] *)
Definition unshareWith (d : t) (userId : ObjectId) : bool * t :=
  let initialLength := length (sharedWith d) in
  let kept := List.filter (fun share => negb (isShareOf userId share))
                          (sharedWith d) in
  (Nat.ltb (length kept) initialLength, set_sharedWith d kept).

(** [new Document({...})]: the setters of the schema, [trim] on
    [title] and on [originalName]. *)
Definition construct (d : t) : t :=
  mk (Js.trim (title d)) (Js.trim (originalName d)) (mimeType d) (size d)
     (ipfsHash d) (blockchainDocumentId d) (owner d) (isEncrypted d)
     (encryptionKey d) (sharedWith d) (downloadCount d)
     (lastAccessedAt d) (isActive d).

(** A [required] string: the empty string does not pass. *)
Definition required (path message value : string) : list string :=
  if Js.eqs value "" then [path ++ ": " ++ message] else [].

(** The validators the schema declares, in its order, on a document
    of the route (its size is a number, not negative; its owner is the
    requester's id): the message of each one that fails. *)
Definition validationErrors (d : t) : list string :=
  ((if Js.eqs (title d) "" then ["title: Document title is required"]
    else if Nat.ltb 100 (String.length (title d))
    then ["title: Title cannot exceed 100 characters"]
    else [])
   ++ required "originalName" "Original filename is required"
               (originalName d)
   ++ required "mimeType" "MIME type is required" (mimeType d)
   ++ required "ipfsHash" "IPFS hash is required" (ipfsHash d)
   ++ required "blockchainDocumentId" "Blockchain document ID is required"
               (blockchainDocumentId d))%list.

(** The message of the [ValidationError] that [save()] rejects
    with. *)
Definition validationMessage (errors : list string) : string :=
  "Document validation failed: " ++ String.concat ", " errors.

End Document.

(** ** services/index.js: which adapters, which mode *)

Module ServiceConfig.

(** The variables of [process.env] the loader reads; [None] is unset. *)
Record ProcessEnv : Type := mk {
  POLYGON_RPC_URL : option string;
  PRIVATE_KEY : option string;
  IPFS_PROJECT_ID : option string;
  IPFS_PROJECT_SECRET : option string;
  NODE_ENV : option string
}.

(** [process.env.NODE_ENV === 'development' ? error.message : undefined] *)
Definition errorDetail (env : ProcessEnv) (message : string) : option string :=
  match NODE_ENV env with
  | Some "development" => Some message
  | _ => None
  end.

(** [v && v !== placeholder], as a condition. *)
Definition configured (v : option string) (placeholder : string) : bool :=
  match v with
  | None => false
  | Some s => (negb (Js.eqs s "") && negb (Js.eqs s placeholder))%bool
  end.

Definition hasBlockchainConfig (env : ProcessEnv) : bool :=
  (configured (POLYGON_RPC_URL env)
              "https://polygon-mumbai.g.alchemy.com/v2/YOUR_API_KEY"
   && configured (PRIVATE_KEY env)
                 "your_wallet_private_key_for_contract_deployment")%bool.

Definition hasIPFSConfig (env : ProcessEnv) : bool :=
  (configured (IPFS_PROJECT_ID env) "your_infura_ipfs_project_id"
   && configured (IPFS_PROJECT_SECRET env) "your_infura_ipfs_secret")%bool.

(** [isDevelopmentMode: !hasBlockchainConfig || !hasIPFSConfig] *)
Definition isDevelopmentMode (env : ProcessEnv) : bool :=
  (negb (hasBlockchainConfig env) || negb (hasIPFSConfig env))%bool.

(** Which implementation backs each adapter. *)
Inductive backing : Type := Production | Development.

Definition blockchainBacking (env : ProcessEnv) : backing :=
  if hasBlockchainConfig env then Production else Development.

Definition ipfsBacking (env : ProcessEnv) : backing :=
  if hasIPFSConfig env then Production else Development.

End ServiceConfig.

(** ** Encodings *)

Module Encoding.

Definition hexDigit (n : N) : ascii :=
  if (n <? 10)%N then ascii_of_N (48 + n) else ascii_of_N (87 + n).

Definition hexByte (b : byte) : string :=
  let n := Byte.to_N b in
  String (hexDigit (n / 16)) (String (hexDigit (n mod 16)) EmptyString).

(** [buffer.toString('hex')] *)
Fixpoint hex (bs : list byte) : string :=
  match bs with
  | [] => EmptyString
  | b :: rest => hexByte b ++ hex rest
  end.

(** [Buffer.from(s, 'utf8')] on ASCII text. *)
Definition utf8 (s : string) : list byte := list_byte_of_string s.

(** A number in a template literal. *)
Definition decimal (z : Z) : string :=
  DecimalString.NilZero.string_of_int (Z.to_int z).

Definition base36Digit (n : N) : ascii :=
  if (n <? 10)%N then ascii_of_N (48 + n) else ascii_of_N (87 + n).

(** [count] digits of [n] in base 36, least significant first. *)
Fixpoint base36 (count : nat) (n : N) : string :=
  match count with
  | O => EmptyString
  | S k => String (base36Digit (n mod 36)) (base36 k (n / 36))
  end.

(** A character inside a string, as [JSON.stringify] writes it: the
    quote and the backslash behind a backslash, the control characters
    by their short escapes or as [\u00XX].  (In the literals below a
    backslash stands for itself.) *)
Definition jsonChar (c : ascii) : string :=
  let n := N_of_ascii c in
  if (n =? 34)%N then "\" ++ Js.quote
  else if (n =? 92)%N then "\\"
  else if (n =? 8)%N then "\b"
  else if (n =? 12)%N then "\f"
  else if (n =? 10)%N then "\n"
  else if (n =? 13)%N then "\r"
  else if (n =? 9)%N then "\t"
  else if (n <? 32)%N
  then "\u00" ++ String (hexDigit (n / 16))
                   (String (hexDigit (n mod 16)) EmptyString)
  else String c EmptyString.

Fixpoint jsonChars (s : string) : string :=
  match s with
  | EmptyString => EmptyString
  | String c rest => jsonChar c ++ jsonChars rest
  end.

(** [JSON.stringify(s)] of a string. *)
Definition jsonString (s : string) : string :=
  Js.quote ++ jsonChars s ++ Js.quote.

Fixpoint zeros (n : nat) : string :=
  match n with
  | O => EmptyString
  | S k => String "0" (zeros k)
  end.

(** A number written with at least [width] digits. *)
Definition padded (width : nat) (z : Z) : string :=
  let digits := decimal z in
  zeros (width - String.length digits) ++ digits.

(** [new Date(ms).toISOString()]: the date of the proleptic Gregorian
    calendar in UTC, with a year of four digits, or of six behind a
    sign outside 0..9999.  (A [Date] holds at most 8.64e15 ms either
    way; the clock never reads more.) *)
Definition toISOString (ms : Z) : string :=
  let days := (ms / 86400000)%Z in
  let msOfDay := (ms mod 86400000)%Z in
  let z := (days + 719468)%Z in
  let era := (z / 146097)%Z in
  let doe := (z - era * 146097)%Z in
  let yoe :=
    ((doe - doe / 1460 + doe / 36524 - doe / 146096) / 365)%Z in
  let doy := (doe - (365 * yoe + yoe / 4 - yoe / 100))%Z in
  let mp := ((5 * doy + 2) / 153)%Z in
  let day := (doy - (153 * mp + 2) / 5 + 1)%Z in
  let month := (if mp <? 10 then mp + 3 else mp - 9)%Z in
  let year := (yoe + era * 400 + (if month <=? 2 then 1 else 0))%Z in
  let yearText :=
    if (year <? 0)%Z then "-" ++ padded 6 (- year)%Z
    else if (year <=? 9999)%Z then padded 4 year
    else "+" ++ padded 6 year in
  yearText ++ "-" ++ padded 2 month ++ "-" ++ padded 2 day
  ++ "T" ++ padded 2 (msOfDay / 3600000)%Z
  ++ ":" ++ padded 2 (msOfDay / 60000 mod 60)%Z
  ++ ":" ++ padded 2 (msOfDay / 1000 mod 60)%Z
  ++ "." ++ padded 3 (msOfDay mod 1000)%Z ++ "Z".

End Encoding.

(** ** The part of Node's [crypto] the services call

    The hash, the AES-256-GCM cipher reached through [createCipher] /
    [createDecipher] (keyed by a password alone: no IV is passed to it)
    and the base64 codec of [Buffer] are library code; they are taken as
    an interface. *)

Class NodeCrypto : Type := {
  (** [crypto.createHash('sha256').update(data).digest()] *)
  sha256 : list byte -> list byte;
  (** [createCipher('aes-256-gcm', password)], [setAAD], [update], [final]
      and [getAuthTag]: ciphertext and tag. *)
  gcmSeal : list byte -> list byte -> list byte -> list byte * list byte;
  (** [createDecipher('aes-256-gcm', password)], [setAuthTag], [setAAD],
      [update], [final]: [None] when [final] throws. *)
  gcmOpen : list byte -> list byte -> list byte -> list byte -> option (list byte);
  (** [buffer.toString('base64')] and [Buffer.from(s, 'base64')] *)
  toBase64 : list byte -> string;
  fromBase64 : string -> list byte
}.

Definition sha256hex `{NodeCrypto} (data : list byte) : string :=
  Encoding.hex (sha256 data).

(** ** What the adapters return *)

Module Upload.
Record t : Type := mk {
  ipfsHash : string;
  size : nat;
  encryptionKey : option string
}.
End Upload.

Module AddTx.
Record t : Type := mk {
  documentId : string;
  transactionHash : string;
  blockNumber : N;
  walletAddress : string
}.
End AddTx.

Module Tx.
Record t : Type := mk {
  transactionHash : string;
  blockNumber : N;
  targetWalletAddress : string
}.
End Tx.

Module BatchTx.
Record t : Type := mk {
  transactionHash : string;
  blockNumber : N;
  targetAddresses : list string
}.
End BatchTx.

(** ** The two adapter interfaces

    Both routes files reach the stores only through [ipfsService] and
    [blockchainService]; either may be the production or the development
    implementation.  An implementation is a state type and its methods. *)

Class IpfsService (B : Type) : Type := {
  (** [uploadFile(fileBuffer, { encrypt })] *)
  uploadFile : list byte -> bool -> Async B Upload.t;
  (** [downloadFile(ipfsHash, options)]; the key is present when
      [options.decrypt && options.encryptionKey]. *)
  downloadFile : string -> option string -> Async B (list byte);
  (** [unpinFile(ipfsHash)] *)
  unpinFile : string -> Async B bool
}.

Class BlockchainService (L : Type) : Type := {
  (** [addDocument(userId, ipfsHash, metadata)] *)
  addDocument : string -> string -> string -> Async L AddTx.t;
  (** [grantAccess(ownerUserId, documentId, targetUserEmail, targetUserId)] *)
  grantAccess : string -> string -> string -> string -> Async L Tx.t;
  (** [revokeAccess(ownerUserId, documentId, targetUserId)] *)
  revokeAccess : string -> string -> string -> Async L Tx.t;
  (** [hasAccess(userId, documentId)] *)
  hasAccess : string -> string -> Async L bool;
  (** [getDocumentAccessors(ownerUserId, documentId)] *)
  getDocumentAccessors : string -> string -> Async L (list string);
  (** [batchGrantAccess(ownerUserId, documentId, targetUserIds)] *)
  batchGrantAccess : string -> string -> list string -> Async L BatchTx.t;
  (** [contract.removeDocument(documentId)], reached through the
      [contract] property of the service object. *)
  contract_removeDocument : string -> Async L unit
}.

#[global] Instance byte_eq_decision : EqDecision byte := Byte.byte_eq_dec.

(** [buffer.subarray(start, end)] and [buffer.subarray(start)] *)
Definition subarray (start stop : nat) (buffer : list byte) : list byte :=
  take (stop - start) (drop start buffer).

Definition subarrayFrom (start : nat) (buffer : list byte) : list byte :=
  drop start buffer.

Module Encrypted.
Record t : Type := mk {
  encryptedBuffer : list byte;
  key : string
}.
End Encrypted.

(** The associated data both services authenticate. *)
Definition ipfsDocumentAAD : list byte := Encoding.utf8 "ipfs-document".

(** ** services/ipfs-dev.js *)

Module DevIPFSService.
Section WithCrypto.
Context `{NodeCrypto}.

(** The service object: its connection flag and the files under
    [storageDir], with the readings of the environment it will make. *)
Record t : Type := mk {
  isConnected : bool;
  storage : gmap string (list byte);
  ambient : Ambient.t
}.

Definition withAmbient {A} (c : Async Ambient.t A) : Async t A :=
  fun this =>
    match c (ambient this) with
    | (r, a) => (r, mk (isConnected this) (storage this) a)
    end.

Definition writeFileSync (path : string) (data : list byte) : Async t unit :=
  modify (fun this =>
            mk (isConnected this) (<[path := data]> (storage this))
               (ambient this)).

Definition generateFakeIPFSHash (fileBuffer : list byte) : string :=
  "Qm" ++ substring 0 44 (sha256hex fileBuffer).

(** [encryptBuffer(buffer)]: it reads and writes no field of [this]. *)
Definition encryptBuffer (buffer : list byte) : Async Ambient.t Encrypted.t :=
  key <- Ambient.randomBytes 32 ;;
  iv <- Ambient.randomBytes 16 ;;
  let '(encrypted, authTag) := gcmSeal key ipfsDocumentAAD buffer in
  let encryptedBuffer := (iv ++ authTag ++ encrypted)%list in
  ret (Encrypted.mk encryptedBuffer (toBase64 key)).

(** [decryptBuffer(encryptedBuffer, keyBase64)].  Every failure of
    node's decipher is a [Thrown] here, under the message of a failed
    authentication; node has other messages for a key or a tag of the
    wrong length (a buffer of fewer than 32 bytes). *)
Definition decryptBuffer (encryptedBuffer : list byte) (keyBase64 : string)
  : outcome (list byte) :=
  let key := fromBase64 keyBase64 in
  let iv := subarray 0 16 encryptedBuffer in
  let authTag := subarray 16 32 encryptedBuffer in
  let encrypted := subarrayFrom 32 encryptedBuffer in
  match gcmOpen key ipfsDocumentAAD authTag encrypted with
  | Some decrypted => Returned decrypted
  | None => Thrown "Unsupported state or unable to authenticate data"
  end.

Definition uploadFile (fileBuffer : list byte) (encrypt : bool)
  : Async t Upload.t :=
  this <- get ;;
  if negb (isConnected this) then throw "Dev IPFS storage not available"
  else
    try_catch
      (processed <-
         (if encrypt
          then result <- withAmbient (encryptBuffer fileBuffer) ;;
               ret (Encrypted.encryptedBuffer result,
                    Some (Encrypted.key result))
          else ret (fileBuffer, None)) ;;
       let '(processedBuffer, encryptionKey) := processed in
       let ipfsHash := generateFakeIPFSHash processedBuffer in
       writeFileSync ipfsHash processedBuffer ;;;
       ret (Upload.mk ipfsHash (length processedBuffer) encryptionKey))
      (fun message =>
         throw ("Failed to upload file to dev storage: " ++ message)).

Definition startsWithQm (s : string) : bool :=
  Js.eqs (substring 0 2 s) "Qm".

Definition downloadFile (ipfsHash : string) (encryptionKey : option string)
  : Async t (list byte) :=
  this <- get ;;
  if negb (isConnected this) then throw "Dev IPFS storage not available"
  else
    try_catch
      (if (Js.eqs ipfsHash "" || negb (startsWithQm ipfsHash))%bool
       then throw "Invalid IPFS hash format"
       else
         match storage this !! ipfsHash with
         | None => throw "File not found in dev storage"
         | Some fileBuffer =>
             match encryptionKey with
             | Some key =>
                 if Js.eqs key "" then ret fileBuffer
                 else fun s => (decryptBuffer fileBuffer key, s)
             | None => ret fileBuffer
             end
         end)
      (fun message =>
         throw ("Failed to download file from dev storage: " ++ message)).

Definition unpinFile (ipfsHash : string) : Async t bool := ret true.

Definition isValidIPFSHash (hash : string) : bool :=
  (negb (Js.eqs hash "") && startsWithQm hash
   && Nat.eqb (String.length hash) 46)%bool.

#[global] Instance service : IpfsService t := {
  uploadFile := uploadFile;
  downloadFile := downloadFile;
  unpinFile := unpinFile
}.

End WithCrypto.
End DevIPFSService.

(** ** services/ipfs.js: the cipher framing (the same text as in the
    development service) *)

Module IPFSService.
Section WithCrypto.
Context `{NodeCrypto}.

Definition encryptBuffer (buffer : list byte) : Async Ambient.t Encrypted.t :=
  key <- Ambient.randomBytes 32 ;;
  iv <- Ambient.randomBytes 16 ;;
  let '(encrypted, authTag) := gcmSeal key ipfsDocumentAAD buffer in
  let encryptedBuffer := (iv ++ authTag ++ encrypted)%list in
  ret (Encrypted.mk encryptedBuffer (toBase64 key)).

(** As in the development adapter: one message for every failure of
    the decipher. *)
Definition decryptBuffer (encryptedBuffer : list byte) (keyBase64 : string)
  : outcome (list byte) :=
  let key := fromBase64 keyBase64 in
  let iv := subarray 0 16 encryptedBuffer in
  let authTag := subarray 16 32 encryptedBuffer in
  let encrypted := subarrayFrom 32 encryptedBuffer in
  match gcmOpen key ipfsDocumentAAD authTag encrypted with
  | Some decrypted => Returned decrypted
  | None => Thrown "Unsupported state or unable to authenticate data"
  end.

End WithCrypto.
End IPFSService.

(** The value [encryptBuffer] builds from a buffer and the readings to
    come: the key from the next 32 readings, the IV from the 16 after
    them, then IV, tag and ciphertext in a row. *)
Definition sealedWith `{NodeCrypto} (buffer : list byte) (a : Ambient.t)
  : Encrypted.t :=
  let key := Ambient.upcoming a 0 32 in
  let iv := Ambient.upcoming a 32 16 in
  Encrypted.mk
    (iv ++ snd (gcmSeal key ipfsDocumentAAD buffer)
        ++ fst (gcmSeal key ipfsDocumentAAD buffer))%list
    (toBase64 key).

(** ** A JavaScript [Map] with string keys

    Entries are kept in insertion order, which is the order [entries()]
    iterates them in; [set] on a present key keeps its position. *)

Module JsMap.

Definition t (V : Type) : Type := list (string * V).

Definition empty {V} : t V := [].

Fixpoint has {V} (key : string) (m : t V) : bool :=
  match m with
  | [] => false
  | (k, _) :: rest => if Js.eqs k key then true else has key rest
  end.

Fixpoint set {V} (key : string) (value : V) (m : t V) : t V :=
  match m with
  | [] => [(key, value)]
  | (k, v) :: rest =>
      if Js.eqs k key then (k, value) :: rest
      else (k, v) :: set key value rest
  end.

Fixpoint delete {V} (key : string) (m : t V) : t V :=
  match m with
  | [] => []
  | (k, v) :: rest =>
      if Js.eqs k key then rest else (k, v) :: delete key rest
  end.

Definition entries {V} (m : t V) : list (string * V) := m.

End JsMap.

(** ** services/blockchain-dev.js *)

Module Wallet.
Record t : Type := mk {
  address : string;
  privateKey : string
}.
End Wallet.

Module LedgerDocument.
Record t : Type := mk {
  ipfsHash : string;
  owner : string;
  metadata : string;
  createdAt : Date
}.
End LedgerDocument.

Module DevBlockchainService.
Section WithCrypto.
Context `{NodeCrypto}.

(** The service object: the three [Map]s of the constructor, with the
    readings of the environment it will make. *)
Record t : Type := mk {
  isConnected : bool;
  userWallets : gmap string Wallet.t;
  documents : gmap string LedgerDocument.t;
  permissions : JsMap.t bool;
  ambient : Ambient.t
}.

Definition withAmbient {A} (c : Async Ambient.t A) : Async t A :=
  fun this =>
    match c (ambient this) with
    | (r, a) =>
        (r, mk (isConnected this) (userWallets this) (documents this)
               (permissions this) a)
    end.

Definition set_userWallets (f : gmap string Wallet.t -> gmap string Wallet.t)
  : Async t unit :=
  modify (fun this =>
            mk (isConnected this) (f (userWallets this)) (documents this)
               (permissions this) (ambient this)).

Definition set_documents
           (f : gmap string LedgerDocument.t -> gmap string LedgerDocument.t)
  : Async t unit :=
  modify (fun this =>
            mk (isConnected this) (userWallets this) (f (documents this))
               (permissions this) (ambient this)).

Definition set_permissions (f : JsMap.t bool -> JsMap.t bool)
  : Async t unit :=
  modify (fun this =>
            mk (isConnected this) (userWallets this) (documents this)
               (f (permissions this)) (ambient this)).

(** [crypto.createHash('sha256').update(text).digest('hex')] *)
Definition sha256text (text : string) : string :=
  sha256hex (Encoding.utf8 text).

(** The address derived for a user id. *)
Definition derivedWallet (userId : string) : Wallet.t :=
  let seed := sha256text (userId ++ "_wallet_seed") in
  Wallet.mk ("0x" ++ substring 0 40 seed) seed.

(** [getUserWallet(userId)] *)
Definition getUserWallet (userId : string) : Async t Wallet.t :=
  this <- get ;;
  match userWallets this !! userId with
  | Some wallet => ret wallet
  | None =>
      let wallet := derivedWallet userId in
      set_userWallets (insert userId wallet) ;;;
      ret wallet
  end.

(** [generateDocumentId(userId, filename, timestamp)] *)
Definition generateDocumentId (userId filename : string) (timestamp : Date)
  : string :=
  "0x" ++ sha256text (userId ++ "-" ++ filename ++ "-"
                      ++ Encoding.decimal timestamp).

(** The key of the [permissions] map: [`${documentId}:${address}`]. *)
Definition permissionKey (documentId address : string) : string :=
  documentId ++ ":" ++ address.

(** ['0x' + crypto.randomBytes(32).toString('hex')] *)
Definition fakeTransactionHash : Async Ambient.t string :=
  bytes <- Ambient.randomBytes 32 ;;
  ret ("0x" ++ Encoding.hex bytes).

(** [Math.floor(Math.random() * 1000000) + 15000000] *)
Definition fakeBlockNumber : Async Ambient.t N :=
  r <- Ambient.randomBelow 1000000 ;;
  ret (r + 15000000)%N.

Definition notConnected {A} : Async t A :=
  throw "Dev blockchain service not connected".

Definition addDocument (userId ipfsHash metadata : string) : Async t AddTx.t :=
  this <- get ;;
  if negb (isConnected this) then notConnected
  else
    try_catch
      (userWallet <- getUserWallet userId ;;
       timestamp <- withAmbient Ambient.now ;;
       let documentId := generateDocumentId userId ipfsHash timestamp in
       createdAt <- withAmbient Ambient.now ;;
       set_documents
         (insert documentId
                 (LedgerDocument.mk ipfsHash (Wallet.address userWallet)
                                    metadata createdAt)) ;;;
       set_permissions
         (JsMap.set (permissionKey documentId (Wallet.address userWallet))
                    true) ;;;
       transactionHash <- withAmbient fakeTransactionHash ;;
       blockNumber <- withAmbient fakeBlockNumber ;;
       ret (AddTx.mk documentId transactionHash blockNumber
                     (Wallet.address userWallet)))
      (fun message =>
         throw ("Failed to add document to dev blockchain: " ++ message)).

Definition grantAccess (ownerUserId documentId targetUserEmail
                        targetUserId : string) : Async t Tx.t :=
  this <- get ;;
  if negb (isConnected this) then notConnected
  else
    try_catch
      (ownerWallet <- getUserWallet ownerUserId ;;
       targetWallet <- getUserWallet targetUserId ;;
       this <- get ;;
       match documents this !! documentId with
       | None => throw "Document not found"
       | Some document =>
           if negb (Js.eqs (LedgerDocument.owner document)
                           (Wallet.address ownerWallet))
           then throw "Only document owner can grant access"
           else
             set_permissions
               (JsMap.set (permissionKey documentId
                                         (Wallet.address targetWallet))
                          true) ;;;
             transactionHash <- withAmbient fakeTransactionHash ;;
             blockNumber <- withAmbient fakeBlockNumber ;;
             ret (Tx.mk transactionHash blockNumber
                        (Wallet.address targetWallet))
       end)
      (fun message =>
         throw ("Failed to grant access on dev blockchain: " ++ message)).

Definition revokeAccess (ownerUserId documentId targetUserId : string)
  : Async t Tx.t :=
  this <- get ;;
  if negb (isConnected this) then notConnected
  else
    try_catch
      (ownerWallet <- getUserWallet ownerUserId ;;
       targetWallet <- getUserWallet targetUserId ;;
       this <- get ;;
       match documents this !! documentId with
       | None => throw "Document not found"
       | Some document =>
           if negb (Js.eqs (LedgerDocument.owner document)
                           (Wallet.address ownerWallet))
           then throw "Only document owner can revoke access"
           else
             set_permissions
               (JsMap.delete (permissionKey documentId
                                            (Wallet.address targetWallet))) ;;;
             transactionHash <- withAmbient fakeTransactionHash ;;
             blockNumber <- withAmbient fakeBlockNumber ;;
             ret (Tx.mk transactionHash blockNumber
                        (Wallet.address targetWallet))
       end)
      (fun message =>
         throw ("Failed to revoke access on dev blockchain: " ++ message)).

Definition hasAccess (userId documentId : string) : Async t bool :=
  this <- get ;;
  if negb (isConnected this) then notConnected
  else
    try_catch
      (userWallet <- getUserWallet userId ;;
       this <- get ;;
       let hasPermission :=
         JsMap.has (permissionKey documentId (Wallet.address userWallet))
                   (permissions this) in
       ret hasPermission)
      (fun message =>
         throw ("Failed to check access on dev blockchain: " ++ message)).

Definition getDocument (userId documentId : string)
  : Async t LedgerDocument.t :=
  this <- get ;;
  if negb (isConnected this) then notConnected
  else
    try_catch
      (userWallet <- getUserWallet userId ;;
       access <- hasAccess userId documentId ;;
       if negb access then throw "Access denied to document"
       else
         this <- get ;;
         match documents this !! documentId with
         | None => throw "Document not found"
         | Some document =>
             ret (LedgerDocument.mk (LedgerDocument.ipfsHash document)
                                    (LedgerDocument.owner document)
                                    (LedgerDocument.metadata document)
                                    (LedgerDocument.createdAt document))
         end)
      (fun message =>
         throw ("Failed to get document from dev blockchain: " ++ message)).

(** The text before the first [':'] and the text after it. *)
Fixpoint cutAtColon (s : string) : string * option string :=
  match s with
  | EmptyString => (EmptyString, None)
  | String c rest =>
      if Ascii.eqb c ":" then (EmptyString, Some rest)
      else
        let '(head, tail) := cutAtColon rest in
        (String c head, tail)
  end.

(** [const [docId, userAddress] = key.split(':')]; [None] is [undefined]. *)
Definition splitKey (key : string) : string * option string :=
  let '(docId, tail) := cutAtColon key in
  match tail with
  | None => (docId, None)
  | Some rest => (docId, Some (fst (cutAtColon rest)))
  end.

Definition accessorOf (documentId ownerAddress : string)
           (entry : string * bool) : option string :=
  let '(key, hasAccess) := entry in
  let '(docId, userAddress) := splitKey key in
  match userAddress with
  | Some address =>
      if (Js.eqs docId documentId && hasAccess
          && negb (Js.eqs address ownerAddress))%bool
      then Some address else None
  | None => None
  end.

Definition getDocumentAccessors (ownerUserId documentId : string)
  : Async t (list string) :=
  this <- get ;;
  if negb (isConnected this) then notConnected
  else
    try_catch
      (ownerWallet <- getUserWallet ownerUserId ;;
       this <- get ;;
       let owned :=
         match documents this !! documentId with
         | None => false
         | Some document =>
             Js.eqs (LedgerDocument.owner document)
                    (Wallet.address ownerWallet)
         end in
       if negb owned then throw "Only document owner can view accessors"
       else
         ret (omap (accessorOf documentId (Wallet.address ownerWallet))
                   (JsMap.entries (permissions this))))
      (fun message =>
         throw ("Failed to get document accessors: " ++ message)).

Definition getUserWalletAddress (userId : string) : Async t string :=
  try_catch
    (wallet <- getUserWallet userId ;; ret (Wallet.address wallet))
    (fun _ => throw "Failed to get user wallet address").

(** The loop of [batchGrantAccess] over [targetUserIds]. *)
Fixpoint grantEach (documentId : string) (targetUserIds : list string)
  : Async t (list string) :=
  match targetUserIds with
  | [] => ret []
  | userId :: rest =>
      wallet <- getUserWallet userId ;;
      set_permissions
        (JsMap.set (permissionKey documentId (Wallet.address wallet))
                   true) ;;;
      addresses <- grantEach documentId rest ;;
      ret (Wallet.address wallet :: addresses)
  end.

Definition batchGrantAccess (ownerUserId documentId : string)
           (targetUserIds : list string) : Async t BatchTx.t :=
  this <- get ;;
  if negb (isConnected this) then notConnected
  else
    try_catch
      (ownerWallet <- getUserWallet ownerUserId ;;
       targetAddresses <- grantEach documentId targetUserIds ;;
       transactionHash <- withAmbient fakeTransactionHash ;;
       blockNumber <- withAmbient fakeBlockNumber ;;
       ret (BatchTx.mk transactionHash blockNumber targetAddresses))
      (fun message => throw ("Failed to batch grant access: " ++ message)).

(** The development service object has no [contract] property:
    [blockchainService.contract.removeDocument(...)] reads a property of
    [undefined]. *)
Definition contract_removeDocument (documentId : string) : Async t unit :=
  throw "Cannot read properties of undefined (reading 'removeDocument')".

(** [getWalletBalance(userId)]: the address of the (fixed) balance. *)
Definition getWalletBalance (userId : string) : Async t string :=
  try_catch
    (wallet <- getUserWallet userId ;; ret (Wallet.address wallet))
    (fun _ => throw "Failed to get wallet balance").

(** [fundUserWallet(userAddress, amount)] *)
Definition fundUserWallet (userAddress : string) (amount : N)
  : Async t string :=
  withAmbient fakeTransactionHash.

(** [new DevBlockchainService()] *)
Definition constructor (readings : Ambient.t) : t :=
  mk true ∅ ∅ JsMap.empty readings.

(** A call of one method of the service object. *)
Inductive Op : Type :=
| AddDocument (userId ipfsHash metadata : string)
| GrantAccess (ownerUserId documentId targetUserEmail targetUserId : string)
| RevokeAccess (ownerUserId documentId targetUserId : string)
| HasAccess (userId documentId : string)
| GetDocument (userId documentId : string)
| GetDocumentAccessors (ownerUserId documentId : string)
| GetUserWalletAddress (userId : string)
| GetWalletBalance (userId : string)
| FundUserWallet (userAddress : string) (amount : N)
| BatchGrantAccess (ownerUserId documentId : string)
                   (targetUserIds : list string)
| ContractRemoveDocument (documentId : string).

(** The service object after the call (what the call returned or threw
    is dropped). *)
Definition perform (op : Op) (this : t) : t :=
  match op with
  | AddDocument u h m => snd (addDocument u h m this)
  | GrantAccess o d e u => snd (grantAccess o d e u this)
  | RevokeAccess o d u => snd (revokeAccess o d u this)
  | HasAccess u d => snd (hasAccess u d this)
  | GetDocument u d => snd (getDocument u d this)
  | GetDocumentAccessors o d => snd (getDocumentAccessors o d this)
  | GetUserWalletAddress u => snd (getUserWalletAddress u this)
  | GetWalletBalance u => snd (getWalletBalance u this)
  | FundUserWallet a n => snd (fundUserWallet a n this)
  | BatchGrantAccess o d us => snd (batchGrantAccess o d us this)
  | ContractRemoveDocument d => snd (contract_removeDocument d this)
  end.

Definition performAll (ops : list Op) (this : t) : t :=
  fold_left (fun this op => perform op this) ops this.

(** The call asks the ledger to remove the grant stored under [key]:
    the only method that deletes from [permissions] is [revokeAccess]. *)
Definition removesGrant (key : string) (op : Op) : bool :=
  match op with
  | RevokeAccess _ documentId targetUserId =>
      Js.eqs (permissionKey documentId
                (Wallet.address (derivedWallet targetUserId)))
             key
  | _ => false
  end.

(** The state the constructor leaves, and every method keeps:
    connected, and every cached wallet is the one derived for its
    user. *)
Definition settled (this : t) : Prop :=
  isConnected this = true
  /\ forall userId wallet,
       userWallets this !! userId = Some wallet ->
       wallet = derivedWallet userId.

(** From [this] to [this'], the grant stored under [key] is not lost. *)
Definition keeps (key : string) (this this' : t) : Prop :=
  settled this'
  /\ (JsMap.has key (permissions this) = true ->
      JsMap.has key (permissions this') = true).

#[global] Instance service : BlockchainService t := {
  addDocument := addDocument;
  grantAccess := grantAccess;
  revokeAccess := revokeAccess;
  hasAccess := hasAccess;
  getDocumentAccessors := getDocumentAccessors;
  batchGrantAccess := batchGrantAccess;
  contract_removeDocument := contract_removeDocument
}.

End WithCrypto.
End DevBlockchainService.

(** ** The User collection *)

Module User.
(** Modelled from the spec: models/User.js is not among the sources.
    These are the fields the routes read and write (the identity,
    display name, e-mail, derived ledger address and active flag of
    section 3). *)
Record t : Type := mk {
  _id : ObjectId;
  name : string;
  email : string;
  walletAddress : option string;
  isActive : bool
}.

Definition set_walletAddress (u : t) (address : string) : t :=
  mk (_id u) (name u) (email u) (Some address) (isActive u).
End User.

(** ** The world a request runs in *)

(** A call that leaves a handler: to an adapter, or a [save()].  The log
    of calls is kept to state how often and in which order a handler
    reaches the stores; no handler reads it. *)
Inductive Call : Type :=
| IpfsUpload (encrypt : bool)
| IpfsDownload (ipfsHash : string)
| IpfsUnpin (ipfsHash : string)
| LedgerAddDocument (userId ipfsHash : string)
| LedgerGrantAccess (ownerUserId documentId targetUserId : string)
| LedgerRevokeAccess (ownerUserId documentId targetUserId : string)
| LedgerHasAccess (userId documentId : string)
| LedgerGetAccessors (ownerUserId documentId : string)
| LedgerBatchGrant (ownerUserId documentId : string) (targetUserIds : list string)
| LedgerRemoveDocument (documentId : string)
| DocumentSave (id : ObjectId)
| UserSave (id : ObjectId).

Definition isLedgerCall (c : Call) : bool :=
  match c with
  | LedgerAddDocument _ _ | LedgerGrantAccess _ _ _
  | LedgerRevokeAccess _ _ _ | LedgerHasAccess _ _
  | LedgerGetAccessors _ _ | LedgerBatchGrant _ _ _
  | LedgerRemoveDocument _ => true
  | _ => false
  end.

Definition isDatabaseWrite (c : Call) : bool :=
  match c with
  | DocumentSave _ | UserSave _ => true
  | _ => false
  end.

Module World.

Record t (L B : Type) : Type := mk {
  documents : gmap ObjectId Document.t;
  users : list User.t;
  blockchain : L;
  ipfs : B;
  clock : Ambient.t;
  calls : list Call
}.
Arguments mk {L B}.
Arguments documents {L B}.
Arguments users {L B}.
Arguments blockchain {L B}.
Arguments ipfs {L B}.
Arguments clock {L B}.
Arguments calls {L B}.

Section Access.
Context {L B : Type}.

Definition record (c : Call) : Async (t L B) unit :=
  modify (fun w => mk (documents w) (users w) (blockchain w) (ipfs w)
                      (clock w) (calls w ++ [c])).

(** A call to [blockchainService]. *)
Definition onLedger {A} (c : Call) (method : Async L A) : Async (t L B) A :=
  record c ;;;
  fun w =>
    match method (blockchain w) with
    | (r, l) => (r, mk (documents w) (users w) l (ipfs w) (clock w) (calls w))
    end.

(** A call to [ipfsService]. *)
Definition onIpfs {A} (c : Call) (method : Async B A) : Async (t L B) A :=
  record c ;;;
  fun w =>
    match method (ipfs w) with
    | (r, b) => (r, mk (documents w) (users w) (blockchain w) b (clock w)
                       (calls w))
    end.

(** A reading of the environment made by a handler or by a method of
    the Document it holds. *)
Definition withClock {A} (c : Async Ambient.t A) : Async (t L B) A :=
  fun w =>
    match c (clock w) with
    | (r, a) => (r, mk (documents w) (users w) (blockchain w) (ipfs w) a
                       (calls w))
    end.

(** [new Date()] in a handler. *)
Definition newDate : Async (t L B) Date := withClock Ambient.now.

(** [Math.random()] in a handler, as a reading. *)
Definition mathRandom : Async (t L B) N := withClock Ambient.read.

(** [Document.findById(id)], for an [id] that has the form of an
    ObjectId (for another string mongoose throws a [CastError]
    instead of finding nothing). *)
Definition findDocumentById (id : ObjectId)
  : Async (t L B) (option Document.t) :=
  w <- get ;; ret (Document.deselect <$> documents w !! id).

(** What [save()] stores for a loaded document: the paths the handler
    holds, and the stored [encryptionKey], which it never loaded. *)
Definition stored (docs : gmap ObjectId Document.t) (id : ObjectId)
           (d : Document.t) : Document.t :=
  match docs !! id with
  | Some old => Document.set_encryptionKey d (Document.encryptionKey old)
  | None => d
  end.

(** [document.save()] on a document that was loaded by id. *)
Definition saveDocument (id : ObjectId) (d : Document.t)
  : Async (t L B) unit :=
  record (DocumentSave id) ;;;
  modify (fun w => mk (<[id := stored (documents w) id d]> (documents w))
                      (users w) (blockchain w) (ipfs w) (clock w) (calls w)).

(** The two [unique: true] indexes of the schema. *)
Definition clashes (d : Document.t) (docs : gmap ObjectId Document.t) : bool :=
  bool_decide
    (map_Exists
       (fun _ other =>
          Document.ipfsHash other = Document.ipfsHash d
          \/ Document.blockchainDocumentId other
             = Document.blockchainDocumentId d)
       docs).

(** [save()] of a document made by [new Document({...})]: a fresh
    id; the validators of the schema run first and reject with a
    [ValidationError] before anything is written; the insert is
    refused when a unique index is violated. *)
Definition createDocument (d : Document.t) : Async (t L B) ObjectId :=
  w <- get ;;
  let id := fresh (dom (documents w)) in
  record (DocumentSave id) ;;;
  match Document.validationErrors d with
  | [] =>
      if clashes d (documents w)
      then throw "E11000 duplicate key error"
      else
        modify (fun w => mk (<[id := d]> (documents w)) (users w)
                            (blockchain w) (ipfs w) (clock w) (calls w)) ;;;
        ret id
  | errors => throw (Document.validationMessage errors)
  end.

(** [User.findOne({ email, isActive: true })] *)
Definition findActiveUserByEmail (email : string)
  : Async (t L B) (option User.t) :=
  w <- get ;;
  ret (find (fun u => (Js.eqs (User.email u) email && User.isActive u)%bool)
            (users w)).

(** [User.findById(id)] *)
Definition findUserById (id : ObjectId) : Async (t L B) (option User.t) :=
  w <- get ;;
  ret (find (fun u => Js.eqs (User._id u) id) (users w)).

(** The users matching [{ email: { $in: emails }, isActive: true }]. *)
Definition activeWithEmail (emails : list string) (all : list User.t)
  : list User.t :=
  List.filter
    (fun u => (Js.includes emails (User.email u) && User.isActive u)%bool)
    all.

(** [User.find({ email: { $in: emails }, isActive: true })] *)
Definition findActiveUsersByEmails (emails : list string)
  : Async (t L B) (list User.t) :=
  w <- get ;; ret (activeWithEmail emails (users w)).

(** [user.save()] *)
Definition saveUser (u : User.t) : Async (t L B) unit :=
  record (UserSave (User._id u)) ;;;
  modify (fun w =>
            mk (documents w)
               (map (fun v => if Js.eqs (User._id v) (User._id u) then u else v)
                    (users w))
               (blockchain w) (ipfs w) (clock w) (calls w)).

(** The world after a call to the ledger adapter that left it in [l]. *)
Definition afterLedger (c : Call) (l : L) (w : t L B) : t L B :=
  mk (documents w) (users w) l (ipfs w) (clock w) (calls w ++ [c]).

(** The world after a call to the blob adapter that left it in [b]. *)
Definition afterIpfs (c : Call) (b : B) (w : t L B) : t L B :=
  mk (documents w) (users w) (blockchain w) b (clock w) (calls w ++ [c]).

(** The world after [n] readings of the clock. *)
Definition afterReadings (n : nat) (w : t L B) : t L B :=
  mk (documents w) (users w) (blockchain w) (ipfs w)
     (Ambient.mk (Ambient.reading (clock w)) (Ambient.cursor (clock w) + n))
     (calls w).

(** The date the [n]-th coming reading of the clock gives. *)
Definition dateAt (n : nat) (w : t L B) : Date :=
  Z.of_N (Ambient.reading (clock w) (Ambient.cursor (clock w) + n)).

(** The world after [save()] stored [d] under [id]. *)
Definition afterSave (id : ObjectId) (d : Document.t) (w : t L B) : t L B :=
  mk (<[id := d]> (documents w)) (users w) (blockchain w) (ipfs w)
     (clock w) (calls w ++ [DocumentSave id]).

End Access.
End World.

(** ** Responses *)

Module Response.

Inductive payload : Type :=
| Plain
| Failure (error : option string)
| NoAccess
| Uploaded (id : ObjectId) (document : Document.t) (blockchain : AddTx.t)
| Details (id : ObjectId) (document : Document.t)
          (userPermission : option string)
| File (contentType : string) (contentLength : nat) (filename : string)
       (contents : list byte)
| Updated (id : ObjectId) (document : Document.t)
| PermissionsUpdated (documentId : ObjectId) (sharedWith : User.t)
                     (permissions : string) (sharedAt : Date)
| Shared (documentId : ObjectId) (sharedWith : User.t)
         (permissions : string) (sharedAt : Date) (blockchain : Tx.t)
| Revoked (documentId : ObjectId) (revokedFrom : User.t) (revokedAt : Date)
          (blockchain : Tx.t)
| SharingInfo (document : Document.t) (blockchainAccessors : list string)
| BatchShared (successful : list (User.t * string * Date))
              (notFound : list string) (totalRequested totalShared : nat)
              (blockchain : BatchTx.t)
| Verdict (hasAccess : bool) (permission : option string) (isOwner : bool)
          (database blockchain : bool).

Record t : Type := mk {
  status : nat;
  message : string;
  body : payload
}.

(** [res.status(code).json({ message })] *)
Definition json (code : nat) (message : string) : t := mk code message Plain.

End Response.

(** ** routes/sharing.js *)

Module Sharing.
Section Routes.
Context {L B : Type} `{BlockchainService L}.
Variable env : ServiceConfig.ProcessEnv.

Abbreviation handler := (Async (World.t L B) Response.t).

(** [validateDocumentOwnership(documentId, userId)] *)
Definition validateDocumentOwnership (documentId userId : ObjectId)
  : Async (World.t L B) Document.t :=
  document <- World.findDocumentById documentId ;;
  match document with
  | None => throw "Document not found"
  | Some document =>
      if negb (Document.isActive document) then throw "Document not found"
      else if negb (Js.eqs (Document.owner document) userId)
      then throw "Only document owner can manage sharing"
      else ret document
  end.

(** The [permissions = 'read'] default of the destructured body. *)
Definition orRead (permissions : option string) : string :=
  match permissions with
  | Some p => p
  | None => "read"
  end.

Definition validPermissions (permissions : string) : bool :=
  Js.includes ["read"; "write"] permissions.

(** The message with its two quoted words. *)
Definition permissionsMessage : string :=
  "Permissions must be either " ++ Js.quote ++ "read" ++ Js.quote
  ++ " or " ++ Js.quote ++ "write" ++ Js.quote.

(** The result put in place of a failed ledger grant in development
    mode. *)
Definition synthesizedGrant : Async (World.t L B) Tx.t :=
  r1 <- World.mathRandom ;;
  r2 <- World.mathRandom ;;
  ret (Tx.mk ("0xdev_" ++ Encoding.base36 9 r1) (r2 mod 1000000)%N
             "0xdev_address").

(** The response of the [catch (error)] of [POST /grant]. *)
Definition grantFailure (message : string) : Response.t :=
  if Js.eqs message "Document not found"
  then Response.json 404 "Document not found"
  else if Js.eqs message "Only document owner can manage sharing"
  then Response.json 403 "Only document owner can share documents"
  else Response.mk 500 "Error sharing document"
         (Response.Failure (ServiceConfig.errorDetail env message)).

(** [router.post('/grant')] *)
Definition grant (ownerId : ObjectId) (documentId userEmail : option string)
           (permissions : option string) : handler :=
  try_catch
    (let permissions := orRead permissions in
     match documentId, userEmail with
     | Some documentId, Some userEmail =>
       if (Js.eqs documentId "" || Js.eqs userEmail "")%bool
       then ret (Response.json 400 "Document ID and user email are required")
       else if negb (validPermissions permissions)
       then ret (Response.json 400 permissionsMessage)
       else
         document <- validateDocumentOwnership documentId ownerId ;;
         targetUser <- World.findActiveUserByEmail
                         (Js.trim (Js.toLowerCase userEmail)) ;;
         match targetUser with
         | None => ret (Response.json 404 "User not found")
         | Some targetUser =>
           if Js.eqs (User._id targetUser) ownerId
           then ret (Response.json 400 "Cannot share document with yourself")
           else
             match find (Document.isShareOf (User._id targetUser))
                        (Document.sharedWith document) with
             | Some existingShare =>
               if negb (Js.eqs (Share.permissions existingShare) permissions)
               then
                 sharedAt <- World.newDate ;;
                 World.saveDocument documentId
                   (Document.set_sharedWith document
                      (Document.updateFirst (User._id targetUser)
                         permissions sharedAt
                         (Document.sharedWith document))) ;;;
                 ret (Response.mk 200
                        "Document sharing permissions updated successfully"
                        (Response.PermissionsUpdated documentId targetUser
                           permissions sharedAt))
               else
                 ret (Response.json 400
                        "Document is already shared with this user")
             | None =>
               blockchainResult <-
                 try_catch
                   (World.onLedger
                      (LedgerGrantAccess ownerId
                         (Document.blockchainDocumentId document)
                         (User._id targetUser))
                      (grantAccess ownerId
                         (Document.blockchainDocumentId document)
                         (User.email targetUser) (User._id targetUser)))
                   (fun blockchainError =>
                      if ServiceConfig.isDevelopmentMode env
                      then synthesizedGrant
                      else throw blockchainError) ;;
               shared <- World.withClock
                           (Document.shareWith document (User._id targetUser)
                                               permissions) ;;
               let '(shareSuccess, document) := shared in
               if negb shareSuccess
               then ret (Response.json 400 "Failed to share document")
               else
                 World.saveDocument documentId document ;;;
                 sharedAt <- World.newDate ;;
                 ret (Response.mk 200 "Document shared successfully"
                        (Response.Shared documentId targetUser permissions
                           sharedAt blockchainResult))
             end
         end
     | _, _ => ret (Response.json 400 "Document ID and user email are required")
     end)
    (fun message => ret (grantFailure message)).

(** The response of the [catch (error)] of [POST /revoke]. *)
Definition revokeFailure (message : string) : Response.t :=
  if Js.eqs message "Document not found"
  then Response.json 404 "Document not found"
  else if Js.eqs message "Only document owner can manage sharing"
  then Response.json 403 "Only document owner can revoke access"
  else Response.mk 500 "Error revoking document access"
         (Response.Failure (ServiceConfig.errorDetail env message)).

(** [router.post('/revoke')] *)
Definition revoke (ownerId : ObjectId) (documentId userId : option string)
  : handler :=
  try_catch
    (match documentId, userId with
     | Some documentId, Some userId =>
       if (Js.eqs documentId "" || Js.eqs userId "")%bool
       then ret (Response.json 400 "Document ID and user ID are required")
       else
         document <- validateDocumentOwnership documentId ownerId ;;
         targetUser <- World.findUserById userId ;;
         match targetUser with
         | None => ret (Response.json 404 "User not found")
         | Some targetUser =>
           let hasAccess :=
             existsb (Document.isShareOf userId)
                     (Document.sharedWith document) in
           if negb hasAccess
           then ret (Response.json 400
                       "Document is not shared with this user")
           else
             blockchainResult <-
               World.onLedger
                 (LedgerRevokeAccess ownerId
                    (Document.blockchainDocumentId document) userId)
                 (revokeAccess ownerId
                    (Document.blockchainDocumentId document) userId) ;;
             let '(revokeSuccess, document) :=
               Document.unshareWith document userId in
             if negb revokeSuccess
             then ret (Response.json 400 "Failed to revoke document access")
             else
               World.saveDocument documentId document ;;;
               revokedAt <- World.newDate ;;
               ret (Response.mk 200 "Document access revoked successfully"
                      (Response.Revoked documentId targetUser revokedAt
                         blockchainResult))
         end
     | _, _ => ret (Response.json 400 "Document ID and user ID are required")
     end)
    (fun message => ret (revokeFailure message)).

(** [router.get('/document/:id')] *)
Definition sharingInfo (userId documentId : ObjectId) : handler :=
  try_catch
    (document <- World.findDocumentById documentId ;;
     match document with
     | None => ret (Response.json 404 "Document not found")
     | Some document =>
       if negb (Document.isActive document)
       then ret (Response.json 404 "Document not found")
       else
         owner <- World.findUserById (Document.owner document) ;;
         match owner with
         | None => throw "Cannot read properties of null (reading '_id')"
         | Some owner =>
           if negb (Js.eqs (User._id owner) userId)
           then ret (Response.json 403
                       "Only document owner can view sharing details")
           else
             blockchainAccessors <-
               try_catch
                 (World.onLedger
                    (LedgerGetAccessors userId
                       (Document.blockchainDocumentId document))
                    (getDocumentAccessors userId
                       (Document.blockchainDocumentId document)))
                 (fun _ => ret []) ;;
             ret (Response.mk 200 ""
                    (Response.SharingInfo document blockchainAccessors))
         end
     end)
    (fun _ =>
       ret (Response.json 500 "Error getting document sharing information")).

(** The filter of [POST /batch-grant]: not the owner, not already
    shared. *)
Definition isNewTarget (ownerId : ObjectId) (document : Document.t)
           (user : User.t) : bool :=
  if Js.eqs (User._id user) ownerId then false
  else negb (existsb (Document.isShareOf (User._id user))
                     (Document.sharedWith document)).

(** The [for (const user of validUsers)] loop. *)
Fixpoint shareEach (validUsers : list User.t) (permissions : string)
         (document : Document.t)
  : Async (World.t L B) (Document.t * list (User.t * string * Date)) :=
  match validUsers with
  | [] => ret (document, [])
  | user :: rest =>
      shared <- World.withClock
                  (Document.shareWith document (User._id user) permissions) ;;
      let '(shareSuccess, document) := shared in
      if shareSuccess
      then
        sharedAt <- World.newDate ;;
        r <- shareEach rest permissions document ;;
        ret (fst r, (user, permissions, sharedAt) :: snd r)
      else shareEach rest permissions document
  end.

Definition normalizeEmails (userEmails : list string) : list string :=
  map (fun email => Js.trim (Js.toLowerCase email)) userEmails.

(** [targetUsers.filter(...)]: the targets left after the owner and the
    users already shared with are taken out. *)
Definition validUsersOf (ownerId : ObjectId) (document : Document.t)
           (targetUsers : list User.t) : list User.t :=
  List.filter (isNewTarget ownerId document) targetUsers.

(** [userEmails.map(...).filter(email => !foundEmails.includes(email))] *)
Definition notFoundEmailsOf (userEmails : list string)
           (targetUsers : list User.t) : list string :=
  let foundEmails := map User.email targetUsers in
  List.filter (fun email => negb (Js.includes foundEmails email))
              (normalizeEmails userEmails).

(** The response of the [catch (error)] of [POST /batch-grant]. *)
Definition batchGrantFailure (message : string) : Response.t :=
  if Js.eqs message "Document not found"
  then Response.json 404 "Document not found"
  else if Js.eqs message "Only document owner can manage sharing"
  then Response.json 403 "Only document owner can share documents"
  else Response.mk 500 "Error sharing document with multiple users"
         (Response.Failure (ServiceConfig.errorDetail env message)).

(** [router.post('/batch-grant')]; [userEmails] is present when the
    body carries an array. *)
Definition batchGrant (ownerId : ObjectId) (documentId : option string)
           (userEmails : option (list string)) (permissions : option string)
  : handler :=
  try_catch
    (let permissions := orRead permissions in
     match documentId, userEmails with
     | Some documentId, Some userEmails =>
       if (Js.eqs documentId "" || Nat.eqb (length userEmails) 0)%bool
       then ret (Response.json 400
                   "Document ID and array of user emails are required")
       else if Nat.ltb 50 (length userEmails)
       then ret (Response.json 400
                   "Cannot share with more than 50 users at once")
       else if negb (validPermissions permissions)
       then ret (Response.json 400 permissionsMessage)
       else
         document <- validateDocumentOwnership documentId ownerId ;;
         targetUsers <- World.findActiveUsersByEmails
                          (normalizeEmails userEmails) ;;
         if Nat.eqb (length targetUsers) 0
         then ret (Response.json 404 "No valid users found")
         else
           let validUsers := validUsersOf ownerId document targetUsers in
           if Nat.eqb (length validUsers) 0
           then ret (Response.json 400
                "No new users to share with (already shared or includes owner)")
           else
             blockchainResult <-
               World.onLedger
                 (LedgerBatchGrant ownerId
                    (Document.blockchainDocumentId document)
                    (map User._id validUsers))
                 (batchGrantAccess ownerId
                    (Document.blockchainDocumentId document)
                    (map User._id validUsers)) ;;
             shared <- shareEach validUsers permissions document ;;
             let '(document, results) := shared in
             World.saveDocument documentId document ;;;
             let notFoundEmails :=
               notFoundEmailsOf userEmails targetUsers in
             ret (Response.mk 200
                    ("Document shared with "
                     ++ Encoding.decimal (Z.of_nat (length results))
                     ++ " users successfully")
                    (Response.BatchShared results notFoundEmails
                       (length userEmails) (length results)
                       blockchainResult))
     | _, _ =>
       ret (Response.json 400
              "Document ID and array of user emails are required")
     end)
    (fun message => ret (batchGrantFailure message)).

(** [router.get('/access/:documentId')] *)
Definition access (userId documentId : ObjectId) : handler :=
  try_catch
    (document <- World.findDocumentById documentId ;;
     match document with
     | None => ret (Response.mk 404 "Document not found" Response.NoAccess)
     | Some document =>
       if negb (Document.isActive document)
       then ret (Response.mk 404 "Document not found" Response.NoAccess)
       else
         let databaseAccess := Document.hasAccess document userId in
         blockchainAccess <-
           try_catch
             (World.onLedger
                (LedgerHasAccess userId
                   (Document.blockchainDocumentId document))
                (hasAccess userId (Document.blockchainDocumentId document)))
             (fun _ => ret false) ;;
         let hasAccess := (databaseAccess && blockchainAccess)%bool in
         let userPermission := Document.getUserPermission document userId in
         ret (Response.mk 200 ""
                (Response.Verdict hasAccess userPermission
                   (Js.eqs (Document.owner document) userId)
                   databaseAccess blockchainAccess))
     end)
    (fun _ =>
       ret (Response.mk 500 "Error checking document access"
              Response.NoAccess)).

End Routes.
End Sharing.

(** ** routes/documents.js *)

Module UploadedFile.
(** [req.file], as multer's memory storage leaves it. *)
Record t : Type := mk {
  buffer : list byte;
  originalname : string;
  mimetype : string;
  size : nat
}.
End UploadedFile.

Module Documents.
Section Routes.
Context {L B : Type} `{BlockchainService L} `{IpfsService B}.
Variable env : ServiceConfig.ProcessEnv.

Abbreviation handler := (Async (World.t L B) Response.t).

(** [validateDocumentAccess(documentId, userId)]; the query populates
    [owner], and reading [_id] of an owner that did not resolve throws. *)
Definition validateDocumentAccess (documentId userId : ObjectId)
  : Async (World.t L B) Document.t :=
  document <- World.findDocumentById documentId ;;
  match document with
  | None => throw "Document not found"
  | Some document =>
      if negb (Document.isActive document) then throw "Document not found"
      else
        owner <- World.findUserById (Document.owner document) ;;
        match owner with
        | None => throw "Cannot read properties of null (reading '_id')"
        | Some _ =>
            if negb (Document.hasAccess document userId)
            then throw "Access denied"
            else ret document
        end
  end.

(** A key of a JSON object, with its colon. *)
Definition jsonKey (name : string) : string :=
  Encoding.jsonString name ++ ":".

(** The metadata handed to the ledger:
    [JSON.stringify({ title, description, originalName, mimeType, size,
    uploadedAt: new Date().toISOString() })], the keys in this order,
    the strings quoted and escaped, the size as a number (a size
    below 1e21 is written in plain digits). *)
Definition metadataJson (title description originalName mimeType : string)
           (size : nat) (stampName : string) (stamp : Date) : string :=
  "{" ++ jsonKey "title" ++ Encoding.jsonString title
  ++ "," ++ jsonKey "description" ++ Encoding.jsonString description
  ++ "," ++ jsonKey "originalName" ++ Encoding.jsonString originalName
  ++ "," ++ jsonKey "mimeType" ++ Encoding.jsonString mimeType
  ++ "," ++ jsonKey "size" ++ Encoding.decimal (Z.of_nat size)
  ++ "," ++ jsonKey stampName
  ++ Encoding.jsonString (Encoding.toISOString stamp)
  ++ "}".

(** [description?.trim() || ''] *)
Definition descriptionOrEmpty (description : option string) : string :=
  match description with
  | Some d => Js.trim d
  | None => ""
  end.

(** The response of the [catch (error)] of [POST /upload].  (Its
    first test, on [error.code], is for the size limit of multer,
    which refuses the request before the handler runs; the errors
    thrown inside the handler carry a message and no such code.) *)
Definition uploadFailure (message : string) : Response.t :=
  if (Js.contains message "File type" && Js.contains message "not allowed")%bool
  then Response.json 400 message
  else Response.mk 500 "Error uploading document"
         (Response.Failure (ServiceConfig.errorDetail env message)).

(** [router.post('/upload')]; [user] is [req.user]. *)
Definition upload (user : User.t) (file : option UploadedFile.t)
           (title description : option string) (encrypt : bool) : handler :=
  try_catch
    (match file with
     | None => ret (Response.json 400 "No file provided")
     | Some file =>
       match title with
       | None => ret (Response.json 400 "Document title is required")
       | Some title =>
         if (Js.eqs title "" || Nat.eqb (String.length (Js.trim title)) 0)%bool
         then ret (Response.json 400 "Document title is required")
         else if Nat.ltb 100 (String.length title)
         then ret (Response.json 400 "Title cannot exceed 100 characters")
         else
           let userId := User._id user in
           ipfsResult <-
             World.onIpfs (IpfsUpload encrypt)
               (uploadFile (UploadedFile.buffer file) encrypt) ;;
           uploadedAt <- World.newDate ;;
           let metadata :=
             metadataJson (Js.trim title) (descriptionOrEmpty description)
               (UploadedFile.originalname file) (UploadedFile.mimetype file)
               (UploadedFile.size file) "uploadedAt" uploadedAt in
           blockchainResult <-
             World.onLedger
               (LedgerAddDocument userId (Upload.ipfsHash ipfsResult))
               (addDocument userId (Upload.ipfsHash ipfsResult) metadata) ;;
           lastAccessedAt <- World.newDate ;;
           let keyHeld := Js.truthy (Upload.encryptionKey ipfsResult) in
           let document :=
             Document.construct
               (Document.mk (Js.trim title) (UploadedFile.originalname file)
                  (UploadedFile.mimetype file) (UploadedFile.size file)
                  (Upload.ipfsHash ipfsResult)
                  (AddTx.documentId blockchainResult) userId keyHeld
                  (if keyHeld then Upload.encryptionKey ipfsResult
                   else None)
                  [] 0 lastAccessedAt true) in
           id <- World.createDocument document ;;
           (if negb (Js.truthy (User.walletAddress user))
            then World.saveUser
                   (User.set_walletAddress user
                      (AddTx.walletAddress blockchainResult))
            else ret tt) ;;;
           ret (Response.mk 201 "Document uploaded successfully"
                  (Response.Uploaded id document blockchainResult))
       end
     end)
    (fun message => ret (uploadFailure message)).

(** The response of the [catch (error)] of [GET /:id]. *)
Definition fetchFailure (message : string) : Response.t :=
  if Js.eqs message "Document not found"
  then Response.json 404 "Document not found"
  else if Js.eqs message "Access denied"
  then Response.json 403 "Access denied"
  else Response.json 500 "Error fetching document".

(** [router.get('/:id')] *)
Definition fetch (userId documentId : ObjectId) : handler :=
  try_catch
    (document <- validateDocumentAccess documentId userId ;;
     now <- World.newDate ;;
     let document := Document.set_lastAccessedAt document now in
     World.saveDocument documentId document ;;;
     ret (Response.mk 200 ""
            (Response.Details documentId document
               (Document.getUserPermission document userId))))
    (fun message => ret (fetchFailure message)).

(** The response of the [catch (error)] of [GET /:id/download]. *)
Definition downloadFailure (message : string) : Response.t :=
  if Js.eqs message "Document not found"
  then Response.json 404 "Document not found"
  else if (Js.eqs message "Access denied"
           || Js.contains message "Blockchain access denied")%bool
  then Response.json 403 "Access denied"
  else Response.mk 500 "Error downloading document"
         (Response.Failure (ServiceConfig.errorDetail env message)).

(** [router.get('/:id/download')] *)
Definition download (userId documentId : ObjectId) : handler :=
  try_catch
    (document <- validateDocumentAccess documentId userId ;;
     blockchainAccess <-
       World.onLedger
         (LedgerHasAccess userId (Document.blockchainDocumentId document))
         (hasAccess userId (Document.blockchainDocumentId document)) ;;
     if (negb blockchainAccess
         && negb (ServiceConfig.isDevelopmentMode env))%bool
     then ret (Response.json 403 "Blockchain access denied")
     else
       let decryptWith :=
         if (Document.isEncrypted document
             && Js.truthy (Document.encryptionKey document))%bool
         then Document.encryptionKey document else None in
       fileBuffer <-
         World.onIpfs (IpfsDownload (Document.ipfsHash document))
           (downloadFile (Document.ipfsHash document) decryptWith) ;;
       now <- World.newDate ;;
       let document :=
         Document.set_lastAccessedAt
           (Document.set_downloadCount document
              (Document.downloadCount document + 1))
           now in
       World.saveDocument documentId document ;;;
       ret (Response.mk 200 ""
              (Response.File (Document.mimeType document)
                 (length fileBuffer) (Document.originalName document)
                 fileBuffer)))
    (fun message => ret (downloadFailure message)).

(** [router.delete('/:id')] *)
Definition delete (userId documentId : ObjectId) : handler :=
  try_catch
    (document <- World.findDocumentById documentId ;;
     match document with
     | None => ret (Response.json 404 "Document not found")
     | Some document =>
       if negb (Document.isActive document)
       then ret (Response.json 404 "Document not found")
       else if negb (Js.eqs (Document.owner document) userId)
       then ret (Response.json 403 "Only document owner can delete")
       else
         try_catch
           (World.onLedger
              (LedgerRemoveDocument (Document.blockchainDocumentId document))
              (contract_removeDocument
                 (Document.blockchainDocumentId document)))
           (fun _ => ret tt) ;;;
         try_catch
           (World.onIpfs (IpfsUnpin (Document.ipfsHash document))
              (unpinFile (Document.ipfsHash document)) ;;;
            ret tt)
           (fun _ => ret tt) ;;;
         World.saveDocument documentId (Document.set_isActive document false) ;;;
         ret (Response.json 200 "Document deleted successfully")
     end)
    (fun _ => ret (Response.json 500 "Error deleting document")).

(** [router.put('/:id')] *)
Definition update (userId documentId : ObjectId)
           (title description : option string) : handler :=
  try_catch
    (match title with
     | None => ret (Response.json 400 "Document title is required")
     | Some title =>
       if (Js.eqs title "" || Nat.eqb (String.length (Js.trim title)) 0)%bool
       then ret (Response.json 400 "Document title is required")
       else if Nat.ltb 100 (String.length title)
       then ret (Response.json 400 "Title cannot exceed 100 characters")
       else
         document <- World.findDocumentById documentId ;;
         match document with
         | None => ret (Response.json 404 "Document not found")
         | Some document =>
           if negb (Document.isActive document)
           then ret (Response.json 404 "Document not found")
           else if negb (Js.eqs (Document.owner document) userId)
           then ret (Response.json 403 "Only document owner can update")
           else
             let document := Document.set_title document (Js.trim title) in
             World.saveDocument documentId document ;;;
             updatedAt <- World.newDate ;;
             let metadata :=
               metadataJson (Js.trim title) (descriptionOrEmpty description)
                 (Document.originalName document)
                 (Document.mimeType document) (Document.size document)
                 "updatedAt" updatedAt in
             ret (Response.mk 200 "Document updated successfully"
                    (Response.Updated documentId document))
         end
     end)
    (fun _ => ret (Response.json 500 "Error updating document")).

End Routes.
End Documents.

(** ** services/blockchain.js without a connection

    Every method of the production service starts with
    [if (!this.isConnected || !this.contract) throw ...]; [isConnected]
    stays false when [initializeProvider] fails, and [contract] stays
    [null].  This is that service object. *)

Module OfflineBlockchainService.

Definition t : Type := unit.

Definition notConnected {A} : Async t A :=
  throw "Blockchain service not connected".

#[global] Instance service : BlockchainService t := {
  addDocument := fun _ _ _ => notConnected;
  grantAccess := fun _ _ _ _ => notConnected;
  revokeAccess := fun _ _ _ => notConnected;
  hasAccess := fun _ _ => notConnected;
  getDocumentAccessors := fun _ _ => notConnected;
  batchGrantAccess := fun _ _ _ => notConnected;
  contract_removeDocument := fun _ =>
    throw "Cannot read properties of null (reading 'removeDocument')"
}.

End OfflineBlockchainService.

(** ** services/ipfs.js without a connection

    [uploadFile], [downloadFile] and [unpinFile] of the production
    service start with
    [if (!this.isConnected || !this.client) throw ...]. *)

Module OfflineIPFSService.

Definition t : Type := unit.

Definition notConnected {A} : Async t A :=
  throw "IPFS client not connected".

#[global] Instance service : IpfsService t := {
  uploadFile := fun _ _ => notConnected;
  downloadFile := fun _ _ => notConnected;
  unpinFile := fun _ => notConnected
}.

End OfflineIPFSService.

(** ** The requests of the two routers *)

Module Api.
Section Dispatch.
Context {L B : Type} `{BlockchainService L} `{IpfsService B}.
Variable env : ServiceConfig.ProcessEnv.

Inductive Request : Type :=
| Upload (user : User.t) (file : option UploadedFile.t)
         (title description : option string) (encrypt : bool)
| Fetch (userId documentId : ObjectId)
| Download (userId documentId : ObjectId)
| Delete (userId documentId : ObjectId)
| Update (userId documentId : ObjectId) (title description : option string)
| Grant (ownerId : ObjectId) (documentId userEmail permissions : option string)
| Revoke (ownerId : ObjectId) (documentId userId : option string)
| SharingInfo (userId documentId : ObjectId)
| BatchGrant (ownerId : ObjectId) (documentId : option string)
             (userEmails : option (list string)) (permissions : option string)
| Access (userId documentId : ObjectId).

Definition handle (r : Request) : Async (World.t L B) Response.t :=
  match r with
  | Upload user file title description encrypt =>
      Documents.upload env user file title description encrypt
  | Fetch userId documentId => Documents.fetch userId documentId
  | Download userId documentId => Documents.download env userId documentId
  | Delete userId documentId => Documents.delete userId documentId
  | Update userId documentId title description =>
      Documents.update userId documentId title description
  | Grant ownerId documentId userEmail permissions =>
      Sharing.grant env ownerId documentId userEmail permissions
  | Revoke ownerId documentId userId =>
      Sharing.revoke env ownerId documentId userId
  | SharingInfo userId documentId => Sharing.sharingInfo userId documentId
  | BatchGrant ownerId documentId userEmails permissions =>
      Sharing.batchGrant env ownerId documentId userEmails permissions
  | Access userId documentId => Sharing.access userId documentId
  end.

(** The world after a sequence of requests, served one after another. *)
Definition serve (requests : list Request) (w : World.t L B) : World.t L B :=
  fold_left (fun w r => snd (handle r w)) requests w.

End Dispatch.
End Api.

(** ** Stand-ins for the worked examples

    The examples below run the handlers on concrete worlds.  They need
    some [NodeCrypto]; this one is a stand-in with the shape of the
    interface (a 16-byte tag that is checked on opening), not a cipher. *)

Module Fixture.

Definition tagOf (key : list byte) : list byte :=
  take 16 (key ++ repeat Byte.x00 16).

Definition crypto : NodeCrypto := {|
  sha256 := fun data => data;
  gcmSeal := fun key aad data => (rev data, tagOf key);
  gcmOpen := fun key aad tag sealed =>
    if bool_decide (tag = tagOf key) then Some (rev sealed) else None;
  toBase64 := string_of_list_byte;
  fromBase64 := list_byte_of_string
|}.

(** Readings 0, 1, 2, ... *)
Definition readings : Ambient.t := Ambient.mk N.of_nat 0.

Definition production : ServiceConfig.ProcessEnv :=
  ServiceConfig.mk (Some "https://rpc.example") (Some "0xkey")
                   (Some "project") (Some "secret") (Some "production").

Definition development : ServiceConfig.ProcessEnv :=
  ServiceConfig.mk None None None None (Some "development").

(** The ledger is configured, the blob store is not: the production
    ledger adapter runs in development mode. *)
Definition ledgerOnly : ServiceConfig.ProcessEnv :=
  ServiceConfig.mk (Some "https://rpc.example") (Some "0xkey")
                   None None (Some "development").

Definition alice : User.t :=
  User.mk "a1" "Alice" "alice@example.com" None true.
Definition bob : User.t :=
  User.mk "b2" "Bob" "bob@example.com" None true.
Definition carol : User.t :=
  User.mk "c3" "Carol" "carol@example.com" None true.

(** Alice's report, shared with nobody. *)
Definition report : Document.t :=
  Document.mk "Report" "report.pdf" "application/pdf" 3 "Qmabc" "0xd0c"
              "a1" false None [] 0 0 true.

(** The same, shared with Bob for reading. *)
Definition sharedReport : Document.t :=
  Document.set_sharedWith report [Share.mk "b2" 7 "read"].

(** The same, soft-deleted. *)
Definition deletedReport : Document.t := Document.set_isActive report false.

Definition devIpfs : DevIPFSService.t :=
  DevIPFSService.mk true ∅ readings.

Definition devLedger : DevBlockchainService.t :=
  @DevBlockchainService.constructor readings.

(** A world over the offline production ledger. *)
Definition offlineWorld (docs : gmap ObjectId Document.t)
  : World.t OfflineBlockchainService.t DevIPFSService.t :=
  World.mk docs [alice; bob; carol] tt devIpfs readings [].

(** A world over the two production adapters, both out of reach. *)
Definition productionWorld (docs : gmap ObjectId Document.t)
  : World.t OfflineBlockchainService.t OfflineIPFSService.t :=
  World.mk docs [alice; bob; carol] tt tt readings [].

(** A world over the two development adapters. *)
Definition devWorld (docs : gmap ObjectId Document.t)
  : World.t DevBlockchainService.t DevIPFSService.t :=
  World.mk docs [alice; bob; carol] devLedger devIpfs readings [].

End Fixture.

(** ** Situations the statements below refer to *)

Module Situation.
Section Situations.
Context {L B : Type}.
Implicit Type w : World.t L B.

(** [d] is stored under [documentId], is active and belongs to
    [ownerId]: [validateDocumentOwnership] lets the request through. *)
Definition owns w (ownerId documentId : ObjectId) (d : Document.t) : Prop :=
  World.documents w !! documentId = Some d
  /\ Document.isActive d = true
  /\ Document.owner d = ownerId.

(** The e-mail of a grant resolves to the active user [target], who is
    not the owner. *)
Definition resolves w (ownerId : ObjectId) (userEmail : string)
           (target : User.t) : Prop :=
  find (fun u => (Js.eqs (User.email u) (Js.trim (Js.toLowerCase userEmail))
                  && User.isActive u)%bool)
       (World.users w) = Some target
  /\ User._id target <> ownerId.

(** The fields of a grant request are present and well-formed. *)
Definition wellFormed (documentId userEmail : string)
           (permissions : option string) : Prop :=
  documentId <> "" /\ userEmail <> ""
  /\ Sharing.validPermissions (Sharing.orRead permissions) = true.

(** [d] has no shared-with entry for [userId]. *)
Definition notSharedWith (d : Document.t) (userId : ObjectId) : Prop :=
  find (Document.isShareOf userId) (Document.sharedWith d) = None.

End Situations.
End Situation.

(** ** Situations of an upload *)

Module UploadSituation.

(** The title passes the two checks of [POST /upload]. *)
Definition validTitle (title : string) : Prop :=
  title <> "" /\ String.length (Js.trim title) <> 0%nat
  /\ (String.length title <= 100)%nat.

(** The metadata string of an upload stamped [uploadedAt]. *)
Definition metadataOf (file : UploadedFile.t) (title : string)
           (description : option string) (uploadedAt : Date) : string :=
  Documents.metadataJson (Js.trim title)
    (Documents.descriptionOrEmpty description)
    (UploadedFile.originalname file) (UploadedFile.mimetype file)
    (UploadedFile.size file) "uploadedAt" uploadedAt.

(** The Document an upload builds from the two adapter results. *)
Definition documentOf (userId : ObjectId) (file : UploadedFile.t)
           (title : string) (ipfsResult : Upload.t)
           (blockchainResult : AddTx.t) (lastAccessedAt : Date)
  : Document.t :=
  Document.construct
    (Document.mk (Js.trim title) (UploadedFile.originalname file)
       (UploadedFile.mimetype file) (UploadedFile.size file)
       (Upload.ipfsHash ipfsResult) (AddTx.documentId blockchainResult)
       userId (Js.truthy (Upload.encryptionKey ipfsResult))
       (if Js.truthy (Upload.encryptionKey ipfsResult)
        then Upload.encryptionKey ipfsResult else None)
       [] 0 lastAccessedAt true).

End UploadSituation.

(** The development process after a restart: the blob is still on disk,
    the simulated ledger has lost every grant. *)

Module AfterRestart.

Definition ipfs : DevIPFSService.t :=
  DevIPFSService.mk true {[ "Qmabc" := [Byte.x61] ]} Fixture.readings.

Definition world : World.t DevBlockchainService.t DevIPFSService.t :=
  World.mk {[ "d1" := Fixture.report ]}
           [Fixture.alice; Fixture.bob; Fixture.carol]
           Fixture.devLedger ipfs Fixture.readings [].

(** The same collections and blobs, over the unreachable production
    ledger (only the ledger is configured). *)
Definition offline : World.t OfflineBlockchainService.t DevIPFSService.t :=
  World.mk {[ "d1" := Fixture.report ]}
           [Fixture.alice; Fixture.bob; Fixture.carol]
           tt ipfs Fixture.readings [].

End AfterRestart.

(** ** The listing queries

    [GET /documents/mine], [GET /documents/shared-with-me] and
    [GET /sharing/my-shares] only read: each runs [Document.find] and
    [Document.countDocuments] with one filter and saves nothing.  These
    are the filters; sorting and paging pick among the documents a filter
    selects. *)

Module Listing.
Section Filters.

(** [{ $regex: pattern, $options: 'i' }] applied to a field. *)
Variable regex : string -> string -> bool.

(** [search && search.trim().length > 0] *)
Definition searching (search : option string) : option string :=
  match search with
  | None => None
  | Some text =>
      if (Js.truthy search
          && Nat.ltb 0 (String.length (Js.trim text)))%bool
      then Some (Js.trim text)
      else None
  end.

(** [query.$or] *)
Definition searched (search : option string) (d : Document.t) : bool :=
  match searching search with
  | None => true
  | Some pattern =>
      (regex pattern (Document.title d)
       || regex pattern (Document.originalName d))%bool
  end.

(** [{ owner: userId, isActive: true }] *)
Definition mine (userId : ObjectId) (search : option string)
           (d : Document.t) : bool :=
  (Js.eqs (Document.owner d) userId && Document.isActive d
   && searched search d)%bool.

(** [{ 'sharedWith.user': userId, isActive: true }] *)
Definition sharedWithMe (userId : ObjectId) (search : option string)
           (d : Document.t) : bool :=
  (existsb (fun share => Js.eqs (Share.user share) userId)
     (Document.sharedWith d)
   && Document.isActive d && searched search d)%bool.

(** [{ owner: userId, isActive: true, 'sharedWith.0': { $exists: true } }] *)
Definition myShares (userId : ObjectId) (d : Document.t) : bool :=
  (Js.eqs (Document.owner d) userId && Document.isActive d
   && match Document.sharedWith d with [] => false | _ :: _ => true end)%bool.

(** The documents a filter selects. *)
Definition find (filter : Document.t -> bool)
           (docs : gmap ObjectId Document.t) : gmap ObjectId Document.t :=
  base.filter (fun entry => filter (snd entry) = true) docs.

End Filters.
End Listing.

(** ** contracts/DocumentSharing.sol

    The contract [DocumentSharing is Ownable, ReentrancyGuard, Pausable].
    (The ledger adapter of services/blockchain.js and the deployment
    scripts name another contract, [SimpleDocumentSharing], which is
    not modelled; nothing below is about it.)  A call runs in
    the monad of the handlers; [transaction] gives it the semantics of a
    message call: a [require] that fails reverts every write the call
    made.  Gas is not modelled.  The three bases are those of
    OpenZeppelin 4 (imported from [access/] and [security/]): the
    [paused] flag of [Pausable] with [_pause] and [_unpause], the owner
    of [Ownable] with the two external functions the contract inherits
    from it, [transferOwnership] and [renounceOwnership];
    [nonReentrant] never trips, since no function calls out.  The log
    holds the events of the contract and of its bases.  The modifier
    [hasAccess] shares its name with the view function [hasAccess]; the
    modifier is [senderHasAccess] here. *)

Module DocumentSharing.

Definition address : Type := N.
Definition bytes32 : Type := N.

(** [msg.sender] and [block.timestamp] of a call. *)
Record Msg : Type := mkMsg {
  sender : address;
  timestamp : N
}.

Record Document : Type := mkDocument {
  ipfsHash : string;
  owner : address;
  createdAt : N;
  exists_ : bool;
  metadata : string
}.

Inductive Event : Type :=
| DocumentAdded (documentId : bytes32) (owner : address)
                (ipfsHash metadata : string)
| AccessGranted (documentId : bytes32) (owner user : address)
| AccessRevoked (documentId : bytes32) (owner user : address)
| DocumentRemoved (documentId : bytes32) (owner : address)
| DocumentUpdated (documentId : bytes32) (owner : address)
                  (newIpfsHash newMetadata : string)
| OwnershipTransferred (previousOwner newOwner : address)
| Paused (account : address)
| Unpaused (account : address).

(** The storage of the contract.  A mapping holds a value for every
    key; the keys that were never written are the ones absent here. *)
Record t : Type := mk {
  documents : gmap bytes32 Document;
  accessList : gmap (bytes32 * address) bool;
  documentAccessors : gmap bytes32 (list address);
  userDocuments : gmap address (list bytes32);
  userAccessibleDocuments : gmap address (list bytes32);
  contractOwner : address;
  paused : bool;
  events : list Event
}.

(** *** Reading the mappings: an unwritten key reads as zero *)

Definition zeroDocument : Document := mkDocument "" 0%N 0%N false "".

Definition document (s : t) (documentId : bytes32) : Document :=
  default zeroDocument (documents s !! documentId).

Definition allowed (s : t) (documentId : bytes32) (user : address) : bool :=
  default false (accessList s !! (documentId, user)).

Definition accessorsOf (s : t) (documentId : bytes32) : list address :=
  default [] (documentAccessors s !! documentId).

Definition ownedBy (s : t) (user : address) : list bytes32 :=
  default [] (userDocuments s !! user).

Definition accessibleTo (s : t) (user : address) : list bytes32 :=
  default [] (userAccessibleDocuments s !! user).

(** *** Writing them *)

Definition set_document (documentId : bytes32) (d : Document) : Async t unit :=
  modify (fun s =>
            mk (<[documentId := d]> (documents s)) (accessList s)
               (documentAccessors s) (userDocuments s)
               (userAccessibleDocuments s) (contractOwner s) (paused s)
               (events s)).

Definition set_allowed (documentId : bytes32) (user : address) (b : bool)
  : Async t unit :=
  modify (fun s =>
            mk (documents s) (<[(documentId, user) := b]> (accessList s))
               (documentAccessors s) (userDocuments s)
               (userAccessibleDocuments s) (contractOwner s) (paused s)
               (events s)).

Definition set_accessors (documentId : bytes32) (l : list address)
  : Async t unit :=
  modify (fun s =>
            mk (documents s) (accessList s)
               (<[documentId := l]> (documentAccessors s)) (userDocuments s)
               (userAccessibleDocuments s) (contractOwner s) (paused s)
               (events s)).

(** [delete documentAccessors[documentId]] *)
Definition delete_accessors (documentId : bytes32) : Async t unit :=
  modify (fun s =>
            mk (documents s) (accessList s)
               (delete documentId (documentAccessors s)) (userDocuments s)
               (userAccessibleDocuments s) (contractOwner s) (paused s)
               (events s)).

Definition set_owned (user : address) (l : list bytes32) : Async t unit :=
  modify (fun s =>
            mk (documents s) (accessList s) (documentAccessors s)
               (<[user := l]> (userDocuments s))
               (userAccessibleDocuments s) (contractOwner s) (paused s)
               (events s)).

Definition set_accessible (user : address) (l : list bytes32)
  : Async t unit :=
  modify (fun s =>
            mk (documents s) (accessList s) (documentAccessors s)
               (userDocuments s)
               (<[user := l]> (userAccessibleDocuments s))
               (contractOwner s) (paused s) (events s)).

Definition set_paused (b : bool) : Async t unit :=
  modify (fun s =>
            mk (documents s) (accessList s) (documentAccessors s)
               (userDocuments s) (userAccessibleDocuments s)
               (contractOwner s) b (events s)).

Definition set_contractOwner (newOwner : address) : Async t unit :=
  modify (fun s =>
            mk (documents s) (accessList s) (documentAccessors s)
               (userDocuments s) (userAccessibleDocuments s)
               newOwner (paused s) (events s)).

Definition emit (e : Event) : Async t unit :=
  modify (fun s =>
            mk (documents s) (accessList s) (documentAccessors s)
               (userDocuments s) (userAccessibleDocuments s)
               (contractOwner s) (paused s) (events s ++ [e])).

(** *** Calls *)

Definition require (condition : bool) (message : string) : Async t unit :=
  if condition then ret tt else throw message.

(** A message call: when it reverts, storage and log are as before. *)
Definition transaction {A} (call : Async t A) : Async t A :=
  fun s =>
    match call s with
    | (Returned a, s') => (Returned a, s')
    | (Thrown message, _) => (Thrown message, s)
    end.

(** *** Modifiers *)

(** [whenNotPaused] of Pausable. *)
Definition whenNotPaused : Async t unit :=
  s <- get ;; require (negb (paused s)) "Pausable: paused".

(** [onlyOwner] of Ownable. *)
Definition onlyOwner (msg : Msg) : Async t unit :=
  s <- get ;;
  require (N.eqb (contractOwner s) (sender msg))
          "Ownable: caller is not the owner".

Definition documentExists (documentId : bytes32) : Async t unit :=
  s <- get ;;
  require (exists_ (document s documentId)) "Document does not exist".

Definition onlyDocumentOwner (msg : Msg) (documentId : bytes32)
  : Async t unit :=
  s <- get ;;
  require (N.eqb (owner (document s documentId)) (sender msg))
          "Only document owner can perform this action".

(** The modifier [hasAccess]. *)
Definition senderHasAccess (msg : Msg) (documentId : bytes32)
  : Async t unit :=
  s <- get ;;
  require (N.eqb (owner (document s documentId)) (sender msg)
           || allowed s documentId (sender msg))
          "Access denied".

(** *** Internal helpers *)

(** The loop of [_removeFromArray] with [n] iterations left, at index
    [i]: at the first entry equal to [element] the last entry is
    written over it, the array is popped, and the loop is left. *)
Fixpoint removeLoop (n i : nat) (array : list N) (element : N) : list N :=
  match n with
  | O => array
  | S n' =>
      if N.eqb (nth i array 0%N) element
      then List.removelast (<[i := List.last array 0%N]> array)
      else removeLoop n' (S i) array element
  end.

Definition _removeFromArray (array : list address) (element : address)
  : list address :=
  removeLoop (length array) 0 array element.

Definition _removeDocumentFromUserArray (array : list bytes32)
           (documentId : bytes32) : list bytes32 :=
  removeLoop (length array) 0 array documentId.

(** *** External functions *)

Definition addDocument (msg : Msg) (documentId : bytes32)
           (ipfsHash metadata : string) : Async t unit :=
  transaction
    (whenNotPaused ;;;
     s <- get ;;
     require (negb (exists_ (document s documentId)))
             "Document already exists" ;;;
     require (Nat.ltb 0 (String.length ipfsHash))
             "IPFS hash cannot be empty" ;;;
     set_document documentId
       (mkDocument ipfsHash (sender msg) (timestamp msg) true metadata) ;;;
     s <- get ;;
     set_owned (sender msg) (ownedBy s (sender msg) ++ [documentId]) ;;;
     emit (DocumentAdded documentId (sender msg) ipfsHash metadata)).

Definition grantAccess (msg : Msg) (documentId : bytes32) (user : address)
  : Async t unit :=
  transaction
    (whenNotPaused ;;;
     documentExists documentId ;;;
     onlyDocumentOwner msg documentId ;;;
     require (negb (N.eqb user 0)) "Invalid user address" ;;;
     require (negb (N.eqb user (sender msg)))
             "Cannot grant access to yourself" ;;;
     s <- get ;;
     require (negb (allowed s documentId user)) "User already has access" ;;;
     set_allowed documentId user true ;;;
     set_accessors documentId (accessorsOf s documentId ++ [user]) ;;;
     set_accessible user (accessibleTo s user ++ [documentId]) ;;;
     emit (AccessGranted documentId (sender msg) user)).

Definition revokeAccess (msg : Msg) (documentId : bytes32) (user : address)
  : Async t unit :=
  transaction
    (whenNotPaused ;;;
     documentExists documentId ;;;
     onlyDocumentOwner msg documentId ;;;
     require (negb (N.eqb user 0)) "Invalid user address" ;;;
     s <- get ;;
     require (allowed s documentId user) "User does not have access" ;;;
     set_allowed documentId user false ;;;
     set_accessors documentId
       (_removeFromArray (accessorsOf s documentId) user) ;;;
     set_accessible user
       (_removeDocumentFromUserArray (accessibleTo s user) documentId) ;;;
     emit (AccessRevoked documentId (sender msg) user)).

(** [hasAccess(documentId, user)], a view. *)
Definition hasAccess (documentId : bytes32) (user : address) : Async t bool :=
  transaction
    (documentExists documentId ;;;
     s <- get ;;
     ret (N.eqb (owner (document s documentId)) user
          || allowed s documentId user)).

(** [getDocument(documentId)], a view: hash, owner, creation time and
    metadata. *)
Definition getDocument (msg : Msg) (documentId : bytes32)
  : Async t (string * address * N * string) :=
  transaction
    (documentExists documentId ;;;
     senderHasAccess msg documentId ;;;
     s <- get ;;
     let doc := document s documentId in
     ret (ipfsHash doc, owner doc, createdAt doc, metadata doc)).

Definition getDocumentAccessors (msg : Msg) (documentId : bytes32)
  : Async t (list address) :=
  transaction
    (documentExists documentId ;;;
     onlyDocumentOwner msg documentId ;;;
     s <- get ;;
     ret (accessorsOf s documentId)).

Definition getUserDocuments (user : address) : Async t (list bytes32) :=
  s <- get ;; ret (ownedBy s user).

Definition getUserAccessibleDocuments (user : address)
  : Async t (list bytes32) :=
  s <- get ;; ret (accessibleTo s user).

Definition updateDocument (msg : Msg) (documentId : bytes32)
           (newIpfsHash newMetadata : string) : Async t unit :=
  transaction
    (whenNotPaused ;;;
     documentExists documentId ;;;
     onlyDocumentOwner msg documentId ;;;
     require (Nat.ltb 0 (String.length newIpfsHash))
             "IPFS hash cannot be empty" ;;;
     s <- get ;;
     let doc := document s documentId in
     set_document documentId
       (mkDocument newIpfsHash (owner doc) (createdAt doc) (exists_ doc)
                   newMetadata) ;;;
     emit (DocumentUpdated documentId (sender msg) newIpfsHash newMetadata)).

(** The loop of [removeDocument] over the copied accessor array. *)
Fixpoint revokeEach (documentId : bytes32) (accessors : list address)
  : Async t unit :=
  match accessors with
  | [] => ret tt
  | user :: rest =>
      set_allowed documentId user false ;;;
      s <- get ;;
      set_accessible user
        (_removeDocumentFromUserArray (accessibleTo s user) documentId) ;;;
      revokeEach documentId rest
  end.

Definition removeDocument (msg : Msg) (documentId : bytes32) : Async t unit :=
  transaction
    (whenNotPaused ;;;
     documentExists documentId ;;;
     onlyDocumentOwner msg documentId ;;;
     s <- get ;;
     revokeEach documentId (accessorsOf s documentId) ;;;
     s <- get ;;
     set_owned (sender msg)
       (_removeDocumentFromUserArray (ownedBy s (sender msg)) documentId) ;;;
     delete_accessors documentId ;;;
     s <- get ;;
     let doc := document s documentId in
     set_document documentId
       (mkDocument (ipfsHash doc) (owner doc) (createdAt doc) false
                   (metadata doc)) ;;;
     emit (DocumentRemoved documentId (sender msg))).

(** The loop of [batchGrantAccess]. *)
Fixpoint grantEach (msg : Msg) (documentId : bytes32) (users : list address)
  : Async t unit :=
  match users with
  | [] => ret tt
  | user :: rest =>
      require (negb (N.eqb user 0)) "Invalid user address" ;;;
      require (negb (N.eqb user (sender msg)))
              "Cannot grant access to yourself" ;;;
      s <- get ;;
      (if negb (allowed s documentId user)
       then
         set_allowed documentId user true ;;;
         set_accessors documentId (accessorsOf s documentId ++ [user]) ;;;
         set_accessible user (accessibleTo s user ++ [documentId]) ;;;
         emit (AccessGranted documentId (sender msg) user)
       else ret tt) ;;;
      grantEach msg documentId rest
  end.

Definition batchGrantAccess (msg : Msg) (documentId : bytes32)
           (users : list address) : Async t unit :=
  transaction
    (whenNotPaused ;;;
     documentExists documentId ;;;
     onlyDocumentOwner msg documentId ;;;
     require (Nat.ltb 0 (length users)) "Users array cannot be empty" ;;;
     require (Nat.leb (length users) 50) "Too many users in batch" ;;;
     grantEach msg documentId users).

(** [pause()] and [unpause()]: [_pause] runs under [whenNotPaused],
    [_unpause] under [whenPaused]. *)
Definition pause (msg : Msg) : Async t unit :=
  transaction
    (onlyOwner msg ;;;
     whenNotPaused ;;;
     set_paused true ;;;
     emit (Paused (sender msg))).

Definition unpause (msg : Msg) : Async t unit :=
  transaction
    (onlyOwner msg ;;;
     s <- get ;;
     require (paused s) "Pausable: not paused" ;;;
     set_paused false ;;;
     emit (Unpaused (sender msg))).

(** *** Inherited from Ownable

    [transferOwnership(newOwner)] and [renounceOwnership()] are
    external functions of the contract as well; they run under
    [onlyOwner] and under no [whenNotPaused]. *)

Definition _transferOwnership (newOwner : address) : Async t unit :=
  s <- get ;;
  set_contractOwner newOwner ;;;
  emit (OwnershipTransferred (contractOwner s) newOwner).

Definition transferOwnership (msg : Msg) (newOwner : address)
  : Async t unit :=
  transaction
    (onlyOwner msg ;;;
     require (negb (N.eqb newOwner 0%N))
             "Ownable: new owner is the zero address" ;;;
     _transferOwnership newOwner).

Definition renounceOwnership (msg : Msg) : Async t unit :=
  transaction
    (onlyOwner msg ;;;
     _transferOwnership 0%N).

(** The storage after deployment by [deployer]: the constructor of
    [Ownable] makes the deployer the owner. *)
Definition constructor (deployer : address) : t :=
  mk ∅ ∅ ∅ ∅ ∅ deployer false [OwnershipTransferred 0%N deployer].

(** *** Sequences of transactions *)

Inductive Call : Type :=
| AddDocument (documentId : bytes32) (ipfsHash metadata : string)
| GrantAccess (documentId : bytes32) (user : address)
| RevokeAccess (documentId : bytes32) (user : address)
| UpdateDocument (documentId : bytes32) (newIpfsHash newMetadata : string)
| RemoveDocument (documentId : bytes32)
| BatchGrantAccess (documentId : bytes32) (users : list address)
| Pause
| Unpause
| TransferOwnership (newOwner : address)
| RenounceOwnership.


Definition execute (msg : Msg) (call : Call) : Async t unit :=
  match call with
  | AddDocument documentId ipfsHash metadata =>
      addDocument msg documentId ipfsHash metadata
  | GrantAccess documentId user => grantAccess msg documentId user
  | RevokeAccess documentId user => revokeAccess msg documentId user
  | UpdateDocument documentId newIpfsHash newMetadata =>
      updateDocument msg documentId newIpfsHash newMetadata
  | RemoveDocument documentId => removeDocument msg documentId
  | BatchGrantAccess documentId users =>
      batchGrantAccess msg documentId users
  | Pause => pause msg
  | Unpause => unpause msg
  | TransferOwnership newOwner => transferOwnership msg newOwner
  | RenounceOwnership => renounceOwnership msg
  end.

(** The storage after the transactions of [txs], in order. *)
Definition run (txs : list (Msg * Call)) (s : t) : t :=
  fold_left (fun s tx => snd (execute (fst tx) (snd tx) s)) txs s.

(** What the three arrays of a document and of a user hold, against
    the mappings: the accessor array of a document lists, once each,
    the addresses whose flag in [accessList] is set; it is empty for a
    document that does not exist and never holds the document's owner
    or the zero address; a user's two arrays list, once each, the
    existing documents the user owns and the documents the user was
    granted. *)
Definition consistent (s : t) : Prop :=
  (forall documentId,
      NoDup (accessorsOf s documentId)
      /\ (forall user,
            allowed s documentId user = true
            <-> (user ∈ accessorsOf s documentId))
      /\ (exists_ (document s documentId) = false ->
          accessorsOf s documentId = [])
      /\ (owner (document s documentId) ∉ accessorsOf s documentId)
      /\ (0%N ∉ accessorsOf s documentId))
  /\ (forall user,
        NoDup (ownedBy s user)
        /\ NoDup (accessibleTo s user)
        /\ (forall documentId,
              (documentId ∈ ownedBy s user)
              <-> exists_ (document s documentId) = true
                  /\ owner (document s documentId) = user)
        /\ (forall documentId,
              (documentId ∈ accessibleTo s user)
              <-> allowed s documentId user = true)).

End DocumentSharing.

(** ** services/ipfs-dev.js: the remaining methods *)

Module DevIPFS.
Section WithCrypto.
Context `{NodeCrypto}.

(** [verifyUpload(ipfsHash)]: whether the file is there. *)
Definition verifyUpload (ipfsHash : string) : Async DevIPFSService.t bool :=
  this <- get ;;
  ret (bool_decide (is_Some (DevIPFSService.storage this !! ipfsHash))).

(** [pinFile(ipfsHash)] *)
Definition pinFile (ipfsHash : string) : Async DevIPFSService.t bool :=
  ret true.

End WithCrypto.
End DevIPFS.

(** ** services/blockchain-dev.js: the maps of the simulated ledger *)

Module Ledger.
Section WithCrypto.
Context `{NodeCrypto}.

(** The address [getUserWallet] derives for a user id. *)
Definition addressOf (userId : string) : string :=
  Wallet.address (DevBlockchainService.derivedWallet userId).

(** The key a grant to the user is held under. *)
Definition grantKey (documentId userId : string) : string :=
  DevBlockchainService.permissionKey documentId (addressOf userId).

(** [permissions] after the loop of [batchGrantAccess]. *)
Definition grantAll (documentId : string) (targetUserIds : list string)
           (m : JsMap.t bool) : JsMap.t bool :=
  fold_left (fun m userId => JsMap.set (grantKey documentId userId) true m)
            targetUserIds m.

(** The service object after [calls] on a new one. *)
Definition after (readings : Ambient.t)
           (calls : list DevBlockchainService.Op) : DevBlockchainService.t :=
  DevBlockchainService.performAll calls
    (DevBlockchainService.constructor readings).

(** What the entry checks of a method leave: the wallets it asked for
    are cached, nothing else has changed. *)
Definition cached (this this1 : DevBlockchainService.t) : Prop :=
  DevBlockchainService.settled this1
  /\ DevBlockchainService.permissions this1
     = DevBlockchainService.permissions this
  /\ DevBlockchainService.documents this1
     = DevBlockchainService.documents this
  /\ DevBlockchainService.ambient this1
     = DevBlockchainService.ambient this.

End WithCrypto.

(** No [':'] in the text. *)
Fixpoint colonFree (s : string) : bool :=
  match s with
  | EmptyString => true
  | String c rest => (negb (Ascii.eqb c ":") && colonFree rest)%bool
  end.

(** A [Map] holds a key once, and the ledger only ever stores [true]. *)
Definition wellKept (m : JsMap.t bool) : Prop :=
  List.NoDup (map fst m) /\ Forall (fun entry => snd entry = true) m.

End Ledger.

(** ** services/ipfs.js: the check of an address *)

Module IPFSAddress.

Definition between (low high : nat) (c : ascii) : bool :=
  (Nat.leb low (nat_of_ascii c) && Nat.leb (nat_of_ascii c) high)%bool.

(** [[1-9A-HJ-NP-Za-km-z]] *)
Definition isBase58 (c : ascii) : bool :=
  (between 49 57 c || between 65 72 c || between 74 78 c
   || between 80 90 c || between 97 107 c || between 109 122 c)%bool.

(** [[a-z2-7]] *)
Definition isBase32 (c : ascii) : bool :=
  (between 97 122 c || between 50 55 c)%bool.

(** [/^Qm[1-9A-HJ-NP-Za-km-z]{44}$/.test(hash)] *)
Definition cidv0 (hash : string) : bool :=
  match hash with
  | String "Q" (String "m" rest) =>
      (Nat.eqb (String.length rest) 44
       && forallb isBase58 (list_ascii_of_string rest))%bool
  | _ => false
  end.

(** The alternatives of the second pattern, in the order they are
    written. *)
Definition cidv1Prefixes : list string :=
  ["baf"; "baa"; "bab"; "bac"; "bad"; "bae"; "baf"; "bag"; "bah"; "bai";
   "baj"; "bak"; "bal"; "bam"; "ban"; "bao"; "bap"; "baq"; "bar"; "bas";
   "bat"; "bau"; "bav"; "baw"; "bax"; "bay"; "baz"].

(** How many characters at the head of the text are in the class. *)
Fixpoint leading (class : ascii -> bool) (s : string) : nat :=
  match s with
  | EmptyString => 0
  | String c rest => if class c then S (leading class rest) else 0
  end.

(** [/^(baf|baa|...|baz)[a-z2-7]{48,}/.test(hash)]: the pattern has no
    [$]. *)
Definition cidv1 (hash : string) : bool :=
  match hash with
  | String a (String b (String c rest)) =>
      (Js.includes cidv1Prefixes (String a (String b (String c EmptyString)))
       && Nat.leb 48 (leading isBase32 rest))%bool
  | _ => false
  end.

(** [isValidIPFSHash(hash)] *)
Definition isValidIPFSHash (hash : string) : bool :=
  (cidv0 hash || cidv1 hash)%bool.

End IPFSAddress.

(** ** What a request may do to a stored document *)

Module Kept.

(** What no request changes in a stored document: the file it stands
    for, where the file and its ledger entry are, whose it is, and the
    key.  The download count does not go down and a deleted document is
    not restored. *)
Definition sameIdentity (d d' : Document.t) : Prop :=
  Document.originalName d' = Document.originalName d
  /\ Document.mimeType d' = Document.mimeType d
  /\ Document.size d' = Document.size d
  /\ Document.ipfsHash d' = Document.ipfsHash d
  /\ Document.blockchainDocumentId d' = Document.blockchainDocumentId d
  /\ Document.owner d' = Document.owner d
  /\ Document.isEncrypted d' = Document.isEncrypted d
  /\ Document.encryptionKey d' = Document.encryptionKey d
  /\ (Document.downloadCount d <= Document.downloadCount d')%nat
  /\ (Document.isActive d' = true -> Document.isActive d = true).

(** The users of a shared-with list. *)
Definition usersOf (l : list Share.t) : list ObjectId := map Share.user l.

(** The shared-with list names nobody twice, and not the owner. *)
Definition wellShared (d : Document.t) : Prop :=
  ~ In (Document.owner d) (usersOf (Document.sharedWith d))
  /\ List.NoDup (usersOf (Document.sharedWith d)).

(** From [l] to [l'] users were only added, each once, none of them the
    owner or a user already there. *)
Definition extends (owner : ObjectId) (l l' : list Share.t) : Prop :=
  exists added,
    usersOf l' = (usersOf l ++ added)%list
    /\ List.NoDup added
    /\ forall u, In u added -> u <> owner /\ ~ In u (usersOf l).

(** The ways a request made by [u] changes a stored document. *)
Inductive change (u : ObjectId) (d : Document.t) : Document.t -> Prop :=
| unchanged : change u d d
| read (now : Date) :
    Document.hasAccess d u = true -> Document.isActive d = true ->
    change u d (Document.set_lastAccessedAt d now)
| downloaded (now : Date) :
    Document.hasAccess d u = true -> Document.isActive d = true ->
    change u d
      (Document.set_lastAccessedAt
         (Document.set_downloadCount d (Document.downloadCount d + 1)) now)
| deleted :
    Document.owner d = u -> Document.isActive d = true ->
    change u d (Document.set_isActive d false)
| retitled (title : string) :
    Document.owner d = u -> Document.isActive d = true ->
    change u d (Document.set_title d title)
| shared (l' : list Share.t) :
    Document.owner d = u -> Document.isActive d = true ->
    extends (Document.owner d) (Document.sharedWith d) l' ->
    change u d (Document.set_sharedWith d l')
| unshared (target : ObjectId) :
    Document.owner d = u -> Document.isActive d = true ->
    change u d
      (Document.set_sharedWith d
         (List.filter (fun share => negb (Document.isShareOf target share))
                      (Document.sharedWith d))).

(** A document as [POST /upload] stores it for [u]. *)
Definition created (u : ObjectId) (d : Document.t) : Prop :=
  Document.owner d = u
  /\ Document.sharedWith d = []
  /\ Document.downloadCount d = 0%nat
  /\ Document.isActive d = true.

(** Who makes the request: [req.user._id]. *)
Definition requester (r : Api.Request) : ObjectId :=
  match r with
  | Api.Upload user _ _ _ _ => User._id user
  | Api.Fetch userId _ => userId
  | Api.Download userId _ => userId
  | Api.Delete userId _ => userId
  | Api.Update userId _ _ _ => userId
  | Api.Grant ownerId _ _ _ => ownerId
  | Api.Revoke ownerId _ _ => ownerId
  | Api.SharingInfo userId _ => userId
  | Api.BatchGrant ownerId _ _ _ => ownerId
  | Api.Access userId _ => userId
  end.

End Kept.

(** * Properties *)

Local Open Scope list_scope.

(** ** The monad *)

Lemma bind_returned {S A B} (c : Async S A) (k : A -> Async S B) s a s' :
  c s = (Returned a, s') -> bind c k s = k a s'.
Proof. intros E. unfold bind. now rewrite E. Qed.

Lemma bind_thrown {S A B} (c : Async S A) (k : A -> Async S B) s e s' :
  c s = (Thrown e, s') -> bind c k s = (Thrown e, s').
Proof. intros E. unfold bind. now rewrite E. Qed.

Lemma try_returned {S A} (c : Async S A) h s a s' :
  c s = (Returned a, s') -> try_catch c h s = (Returned a, s').
Proof. intros E. unfold try_catch. now rewrite E. Qed.

Lemma try_thrown {S A} (c : Async S A) h s e s' :
  c s = (Thrown e, s') -> try_catch c h s = h e s'.
Proof. intros E. unfold try_catch. now rewrite E. Qed.

(** Unfolds the monad's operations where they are applied to a state. *)
Ltac run :=
  repeat (unfold bind, ret, throw, get, modify, try_catch; cbn beta iota).

(** ** Strings *)

Lemma eqs_true a b : Js.eqs a b = true <-> a = b.
Proof. unfold Js.eqs. apply bool_decide_eq_true. Qed.

Lemma eqs_false a b : Js.eqs a b = false <-> a <> b.
Proof. unfold Js.eqs. apply bool_decide_eq_false. Qed.

Lemma eqs_refl a : Js.eqs a a = true.
Proof. now apply eqs_true. Qed.

Lemma includes_In xs x : Js.includes xs x = true <-> In x xs.
Proof.
  unfold Js.includes. rewrite existsb_exists. split.
  - intros (y & Hy & E). apply eqs_true in E. now subst.
  - intros Hx. exists x. split; [assumption | apply eqs_refl].
Qed.

(** ** The ambient readings *)

(** The [n] bytes [crypto.randomBytes(n)] returns are the next [n]
    readings, and the readings advance by [n]. *)
Lemma randomBytes_reads n : forall a,
  Ambient.randomBytes n a
  = (Returned (Ambient.upcoming a 0 n),
     Ambient.mk (Ambient.reading a) (Ambient.cursor a + n)).
Proof.
  unfold Ambient.upcoming.
  induction n as [|n IH]; intros [f c]; cbn [Ambient.randomBytes].
  - unfold ret. cbn. now rewrite Nat.add_0_r.
  - unfold bind at 1. unfold Ambient.read at 1.
    unfold bind at 1. rewrite IH. unfold ret. cbn.
    f_equal.
    + f_equal. rewrite !Nat.add_0_r. f_equal.
      rewrite <- seq_shift, map_map. apply map_ext. intros i.
      f_equal. f_equal. lia.
    + f_equal. lia.
Qed.

Lemma upcoming_length a from count :
  length (Ambient.upcoming a from count) = count.
Proof. unfold Ambient.upcoming. now rewrite length_map, length_seq. Qed.

(** ** The cipher framing of the two blob adapters *)

Lemma subarray_head (a b : list byte) :
  subarray 0 (length a) (a ++ b) = a.
Proof.
  unfold subarray. rewrite Nat.sub_0_r, drop_0.
  now rewrite take_app_length.
Qed.

Lemma subarray_middle (a b c : list byte) :
  subarray (length a) (length a + length b) (a ++ b ++ c) = b.
Proof.
  unfold subarray. rewrite drop_app_length.
  replace (length a + length b - length a)%nat with (length b) by lia.
  now rewrite take_app_length.
Qed.

Lemma subarrayFrom_tail (a b c : list byte) :
  subarrayFrom (length a + length b) (a ++ b ++ c) = c.
Proof.
  unfold subarrayFrom. rewrite <- drop_drop, drop_app_length.
  now rewrite drop_app_length.
Qed.

Section CipherRoundTrip.
Context `{NodeCrypto}.

(** What the services rely on from Node's [crypto] and [Buffer]. *)
Hypothesis open_seal : forall key aad data,
  gcmOpen key aad (snd (gcmSeal key aad data)) (fst (gcmSeal key aad data))
  = Some data.
Hypothesis tag_length : forall key aad data,
  length (snd (gcmSeal key aad data)) = 16%nat.
Hypothesis base64_decodes : forall bytes, fromBase64 (toBase64 bytes) = bytes.

Lemma dev_encryptBuffer_eq buffer a :
  DevIPFSService.encryptBuffer buffer a
  = (Returned (sealedWith buffer a),
     Ambient.mk (Ambient.reading a) (Ambient.cursor a + 48)).
Proof.
  unfold DevIPFSService.encryptBuffer.
  erewrite bind_returned by apply randomBytes_reads.
  erewrite bind_returned by apply randomBytes_reads.
  cbn [Ambient.reading Ambient.cursor].
  unfold sealedWith.
  destruct (gcmSeal (Ambient.upcoming a 0 32) ipfsDocumentAAD buffer)
    as [encrypted authTag] eqn:E.
  unfold ret. cbn [fst snd]. f_equal.
  - f_equal. f_equal. f_equal. unfold Ambient.upcoming. cbn [Ambient.reading Ambient.cursor].
    apply map_ext. intros i. do 2 f_equal. lia.
  - f_equal. lia.
Qed.

Lemma prod_encryptBuffer_eq buffer a :
  IPFSService.encryptBuffer buffer a = DevIPFSService.encryptBuffer buffer a.
Proof. reflexivity. Qed.

Lemma dev_decrypt_sealed buffer a :
  DevIPFSService.decryptBuffer
    (Encrypted.encryptedBuffer (sealedWith buffer a))
    (Encrypted.key (sealedWith buffer a))
  = Returned buffer.
Proof.
  unfold DevIPFSService.decryptBuffer, sealedWith.
  cbn [Encrypted.encryptedBuffer Encrypted.key].
  rewrite base64_decodes.
  set (key := Ambient.upcoming a 0 32).
  set (iv := Ambient.upcoming a 32 16).
  set (sealed := gcmSeal key ipfsDocumentAAD buffer).
  assert (Hiv : length iv = 16%nat) by apply upcoming_length.
  assert (Htag : length (snd sealed) = 16%nat) by apply tag_length.
  pose proof (subarray_middle iv (snd sealed) (fst sealed)) as Emid.
  pose proof (subarrayFrom_tail iv (snd sealed) (fst sealed)) as Etail.
  rewrite Hiv, Htag in Emid, Etail.
  change (16 + 16)%nat with 32%nat in Emid, Etail.
  rewrite Emid, Etail.
  unfold sealed. now rewrite open_seal.
Qed.

Lemma dev_upload_encrypted buffer (this : DevIPFSService.t) :
  DevIPFSService.isConnected this = true ->
  let sealed := sealedWith buffer (DevIPFSService.ambient this) in
  let blob := Encrypted.encryptedBuffer sealed in
  let address := DevIPFSService.generateFakeIPFSHash blob in
  DevIPFSService.uploadFile buffer true this
  = (Returned (Upload.mk address (length blob) (Some (Encrypted.key sealed))),
     DevIPFSService.mk true
       (<[address := blob]> (DevIPFSService.storage this))
       (Ambient.mk (Ambient.reading (DevIPFSService.ambient this))
                   (Ambient.cursor (DevIPFSService.ambient this) + 48))).
Proof.
  intros Hc. cbn zeta. unfold DevIPFSService.uploadFile.
  unfold bind at 1, get at 1. rewrite Hc. cbn [negb].
  unfold try_catch.
  unfold bind at 1. unfold bind at 1.
  unfold DevIPFSService.withAmbient at 1.
  rewrite dev_encryptBuffer_eq.
  unfold ret at 1. cbn beta iota.
  unfold bind, DevIPFSService.writeFileSync, modify, ret.
  cbn [DevIPFSService.isConnected DevIPFSService.storage
       DevIPFSService.ambient].
  now rewrite Hc.
Qed.

(** C9.  For the cipher framing of both blob adapters and every buffer
    (of any length, the empty one included): [encryptBuffer] draws a
    new key (32 readings) and a new IV (16 readings) from the
    environment, returns the key in base64 next to IV, tag and
    ciphertext, and [decryptBuffer] on that result with that key
    returns the buffer.  The development adapter's [uploadFile] with
    [encrypt] hands the key back in its result and keeps only the
    sealed buffer in its storage. *)
Theorem encrypt_decrypt_round_trip (buffer : list byte) (a : Ambient.t) :
  exists sealed a',
    DevIPFSService.encryptBuffer buffer a = (Returned sealed, a')
    /\ IPFSService.encryptBuffer buffer a = (Returned sealed, a')
    /\ DevIPFSService.decryptBuffer (Encrypted.encryptedBuffer sealed)
                                    (Encrypted.key sealed)
       = Returned buffer
    /\ IPFSService.decryptBuffer (Encrypted.encryptedBuffer sealed)
                                 (Encrypted.key sealed)
       = Returned buffer
    /\ Encrypted.key sealed = toBase64 (Ambient.upcoming a 0 32)
    /\ subarray 0 16 (Encrypted.encryptedBuffer sealed)
       = Ambient.upcoming a 32 16
    /\ Ambient.cursor a' = (Ambient.cursor a + 48)%nat
    /\ forall this : DevIPFSService.t,
         DevIPFSService.isConnected this = true ->
         DevIPFSService.ambient this = a ->
         exists address,
           DevIPFSService.uploadFile buffer true this
           = (Returned (Upload.mk address
                          (length (Encrypted.encryptedBuffer sealed))
                          (Some (Encrypted.key sealed))),
              DevIPFSService.mk true
                (<[address := Encrypted.encryptedBuffer sealed]>
                   (DevIPFSService.storage this))
                a').
Proof.
  exists (sealedWith buffer a),
         (Ambient.mk (Ambient.reading a) (Ambient.cursor a + 48)).
  split; [apply dev_encryptBuffer_eq |].
  split; [rewrite prod_encryptBuffer_eq; apply dev_encryptBuffer_eq |].
  split; [apply dev_decrypt_sealed |].
  split; [apply dev_decrypt_sealed |].
  split; [reflexivity |].
  split.
  { pose proof (subarray_head (Ambient.upcoming a 32 16)
                  (snd (gcmSeal (Ambient.upcoming a 0 32) ipfsDocumentAAD buffer)
                   ++ fst (gcmSeal (Ambient.upcoming a 0 32) ipfsDocumentAAD buffer)))
      as E.
    now rewrite upcoming_length in E. }
  split; [reflexivity |].
  intros this Hc Ha. subst a. eexists.
  now rewrite dev_upload_encrypted.
Qed.

End CipherRoundTrip.

Lemma fixture_open_seal key aad data :
  @gcmOpen Fixture.crypto key aad
    (snd (@gcmSeal Fixture.crypto key aad data))
    (fst (@gcmSeal Fixture.crypto key aad data))
  = Some data.
Proof.
  cbn. rewrite bool_decide_eq_true_2 by reflexivity.
  now rewrite rev_involutive.
Qed.

Lemma fixture_tag_length key aad data :
  length (snd (@gcmSeal Fixture.crypto key aad data)) = 16%nat.
Proof.
  cbn. unfold Fixture.tagOf. rewrite length_take, length_app, repeat_length. lia.
Qed.

Lemma fixture_base64 bytes :
  @fromBase64 Fixture.crypto (@toBase64 Fixture.crypto bytes) = bytes.
Proof. apply list_byte_of_string_of_list_byte. Qed.

(** The round trip on the empty buffer and on a one-byte buffer, with the
    stand-in cipher. *)
Lemma encrypt_decrypt_round_trip_witness :
  (exists sealed a',
     @DevIPFSService.encryptBuffer Fixture.crypto [] Fixture.readings
     = (Returned sealed, a')
     /\ @DevIPFSService.decryptBuffer Fixture.crypto
          (Encrypted.encryptedBuffer sealed) (Encrypted.key sealed)
        = Returned [])
  /\ (exists sealed a',
        @IPFSService.encryptBuffer Fixture.crypto [Byte.x61] Fixture.readings
        = (Returned sealed, a')
        /\ @IPFSService.decryptBuffer Fixture.crypto
             (Encrypted.encryptedBuffer sealed) (Encrypted.key sealed)
           = Returned [Byte.x61]).
Proof.
  split.
  - destruct (@encrypt_decrypt_round_trip Fixture.crypto
                fixture_open_seal fixture_tag_length fixture_base64
                [] Fixture.readings)
      as (sealed & a' & E1 & _ & D1 & _).
    exists sealed, a'. split; assumption.
  - destruct (@encrypt_decrypt_round_trip Fixture.crypto
                fixture_open_seal fixture_tag_length fixture_base64
                [Byte.x61] Fixture.readings)
      as (sealed & a' & _ & E2 & _ & D2 & _).
    exists sealed, a'. split; assumption.
Defined.

(** ** The simulated ledger *)

Lemma JsMap_has_set_same {V} key (v : V) m :
  JsMap.has key (JsMap.set key v m) = true.
Proof.
  induction m as [|[k x] m IH]; cbn.
  - now rewrite eqs_refl.
  - destruct (Js.eqs k key) eqn:E; cbn; rewrite E; [reflexivity | exact IH].
Qed.

Lemma JsMap_has_set_keeps {V} key other (v : V) m :
  JsMap.has key m = true -> JsMap.has key (JsMap.set other v m) = true.
Proof.
  induction m as [|[k x] m IH]; cbn; [discriminate |].
  intros Hk. destruct (Js.eqs k other) eqn:E; cbn.
  - exact Hk.
  - destruct (Js.eqs k key); [reflexivity | now apply IH].
Qed.

Lemma JsMap_has_delete_other {V} key other (m : JsMap.t V) :
  other <> key -> JsMap.has key m = true ->
  JsMap.has key (JsMap.delete other m) = true.
Proof.
  intros Hne. induction m as [|[k x] m IH]; cbn; [discriminate |].
  destruct (Js.eqs k key) eqn:Ek.
  - intros _. apply eqs_true in Ek. subst k.
    destruct (Js.eqs key other) eqn:Eo.
    + apply eqs_true in Eo. congruence.
    + cbn. now rewrite eqs_refl.
  - intros Hk. destruct (Js.eqs k other); [exact Hk |].
    cbn. rewrite Ek. now apply IH.
Qed.

Section DevLedger.
Context `{NodeCrypto}.

Import DevBlockchainService.

Lemma getUserWallet_derived userId this :
  settled this ->
  exists this',
    getUserWallet userId this = (Returned (derivedWallet userId), this')
    /\ settled this'
    /\ permissions this' = permissions this
    /\ documents this' = documents this
    /\ ambient this' = ambient this.
Proof.
  intros [Hc Hw]. unfold getUserWallet. run.
  destruct (userWallets this !! userId) as [wallet|] eqn:E.
  - apply Hw in E. subst wallet. exists this. repeat split; auto.
  - unfold set_userWallets. run. eexists. split; [reflexivity |].
    cbn. repeat split; auto.
    intros u w. cbn. rewrite lookup_insert. case_decide.
    + intros [= <-]. now subst.
    + apply Hw.
Qed.


Lemma withAmbient_returns {A} (c : Async Ambient.t A) this x a' :
  c (ambient this) = (Returned x, a') ->
  withAmbient c this
  = (Returned x,
     mk (isConnected this) (userWallets this) (documents this)
        (permissions this) a').
Proof. intros E. unfold withAmbient. now rewrite E. Qed.

Lemma now_returns a : exists t a', Ambient.now a = (Returned t, a').
Proof. unfold Ambient.now, Ambient.read. run. eauto. Qed.

Lemma fakeTransactionHash_returns a :
  exists h a', fakeTransactionHash a = (Returned h, a').
Proof.
  unfold fakeTransactionHash.
  erewrite bind_returned by apply randomBytes_reads. unfold ret. eauto.
Qed.

Lemma fakeBlockNumber_returns a :
  exists n a', fakeBlockNumber a = (Returned n, a').
Proof.
  unfold fakeBlockNumber, Ambient.randomBelow, Ambient.read. run. eauto.
Qed.

(** Steps over a reading of the environment at the head of a [bind]. *)
Ltac reading lemma :=
  match goal with
  | |- context [bind (withAmbient ?c) ?k ?s] =>
      let x := fresh "x" in
      let a := fresh "a" in
      let E := fresh "E" in
      destruct (lemma (ambient s)) as (x & a & E);
      rewrite (bind_returned (withAmbient c) k s x _
                 (withAmbient_returns c s x a E))
  end.

Lemma settled_ambient this a :
  settled this ->
  settled (mk (isConnected this) (userWallets this) (documents this)
              (permissions this) a).
Proof. intros [Hc Hw]. split; assumption. Qed.

(** [addDocument] returns, and leaves the owner's grant in place. *)
Lemma addDocument_grants userId ipfsHash metadata this :
  settled this ->
  exists tx this',
    addDocument userId ipfsHash metadata this = (Returned tx, this')
    /\ settled this'
    /\ AddTx.walletAddress tx = Wallet.address (derivedWallet userId)
    /\ permissions this'
       = JsMap.set (permissionKey (AddTx.documentId tx)
                      (Wallet.address (derivedWallet userId)))
                   true (permissions this)
    /\ exists createdAt,
         documents this' !! AddTx.documentId tx
         = Some (LedgerDocument.mk ipfsHash
                   (Wallet.address (derivedWallet userId)) metadata
                   createdAt).
Proof.
  intros Hs. pose proof Hs as [Hc _].
  unfold addDocument. unfold bind at 1, get at 1. rewrite Hc. cbn [negb].
  destruct (getUserWallet_derived userId this Hs)
    as (this1 & E1 & Hs1 & Hp1 & Hd1 & Ha1).
  unfold try_catch.
  rewrite (bind_returned _ _ _ _ _ E1).
  reading now_returns. reading now_returns.
  unfold set_documents, set_permissions.
  unfold bind at 1, modify at 1. unfold bind at 1, modify at 1.
  reading fakeTransactionHash_returns.
  reading fakeBlockNumber_returns.
  unfold ret. eexists _, _. split; [reflexivity |].
  cbn. destruct Hs1 as [Hc1 Hw1].
  split; [split; assumption |]. split; [reflexivity |].
  split; [now rewrite Hp1 |].
  eexists. apply lookup_insert_eq.
Qed.


(** [hasAccess] returns what the [permissions] map holds for the
    derived address and changes no grant. *)
Lemma hasAccess_reads userId documentId this :
  settled this ->
  exists this',
    hasAccess userId documentId this
    = (Returned (JsMap.has (permissionKey documentId
                              (Wallet.address (derivedWallet userId)))
                           (permissions this)),
       this')
    /\ settled this'
    /\ permissions this' = permissions this.
Proof.
  intros Hs. pose proof Hs as [Hc _].
  unfold hasAccess. unfold bind at 1, get at 1. rewrite Hc. cbn [negb].
  destruct (getUserWallet_derived userId this Hs)
    as (this1 & E1 & Hs1 & Hp1 & Hd1 & Ha1).
  unfold try_catch. rewrite (bind_returned _ _ _ _ _ E1).
  run. rewrite Hp1. eauto.
Qed.

Lemma keeps_refl key this : settled this -> keeps key this this.
Proof. intros Hs. split; auto. Qed.

Lemma keeps_same key this this' :
  settled this' -> permissions this' = permissions this ->
  keeps key this this'.
Proof. intros Hs Hp. split; [assumption | now rewrite Hp]. Qed.

Lemma snd_try_rethrow {S A} (c : Async S A) (wrap : string -> string) s :
  snd (try_catch c (fun message => throw (wrap message)) s) = snd (c s).
Proof. unfold try_catch, throw. now destruct (c s) as [[a|e] s']. Qed.

Lemma grantAccess_keeps key ownerUserId documentId email targetUserId this :
  settled this ->
  keeps key this
        (snd (grantAccess ownerUserId documentId email targetUserId this)).
Proof.
  intros Hs. pose proof Hs as [Hc _].
  unfold grantAccess. unfold bind at 1, get at 1. rewrite Hc. cbn [negb].
  rewrite snd_try_rethrow.
  destruct (getUserWallet_derived ownerUserId this Hs)
    as (this1 & E1 & Hs1 & Hp1 & Hd1 & Ha1).
  rewrite (bind_returned _ _ _ _ _ E1).
  destruct (getUserWallet_derived targetUserId this1 Hs1)
    as (this2 & E2 & Hs2 & Hp2 & Hd2 & Ha2).
  rewrite (bind_returned _ _ _ _ _ E2).
  unfold bind at 1, get at 1.
  assert (Hp : permissions this2 = permissions this) by congruence.
  destruct (documents this2 !! documentId) as [document|];
    [| apply keeps_same; assumption].
  destruct (negb _); [apply keeps_same; assumption |].
  unfold set_permissions. unfold bind at 1, modify at 1.
  reading fakeTransactionHash_returns.
  reading fakeBlockNumber_returns.
  unfold ret. cbn. destruct Hs2 as [Hc2 Hw2]. split; [split; assumption |].
  intros Hk. apply JsMap_has_set_keeps. now rewrite Hp.
Qed.

Lemma revokeAccess_keeps key ownerUserId documentId targetUserId this :
  settled this ->
  permissionKey documentId (Wallet.address (derivedWallet targetUserId))
  <> key ->
  keeps key this (snd (revokeAccess ownerUserId documentId targetUserId this)).
Proof.
  intros Hs Hne. pose proof Hs as [Hc _].
  unfold revokeAccess. unfold bind at 1, get at 1. rewrite Hc. cbn [negb].
  rewrite snd_try_rethrow.
  destruct (getUserWallet_derived ownerUserId this Hs)
    as (this1 & E1 & Hs1 & Hp1 & Hd1 & Ha1).
  rewrite (bind_returned _ _ _ _ _ E1).
  destruct (getUserWallet_derived targetUserId this1 Hs1)
    as (this2 & E2 & Hs2 & Hp2 & Hd2 & Ha2).
  rewrite (bind_returned _ _ _ _ _ E2).
  unfold bind at 1, get at 1.
  assert (Hp : permissions this2 = permissions this) by congruence.
  destruct (documents this2 !! documentId) as [document|];
    [| apply keeps_same; assumption].
  destruct (negb _); [apply keeps_same; assumption |].
  unfold set_permissions. unfold bind at 1, modify at 1.
  reading fakeTransactionHash_returns.
  reading fakeBlockNumber_returns.
  unfold ret. cbn. destruct Hs2 as [Hc2 Hw2]. split; [split; assumption |].
  intros Hk. apply JsMap_has_delete_other; [assumption | now rewrite Hp].
Qed.

Lemma grantEach_keeps key documentId targetUserIds : forall this,
  settled this ->
  exists addresses this',
    grantEach documentId targetUserIds this = (Returned addresses, this')
    /\ keeps key this this'
    /\ ambient this' = ambient this.
Proof.
  induction targetUserIds as [|userId rest IH]; intros this Hs.
  - cbn. unfold ret. eexists _, _. split; [reflexivity |].
    split; [now apply keeps_refl | reflexivity].
  - cbn [grantEach].
    destruct (getUserWallet_derived userId this Hs)
      as (this1 & E1 & Hs1 & Hp1 & Hd1 & Ha1).
    rewrite (bind_returned _ _ _ _ _ E1).
    unfold set_permissions. unfold bind at 1, modify at 1.
    match goal with
    | |- context [bind (grantEach documentId rest) _ ?s] =>
        destruct (IH s) as (addresses & this2 & E2 & [Hs2 Hk2] & Ha2)
    end.
    { destruct Hs1 as [Hc1 Hw1]. split; assumption. }
    rewrite (bind_returned _ _ _ _ _ E2). unfold ret.
    eexists _, _. split; [reflexivity |]. split.
    + split; [assumption |]. intros Hk. apply Hk2. cbn.
      apply JsMap_has_set_keeps. now rewrite Hp1.
    + rewrite Ha2. cbn. assumption.
Qed.


Lemma batchGrantAccess_keeps key ownerUserId documentId targetUserIds this :
  settled this ->
  keeps key this
        (snd (batchGrantAccess ownerUserId documentId targetUserIds this)).
Proof.
  intros Hs. pose proof Hs as [Hc _].
  unfold batchGrantAccess. unfold bind at 1, get at 1. rewrite Hc. cbn [negb].
  rewrite snd_try_rethrow.
  destruct (getUserWallet_derived ownerUserId this Hs)
    as (this1 & E1 & Hs1 & Hp1 & Hd1 & Ha1).
  rewrite (bind_returned _ _ _ _ _ E1).
  destruct (grantEach_keeps key documentId targetUserIds this1 Hs1)
    as (addresses & this2 & E2 & [Hs2 Hk2] & Ha2).
  rewrite (bind_returned _ _ _ _ _ E2).
  reading fakeTransactionHash_returns.
  reading fakeBlockNumber_returns.
  unfold ret. cbn. destruct Hs2 as [Hc2 Hw2]. split; [split; assumption |].
  intros Hk. apply Hk2. now rewrite Hp1.
Qed.

Lemma addDocument_keeps key userId ipfsHash metadata this :
  settled this ->
  keeps key this (snd (addDocument userId ipfsHash metadata this)).
Proof.
  intros Hs.
  destruct (addDocument_grants userId ipfsHash metadata this Hs)
    as (tx & this' & E & Hs' & _ & Hp & _).
  rewrite E. cbn [snd]. split; [assumption |].
  intros Hk. rewrite Hp. now apply JsMap_has_set_keeps.
Qed.

Lemma hasAccess_keeps key userId documentId this :
  settled this -> keeps key this (snd (hasAccess userId documentId this)).
Proof.
  intros Hs.
  destruct (hasAccess_reads userId documentId this Hs) as (this' & E & Hs' & Hp).
  rewrite E. now apply keeps_same.
Qed.

Lemma getDocument_keeps key userId documentId this :
  settled this -> keeps key this (snd (getDocument userId documentId this)).
Proof.
  intros Hs. pose proof Hs as [Hc _].
  unfold getDocument. unfold bind at 1, get at 1. rewrite Hc. cbn [negb].
  rewrite snd_try_rethrow.
  destruct (getUserWallet_derived userId this Hs)
    as (this1 & E1 & Hs1 & Hp1 & Hd1 & Ha1).
  rewrite (bind_returned _ _ _ _ _ E1).
  destruct (hasAccess_reads userId documentId this1 Hs1)
    as (this2 & E2 & Hs2 & Hp2).
  rewrite (bind_returned _ _ _ _ _ E2).
  assert (Hp : permissions this2 = permissions this) by congruence.
  destruct (negb _); [apply keeps_same; assumption |].
  unfold bind at 1, get at 1.
  destruct (documents this2 !! documentId); apply keeps_same; assumption.
Qed.

Lemma getDocumentAccessors_keeps key ownerUserId documentId this :
  settled this ->
  keeps key this (snd (getDocumentAccessors ownerUserId documentId this)).
Proof.
  intros Hs. pose proof Hs as [Hc _].
  unfold getDocumentAccessors. unfold bind at 1, get at 1. rewrite Hc.
  cbn [negb]. rewrite snd_try_rethrow.
  destruct (getUserWallet_derived ownerUserId this Hs)
    as (this1 & E1 & Hs1 & Hp1 & Hd1 & Ha1).
  rewrite (bind_returned _ _ _ _ _ E1).
  unfold bind at 1, get at 1.
  destruct (negb _); apply keeps_same; assumption.
Qed.

Lemma getUserWalletAddress_keeps key userId this :
  settled this -> keeps key this (snd (getUserWalletAddress userId this)).
Proof.
  intros Hs. unfold getUserWalletAddress, try_catch.
  destruct (getUserWallet_derived userId this Hs)
    as (this1 & E1 & Hs1 & Hp1 & Hd1 & Ha1).
  rewrite (bind_returned _ _ _ _ _ E1). now apply keeps_same.
Qed.

Lemma getWalletBalance_keeps key userId this :
  settled this -> keeps key this (snd (getWalletBalance userId this)).
Proof.
  intros Hs. unfold getWalletBalance, try_catch.
  destruct (getUserWallet_derived userId this Hs)
    as (this1 & E1 & Hs1 & Hp1 & Hd1 & Ha1).
  rewrite (bind_returned _ _ _ _ _ E1). now apply keeps_same.
Qed.

Lemma fundUserWallet_keeps key address amount this :
  settled this -> keeps key this (snd (fundUserWallet address amount this)).
Proof.
  intros Hs. unfold fundUserWallet.
  destruct (fakeTransactionHash_returns (ambient this)) as (h & a & E).
  rewrite (withAmbient_returns _ _ _ _ E). cbn [snd].
  apply keeps_same; [now apply settled_ambient | reflexivity].
Qed.

(** No method but a [revokeAccess] aimed at it takes a grant away. *)
Lemma perform_keeps key op this :
  settled this -> removesGrant key op = false ->
  keeps key this (perform op this).
Proof.
  intros Hs Hr. destruct op; cbn [perform].
  - now apply addDocument_keeps.
  - now apply grantAccess_keeps.
  - apply revokeAccess_keeps; [assumption |].
    cbn in Hr. now apply eqs_false in Hr.
  - now apply hasAccess_keeps.
  - now apply getDocument_keeps.
  - now apply getDocumentAccessors_keeps.
  - now apply getUserWalletAddress_keeps.
  - now apply getWalletBalance_keeps.
  - now apply fundUserWallet_keeps.
  - now apply batchGrantAccess_keeps.
  - now apply keeps_refl.
Qed.

Lemma revokeAccess_settled ownerUserId documentId targetUserId this :
  settled this ->
  settled (snd (revokeAccess ownerUserId documentId targetUserId this)).
Proof.
  intros Hs. pose proof Hs as [Hc _].
  unfold revokeAccess. unfold bind at 1, get at 1. rewrite Hc. cbn [negb].
  rewrite snd_try_rethrow.
  destruct (getUserWallet_derived ownerUserId this Hs)
    as (this1 & E1 & Hs1 & Hp1 & Hd1 & Ha1).
  rewrite (bind_returned _ _ _ _ _ E1).
  destruct (getUserWallet_derived targetUserId this1 Hs1)
    as (this2 & E2 & Hs2 & Hp2 & Hd2 & Ha2).
  rewrite (bind_returned _ _ _ _ _ E2).
  unfold bind at 1, get at 1.
  destruct (documents this2 !! documentId) as [document|]; [| assumption].
  destruct (negb _); [assumption |].
  unfold set_permissions. unfold bind at 1, modify at 1.
  reading fakeTransactionHash_returns.
  reading fakeBlockNumber_returns.
  unfold ret. cbn. destruct Hs2 as [Hc2 Hw2]. split; assumption.
Qed.

Lemma perform_settled op this : settled this -> settled (perform op this).
Proof.
  intros Hs.
  destruct (removesGrant "" op) eqn:Hr.
  - destruct op; try discriminate Hr. cbn [perform].
    now apply revokeAccess_settled.
  - now apply (perform_keeps "" op this Hs Hr).
Qed.



Lemma constructor_settled readings : settled (constructor readings).
Proof. split; [reflexivity |]. intros u w. cbn. now rewrite lookup_empty. Qed.


End DevLedger.


(** ** The Document record *)

Lemma isShareOf_true userId share :
  Document.isShareOf userId share = true <-> Share.user share = userId.
Proof. unfold Document.isShareOf. apply eqs_true. Qed.

(** [sharedWith.some(...)] holds exactly when the user appears in the
    shared-with list. *)
Lemma shared_iff userId (l : list Share.t) :
  existsb (Document.isShareOf userId) l = true
  <-> In userId (map Share.user l).
Proof.
  rewrite existsb_exists, in_map_iff. split.
  - intros (share & Hin & Hs). exists share. split; [|assumption].
    now apply isShareOf_true.
  - intros (share & Hu & Hin). exists share. split; [assumption|].
    now apply isShareOf_true.
Qed.

Lemma hasAccess_iff d userId :
  Document.hasAccess d userId = true
  <-> Document.owner d = userId
      \/ In userId (map Share.user (Document.sharedWith d)).
Proof.
  unfold Document.hasAccess.
  destruct (Js.eqs (Document.owner d) userId) eqn:E.
  - apply eqs_true in E. tauto.
  - apply eqs_false in E. rewrite shared_iff. tauto.
Qed.

Lemma hasAccess_deselect d userId :
  Document.hasAccess (Document.deselect d) userId = Document.hasAccess d userId.
Proof. reflexivity. Qed.

(** ** World *)

Section WorldSteps.
Context {L B : Type}.
Implicit Type w : World.t L B.

Lemma findDocumentById_eq id w :
  World.findDocumentById id w
  = (Returned (Document.deselect <$> World.documents w !! id), w).
Proof. reflexivity. Qed.

Lemma onLedger_eq {A} c (method : Async L A) w :
  World.onLedger c method w
  = (fst (method (World.blockchain w)),
     World.afterLedger c (snd (method (World.blockchain w))) w).
Proof.
  unfold World.onLedger, World.record. run. cbn.
  now destruct (method (World.blockchain w)).
Qed.

End WorldSteps.

Section AccessCheck.
Context {L B : Type} `{BlockchainService L}.

(** C1.  For an access check by a user on a stored, active document,
    the handler answers 200 with [hasAccess] the conjunction of the
    database check and the ledger check; the database check holds
    exactly when the user is the owner or appears in the shared-with
    list; the ledger check is the answer of the adapter's [hasAccess]
    for the user, and is false when that call throws (so the overall
    answer is false then). *)
Theorem access_is_conjunction
        (userId documentId : ObjectId) (w : World.t L B) (d : Document.t) :
  World.documents w !! documentId = Some d ->
  Document.isActive d = true ->
  exists permission isOwner database blockchain,
    fst (Sharing.access userId documentId w)
    = Returned (Response.mk 200 ""
                  (Response.Verdict (database && blockchain) permission
                                    isOwner database blockchain))
    /\ (database = true
        <-> Document.owner d = userId
            \/ In userId (map Share.user (Document.sharedWith d)))
    /\ (forall answer,
          fst (hasAccess userId (Document.blockchainDocumentId d)
                         (World.blockchain w)) = Returned answer ->
          blockchain = answer)
    /\ (forall message,
          fst (hasAccess userId (Document.blockchainDocumentId d)
                         (World.blockchain w)) = Thrown message ->
          blockchain = false).
Proof.
  intros Hd Ha.
  unfold Sharing.access.
  unfold try_catch at 1.
  rewrite (bind_returned _ _ _ _ _ (findDocumentById_eq documentId w)).
  rewrite Hd. cbn [fmap option_fmap option_map].
  change (Document.isActive (Document.deselect d)) with (Document.isActive d).
  rewrite Ha. cbn [negb].
  unfold bind at 1. unfold try_catch at 1. rewrite onLedger_eq.
  change (Document.blockchainDocumentId (Document.deselect d))
    with (Document.blockchainDocumentId d).
  destruct (hasAccess userId (Document.blockchainDocumentId d)
                      (World.blockchain w)) as [[answer|message] l] eqn:E;
    cbn [fst snd]; unfold ret; cbn [fst].
  - eexists _, _, _, _. split; [reflexivity |].
    rewrite hasAccess_deselect. split; [apply hasAccess_iff |].
    split; [now intros ? [= <-] | discriminate].
  - eexists _, _, _, _. split; [reflexivity |].
    rewrite hasAccess_deselect. split; [apply hasAccess_iff |].
    split; [discriminate | reflexivity].
Qed.

End AccessCheck.

(** Bob asks about Alice's report, which is shared with him, while the
    ledger is unreachable. *)
Lemma access_is_conjunction_witness :
  exists permission isOwner database blockchain,
    fst (Sharing.access "b2" "d1"
           (Fixture.offlineWorld {[ "d1" := Fixture.sharedReport ]}))
    = Returned (Response.mk 200 ""
                  (Response.Verdict (database && blockchain) permission
                                    isOwner database blockchain))
    /\ (database = true
        <-> Document.owner Fixture.sharedReport = "b2"
            \/ In "b2" (map Share.user
                          (Document.sharedWith Fixture.sharedReport)))
    /\ (forall answer,
          fst (hasAccess "b2"
                 (Document.blockchainDocumentId Fixture.sharedReport)
                 (World.blockchain
                    (Fixture.offlineWorld {[ "d1" := Fixture.sharedReport ]})))
          = Returned answer ->
          blockchain = answer)
    /\ (forall message,
          fst (hasAccess "b2"
                 (Document.blockchainDocumentId Fixture.sharedReport)
                 (World.blockchain
                    (Fixture.offlineWorld {[ "d1" := Fixture.sharedReport ]})))
          = Thrown message ->
          blockchain = false).
Proof.
  apply (access_is_conjunction "b2" "d1"
           (Fixture.offlineWorld {[ "d1" := Fixture.sharedReport ]})
           Fixture.sharedReport); reflexivity.
Defined.

Section WorldSteps2.
Context {L B : Type}.
Implicit Type w : World.t L B.

Lemma onIpfs_eq {A} c (method : Async B A) w :
  World.onIpfs (L := L) c method w
  = (fst (method (World.ipfs w)),
     World.afterIpfs c (snd (method (World.ipfs w))) w).
Proof.
  unfold World.onIpfs, World.record. run. cbn.
  now destruct (method (World.ipfs w)).
Qed.

Lemma newDate_eq w :
  World.newDate w = (Returned (World.dateAt 0 w), World.afterReadings 1 w).
Proof.
  unfold World.newDate, World.withClock, Ambient.now, Ambient.read,
    World.dateAt, World.afterReadings. run. cbn.
  now rewrite Nat.add_0_r, Nat.add_1_r.
Qed.

Lemma mathRandom_eq w :
  World.mathRandom w
  = (Returned (Ambient.reading (World.clock w) (Ambient.cursor (World.clock w))),
     World.afterReadings 1 w).
Proof.
  unfold World.mathRandom, World.withClock, Ambient.read,
    World.afterReadings. cbn. now rewrite Nat.add_1_r.
Qed.

Lemma saveDocument_eq id d w :
  World.saveDocument id d w
  = (Returned tt,
     World.afterSave id (World.stored (World.documents w) id d) w).
Proof. reflexivity. Qed.

(** Saving a loaded document whose shared-with list was replaced stores
    the original with that list: the key it never loaded is kept. *)
Lemma stored_sharedWith docs id d l :
  docs !! id = Some d ->
  World.stored docs id (Document.set_sharedWith (Document.deselect d) l)
  = Document.set_sharedWith d l.
Proof. intros E. unfold World.stored. rewrite E. now destruct d. Qed.

Lemma validateDocumentOwnership_passes w ownerId documentId d :
  Situation.owns w ownerId documentId d ->
  Sharing.validateDocumentOwnership documentId ownerId w
  = (Returned (Document.deselect d), w).
Proof.
  intros (Hd & Ha & Ho). unfold Sharing.validateDocumentOwnership.
  rewrite (bind_returned _ _ _ _ _ (findDocumentById_eq documentId w)).
  rewrite Hd. cbn [fmap option_fmap option_map].
  change (Document.isActive (Document.deselect d)) with (Document.isActive d).
  change (Document.owner (Document.deselect d)) with (Document.owner d).
  rewrite Ha, Ho, eqs_refl. reflexivity.
Qed.

(** [shareWith] for a user who is neither the owner nor yet in the
    list: one reading of the clock, one entry appended. *)
Lemma shareWith_new d userId permissions a :
  Document.owner d <> userId ->
  find (Document.isShareOf userId) (Document.sharedWith d) = None ->
  Document.shareWith d userId permissions a
  = (Returned
       (true,
        Document.set_sharedWith d
          (Document.sharedWith d
           ++ [Share.mk userId
                 (Z.of_N (Ambient.reading a (Ambient.cursor a)))
                 permissions])),
     Ambient.advance a).
Proof.
  intros Ho Hf. unfold Document.shareWith.
  apply eqs_false in Ho. rewrite Ho, Hf. reflexivity.
Qed.

End WorldSteps2.

Lemma grantFailure_not_ok env message :
  Response.status (Sharing.grantFailure env message) <> 200%nat.
Proof.
  unfold Sharing.grantFailure.
  repeat (match goal with |- context [if ?c then _ else _] => destruct c end);
    cbn; discriminate.
Qed.

Section GrantNewTarget.
Context {L B : Type} `{BlockchainService L}.
Variable env : ServiceConfig.ProcessEnv.
Variables ownerId documentId userEmail : string.
Variable permissions : option string.
Variable w : World.t L B.
Variable d : Document.t.
Variable target : User.t.

Hypothesis Howns : Situation.owns w ownerId documentId d.
Hypothesis Hform : Situation.wellFormed documentId userEmail permissions.
Hypothesis Htarget : Situation.resolves w ownerId userEmail target.
Hypothesis Hnew : Situation.notSharedWith d (User._id target).

Let call : Call :=
  LedgerGrantAccess ownerId (Document.blockchainDocumentId d)
                    (User._id target).
Let ledger : outcome Tx.t * L :=
  grantAccess ownerId (Document.blockchainDocumentId d) (User.email target)
              (User._id target) (World.blockchain w).

(** The handler up to the ledger call. *)
Lemma grant_reaches_ledger :
  Sharing.grant env ownerId (Some documentId) (Some userEmail) permissions w
  = try_catch
      (blockchainResult <-
         try_catch
           (World.onLedger call
              (grantAccess ownerId (Document.blockchainDocumentId d)
                 (User.email target) (User._id target)))
           (fun blockchainError =>
              if ServiceConfig.isDevelopmentMode env
              then Sharing.synthesizedGrant
              else throw blockchainError) ;;
       shared <- World.withClock
                   (Document.shareWith (Document.deselect d)
                      (User._id target) (Sharing.orRead permissions)) ;;
       let '(shareSuccess, document) := shared in
       if negb shareSuccess
       then ret (Response.json 400 "Failed to share document")
       else
         World.saveDocument documentId document ;;;
         sharedAt <- World.newDate ;;
         ret (Response.mk 200 "Document shared successfully"
                (Response.Shared documentId target
                   (Sharing.orRead permissions) sharedAt blockchainResult)))
      (fun message => ret (Sharing.grantFailure env message))
      w.
Proof.
  destruct Hform as (Hid & Hemail & Hperm).
  destruct Htarget as (Hfind & Hself).
  unfold Sharing.grant.
  apply eqs_false in Hid, Hemail, Hself.
  rewrite Hid, Hemail, Hperm. cbn [orb negb].
  unfold try_catch at 1. unfold try_catch at 3.
  rewrite (bind_returned _ _ _ _ _
             (validateDocumentOwnership_passes w ownerId documentId d Howns)).
  unfold bind at 1. unfold World.findActiveUserByEmail at 1.
  unfold bind at 1, get at 1, ret at 1. rewrite Hfind.
  rewrite Hself.
  change (Document.sharedWith (Document.deselect d))
    with (Document.sharedWith d).
  unfold Situation.notSharedWith in Hnew. rewrite Hnew.
  reflexivity.
Qed.


(** The tail of the handler, once the ledger step has produced
    [blockchainResult] in world [w1] (same collections as [w]). *)
Lemma grant_writes (blockchainResult : Tx.t) (w1 : World.t L B) :
  World.documents w1 = World.documents w ->
  exists sharedAt sharedAt' w',
    (shared <- World.withClock
                 (Document.shareWith (Document.deselect d)
                    (User._id target) (Sharing.orRead permissions)) ;;
     let '(shareSuccess, document) := shared in
     if negb shareSuccess
     then ret (Response.json 400 "Failed to share document")
     else
       World.saveDocument documentId document ;;;
       sharedAt <- World.newDate ;;
       ret (Response.mk 200 "Document shared successfully"
              (Response.Shared documentId target
                 (Sharing.orRead permissions) sharedAt blockchainResult)))
      w1
    = (Returned (Response.mk 200 "Document shared successfully"
                   (Response.Shared documentId target
                      (Sharing.orRead permissions) sharedAt'
                      blockchainResult)),
       w')
    /\ World.documents w'
       = <[documentId :=
             Document.set_sharedWith d
               (Document.sharedWith d
                ++ [Share.mk (User._id target) sharedAt
                             (Sharing.orRead permissions)])]>
           (World.documents w)
    /\ World.users w' = World.users w1
    /\ World.blockchain w' = World.blockchain w1
    /\ World.ipfs w' = World.ipfs w1
    /\ World.calls w' = World.calls w1 ++ [DocumentSave documentId].
Proof.
  intros Hdocs.
  destruct Howns as (Hd & Ha & Ho). destruct Htarget as (Hfind & Hself).
  unfold bind at 1. unfold World.withClock at 1.
  rewrite shareWith_new.
  2:{ change (Document.owner (Document.deselect d)) with (Document.owner d).
      congruence. }
  2:{ exact Hnew. }
  cbn [negb].
  rewrite (bind_returned _ _ _ _ _ (saveDocument_eq _ _ _)).
  rewrite (bind_returned _ _ _ _ _ (newDate_eq _)).
  unfold ret. eexists _, _, _. split; [reflexivity |].
  cbn [World.afterReadings World.afterSave World.documents World.users
       World.blockchain World.ipfs World.calls].
  change (Document.sharedWith (Document.deselect d))
    with (Document.sharedWith d).
  rewrite Hdocs, (stored_sharedWith _ _ _ _ Hd).
  repeat split; reflexivity.
Qed.

Lemma synthesizedGrant_eq (w1 : World.t L B) :
  exists suffix blockNumber,
    Sharing.synthesizedGrant w1
    = (Returned (Tx.mk ("0xdev_" ++ suffix)%string blockNumber
                       "0xdev_address"),
       World.afterReadings 2 w1).
Proof.
  unfold Sharing.synthesizedGrant.
  rewrite (bind_returned _ _ _ _ _ (mathRandom_eq _)).
  rewrite (bind_returned _ _ _ _ _ (mathRandom_eq _)).
  unfold ret. eexists _, _. f_equal.
  unfold World.afterReadings. cbn. do 2 f_equal. lia.
Qed.

(** C2.  A grant that passes validation on a document not yet shared
    with its target, when the ledger's [grantAccess] throws: in
    development mode the handler answers 200 with a synthesized
    transaction result and has stored the document with the new
    shared-with entry appended (after the ledger call, one save); in
    production mode the request is refused: the answer is the one of
    the catch clause, which is not a 200 and carries no share (404 or
    403 when the thrown message is one of the two the clause tells
    apart, 500 [Error sharing document] otherwise), the Document
    collection is unchanged and no save was issued. *)
Theorem grant_ledger_failure_policy (message : string) :
  fst ledger = Thrown message ->
  (ServiceConfig.isDevelopmentMode env = true ->
   exists suffix blockNumber sharedAt sharedAt' w',
     Sharing.grant env ownerId (Some documentId) (Some userEmail)
                   permissions w
     = (Returned
          (Response.mk 200 "Document shared successfully"
             (Response.Shared documentId target
                (Sharing.orRead permissions) sharedAt'
                (Tx.mk ("0xdev_" ++ suffix)%string blockNumber
                       "0xdev_address"))),
        w')
     /\ World.documents w'
        = <[documentId :=
              Document.set_sharedWith d
                (Document.sharedWith d
                 ++ [Share.mk (User._id target) sharedAt
                              (Sharing.orRead permissions)])]>
            (World.documents w)
     /\ World.calls w' = World.calls w ++ [call; DocumentSave documentId])
  /\ (ServiceConfig.isDevelopmentMode env = false ->
      exists r w',
        Sharing.grant env ownerId (Some documentId) (Some userEmail)
                      permissions w
        = (Returned r, w')
        /\ r = Sharing.grantFailure env message
        /\ Response.status r <> 200%nat
        /\ (r = Response.json 404 "Document not found"
            \/ r = Response.json 403
                     "Only document owner can share documents"
            \/ r = Response.mk 500 "Error sharing document"
                     (Response.Failure
                        (ServiceConfig.errorDetail env message)))
        /\ (message <> "Document not found" ->
            message <> "Only document owner can manage sharing" ->
            r = Response.mk 500 "Error sharing document"
                  (Response.Failure
                     (ServiceConfig.errorDetail env message)))
        /\ World.documents w' = World.documents w
        /\ World.calls w' = World.calls w ++ [call]).
Proof.
  intros Hthrown. subst ledger.
  rewrite grant_reaches_ledger. fold call.
  split; intros Hmode.
  - unfold try_catch at 1. unfold bind at 1. unfold try_catch at 1.
    rewrite onLedger_eq, Hthrown, Hmode.
    destruct (synthesizedGrant_eq
                (World.afterLedger call
                   (snd (grantAccess ownerId (Document.blockchainDocumentId d)
                           (User.email target) (User._id target)
                           (World.blockchain w))) w))
      as (suffix & blockNumber & Esynth).
    rewrite Esynth.
    destruct (grant_writes (Tx.mk ("0xdev_" ++ suffix)%string blockNumber
                                  "0xdev_address")
                (World.afterReadings 2
                   (World.afterLedger call
                      (snd (grantAccess ownerId
                              (Document.blockchainDocumentId d)
                              (User.email target) (User._id target)
                              (World.blockchain w))) w)))
      as (sharedAt & sharedAt' & w' & Eq & Hdocs & _ & _ & _ & Hcalls);
      [reflexivity |].
    rewrite Eq.
    exists suffix, blockNumber, sharedAt, sharedAt', w'.
    split; [reflexivity |]. split; [exact Hdocs |].
    rewrite Hcalls. cbn. now rewrite <- app_assoc.
  - unfold try_catch at 1. unfold bind at 1. unfold try_catch at 1.
    rewrite onLedger_eq, Hthrown, Hmode. unfold throw, ret.
    eexists _, _. split; [reflexivity |]. split; [reflexivity |].
    split; [apply grantFailure_not_ok |].
    split; [| split; [| split; reflexivity]].
    + unfold Sharing.grantFailure.
      destruct (Js.eqs message "Document not found"); [now left |].
      destruct (Js.eqs message "Only document owner can manage sharing");
        [right; now left | right; now right].
    + intros Hn Ho. unfold Sharing.grantFailure.
      apply eqs_false in Hn, Ho. now rewrite Hn, Ho.
Qed.

End GrantNewTarget.

(** Alice grants Bob read access while the production ledger cannot be
    reached: with the blob store unconfigured (development mode) the
    share is stored; with both configured (production mode) nothing is. *)
Lemma grant_ledger_failure_policy_witness :
  (exists suffix blockNumber sharedAt sharedAt' w',
     Sharing.grant Fixture.ledgerOnly "a1" (Some "d1")
                   (Some " Bob@Example.com") None
                   (Fixture.offlineWorld {[ "d1" := Fixture.report ]})
     = (Returned
          (Response.mk 200 "Document shared successfully"
             (Response.Shared "d1" Fixture.bob "read" sharedAt'
                (Tx.mk ("0xdev_" ++ suffix)%string blockNumber
                       "0xdev_address"))),
        w')
     /\ World.documents w'
        = <[ "d1" := Document.set_sharedWith Fixture.report
                       [Share.mk "b2" sharedAt "read"] ]>
            {[ "d1" := Fixture.report ]}
     /\ World.calls w' = [LedgerGrantAccess "a1" "0xd0c" "b2"; DocumentSave "d1"])
  /\ (exists w',
        Sharing.grant Fixture.production "a1" (Some "d1")
                      (Some " Bob@Example.com") None
                      (Fixture.productionWorld {[ "d1" := Fixture.report ]})
        = (Returned (Response.mk 500 "Error sharing document"
                       (Response.Failure None)),
           w')
        /\ World.documents w' = {[ "d1" := Fixture.report ]}
        /\ World.calls w' = [LedgerGrantAccess "a1" "0xd0c" "b2"]).
Proof.
  split.
  - destruct (grant_ledger_failure_policy Fixture.ledgerOnly "a1" "d1"
                " Bob@Example.com" None
                (Fixture.offlineWorld {[ "d1" := Fixture.report ]})
                Fixture.report Fixture.bob
                ltac:(repeat split; reflexivity)
                ltac:(repeat split; try reflexivity; discriminate)
                ltac:(repeat split; try reflexivity; discriminate)
                ltac:(reflexivity)
                "Blockchain service not connected" eq_refl)
      as [Hdev _].
    exact (Hdev eq_refl).
  - destruct (grant_ledger_failure_policy Fixture.production "a1" "d1"
                " Bob@Example.com" None
                (Fixture.productionWorld {[ "d1" := Fixture.report ]})
                Fixture.report Fixture.bob
                ltac:(repeat split; reflexivity)
                ltac:(repeat split; try reflexivity; discriminate)
                ltac:(repeat split; try reflexivity; discriminate)
                ltac:(reflexivity)
                "Blockchain service not connected" eq_refl)
      as [_ Hprod].
    destruct (Hprod eq_refl) as (r & w' & E & _ & _ & _ & Hr & Hd & Hc).
    exists w'. rewrite E, (Hr ltac:(discriminate) ltac:(discriminate)).
    split; [reflexivity |]. split; assumption.
Defined.

(** ** Granting to a user who is already in the list *)


Lemma find_app_new userId (l : list Share.t) entry :
  find (Document.isShareOf userId) l = None ->
  Share.user entry = userId ->
  find (Document.isShareOf userId) (l ++ [entry]) = Some entry.
Proof.
  intros Hn Hu. induction l as [|share rest IH]; cbn in *.
  - apply isShareOf_true in Hu. now rewrite Hu.
  - destruct (Document.isShareOf userId share); [discriminate |]. now apply IH.
Qed.


Section GrantExistingTarget.
Context {L B : Type} `{BlockchainService L}.
Variable env : ServiceConfig.ProcessEnv.
Variables ownerId documentId userEmail : string.
Variable permissions : option string.
Variable w : World.t L B.
Variable d : Document.t.
Variable target : User.t.
Variable existing : Share.t.

Hypothesis Howns : Situation.owns w ownerId documentId d.
Hypothesis Hform : Situation.wellFormed documentId userEmail permissions.
Hypothesis Htarget : Situation.resolves w ownerId userEmail target.
Hypothesis Hexisting :
  find (Document.isShareOf (User._id target)) (Document.sharedWith d)
  = Some existing.




End GrantExistingTarget.

Section GrantTwice.
Context {L B : Type} `{BlockchainService L}.
Variable env : ServiceConfig.ProcessEnv.
Variables ownerId documentId userEmail : string.
Variable permissions : option string.
Variable w : World.t L B.
Variable d : Document.t.
Variable target : User.t.

Hypothesis Howns : Situation.owns w ownerId documentId d.
Hypothesis Hform : Situation.wellFormed documentId userEmail permissions.
Hypothesis Htarget : Situation.resolves w ownerId userEmail target.



End GrantTwice.


(** ** Revoking *)

Lemma filter_drops_some {A} (P : A -> bool) (l : list A) :
  existsb P l = true ->
  (length (List.filter (fun x => negb (P x)) l) < length l)%nat.
Proof.
  induction l as [|x l IH]; cbn; [discriminate |].
  destruct (P x) eqn:E; cbn.
  - intros _. pose proof (filter_length_le (fun x => negb (P x)) l). lia.
  - intros Hl. apply IH in Hl. lia.
Qed.

(** [unshareWith] for a user in the list: it reports success and no
    entry of that user is left. *)
Lemma unshareWith_removes d userId :
  existsb (Document.isShareOf userId) (Document.sharedWith d) = true ->
  Document.unshareWith d userId
  = (true,
     Document.set_sharedWith d
       (List.filter (fun share => negb (Document.isShareOf userId share))
                    (Document.sharedWith d))).
Proof.
  intros Hin. unfold Document.unshareWith. f_equal.
  apply Nat.ltb_lt. now apply filter_drops_some.
Qed.

Lemma unshared_absent userId (l : list Share.t) :
  ~ In userId
       (map Share.user
            (List.filter (fun share => negb (Document.isShareOf userId share)) l)).
Proof.
  rewrite in_map_iff. intros (share & Hu & Hin).
  apply filter_In in Hin as [_ Hn].
  apply isShareOf_true in Hu. now rewrite Hu in Hn.
Qed.

Lemma revokeFailure_not_ok env message :
  Response.status (Sharing.revokeFailure env message) <> 200%nat.
Proof.
  unfold Sharing.revokeFailure.
  repeat (match goal with |- context [if ?c then _ else _] => destruct c end);
    cbn; discriminate.
Qed.

Section Revoke.
Context {L B : Type} `{BlockchainService L}.
Variable env : ServiceConfig.ProcessEnv.
Implicit Type w : World.t L B.

(** The handler up to the membership test, for a well-formed request
    of the owner naming an existing user. *)
Lemma revoke_reaches_membership w ownerId documentId userId d targetUser :
  Situation.owns w ownerId documentId d ->
  documentId <> "" -> userId <> "" ->
  find (fun u => Js.eqs (User._id u) userId) (World.users w)
  = Some targetUser ->
  Sharing.revoke env ownerId (Some documentId) (Some userId) w
  = try_catch
      (if negb (existsb (Document.isShareOf userId) (Document.sharedWith d))
       then ret (Response.json 400 "Document is not shared with this user")
       else
         blockchainResult <-
           World.onLedger
             (LedgerRevokeAccess ownerId (Document.blockchainDocumentId d)
                                 userId)
             (revokeAccess ownerId (Document.blockchainDocumentId d) userId) ;;
         let '(revokeSuccess, document) :=
           Document.unshareWith (Document.deselect d) userId in
         if negb revokeSuccess
         then ret (Response.json 400 "Failed to revoke document access")
         else
           World.saveDocument documentId document ;;;
           revokedAt <- World.newDate ;;
           ret (Response.mk 200 "Document access revoked successfully"
                  (Response.Revoked documentId targetUser revokedAt
                     blockchainResult)))
      (fun message => ret (Sharing.revokeFailure env message))
      w.
Proof.
  intros Howns Hid Huid Hfind. unfold Sharing.revoke.
  apply eqs_false in Hid, Huid. rewrite Hid, Huid. cbn [orb].
  unfold try_catch at 1. unfold try_catch at 1.
  rewrite (bind_returned _ _ _ _ _
             (validateDocumentOwnership_passes w ownerId documentId d Howns)).
  unfold bind at 1. unfold World.findUserById at 1.
  unfold bind at 1, get at 1, ret at 1. rewrite Hfind.
  reflexivity.
Qed.

(** A revoke answered 200 named a user who was in the list. *)
Lemma revoke_ok_was_shared w ownerId documentId userId r w' :
  Sharing.revoke env ownerId documentId userId w = (Returned r, w') ->
  Response.status r = 200%nat ->
  exists id uid d,
    documentId = Some id /\ userId = Some uid
    /\ World.documents w !! id = Some d
    /\ In uid (map Share.user (Document.sharedWith d)).
Proof.
  intros Hrun Hok. unfold Sharing.revoke in Hrun.
  destruct documentId as [id|], userId as [uid|];
    try (cbv beta iota delta [try_catch ret] in Hrun;
         injection Hrun as <- <-; discriminate Hok).
  destruct (Js.eqs id "" || Js.eqs uid "")%bool;
    [cbv beta iota delta [try_catch ret] in Hrun;
     injection Hrun as <- <-; discriminate Hok |].
  unfold try_catch at 1 in Hrun. unfold bind at 1 in Hrun.
  unfold Sharing.validateDocumentOwnership in Hrun.
  rewrite (bind_returned _ _ _ _ _ (findDocumentById_eq id w)) in Hrun.
  match type of Hrun with
  | context [fmap _ ?stored] => destruct stored as [d|] eqn:Hd
  end; cbn [fmap option_fmap option_map] in Hrun.
  2:{ cbv beta iota delta [throw ret] in Hrun. injection Hrun as <- <-.
      now apply revokeFailure_not_ok in Hok. }
  exists id, uid, d. do 2 (split; [reflexivity |]). split; [exact Hd |].
  destruct (negb (Document.isActive (Document.deselect d)));
    [cbv beta iota delta [throw ret] in Hrun; injection Hrun as <- <-;
     now apply revokeFailure_not_ok in Hok |].
  destruct (negb (Js.eqs (Document.owner (Document.deselect d)) ownerId));
    [cbv beta iota delta [throw ret] in Hrun; injection Hrun as <- <-;
     now apply revokeFailure_not_ok in Hok |].
  unfold ret at 1 in Hrun.
  unfold bind at 1, World.findUserById at 1 in Hrun.
  unfold bind at 1, get at 1, ret at 1 in Hrun.
  destruct (find _ (World.users w)) as [targetUser|];
    [| cbv beta iota delta [ret] in Hrun; injection Hrun as <- <-;
       discriminate Hok].
  change (Document.sharedWith (Document.deselect d))
    with (Document.sharedWith d) in Hrun.
  destruct (existsb (Document.isShareOf uid) (Document.sharedWith d)) eqn:Hin.
  - now apply shared_iff.
  - cbn [negb] in Hrun. cbv beta iota delta [ret] in Hrun.
    injection Hrun as <- <-. discriminate Hok.
Qed.

(** Saving a loaded document whose shared-with list was filtered. *)
Lemma revoke_with_ledger w ownerId documentId userId d targetUser :
  Situation.owns w ownerId documentId d ->
  documentId <> "" -> userId <> "" ->
  find (fun u => Js.eqs (User._id u) userId) (World.users w)
  = Some targetUser ->
  existsb (Document.isShareOf userId) (Document.sharedWith d) = true ->
  let call :=
    LedgerRevokeAccess ownerId (Document.blockchainDocumentId d) userId in
  let ledger :=
    revokeAccess ownerId (Document.blockchainDocumentId d) userId
                 (World.blockchain w) in
  let kept :=
    List.filter (fun share => negb (Document.isShareOf userId share))
                (Document.sharedWith d) in
  (forall message,
     fst ledger = Thrown message ->
     Sharing.revoke env ownerId (Some documentId) (Some userId) w
     = (Returned (Sharing.revokeFailure env message),
        World.afterLedger call (snd ledger) w))
  /\ (forall tx,
        fst ledger = Returned tx ->
        Sharing.revoke env ownerId (Some documentId) (Some userId) w
        = (Returned
             (Response.mk 200 "Document access revoked successfully"
                (Response.Revoked documentId targetUser
                   (World.dateAt 0 w) tx)),
           World.afterReadings 1
             (World.afterSave documentId (Document.set_sharedWith d kept)
                (World.afterLedger call (snd ledger) w)))).
Proof.
  intros Howns Hid Huid Hfind Hin call ledger kept.
  rewrite (revoke_reaches_membership w ownerId documentId userId d targetUser
             Howns Hid Huid Hfind).
  rewrite Hin. cbn [negb]. subst call ledger kept.
  split.
  - intros message Hthrown. unfold try_catch, bind at 1.
    rewrite onLedger_eq, Hthrown. reflexivity.
  - intros tx Hreturned. unfold try_catch, bind at 1.
    rewrite onLedger_eq, Hreturned.
    rewrite unshareWith_removes by exact Hin. cbn [negb].
    rewrite (bind_returned _ _ _ _ _ (saveDocument_eq _ _ _)).
    rewrite (bind_returned _ _ _ _ _ (newDate_eq _)).
    unfold ret. f_equal. cbn [World.afterLedger World.documents].
    change (Document.sharedWith (Document.deselect d))
      with (Document.sharedWith d).
    destruct Howns as (Hd & _).
    now rewrite (stored_sharedWith _ _ _ _ Hd).
Qed.

(** C4.  (1) A revoke that is answered 200 named a user who was in
    the document's shared-with list; a well-formed revoke of the owner
    naming an existing user who is not in the list is answered 400 and
    leaves the world untouched.  (2) For a user who is in the list the
    ledger's [revokeAccess] is called, whatever the mode ([env] is
    arbitrary).  If it throws, the handler answers with the error
    response of its catch clause, the Document collection is as it
    was and no save was issued.  If it returns, the user's entries
    are removed from the list, the document is saved after the ledger
    call, and the answer is 200. *)
Theorem revoke_ledger_then_record :
  (forall w ownerId documentId userId r w',
     Sharing.revoke env ownerId documentId userId w = (Returned r, w') ->
     Response.status r = 200%nat ->
     exists id uid d,
       documentId = Some id /\ userId = Some uid
       /\ World.documents w !! id = Some d
       /\ In uid (map Share.user (Document.sharedWith d)))
  /\ (forall w ownerId documentId userId d targetUser,
        Situation.owns w ownerId documentId d ->
        documentId <> "" -> userId <> "" ->
        find (fun u => Js.eqs (User._id u) userId) (World.users w)
        = Some targetUser ->
        let call :=
          LedgerRevokeAccess ownerId (Document.blockchainDocumentId d)
                             userId in
        let ledger :=
          revokeAccess ownerId (Document.blockchainDocumentId d) userId
                       (World.blockchain w) in
        let kept :=
          List.filter (fun share => negb (Document.isShareOf userId share))
                      (Document.sharedWith d) in
        (~ In userId (map Share.user (Document.sharedWith d)) ->
         Sharing.revoke env ownerId (Some documentId) (Some userId) w
         = (Returned (Response.json 400
                        "Document is not shared with this user"),
            w))
        /\ (In userId (map Share.user (Document.sharedWith d)) ->
            (forall message,
               fst ledger = Thrown message ->
               exists w',
                 Sharing.revoke env ownerId (Some documentId) (Some userId) w
                 = (Returned (Sharing.revokeFailure env message), w')
                 /\ Response.status (Sharing.revokeFailure env message)
                    <> 200%nat
                 /\ World.documents w' = World.documents w
                 /\ World.calls w' = World.calls w ++ [call])
            /\ (forall tx,
                  fst ledger = Returned tx ->
                  exists revokedAt w',
                    Sharing.revoke env ownerId (Some documentId)
                                   (Some userId) w
                    = (Returned
                         (Response.mk 200
                            "Document access revoked successfully"
                            (Response.Revoked documentId targetUser
                               revokedAt tx)),
                       w')
                    /\ World.documents w'
                       = <[documentId := Document.set_sharedWith d kept]>
                           (World.documents w)
                    /\ ~ In userId (map Share.user kept)
                    /\ World.calls w'
                       = World.calls w ++ [call; DocumentSave documentId]))).
Proof.
  split.
  - intros w ownerId documentId userId r w'. apply revoke_ok_was_shared.
  - intros w ownerId documentId userId d targetUser Howns Hid Huid Hfind
           call ledger kept.
    split.
    + intros Hout.
      rewrite (revoke_reaches_membership w ownerId documentId userId d
                 targetUser Howns Hid Huid Hfind).
      destruct (existsb (Document.isShareOf userId) (Document.sharedWith d))
        eqn:Hin; [now apply shared_iff in Hin | reflexivity].
    + intros Hin. apply shared_iff in Hin.
      destruct (revoke_with_ledger w ownerId documentId userId d targetUser
                  Howns Hid Huid Hfind Hin) as [Hthrow Hreturn].
      split.
      * intros message Hthrown. eexists. split; [now apply Hthrow |].
        split; [apply revokeFailure_not_ok |]. split; reflexivity.
      * intros tx Hreturned. eexists _, _.
        split; [now apply Hreturn |]. split; [reflexivity |].
        split; [apply unshared_absent |].
        cbn. now rewrite <- app_assoc.
Qed.

End Revoke.

(** Alice revokes Bob's access to the shared report while the ledger is
    unreachable, in development mode (only the ledger is configured):
    an error, and the record still lists Bob. *)
Lemma revoke_ledger_then_record_witness :
  exists w',
    Sharing.revoke Fixture.ledgerOnly "a1" (Some "d1") (Some "b2")
                   (Fixture.offlineWorld {[ "d1" := Fixture.sharedReport ]})
    = (Returned (Sharing.revokeFailure Fixture.ledgerOnly
                   "Blockchain service not connected"),
       w')
    /\ Response.status (Sharing.revokeFailure Fixture.ledgerOnly
                          "Blockchain service not connected")
       <> 200%nat
    /\ World.documents w' = {[ "d1" := Fixture.sharedReport ]}
    /\ World.calls w' = [LedgerRevokeAccess "a1" "0xd0c" "b2"].
Proof.
  destruct (@revoke_ledger_then_record OfflineBlockchainService.t
              DevIPFSService.t _ Fixture.ledgerOnly) as [_ Hrevoke].
  destruct (Hrevoke (Fixture.offlineWorld {[ "d1" := Fixture.sharedReport ]})
              "a1" "d1" "b2" Fixture.sharedReport Fixture.bob
              ltac:(repeat split; reflexivity)
              ltac:(discriminate) ltac:(discriminate) eq_refl)
    as [_ Hshared].
  destruct (Hshared ltac:(cbn; auto)) as [Hthrown _].
  exact (Hthrown "Blockchain service not connected" eq_refl).
Defined.

(** ** Batch grant *)

Lemma shareWith_returns d userId permissions a :
  exists success d' a',
    Document.shareWith d userId permissions a = (Returned (success, d'), a').
Proof.
  unfold Document.shareWith.
  destruct (Js.eqs (Document.owner d) userId); [unfold ret; eauto |].
  destruct (find _ _) as [existingShare|].
  - destruct (negb _); unfold Ambient.now, Ambient.read; run; eauto.
  - unfold Ambient.now, Ambient.read; run; eauto.
Qed.

Lemma validUsersOf_deselect ownerId d targetUsers :
  Sharing.validUsersOf ownerId (Document.deselect d) targetUsers
  = Sharing.validUsersOf ownerId d targetUsers.
Proof. reflexivity. Qed.

(** An e-mail is reported as not found exactly when it was asked for and
    no active user carries it. *)
Lemma notFound_iff (userEmails : list string) (all : list User.t) email :
  In email
     (Sharing.notFoundEmailsOf userEmails
        (World.activeWithEmail (Sharing.normalizeEmails userEmails) all))
  <-> In email (Sharing.normalizeEmails userEmails)
      /\ ~ exists u, In u all /\ User.isActive u = true /\ User.email u = email.
Proof.
  unfold Sharing.notFoundEmailsOf, World.activeWithEmail.
  rewrite filter_In. split.
  - intros [Hin Hnot]. split; [assumption |].
    intros (u & Hu & Ha & He).
    apply negb_true_iff in Hnot.
    assert (Js.includes
              (map User.email
                 (List.filter
                    (fun u => (Js.includes (Sharing.normalizeEmails userEmails)
                                           (User.email u)
                               && User.isActive u)%bool) all))
              email = true) as Hyes; [| congruence].
    apply includes_In, in_map_iff. exists u. split; [assumption |].
    apply filter_In. split; [assumption |].
    rewrite Ha, andb_true_r. apply includes_In. now rewrite He.
  - intros [Hin Hnone]. split; [assumption |].
    apply negb_true_iff.
    destruct (Js.includes _ email) eqn:E; [| reflexivity].
    exfalso. apply Hnone.
    apply includes_In, in_map_iff in E as (u & He & Hu).
    apply filter_In in Hu as [Hu Hc].
    apply andb_true_iff in Hc as [_ Ha]. eauto.
Qed.

Section BatchGrant.
Context {L B : Type} `{BlockchainService L}.
Variable env : ServiceConfig.ProcessEnv.
Implicit Type w : World.t L B.

(** The loop over the valid users reads the clock and nothing else. *)
Lemma shareEach_frame validUsers permissions : forall document w,
  exists document' results w',
    Sharing.shareEach validUsers permissions document w
    = (Returned (document', results), w')
    /\ World.documents w' = World.documents w
    /\ World.users w' = World.users w
    /\ World.blockchain w' = World.blockchain w
    /\ World.ipfs w' = World.ipfs w
    /\ World.calls w' = World.calls w.
Proof.
  induction validUsers as [|user rest IH]; intros document w.
  - cbn. unfold ret. eexists _, _, _. repeat split.
  - cbn [Sharing.shareEach].
    destruct (shareWith_returns document (User._id user) permissions
                (World.clock w)) as (success & d' & a' & E).
    unfold bind at 1. unfold World.withClock at 1. rewrite E.
    destruct success.
    + rewrite (bind_returned _ _ _ _ _ (newDate_eq _)).
      match goal with
      | |- context [bind (Sharing.shareEach rest permissions d') _ ?w1] =>
          destruct (IH d' w1)
            as (d2 & results & w2 & E2 & Hd & Hu & Hb & Hi & Hc)
      end.
      rewrite (bind_returned _ _ _ _ _ E2). unfold ret.
      eexists _, _, _. split; [reflexivity |].
      rewrite Hd, Hu, Hb, Hi, Hc. repeat split.
    + match goal with
      | |- context [Sharing.shareEach rest permissions d' ?w1] =>
          destruct (IH d' w1)
            as (d2 & results & w2 & E2 & Hd & Hu & Hb & Hi & Hc)
      end.
      rewrite E2. eexists _, _, _. split; [reflexivity |].
      rewrite Hd, Hu, Hb, Hi, Hc. repeat split.
Qed.

(** More than 50 e-mails: refused before anything is looked up. *)
Lemma batchGrant_too_many w ownerId documentId userEmails permissions :
  (50 < length userEmails)%nat ->
  exists r,
    Sharing.batchGrant env ownerId documentId (Some userEmails) permissions w
    = (Returned r, w)
    /\ Response.status r = 400%nat
    /\ (forall id, documentId = Some id -> id <> "" ->
        r = Response.json 400 "Cannot share with more than 50 users at once").
Proof.
  intros Hlen. unfold Sharing.batchGrant.
  destruct documentId as [id|].
  2:{ eexists. split; [reflexivity |]. split; [reflexivity |]. discriminate. }
  destruct (Js.eqs id "") eqn:Eid; cbn [orb].
  - eexists. split; [reflexivity |]. split; [reflexivity |].
    intros ? [= <-] Hne. now apply eqs_true in Eid.
  - assert (Nat.eqb (length userEmails) 0 = false) as ->
      by (apply Nat.eqb_neq; lia).
    assert (Nat.ltb 50 (length userEmails) = true) as ->
      by (now apply Nat.ltb_lt).
    eexists. split; [reflexivity |]. split; [reflexivity |]. reflexivity.
Qed.

(** The handler up to the two emptiness tests. *)
Lemma batchGrant_reaches_filter w ownerId documentId userEmails permissions d :
  Situation.owns w ownerId documentId d ->
  documentId <> "" ->
  userEmails <> [] -> (length userEmails <= 50)%nat ->
  Sharing.validPermissions (Sharing.orRead permissions) = true ->
  let targetUsers :=
    World.activeWithEmail (Sharing.normalizeEmails userEmails)
                          (World.users w) in
  let validUsers := Sharing.validUsersOf ownerId d targetUsers in
  Sharing.batchGrant env ownerId (Some documentId) (Some userEmails)
                     permissions w
  = try_catch
      (if Nat.eqb (length targetUsers) 0
       then ret (Response.json 404 "No valid users found")
       else if Nat.eqb (length validUsers) 0
       then ret (Response.json 400
              "No new users to share with (already shared or includes owner)")
       else
         blockchainResult <-
           World.onLedger
             (LedgerBatchGrant ownerId (Document.blockchainDocumentId d)
                               (map User._id validUsers))
             (batchGrantAccess ownerId (Document.blockchainDocumentId d)
                               (map User._id validUsers)) ;;
         shared <- Sharing.shareEach validUsers (Sharing.orRead permissions)
                                     (Document.deselect d) ;;
         let '(document, results) := shared in
         World.saveDocument documentId document ;;;
         ret (Response.mk 200
                ("Document shared with "
                 ++ Encoding.decimal (Z.of_nat (length results))
                 ++ " users successfully")%string
                (Response.BatchShared results
                   (Sharing.notFoundEmailsOf userEmails targetUsers)
                   (length userEmails) (length results) blockchainResult)))
      (fun message => ret (Sharing.batchGrantFailure env message))
      w.
Proof.
  intros Howns Hid Hne Hlen Hperm targetUsers validUsers.
  unfold Sharing.batchGrant.
  apply eqs_false in Hid. rewrite Hid, Hperm. cbn [orb negb].
  assert (Nat.eqb (length userEmails) 0 = false) as ->.
  { apply Nat.eqb_neq. destruct userEmails; [congruence | cbn; lia]. }
  assert (Nat.ltb 50 (length userEmails) = false) as ->
    by (apply Nat.ltb_ge; lia).
  unfold try_catch at 1. unfold try_catch at 1.
  rewrite (bind_returned _ _ _ _ _
             (validateDocumentOwnership_passes w ownerId documentId d Howns)).
  unfold bind at 1. unfold World.findActiveUsersByEmails at 1.
  unfold bind at 1, get at 1, ret at 1.
  fold targetUsers. rewrite validUsersOf_deselect. fold validUsers.
  reflexivity.
Qed.

(** C6 (amended).  (1) A batch grant with more than 50 e-mails is
    answered 400 and leaves the world, the log of calls included, as
    it was.  (2) For a well-formed batch grant of the owner: the
    e-mails resolve to the active users carrying one of them
    (normalized), and the targets that remain are the resolved users
    other than the owner who are not in the shared-with list yet.
    When no target remains the request is refused and the world is as
    it was (no ledger call): with 404 [No valid users found] when no
    e-mail resolved to an active user, with 400
    [No new users to share with ...] when some did.  When targets
    remain, exactly one ledger call is issued, a [batchGrantAccess]
    over all of them; if it throws this is the only call, the
    collection is as it was and the answer is that of the catch
    clause, not a 200; if it returns the only other call is the save
    that follows it, and the answer lists the not-found e-mails.
    (3) An e-mail is in that list exactly when it was asked for
    (normalized) and no active user carries it. *)
Theorem batch_grant_gating :
  (forall w ownerId documentId userEmails permissions,
     (50 < length userEmails)%nat ->
     exists r,
       Sharing.batchGrant env ownerId documentId (Some userEmails)
                          permissions w
       = (Returned r, w)
       /\ Response.status r = 400%nat
       /\ (forall id, documentId = Some id -> id <> "" ->
           r = Response.json 400
                 "Cannot share with more than 50 users at once"))
  /\ (forall w ownerId documentId userEmails permissions d,
        Situation.owns w ownerId documentId d ->
        documentId <> "" ->
        userEmails <> [] -> (length userEmails <= 50)%nat ->
        Sharing.validPermissions (Sharing.orRead permissions) = true ->
        let resolved :=
          World.activeWithEmail (Sharing.normalizeEmails userEmails)
                                (World.users w) in
        let remaining := Sharing.validUsersOf ownerId d resolved in
        let call :=
          LedgerBatchGrant ownerId (Document.blockchainDocumentId d)
                           (map User._id remaining) in
        let ledger :=
          batchGrantAccess ownerId (Document.blockchainDocumentId d)
                           (map User._id remaining) (World.blockchain w) in
        (forall u,
           In u resolved
           <-> In u (World.users w) /\ User.isActive u = true
               /\ In (User.email u) (Sharing.normalizeEmails userEmails))
        /\ (forall u,
              In u remaining
              <-> In u resolved /\ User._id u <> ownerId
                  /\ ~ In (User._id u)
                         (map Share.user (Document.sharedWith d)))
        /\ (remaining = [] ->
         Sharing.batchGrant env ownerId (Some documentId) (Some userEmails)
                            permissions w
         = (Returned
              (match resolved with
               | [] => Response.json 404 "No valid users found"
               | _ :: _ =>
                   Response.json 400
              "No new users to share with (already shared or includes owner)"
               end),
            w))
        /\ (remaining <> [] ->
            (forall message,
               fst ledger = Thrown message ->
               exists r w',
                 Sharing.batchGrant env ownerId (Some documentId)
                                    (Some userEmails) permissions w
                 = (Returned r, w')
                 /\ r = Sharing.batchGrantFailure env message
                 /\ Response.status r <> 200%nat
                 /\ (r = Response.json 404 "Document not found"
                     \/ r = Response.json 403
                              "Only document owner can share documents"
                     \/ r = Response.mk 500
                              "Error sharing document with multiple users"
                              (Response.Failure
                                 (ServiceConfig.errorDetail env message)))
                 /\ World.documents w' = World.documents w
                 /\ World.calls w' = World.calls w ++ [call])
            /\ (forall tx,
                  fst ledger = Returned tx ->
                  exists results message w',
                    Sharing.batchGrant env ownerId (Some documentId)
                                       (Some userEmails) permissions w
                    = (Returned
                         (Response.mk 200 message
                            (Response.BatchShared results
                               (Sharing.notFoundEmailsOf userEmails resolved)
                               (length userEmails) (length results) tx)),
                       w')
                    /\ World.calls w'
                       = World.calls w ++ [call; DocumentSave documentId])))
  /\ (forall (userEmails : list string) (all : list User.t) email,
        In email
           (Sharing.notFoundEmailsOf userEmails
              (World.activeWithEmail (Sharing.normalizeEmails userEmails)
                                     all))
        <-> In email (Sharing.normalizeEmails userEmails)
            /\ ~ exists u,
                   In u all /\ User.isActive u = true
                   /\ User.email u = email).
Proof.
  split; [| split].
  - intros w ownerId documentId userEmails permissions.
    apply batchGrant_too_many.
  - intros w ownerId documentId userEmails permissions d
           Howns Hid Hne Hlen Hperm resolved remaining call ledger.
    pose proof (batchGrant_reaches_filter w ownerId documentId userEmails
                  permissions d Howns Hid Hne Hlen Hperm) as Hrun.
    cbn zeta in Hrun. fold resolved remaining in Hrun.
    split; [| split; [| split]].
    + intros u. subst resolved. unfold World.activeWithEmail.
      rewrite List.filter_In, andb_true_iff, includes_In. tauto.
    + intros u. subst remaining. unfold Sharing.validUsersOf.
      rewrite List.filter_In. unfold Sharing.isNewTarget.
      destruct (Js.eqs (User._id u) ownerId) eqn:Eo.
      * apply eqs_true in Eo. split; [intros [_ [=]] | tauto].
      * apply eqs_false in Eo. rewrite negb_true_iff.
        rewrite <- shared_iff.
        destruct (existsb _ _); split; intros (? & ?);
          repeat split; try assumption; try congruence; tauto.
    + intros Hempty. rewrite Hrun, Hempty.
      destruct resolved; reflexivity.
    + intros Hleft.
      assert (Nat.eqb (length remaining) 0 = false) as Hn.
      { apply Nat.eqb_neq. destruct remaining; [congruence | cbn; lia]. }
      assert (Nat.eqb (length resolved) 0 = false) as Hr.
      { apply Nat.eqb_neq. destruct resolved; [| cbn; lia].
        now contradiction Hleft. }
      rewrite Hrun, Hr, Hn. subst call ledger.
      split.
      * intros message Hthrown. unfold try_catch, bind at 1.
        rewrite onLedger_eq, Hthrown. unfold ret. eexists _, _.
        split; [reflexivity |]. split; [reflexivity |].
        split; [| split; [| split; reflexivity]].
        -- unfold Sharing.batchGrantFailure.
           repeat (match goal with
                   | |- context [if ?c then _ else _] => destruct c
                   end); cbn; discriminate.
        -- unfold Sharing.batchGrantFailure.
           destruct (Js.eqs message "Document not found"); [now left |].
           destruct (Js.eqs message
                       "Only document owner can manage sharing");
             [right; now left | right; now right].
      * intros tx Hreturned. unfold try_catch, bind at 1.
        rewrite onLedger_eq, Hreturned.
        match goal with
        | |- context [bind (Sharing.shareEach remaining ?p ?doc) _ ?w1] =>
            destruct (shareEach_frame remaining p doc w1)
              as (d' & results & w2 & E2 & Hd & Hu & Hb & Hi & Hc)
        end.
        rewrite (bind_returned _ _ _ _ _ E2).
        rewrite (bind_returned _ _ _ _ _ (saveDocument_eq _ _ _)).
        unfold ret. eexists _, _, _. split; [reflexivity |].
        cbn [World.afterSave World.calls]. rewrite Hc. cbn.
        now rewrite <- app_assoc.
  - intros userEmails all email. apply notFound_iff.
Qed.

End BatchGrant.

(** One e-mail that belongs to nobody: the set of remaining targets is
    empty, and the answer is 404 [No valid users found], not the 400
    of the nothing-to-do case. *)
Lemma batch_grant_unresolved_is_not_found :
  Sharing.validUsersOf "a1" Fixture.report
    (World.activeWithEmail (Sharing.normalizeEmails ["ghost@example.com"])
       (World.users (Fixture.offlineWorld {[ "d1" := Fixture.report ]})))
  = []
  /\ fst (Sharing.batchGrant Fixture.ledgerOnly "a1" (Some "d1")
            (Some ["ghost@example.com"]) None
            (Fixture.offlineWorld {[ "d1" := Fixture.report ]}))
     = Returned (Response.json 404 "No valid users found")
  /\ fst (Sharing.batchGrant Fixture.ledgerOnly "a1" (Some "d1")
            (Some ["ghost@example.com"]) None
            (Fixture.offlineWorld {[ "d1" := Fixture.report ]}))
     <> Returned
          (Response.json 400
             "No new users to share with (already shared or includes owner)").
Proof.
  split; [reflexivity |]. split; [reflexivity |].
  vm_compute. discriminate.
Qed.

(** Alice asks to share the report, which Bob already has, with
    herself, Bob, Carol and an unknown address in one request, while
    the ledger is unreachable: one batched ledger call over Carol
    alone, a 500, and nothing else. *)
Lemma batch_grant_gating_witness :
  exists w',
    Sharing.batchGrant Fixture.production "a1" (Some "d1")
      (Some ["alice@example.com"; "bob@example.com"; "Carol@Example.com ";
             "ghost@example.com"])
      None (Fixture.productionWorld {[ "d1" := Fixture.sharedReport ]})
    = (Returned (Response.mk 500 "Error sharing document with multiple users"
                   (Response.Failure None)),
       w')
    /\ World.documents w' = {[ "d1" := Fixture.sharedReport ]}
    /\ World.calls w' = [LedgerBatchGrant "a1" "0xd0c" ["c3"]].
Proof.
  destruct (@batch_grant_gating OfflineBlockchainService.t
              OfflineIPFSService.t _ Fixture.production) as (_ & Hbatch & _).
  destruct (Hbatch
              (Fixture.productionWorld {[ "d1" := Fixture.sharedReport ]})
              "a1" "d1"
              ["alice@example.com"; "bob@example.com"; "Carol@Example.com ";
               "ghost@example.com"]
              None Fixture.sharedReport
              ltac:(repeat split; reflexivity)
              ltac:(discriminate) ltac:(discriminate)
              ltac:(cbn; lia) eq_refl)
    as (_ & _ & _ & Hleft).
  destruct (Hleft ltac:(discriminate)) as [Hthrown _].
  destruct (Hthrown "Blockchain service not connected" eq_refl)
    as (r & w' & E & Hr & _ & _ & Hd & Hc).
  subst r. exists w'. split; [exact E |]. split; [exact Hd | exact Hc].
Defined.

(** ** Upload *)

Section Upload.
Context {L B : Type} `{BlockchainService L} `{IpfsService B}.
Variable env : ServiceConfig.ProcessEnv.
Implicit Type w : World.t L B.

(** The handler up to the call of the blob adapter. *)
Lemma upload_reaches_ipfs w user file title description encrypt :
  UploadSituation.validTitle title ->
  Documents.upload env user (Some file) (Some title) description encrypt w
  = try_catch
      (ipfsResult <-
         World.onIpfs (IpfsUpload encrypt)
           (uploadFile (UploadedFile.buffer file) encrypt) ;;
       uploadedAt <- World.newDate ;;
       blockchainResult <-
         World.onLedger
           (LedgerAddDocument (User._id user) (Upload.ipfsHash ipfsResult))
           (addDocument (User._id user) (Upload.ipfsHash ipfsResult)
              (UploadSituation.metadataOf file title description uploadedAt)) ;;
       lastAccessedAt <- World.newDate ;;
       let document :=
         UploadSituation.documentOf (User._id user) file title ipfsResult
                                    blockchainResult lastAccessedAt in
       id <- World.createDocument document ;;
       (if negb (Js.truthy (User.walletAddress user))
        then World.saveUser
               (User.set_walletAddress user
                  (AddTx.walletAddress blockchainResult))
        else ret tt) ;;;
       ret (Response.mk 201 "Document uploaded successfully"
              (Response.Uploaded id document blockchainResult)))
      (fun message => ret (Documents.uploadFailure env message))
      w.
Proof.
  intros (Hne & Htrim & Hlen). unfold Documents.upload.
  apply eqs_false in Hne. rewrite Hne. cbn [orb].
  apply Nat.eqb_neq in Htrim. rewrite Htrim.
  assert (Nat.ltb 100 (String.length title) = false) as ->
    by (apply Nat.ltb_ge; lia).
  reflexivity.
Qed.

Lemma createDocument_eq (document : Document.t) w :
  let id := fresh (dom (World.documents w)) in
  let attempted :=
    World.mk (World.documents w) (World.users w) (World.blockchain w)
             (World.ipfs w) (World.clock w)
             (World.calls w ++ [DocumentSave id]) in
  World.createDocument document w
  = match Document.validationErrors document with
    | [] =>
        if World.clashes document (World.documents w)
        then (Thrown "E11000 duplicate key error", attempted)
        else (Returned id, World.afterSave id document w)
    | errors => (Thrown (Document.validationMessage errors), attempted)
    end.
Proof.
  cbn zeta. unfold World.createDocument, World.record. run. cbn.
  destruct (Document.validationErrors document); [| reflexivity].
  destruct (World.clashes document (World.documents w)); reflexivity.
Qed.

(** A [ValidationError] of the schema is answered 500: none of its
    messages reads like a refused file type. *)
Lemma validation_failure_response (document : Document.t) :
  Document.validationErrors document <> [] ->
  Documents.uploadFailure env
    (Document.validationMessage (Document.validationErrors document))
  = Response.mk 500 "Error uploading document"
      (Response.Failure
         (ServiceConfig.errorDetail env
            (Document.validationMessage
               (Document.validationErrors document)))).
Proof.
  intros Hne. unfold Documents.uploadFailure.
  assert (Js.contains
            (Document.validationMessage
               (Document.validationErrors document)) "File type"
          = false) as ->; [| reflexivity].
  unfold Document.validationErrors, Document.required.
  destruct (Js.eqs (Document.title document) "");
    [| destruct (Nat.ltb 100 (String.length (Document.title document)))];
    destruct (Js.eqs (Document.originalName document) ""),
      (Js.eqs (Document.mimeType document) ""),
      (Js.eqs (Document.ipfsHash document) ""),
      (Js.eqs (Document.blockchainDocumentId document) "");
    vm_compute; reflexivity.
Qed.

(** What the catch clause of the upload answers is never the 201 of a
    stored document. *)
Lemma uploadFailure_cases message :
  let r := Documents.uploadFailure env message in
  Response.status r <> 201%nat
  /\ (r = Response.json 400 message
      \/ r = Response.mk 500 "Error uploading document"
               (Response.Failure (ServiceConfig.errorDetail env message))).
Proof.
  cbn zeta. unfold Documents.uploadFailure.
  destruct (_ && _)%bool; cbn; split; auto; discriminate.
Qed.

(** C5.  For an upload with a file and a valid title, in any mode
    ([env] is arbitrary):
    - if the blob adapter's [uploadFile] throws, the request fails:
      the handler answers with the response of its catch clause,
      which is 400 with the thrown message or 500
      [Error uploading document] and never the 201 of a stored
      document, having issued that one call: no ledger call, no
      save, collections and ledger as they were;
    - if it returns and the ledger's [addDocument] throws, the request
      fails in the same way, having issued these two calls in this
      order: no save, the Document collection as it was, and the
      blob adapter exactly as the upload left it (nothing is unpinned
      or deleted);
    - if both return, the third call is the save of the new Document
      (followed at most by the save of the user's wallet address);
      when a validator of the schema refuses the document (a blank
      file name, say) the answer is 500 and the collection is as it
      was; when none does and no unique index refuses the insert, the
      answer is 201 and the Document is stored under a fresh id. *)
Theorem upload_write_order w user file title description encrypt :
  UploadSituation.validTitle title ->
  let blob := uploadFile (UploadedFile.buffer file) encrypt (World.ipfs w) in
  let stored := World.afterIpfs (IpfsUpload encrypt) (snd blob) w in
  let failed message r :=
    r = Documents.uploadFailure env message
    /\ Response.status r <> 201%nat
    /\ (r = Response.json 400 message
        \/ r = Response.mk 500 "Error uploading document"
                 (Response.Failure
                    (ServiceConfig.errorDetail env message))) in
  (forall message,
     fst blob = Thrown message ->
     exists r,
       Documents.upload env user (Some file) (Some title) description
                        encrypt w
       = (Returned r, stored)
       /\ failed message r
       /\ World.calls stored = World.calls w ++ [IpfsUpload encrypt]
       /\ World.documents stored = World.documents w
       /\ World.users stored = World.users w
       /\ World.blockchain stored = World.blockchain w)
  /\ (forall ipfsResult,
        fst blob = Returned ipfsResult ->
        let addCall :=
          LedgerAddDocument (User._id user) (Upload.ipfsHash ipfsResult) in
        let ledger :=
          addDocument (User._id user) (Upload.ipfsHash ipfsResult)
            (UploadSituation.metadataOf file title description
               (World.dateAt 0 w))
            (World.blockchain w) in
        let registered :=
          World.afterLedger addCall (snd ledger)
                            (World.afterReadings 1 stored) in
        (forall message,
           fst ledger = Thrown message ->
           exists r,
             Documents.upload env user (Some file) (Some title) description
                              encrypt w
             = (Returned r, registered)
             /\ failed message r
             /\ World.calls registered
                = World.calls w ++ [IpfsUpload encrypt; addCall]
             /\ World.documents registered = World.documents w
             /\ World.ipfs registered = snd blob)
        /\ (forall tx,
              fst ledger = Returned tx ->
              let id := fresh (dom (World.documents w)) in
              let document :=
                UploadSituation.documentOf (User._id user) file title
                  ipfsResult tx (World.dateAt 1 w) in
              exists r w' later,
                Documents.upload env user (Some file) (Some title)
                                 description encrypt w
                = (Returned r, w')
                /\ World.calls w'
                   = World.calls w
                     ++ [IpfsUpload encrypt; addCall; DocumentSave id]
                     ++ later
                /\ Forall (fun c => c = UserSave (User._id user)) later
                /\ World.ipfs w' = snd blob
                /\ (Document.validationErrors document <> [] ->
                    r = Response.mk 500 "Error uploading document"
                          (Response.Failure
                             (ServiceConfig.errorDetail env
                                (Document.validationMessage
                                   (Document.validationErrors document))))
                    /\ World.documents w' = World.documents w)
                /\ (Document.validationErrors document = [] ->
                    World.clashes document (World.documents w) = false ->
                    r = Response.mk 201 "Document uploaded successfully"
                          (Response.Uploaded id document tx)
                    /\ World.documents w'
                       = <[id := document]> (World.documents w)))).
Proof.
  intros Htitle blob stored failed.
  assert (Hfailed : forall message,
             failed message (Documents.uploadFailure env message)).
  { intros message. subst failed. cbn beta.
    destruct (uploadFailure_cases message) as [Hs Hc].
    split; [reflexivity |]. split; assumption. }
  rewrite (upload_reaches_ipfs w user file title description encrypt Htitle).
  split.
  - intros message Hthrown. unfold try_catch, bind at 1.
    rewrite onIpfs_eq. fold blob. rewrite Hthrown.
    eexists. split; [reflexivity |]. split; [apply Hfailed |].
    repeat split; reflexivity.
  - intros ipfsResult Hreturned addCall ledger registered.
    split.
    + intros message Hthrown. unfold try_catch, bind at 1.
      rewrite onIpfs_eq. fold blob. rewrite Hreturned. fold stored.
      rewrite (bind_returned _ _ _ _ _ (newDate_eq _)).
      unfold bind at 1. rewrite onLedger_eq.
      change (World.dateAt 0 stored) with (World.dateAt 0 w).
      change (World.blockchain (World.afterReadings 1 stored))
        with (World.blockchain w).
      fold ledger. rewrite Hthrown. fold addCall. fold registered.
      eexists. split; [reflexivity |]. split; [apply Hfailed |].
      split; [| split; reflexivity].
      cbn. now rewrite <- app_assoc.
    + intros tx Hledger id document. unfold try_catch, bind at 1.
      rewrite onIpfs_eq. fold blob. rewrite Hreturned. fold stored.
      rewrite (bind_returned _ _ _ _ _ (newDate_eq _)).
      unfold bind at 1. rewrite onLedger_eq.
      change (World.dateAt 0 stored) with (World.dateAt 0 w).
      change (World.blockchain (World.afterReadings 1 stored))
        with (World.blockchain w).
      fold ledger. rewrite Hledger. fold addCall. fold registered.
      rewrite (bind_returned _ _ _ _ _ (newDate_eq _)).
      replace (World.dateAt 0 registered) with (World.dateAt 1 w)
        by (unfold World.dateAt; cbn; do 2 f_equal; lia).
      fold document.
      unfold bind at 1. rewrite createDocument_eq.
      change (World.documents (World.afterReadings 1 registered))
        with (World.documents w).
      fold id.
      destruct (Document.validationErrors document) as [|e errors] eqn:Hv.
      * destruct (World.clashes document (World.documents w)) eqn:Hclash.
        -- unfold ret. eexists _, _, []. split; [reflexivity |].
           split; [subst registered stored addCall; cbn;
                   rewrite ?app_nil_r, <- ?app_assoc; reflexivity |].
           split; [constructor |]. split; [reflexivity |].
           split; [congruence | discriminate].
        -- destruct (negb (Js.truthy (User.walletAddress user)))
             eqn:Hwallet.
           ++ unfold bind, World.saveUser, World.record, modify, ret.
              eexists _, _, [UserSave (User._id user)].
              split; [reflexivity |].
              split; [subst registered stored addCall; cbn;
                      rewrite <- ?app_assoc; reflexivity |].
              split; [repeat constructor |].
              split; [reflexivity |].
              split; [congruence |]. intros _ _. split; reflexivity.
           ++ unfold bind, ret. eexists _, _, []. split; [reflexivity |].
              split; [subst registered stored addCall; cbn;
                      rewrite ?app_nil_r, <- ?app_assoc; reflexivity |].
              split; [constructor |].
              split; [reflexivity |].
              split; [congruence |]. intros _ _. split; reflexivity.
      * unfold ret. eexists _, _, []. split; [reflexivity |].
        split; [subst registered stored addCall; cbn;
                rewrite ?app_nil_r, <- ?app_assoc; reflexivity |].
        split; [constructor |]. split; [reflexivity |].
        split; [| discriminate]. intros _.
        split; [| reflexivity].
        rewrite <- Hv. apply validation_failure_response.
        rewrite Hv. discriminate.
Qed.

End Upload.

(** Alice uploads a one-byte file; the development blob adapter stores
    it, the production ledger cannot be reached.  The request fails
    with 500, no Document is created, and the blob is still in the
    store.  With both development adapters the same file under a blank
    name gets as far as the save, which the schema refuses: 500, and no
    Document either. *)
Lemma upload_write_order_witness :
  (exists w',
      @Documents.upload _ _ _ (@DevIPFSService.service Fixture.crypto)
        Fixture.ledgerOnly Fixture.alice
        (Some (UploadedFile.mk [Byte.x61] "report.pdf" "application/pdf" 1))
        (Some "Report") None false (Fixture.offlineWorld ∅)
      = (Returned (Response.mk 500 "Error uploading document"
                     (Response.Failure
                        (Some "Blockchain service not connected"))),
         w')
      /\ World.calls w' = [IpfsUpload false; LedgerAddDocument "a1" "Qm61"]
      /\ World.documents w' = ∅
      /\ DevIPFSService.storage (World.ipfs w') !! "Qm61" = Some [Byte.x61])
  /\ (exists w',
        @Documents.upload _ _ (@DevBlockchainService.service Fixture.crypto)
          (@DevIPFSService.service Fixture.crypto)
          Fixture.development Fixture.alice
          (Some (UploadedFile.mk [Byte.x61] "   " "application/pdf" 1))
          (Some "Report") None false (Fixture.devWorld ∅)
        = (Returned
             (Response.mk 500 "Error uploading document"
                (Response.Failure
                   (Some ("Document validation failed: "
                          ++ "originalName: Original filename is required"
                         )%string))),
           w')
        /\ World.documents w' = ∅).
Proof.
  split.
  - destruct (@upload_write_order _ _ _
                (@DevIPFSService.service Fixture.crypto)
                Fixture.ledgerOnly (Fixture.offlineWorld ∅) Fixture.alice
                (UploadedFile.mk [Byte.x61] "report.pdf" "application/pdf" 1)
                "Report" None false
                ltac:(repeat split; [discriminate | discriminate | cbn; lia]))
      as [_ Hstored].
    destruct (Hstored (Upload.mk "Qm61" 1 None) eq_refl) as [Hledger _].
    destruct (Hledger "Blockchain service not connected" eq_refl)
      as (r & Hrun & (Hr & _) & Hcalls & Hdocs & Hipfs).
    eexists. split; [rewrite Hrun, Hr; reflexivity |].
    split; [exact Hcalls |]. split; [exact Hdocs |].
    rewrite Hipfs. reflexivity.
  - destruct (@upload_write_order _ _
                (@DevBlockchainService.service Fixture.crypto)
                (@DevIPFSService.service Fixture.crypto)
                Fixture.development (Fixture.devWorld ∅) Fixture.alice
                (UploadedFile.mk [Byte.x61] "   " "application/pdf" 1)
                "Report" None false
                ltac:(repeat split; [discriminate | discriminate | cbn; lia]))
      as [_ Hstored].
    destruct (Hstored (Upload.mk "Qm61" 1 None) eq_refl) as [_ Hsaved].
    edestruct Hsaved as (r & w' & later & Hrun & _ & _ & _ & Hbad & _).
    { vm_compute. reflexivity. }
    destruct Hbad as [Hr Hd]; [vm_compute; discriminate |].
    exists w'. split; [rewrite Hrun, Hr; reflexivity | exact Hd].
Defined.

(** ** Download *)

Section Download.
Context {L B : Type} `{BlockchainService L} `{IpfsService B}.
Variable env : ServiceConfig.ProcessEnv.
Implicit Type w : World.t L B.

(** [validateDocumentAccess] reads; it changes nothing. *)
Lemma validateDocumentAccess_reads w documentId userId :
  snd (Documents.validateDocumentAccess (B := B) documentId userId w) = w.
Proof.
  unfold Documents.validateDocumentAccess.
  rewrite (bind_returned _ _ _ _ _ (findDocumentById_eq documentId w)).
  destruct (Document.deselect <$> World.documents w !! documentId)
    as [document|]; [| reflexivity].
  destruct (negb (Document.isActive document)); [reflexivity |].
  unfold World.findUserById. run.
  destruct (find _ (World.users w)); [| reflexivity].
  destruct (negb (Document.hasAccess document userId)); reflexivity.
Qed.

(** When it returns, it returns the stored document (less its key),
    which is active and accessible to the user. *)
Lemma validateDocumentAccess_passed w documentId userId document :
  fst (Documents.validateDocumentAccess (B := B) documentId userId w)
  = Returned document ->
  exists d,
    World.documents w !! documentId = Some d
    /\ document = Document.deselect d
    /\ Document.isActive d = true
    /\ Document.hasAccess d userId = true.
Proof.
  unfold Documents.validateDocumentAccess.
  rewrite (bind_returned _ _ _ _ _ (findDocumentById_eq documentId w)).
  destruct (World.documents w !! documentId) as [d|] eqn:Hd;
    cbn [fmap option_fmap option_map]; [| discriminate].
  change (Document.isActive (Document.deselect d)) with (Document.isActive d).
  destruct (Document.isActive d) eqn:Ha; cbn [negb]; [| discriminate].
  unfold World.findUserById. run.
  destruct (find _ (World.users w)); [| discriminate].
  rewrite hasAccess_deselect.
  destruct (Document.hasAccess d userId) eqn:Hh; cbn [negb fst];
    [| discriminate].
  intros [= <-]. exists d. repeat split; auto.
Qed.

Variables userId documentId : ObjectId.
Variable w : World.t L B.
Variable d : Document.t.

Hypothesis Hstored : World.documents w !! documentId = Some d.
Hypothesis Hlocal :
  fst (Documents.validateDocumentAccess (B := B) documentId userId w)
  = Returned (Document.deselect d).

Let check : Call :=
  LedgerHasAccess userId (Document.blockchainDocumentId d).
Let ledger : outcome bool * L :=
  hasAccess userId (Document.blockchainDocumentId d) (World.blockchain w).
Let checked : World.t L B := World.afterLedger check (snd ledger) w.

(** The handler up to the ledger check. *)
Lemma download_reaches_ledger :
  Documents.download env userId documentId w
  = try_catch
      (blockchainAccess <-
         World.onLedger check
           (hasAccess userId (Document.blockchainDocumentId d)) ;;
       if (negb blockchainAccess
           && negb (ServiceConfig.isDevelopmentMode env))%bool
       then ret (Response.json 403 "Blockchain access denied")
       else
         fileBuffer <-
           World.onIpfs (IpfsDownload (Document.ipfsHash d))
             (downloadFile (Document.ipfsHash d) None) ;;
         now <- World.newDate ;;
         let document :=
           Document.set_lastAccessedAt
             (Document.set_downloadCount (Document.deselect d)
                (Document.downloadCount d + 1))
             now in
         World.saveDocument documentId document ;;;
         ret (Response.mk 200 ""
                (Response.File (Document.mimeType d) (length fileBuffer)
                   (Document.originalName d) fileBuffer)))
      (fun message => ret (Documents.downloadFailure env message))
      w.
Proof.
  unfold Documents.download.
  pose proof (validateDocumentAccess_reads w documentId userId) as Hsame.
  destruct (Documents.validateDocumentAccess documentId userId w)
    as [result w0] eqn:E.
  cbn [fst snd] in Hlocal, Hsame. subst result w0.
  unfold try_catch at 1. unfold try_catch at 1.
  rewrite (bind_returned _ _ _ _ _ E).
  replace (if (Document.isEncrypted (Document.deselect d)
               && Js.truthy (Document.encryptionKey (Document.deselect d)))%bool
           then Document.encryptionKey (Document.deselect d) else None)
    with (@None string)
    by (cbn; now rewrite andb_false_r).
  reflexivity.
Qed.

(** The rest of the handler, once the ledger check has let it
    through, from world [w1] (same collections and blob adapter as
    [w]). *)
Lemma download_fetches (w1 : World.t L B) :
  World.documents w1 = World.documents w ->
  World.ipfs w1 = World.ipfs w ->
  let fetchCall := IpfsDownload (Document.ipfsHash d) in
  let blob := downloadFile (Document.ipfsHash d) None (World.ipfs w) in
  exists r w',
    try_catch
      (fileBuffer <-
         World.onIpfs fetchCall (downloadFile (Document.ipfsHash d) None) ;;
       now <- World.newDate ;;
       let document :=
         Document.set_lastAccessedAt
           (Document.set_downloadCount (Document.deselect d)
              (Document.downloadCount d + 1))
           now in
       World.saveDocument documentId document ;;;
       ret (Response.mk 200 ""
              (Response.File (Document.mimeType d) (length fileBuffer)
                 (Document.originalName d) fileBuffer)))
      (fun message => ret (Documents.downloadFailure env message))
      w1
    = (Returned r, w')
    /\ (forall message,
          fst blob = Thrown message ->
          r = Documents.downloadFailure env message
          /\ World.documents w' = World.documents w
          /\ World.calls w' = World.calls w1 ++ [fetchCall])
    /\ (forall fileBuffer,
          fst blob = Returned fileBuffer ->
          r = Response.mk 200 ""
                (Response.File (Document.mimeType d) (length fileBuffer)
                   (Document.originalName d) fileBuffer)
          /\ (exists now,
                World.documents w'
                = <[documentId :=
                      Document.set_lastAccessedAt
                        (Document.set_downloadCount d
                           (Document.downloadCount d + 1))
                        now]>
                    (World.documents w))
          /\ World.calls w'
             = World.calls w1 ++ [fetchCall; DocumentSave documentId]).
Proof.
  intros Hdocs Hipfs fetchCall blob.
  unfold try_catch, bind at 1. rewrite onIpfs_eq, Hipfs. fold blob.
  destruct blob as [[fileBuffer|message] b] eqn:Eb; cbn [fst snd].
  - rewrite (bind_returned _ _ _ _ _ (newDate_eq _)).
    rewrite (bind_returned _ _ _ _ _ (saveDocument_eq _ _ _)).
    unfold ret. eexists _, _. split; [reflexivity |].
    split; [discriminate |].
    intros ? [= <-]. split; [reflexivity |]. split.
    + eexists. cbn. rewrite Hdocs. unfold World.stored. rewrite Hstored.
      reflexivity.
    + cbn. now rewrite <- app_assoc.
  - unfold ret. eexists _, _. split; [reflexivity |].
    split; [| discriminate].
    intros ? [= <-]. split; [reflexivity |]. split; [exact Hdocs | reflexivity].
Qed.

(** C3 (amended).  During download, after the local access check has
    passed:
    - when the ledger check answers and either the mode is development
      or the answer is yes, the handler goes on to fetch the blob (a
      negative answer in development mode does not block it), and
      when the blob adapter returns the bytes it answers 200 with them
      and stores the document with its counter incremented;
    - in production mode a negative answer ends the request with 403
      [Blockchain access denied], and a ledger check that throws ends
      it with the error response of the catch clause, which is the
      generic 500 unless the thrown message is one the clause
      recognises; in both cases no blob is fetched and the Document
      collection is as it was. *)
Theorem download_ledger_gate :
  (forall answer,
     fst ledger = Returned answer ->
     ServiceConfig.isDevelopmentMode env = true \/ answer = true ->
     exists r w' later,
       Documents.download env userId documentId w = (Returned r, w')
       /\ World.calls w'
          = World.calls w
            ++ [check; IpfsDownload (Document.ipfsHash d)] ++ later
       /\ (forall fileBuffer,
             fst (downloadFile (Document.ipfsHash d) None (World.ipfs w))
             = Returned fileBuffer ->
             r = Response.mk 200 ""
                   (Response.File (Document.mimeType d) (length fileBuffer)
                      (Document.originalName d) fileBuffer)
             /\ exists now,
                  World.documents w'
                  = <[documentId :=
                        Document.set_lastAccessedAt
                          (Document.set_downloadCount d
                             (Document.downloadCount d + 1))
                          now]>
                      (World.documents w)))
  /\ (ServiceConfig.isDevelopmentMode env = false ->
      (fst ledger = Returned false ->
       Documents.download env userId documentId w
       = (Returned (Response.json 403 "Blockchain access denied"), checked))
      /\ (forall message,
            fst ledger = Thrown message ->
            Documents.download env userId documentId w
            = (Returned (Documents.downloadFailure env message), checked)
            /\ Response.status (Documents.downloadFailure env message)
               <> 200%nat
            /\ (message <> "Document not found" ->
                message <> "Access denied" ->
                Js.contains message "Blockchain access denied" = false ->
                Documents.downloadFailure env message
                = Response.mk 500 "Error downloading document"
                    (Response.Failure
                       (ServiceConfig.errorDetail env message))))
      /\ World.documents checked = World.documents w
      /\ World.calls checked = World.calls w ++ [check]).
Proof.
  split.
  - intros answer Hanswer Hthrough.
    rewrite download_reaches_ledger.
    unfold try_catch at 1. unfold bind at 1. rewrite onLedger_eq.
    fold ledger. rewrite Hanswer. fold checked.
    assert ((negb answer && negb (ServiceConfig.isDevelopmentMode env))%bool
            = false) as ->.
    { destruct Hthrough as [-> | ->]; [apply andb_false_r | reflexivity]. }
    destruct (download_fetches checked eq_refl eq_refl)
      as (r & w' & Erun & Hthrown & Hreturned).
    unfold try_catch in Erun.
    destruct (downloadFile (Document.ipfsHash d) None (World.ipfs w))
      as [[fileBuffer|message] b] eqn:Eblob.
    + destruct (Hreturned fileBuffer eq_refl) as (-> & Hdocs & Hcalls).
      eexists _, w', [DocumentSave documentId].
      split; [exact Erun |]. split.
      * rewrite Hcalls. subst checked. cbn. now rewrite <- app_assoc.
      * intros ? [= <-]. split; [reflexivity | exact Hdocs].
    + destruct (Hthrown message eq_refl) as (-> & Hdocs & Hcalls).
      eexists _, w', []. split; [exact Erun |]. split.
      * rewrite Hcalls. subst checked. cbn. now rewrite <- app_assoc.
      * discriminate.
  - intros Hmode. split; [| split; [| split; reflexivity]].
    + intros Hno. rewrite download_reaches_ledger.
      unfold try_catch at 1. unfold bind at 1. rewrite onLedger_eq.
      fold ledger. rewrite Hno, Hmode. reflexivity.
    + intros message Hthrown. split; [| split].
      * rewrite download_reaches_ledger.
        unfold try_catch at 1. unfold bind at 1. rewrite onLedger_eq.
        fold ledger. rewrite Hthrown. reflexivity.
      * unfold Documents.downloadFailure.
        repeat (match goal with
                | |- context [if ?c then _ else _] => destruct c
                end); cbn; discriminate.
      * intros Hn1 Hn2 Hn3. unfold Documents.downloadFailure.
        apply eqs_false in Hn1, Hn2. now rewrite Hn1, Hn2, Hn3.
Qed.

End Download.

(** The production ledger is out of reach while Alice downloads her own
    report, in production mode: the answer is the generic 500, not an
    access-denied result. *)
Lemma download_ledger_outage_is_not_access_denied :
  ServiceConfig.isDevelopmentMode Fixture.production = false
  /\ fst (Documents.download Fixture.production "a1" "d1"
            (Fixture.productionWorld {[ "d1" := Fixture.report ]}))
     = Returned (Response.mk 500 "Error downloading document"
                   (Response.Failure None))
  /\ fst (Documents.download Fixture.production "a1" "d1"
            (Fixture.productionWorld {[ "d1" := Fixture.report ]}))
     <> Returned (Response.json 403 "Access denied")
  /\ fst (Documents.download Fixture.production "a1" "d1"
            (Fixture.productionWorld {[ "d1" := Fixture.report ]}))
     <> Returned (Response.json 403 "Blockchain access denied").
Proof. repeat split; vm_compute; discriminate. Qed.

(** The same outage with only the ledger configured (development mode):
    the throw reaches the catch clause as well. *)
Lemma download_ledger_outage_in_development :
  ServiceConfig.isDevelopmentMode Fixture.ledgerOnly = true
  /\ ServiceConfig.blockchainBacking Fixture.ledgerOnly
     = ServiceConfig.Production
  /\ fst (@Documents.download _ _ _ (@DevIPFSService.service Fixture.crypto)
            Fixture.ledgerOnly "a1" "d1" AfterRestart.offline)
     = Returned (Response.mk 500 "Error downloading document"
                   (Response.Failure
                      (Some "Blockchain service not connected"))).
Proof. repeat split; vm_compute; reflexivity. Qed.

(** After a restart in development mode the simulated ledger answers no
    for Alice's own report; the download goes through all the same. *)
Lemma download_ledger_gate_witness :
  exists r w' later,
    @Documents.download _ _ (@DevBlockchainService.service Fixture.crypto)
      (@DevIPFSService.service Fixture.crypto)
      Fixture.development "a1" "d1" AfterRestart.world
    = (Returned r, w')
    /\ World.calls w'
       = [LedgerHasAccess "a1" "0xd0c"; IpfsDownload "Qmabc"] ++ later
    /\ (forall fileBuffer,
          fst (@DevIPFSService.downloadFile Fixture.crypto "Qmabc" None
                 AfterRestart.ipfs)
          = Returned fileBuffer ->
          r = Response.mk 200 ""
                (Response.File "application/pdf" (length fileBuffer)
                   "report.pdf" fileBuffer)
          /\ exists now,
               World.documents w'
               = <[ "d1" :=
                      Document.set_lastAccessedAt
                        (Document.set_downloadCount Fixture.report 1) now ]>
                   {[ "d1" := Fixture.report ]}).
Proof.
  destruct (@download_ledger_gate _ _
              (@DevBlockchainService.service Fixture.crypto)
              (@DevIPFSService.service Fixture.crypto)
              Fixture.development "a1" "d1" AfterRestart.world Fixture.report
              eq_refl eq_refl)
    as [Hthrough _].
  exact (Hthrough false eq_refl (or_introl eq_refl)).
Defined.

(** ** Delete, and what follows it *)

(** Runs a handler symbolically: unfolds the monad and the accessors of
    the world, then splits on every test the handler makes. *)
Ltac unfold_world :=
  repeat (progress
            (unfold bind, ret, throw, get, modify, try_catch,
               World.findDocumentById, World.findUserById,
               World.findActiveUserByEmail, World.findActiveUsersByEmails,
               World.saveDocument, World.saveUser, World.createDocument,
               World.record, World.onLedger, World.onIpfs,
               World.newDate, World.mathRandom, World.withClock,
               Sharing.validateDocumentOwnership, Sharing.synthesizedGrant,
               Documents.validateDocumentAccess,
               Ambient.now, Ambient.read;
             cbn beta iota;
             cbn [World.documents World.users World.blockchain World.ipfs
                  World.clock World.calls fst snd])).

Ltac split_tests :=
  repeat (match goal with
          | |- context [match ?x with _ => _ end] =>
              match x with
              | context [match _ with _ => _ end] => fail 1
              | _ => destruct x eqn:?
              end
          end;
          cbn [World.documents World.users World.blockchain World.ipfs
               World.clock World.calls fst snd fmap option_fmap option_map]).

(** The document a handler saves was loaded as active, so it is not the
    inactive one under [id]. *)
Ltac other_document :=
  match goal with
  | Hd : World.documents ?w !! ?id = Some ?d,
    Hi : Document.isActive ?d = false,
    Hl : Document.deselect <$> World.documents ?w !! ?documentId = Some ?t,
    Ha : negb (Document.isActive ?t) = false |- _ =>
      let E := fresh "E" in
      destruct (decide (documentId = id)) as [E|E];
      [ exfalso; subst; rewrite Hd in Hl; cbn in Hl; injection Hl as <-;
        cbn in Ha; rewrite Hi in Ha; discriminate
      | rewrite lookup_insert_ne by exact E; assumption ]
  end.

Section Inactive.
Context {L B : Type} `{BlockchainService L} `{IpfsService B}.
Variable env : ServiceConfig.ProcessEnv.
Implicit Type w : World.t L B.

Variable id : ObjectId.
Variable d : Document.t.
Hypothesis Hi : Document.isActive d = false.

Lemma delete_keeps w userId documentId :
  World.documents w !! id = Some d ->
  World.documents (snd (Documents.delete userId documentId w)) !! id
  = Some d.
Proof.
  intros Hd. unfold Documents.delete. unfold_world. split_tests.
  all: first [assumption | other_document].
Qed.

Lemma fetch_keeps w userId documentId :
  World.documents w !! id = Some d ->
  World.documents (snd (Documents.fetch userId documentId w)) !! id
  = Some d.
Proof.
  intros Hd. unfold Documents.fetch. unfold_world. split_tests.
  all: first [assumption | other_document].
Qed.

Lemma download_keeps w userId documentId :
  World.documents w !! id = Some d ->
  World.documents (snd (Documents.download env userId documentId w)) !! id
  = Some d.
Proof.
  intros Hd. unfold Documents.download. unfold_world. split_tests.
  all: first [assumption | other_document].
Qed.

Lemma update_keeps w userId documentId title description :
  World.documents w !! id = Some d ->
  World.documents
    (snd (Documents.update userId documentId title description w)) !! id
  = Some d.
Proof.
  intros Hd. unfold Documents.update. unfold_world. split_tests.
  all: first [assumption | other_document].
Qed.

Lemma access_keeps w userId documentId :
  World.documents w !! id = Some d ->
  World.documents (snd (Sharing.access userId documentId w)) !! id
  = Some d.
Proof.
  intros Hd. unfold Sharing.access. unfold_world. split_tests.
  all: first [assumption | other_document].
Qed.

Lemma sharingInfo_keeps w userId documentId :
  World.documents w !! id = Some d ->
  World.documents (snd (Sharing.sharingInfo userId documentId w)) !! id
  = Some d.
Proof.
  intros Hd. unfold Sharing.sharingInfo. unfold_world. split_tests.
  all: first [assumption | other_document].
Qed.

Lemma revoke_keeps w ownerId documentId userId :
  World.documents w !! id = Some d ->
  World.documents
    (snd (Sharing.revoke env ownerId documentId userId w)) !! id
  = Some d.
Proof.
  intros Hd. unfold Sharing.revoke. unfold_world. split_tests.
  all: first [assumption | other_document].
Qed.

Lemma grant_keeps w ownerId documentId userEmail permissions :
  World.documents w !! id = Some d ->
  World.documents
    (snd (Sharing.grant env ownerId documentId userEmail permissions w))
    !! id
  = Some d.
Proof.
  intros Hd. unfold Sharing.grant. unfold_world. split_tests.
  all: first [assumption | other_document].
Qed.

Lemma batchGrant_keeps w ownerId documentId userEmails permissions :
  World.documents w !! id = Some d ->
  World.documents
    (snd (Sharing.batchGrant env ownerId documentId userEmails permissions w))
    !! id
  = Some d.
Proof.
  intros Hd. unfold Sharing.batchGrant. unfold_world.
  repeat (first
            [ match goal with
              | |- context [match Sharing.shareEach ?us ?p ?doc ?w1
                            with _ => _ end] =>
                  let E := fresh "E" in
                  let Hdocs := fresh "Hdocs" in
                  destruct (shareEach_frame us p doc w1)
                    as (? & ? & ? & E & Hdocs & _);
                  rewrite E; try rewrite Hdocs
              end
            | match goal with
              | |- context [match ?x with _ => _ end] =>
                  match x with
                  | context [match _ with _ => _ end] => fail 1
                  | _ => destruct x eqn:?
                  end
              end ];
          cbn [World.documents World.users World.blockchain World.ipfs
               World.clock World.calls fst snd fmap option_fmap option_map]).
  all: first [assumption | other_document].
Qed.

Lemma upload_keeps w user file title description encrypt :
  World.documents w !! id = Some d ->
  World.documents
    (snd (Documents.upload env user file title description encrypt w)) !! id
  = Some d.
Proof.
  intros Hd. unfold Documents.upload. unfold_world. split_tests.
  all: try assumption.
  all: rewrite lookup_insert_ne; [assumption |].
  all: intros E; pose proof (is_fresh (dom (World.documents w))) as Hfresh;
    rewrite E in Hfresh; apply Hfresh, elem_of_dom; eauto.
Qed.

(** No request changes a document whose active flag is false. *)
Lemma handle_keeps_inactive (r : Api.Request) w :
  World.documents w !! id = Some d ->
  World.documents (snd (Api.handle env r w)) !! id = Some d.
Proof.
  intros Hd. destruct r; cbn [Api.handle].
  - now apply upload_keeps.
  - now apply fetch_keeps.
  - now apply download_keeps.
  - now apply delete_keeps.
  - now apply update_keeps.
  - now apply grant_keeps.
  - now apply revoke_keeps.
  - now apply sharingInfo_keeps.
  - now apply batchGrant_keeps.
  - now apply access_keeps.
Qed.

Lemma serve_keeps_inactive (requests : list Api.Request) : forall w,
  World.documents w !! id = Some d ->
  World.documents (Api.serve env requests w) !! id = Some d.
Proof.
  induction requests as [|r rest IH]; intros w Hd; cbn; [assumption |].
  apply IH. now apply handle_keeps_inactive.
Qed.

(** Every by-id read of a document whose active flag is false is
    answered 404, and changes nothing. *)
Lemma reads_not_found w userId :
  World.documents w !! id = Some d ->
  Documents.fetch userId id w
  = (Returned (Response.json 404 "Document not found"), w)
  /\ Documents.download env userId id w
     = (Returned (Response.json 404 "Document not found"), w)
  /\ Sharing.access userId id w
     = (Returned (Response.mk 404 "Document not found" Response.NoAccess), w)
  /\ Sharing.sharingInfo userId id w
     = (Returned (Response.json 404 "Document not found"), w)
  /\ Documents.delete userId id w
     = (Returned (Response.json 404 "Document not found"), w).
Proof.
  intros Hd.
  unfold Documents.fetch, Documents.download, Sharing.access,
    Sharing.sharingInfo, Documents.delete.
  unfold_world. rewrite Hd. cbn [fmap option_fmap option_map].
  change (Document.isActive (Document.deselect d)) with (Document.isActive d).
  rewrite Hi. cbn. repeat split.
Qed.

End Inactive.

Section Delete.
Context {L B : Type} `{BlockchainService L} `{IpfsService B}.
Variable env : ServiceConfig.ProcessEnv.
Implicit Type w : World.t L B.

(** Anyone but the owner is refused, and nothing is touched. *)
Lemma delete_refuses_others w userId id d :
  World.documents w !! id = Some d ->
  Document.isActive d = true ->
  Document.owner d <> userId ->
  Documents.delete userId id w
  = (Returned (Response.json 403 "Only document owner can delete"), w).
Proof.
  intros Hd Ha Ho. apply eqs_false in Ho.
  unfold Documents.delete. unfold_world. rewrite Hd.
  cbn [fmap option_fmap option_map].
  change (Document.isActive (Document.deselect d)) with (Document.isActive d).
  change (Document.owner (Document.deselect d)) with (Document.owner d).
  now rewrite Ha, Ho.
Qed.

(** The world the owner's delete leaves, whatever the two adapters
    answer. *)
Lemma delete_soft_deletes w id d :
  World.documents w !! id = Some d ->
  Document.isActive d = true ->
  Documents.delete (Document.owner d) id w
  = (Returned (Response.json 200 "Document deleted successfully"),
     World.mk
       (<[id := Document.set_isActive d false]> (World.documents w))
       (World.users w)
       (snd (contract_removeDocument (Document.blockchainDocumentId d)
               (World.blockchain w)))
       (snd (unpinFile (Document.ipfsHash d) (World.ipfs w)))
       (World.clock w)
       (World.calls w
        ++ [LedgerRemoveDocument (Document.blockchainDocumentId d);
            IpfsUnpin (Document.ipfsHash d);
            DocumentSave id])).
Proof.
  intros Hd Ha.
  unfold Documents.delete. unfold_world. rewrite Hd.
  cbn [fmap option_fmap option_map].
  change (Document.isActive (Document.deselect d)) with (Document.isActive d).
  change (Document.owner (Document.deselect d)) with (Document.owner d).
  change (Document.blockchainDocumentId (Document.deselect d))
    with (Document.blockchainDocumentId d).
  change (Document.ipfsHash (Document.deselect d)) with (Document.ipfsHash d).
  rewrite Ha, eqs_refl. cbn [negb].
  destruct (contract_removeDocument _ _) as [[[]|?] l];
    destruct (unpinFile _ _) as [[?|?] b];
    cbn [World.documents World.users World.blockchain World.ipfs
         World.clock World.calls fst snd].
  all: unfold World.stored; rewrite Hd; rewrite <- !app_assoc; cbn [app].
  all: now destruct d.
Qed.

End Delete.

Section Listings.
Variable regex : string -> string -> bool.

(** No listing selects a document whose active flag is false. *)
Lemma listings_skip_inactive d userId search :
  Document.isActive d = false ->
  Listing.mine regex userId search d = false
  /\ Listing.sharedWithMe regex userId search d = false
  /\ Listing.myShares userId d = false.
Proof.
  intros Hi. unfold Listing.mine, Listing.sharedWithMe, Listing.myShares.
  rewrite Hi. now rewrite !andb_false_r.
Qed.

Lemma find_skips_inactive (filter : Document.t -> bool)
      (docs : gmap ObjectId Document.t) id d :
  docs !! id = Some d ->
  filter d = false ->
  Listing.find filter docs !! id = None.
Proof.
  intros Hd Hf. unfold Listing.find.
  apply map_lookup_filter_None. right. intros d' Hd'. cbn.
  rewrite Hd in Hd'. injection Hd' as <-. now rewrite Hf.
Qed.

End Listings.

Section SoftDelete.
Context {L B : Type} `{BlockchainService L} `{IpfsService B}.
Variable env : ServiceConfig.ProcessEnv.
Variable regex : string -> string -> bool.
Implicit Type w : World.t L B.

(** C8.  For a document [d] stored under [id]:
    - while [d] is active, a delete by anyone but its owner is answered
      403 and changes nothing; the owner's delete calls the ledger's
      [removeDocument] and the blob adapter's [unpinFile] once each,
      and whatever either of them answers or throws it is answered 200
      and stores [d] with its active flag false (nothing else of the
      record changes); from then on, after any sequence of requests,
      the flag is still false and a fetch by anyone is answered 404;
    - once the active flag of [d] is false, no sequence of requests
      changes the stored record, so the flag stays false; fetch,
      download, the access check, the sharing information and delete
      are answered 404 [Document not found] for every user and change
      nothing, and no listing selects the document. *)
Theorem soft_delete_is_terminal w id d :
  World.documents w !! id = Some d ->
  (Document.isActive d = true ->
     (forall userId,
        Document.owner d <> userId ->
        Documents.delete userId id w
        = (Returned (Response.json 403 "Only document owner can delete"), w))
     /\ Documents.delete (Document.owner d) id w
        = (Returned (Response.json 200 "Document deleted successfully"),
           World.mk
             (<[id := Document.set_isActive d false]> (World.documents w))
             (World.users w)
             (snd (contract_removeDocument (Document.blockchainDocumentId d)
                     (World.blockchain w)))
             (snd (unpinFile (Document.ipfsHash d) (World.ipfs w)))
             (World.clock w)
             (World.calls w
              ++ [LedgerRemoveDocument (Document.blockchainDocumentId d);
                  IpfsUnpin (Document.ipfsHash d);
                  DocumentSave id]))
     /\ (forall requests userId,
           let later :=
             Api.serve env (Api.Delete (Document.owner d) id :: requests) w in
           World.documents later !! id
           = Some (Document.set_isActive d false)
           /\ Documents.fetch userId id later
              = (Returned (Response.json 404 "Document not found"), later)))
  /\ (Document.isActive d = false ->
      forall requests,
        let later := Api.serve env requests w in
        World.documents later !! id = Some d
        /\ (forall userId,
              Documents.fetch userId id later
              = (Returned (Response.json 404 "Document not found"), later)
              /\ Documents.download env userId id later
                 = (Returned (Response.json 404 "Document not found"), later)
              /\ Sharing.access userId id later
                 = (Returned
                      (Response.mk 404 "Document not found" Response.NoAccess),
                    later)
              /\ Sharing.sharingInfo userId id later
                 = (Returned (Response.json 404 "Document not found"), later)
              /\ Documents.delete userId id later
                 = (Returned (Response.json 404 "Document not found"), later))
        /\ (forall userId search,
              Listing.find (Listing.mine regex userId search)
                (World.documents later) !! id = None
              /\ Listing.find (Listing.sharedWithMe regex userId search)
                   (World.documents later) !! id = None
              /\ Listing.find (Listing.myShares userId)
                   (World.documents later) !! id = None)).
Proof.
  intros Hd. split.
  - intros Ha. split; [| split].
    + intros userId Ho. now apply (delete_refuses_others w userId id d).
    + now apply delete_soft_deletes.
    + intros requests userId later.
      assert (Hlater : World.documents later !! id
                       = Some (Document.set_isActive d false)).
      { subst later. cbn [Api.serve fold_left Api.handle].
        apply (serve_keeps_inactive env id (Document.set_isActive d false));
          [reflexivity |].
        rewrite (delete_soft_deletes _ _ _ Hd Ha). cbn [snd World.documents].
        apply lookup_insert_eq. }
      split; [exact Hlater |].
      now apply (reads_not_found env id (Document.set_isActive d false)).
  - intros Hi requests later.
    assert (Hlater : World.documents later !! id = Some d)
      by now apply (serve_keeps_inactive env id d).
    split; [exact Hlater |]. split.
    + intros userId. now apply (reads_not_found env id d).
    + intros userId search.
      destruct (listings_skip_inactive regex d userId search Hi)
        as (Hmine & Hshared & Hshares).
      repeat split; now apply find_skips_inactive with d.
Qed.

End SoftDelete.

(** Both production adapters are out of reach, so the ledger removal and
    the unpin both throw.  Bob cannot delete Alice's report; Alice can,
    both adapters are called, and the report is stored soft-deleted.
    After that an update and a new grant by Alice change nothing, and
    Alice's own fetch is answered 404. *)
Lemma soft_delete_is_terminal_witness :
  let w := Fixture.productionWorld {[ "d1" := Fixture.report ]} in
  let requests :=
    [Api.Update "a1" "d1" (Some "Report again") None;
     Api.Grant "a1" (Some "d1") (Some "bob@example.com") (Some "read")] in
  let later := Api.serve Fixture.production (Api.Delete "a1" "d1" :: requests) w in
  fst (contract_removeDocument "0xd0c" (World.blockchain w))
  = Thrown "Cannot read properties of null (reading 'removeDocument')"
  /\ fst (unpinFile "Qmabc" (World.ipfs w)) = Thrown "IPFS client not connected"
  /\ Documents.delete "b2" "d1" w
     = (Returned (Response.json 403 "Only document owner can delete"), w)
  /\ Documents.delete "a1" "d1" w
     = (Returned (Response.json 200 "Document deleted successfully"),
        World.mk (<[ "d1" := Fixture.deletedReport ]> {[ "d1" := Fixture.report ]})
                 [Fixture.alice; Fixture.bob; Fixture.carol] tt tt
                 Fixture.readings
                 [LedgerRemoveDocument "0xd0c"; IpfsUnpin "Qmabc";
                  DocumentSave "d1"])
  /\ World.documents later !! "d1" = Some Fixture.deletedReport
  /\ Documents.fetch "a1" "d1" later
     = (Returned (Response.json 404 "Document not found"), later).
Proof.
  intros w requests later.
  destruct (@soft_delete_is_terminal _ _ OfflineBlockchainService.service
              OfflineIPFSService.service Fixture.production
              (fun _ _ => true) w "d1" Fixture.report eq_refl)
    as [Hactive _].
  destruct (Hactive eq_refl) as (Hothers & Howner & Hlater).
  split; [reflexivity |].
  split; [reflexivity |].
  split; [apply Hothers; discriminate |].
  split; [exact Howner |].
  exact (Hlater requests "a1").
Defined.

(** ** The contract: its array helper *)

Section RemoveFromArray.
Import DocumentSharing.
Variable x : N.

Lemma removeLoop_absent rest : forall pre,
  x ∉ rest ->
  removeLoop (length rest) (length pre) (pre ++ rest) x = pre ++ rest.
Proof.
  induction rest as [|y rest IH]; intros pre Hx; cbn [length removeLoop].
  - reflexivity.
  - rewrite app_nth2, Nat.sub_diag by lia. cbn [nth].
    apply not_elem_of_cons in Hx as [Hy Hx].
    destruct (N.eqb_spec y x) as [->|_]; [congruence |].
    specialize (IH (pre ++ [y])).
    replace (length (pre ++ [y])) with (S (length pre)) in IH
      by (rewrite length_app; cbn; lia).
    rewrite <- app_assoc in IH. cbn [app] in IH.
    now apply IH.
Qed.

Lemma removeLoop_present r1 : forall pre r2,
  x ∉ r1 ->
  removeLoop (length (r1 ++ x :: r2)) (length pre) (pre ++ r1 ++ x :: r2) x
  = List.removelast
      (<[length (pre ++ r1) := List.last (pre ++ r1 ++ x :: r2) 0%N]>
         (pre ++ r1 ++ x :: r2)).
Proof.
  induction r1 as [|y r1 IH]; intros pre r2 Hx.
  - cbn [app length removeLoop].
    rewrite app_nth2, Nat.sub_diag by lia. cbn [nth].
    rewrite N.eqb_refl, app_nil_r. reflexivity.
  - cbn [app length removeLoop].
    rewrite app_nth2, Nat.sub_diag by lia. cbn [nth].
    apply not_elem_of_cons in Hx as [Hy Hx].
    destruct (N.eqb_spec y x) as [->|_]; [congruence |].
    specialize (IH (pre ++ [y]) r2).
    replace (length (pre ++ [y])) with (S (length pre)) in IH
      by (rewrite length_app; cbn; lia).
    rewrite <- !app_assoc in IH. cbn [app] in IH.
    now apply IH.
Qed.

(** Writing the last entry over position [length pre] and popping
    leaves the other entries, in some order. *)
Lemma swap_pop_permutation pre post :
  x :: List.removelast
         (<[length pre := List.last (pre ++ x :: post) 0%N]>
            (pre ++ x :: post))
  ≡ₚ pre ++ x :: post.
Proof.
  induction post as [|z post' _] using rev_ind.
  - rewrite last_last.
    rewrite insert_app_r_alt, Nat.sub_diag by lia. cbn [insert list_insert].
    rewrite removelast_last. apply Permutation_cons_append.
  - replace (pre ++ x :: post' ++ [z]) with ((pre ++ x :: post') ++ [z])
      by now rewrite <- app_assoc.
    rewrite last_last.
    rewrite insert_app_l by (rewrite length_app; cbn; lia).
    rewrite insert_app_r_alt, Nat.sub_diag by lia. cbn [insert list_insert].
    rewrite removelast_last.
    rewrite <- app_assoc. cbn [app].
    rewrite Permutation_middle.
    apply Permutation_app_head.
    rewrite (Permutation_app_comm post' [z]). cbn [app].
    reflexivity.
Qed.

Lemma removeFromArray_absent array :
  x ∉ array -> _removeFromArray array x = array.
Proof. intros Hx. exact (removeLoop_absent array [] Hx). Qed.

Lemma removeFromArray_first pre post :
  x ∉ pre ->
  _removeFromArray (pre ++ x :: post) x
  = List.removelast (pre ++ List.last (pre ++ x :: post) 0%N :: post).
Proof.
  intros Hx. unfold _removeFromArray.
  etransitivity; [exact (removeLoop_present pre [] post Hx) |].
  rewrite !app_nil_l.
  rewrite insert_app_r_alt, Nat.sub_diag by lia. reflexivity.
Qed.

Lemma removeFromArray_permutation array :
  x ∈ array -> x :: _removeFromArray array x ≡ₚ array.
Proof.
  intros Hx. apply list_elem_of_split_l in Hx as (pre & post & -> & Hpre).
  rewrite (removeFromArray_first pre post Hpre).
  pose proof (swap_pop_permutation pre post) as Hp.
  rewrite insert_app_r_alt, Nat.sub_diag in Hp by lia. exact Hp.
Qed.

(** On an array without repetitions the call takes [x] out and keeps
    the rest. *)
Lemma removeFromArray_NoDup array :
  NoDup array ->
  NoDup (_removeFromArray array x)
  /\ forall y, y ∈ _removeFromArray array x <-> y ∈ array /\ y <> x.
Proof.
  intros Hnd. destruct (decide (x ∈ array)) as [Hx|Hx].
  - pose proof (removeFromArray_permutation array Hx) as Hp.
    rewrite <- Hp in Hnd. apply NoDup_cons in Hnd as [Hnx Hnd].
    split; [exact Hnd |]. intros y.
    assert (Hiff : y ∈ array <-> y = x \/ y ∈ _removeFromArray array x)
      by (rewrite <- elem_of_cons; now rewrite Hp).
    split.
    + intros Hy. split; [apply Hiff; now right |]. intros ->. contradiction.
    + intros [Hy Hne]. apply Hiff in Hy as [->|Hy]; [contradiction | exact Hy].
  - rewrite removeFromArray_absent by exact Hx.
    split; [exact Hnd |]. intros y. split; [| tauto].
    intros Hy. split; [exact Hy |]. intros ->. contradiction.
Qed.

End RemoveFromArray.

(** ** The contract: what each call does *)

Lemma read_insert `{Countable K} {V} (m : gmap K V) k v k' (d : V) :
  default d (<[k := v]> m !! k')
  = if decide (k = k') then v else default d (m !! k').
Proof.
  destruct (decide (k = k')) as [->|Hne].
  - now rewrite lookup_insert_eq.
  - now rewrite lookup_insert_ne.
Qed.

Lemma read_delete `{Countable K} {V} (m : gmap K V) k k' (d : V) :
  default d (delete k m !! k')
  = if decide (k = k') then d else default d (m !! k').
Proof.
  destruct (decide (k = k')) as [->|Hne].
  - now rewrite lookup_delete_eq.
  - now rewrite lookup_delete_ne.
Qed.

Ltac contract_unfold :=
  unfold DocumentSharing.transaction, DocumentSharing.whenNotPaused,
    DocumentSharing.documentExists, DocumentSharing.onlyDocumentOwner,
    DocumentSharing.onlyOwner, DocumentSharing.senderHasAccess,
    DocumentSharing.require, DocumentSharing.set_document,
    DocumentSharing.set_allowed, DocumentSharing.set_accessors,
    DocumentSharing.delete_accessors, DocumentSharing.set_owned,
    DocumentSharing.set_accessible, DocumentSharing.set_paused,
    DocumentSharing._transferOwnership, DocumentSharing.set_contractOwner,
    DocumentSharing.emit, bind, ret, throw, get, modify;
  cbn beta iota.

Ltac split_guards :=
  repeat match goal with
         | |- context [if negb ?c then _ else _] =>
             match c with
             | context [if _ then _ else _] => fail 1
             | _ => destruct c eqn:?
             end; cbn [negb orb andb]
         | |- context [if ?c then _ else _] =>
             match c with
             | context [if _ then _ else _] => fail 1
             | _ => destruct c eqn:?
             end; cbn [negb orb andb]
         end.

Ltac same_state :=
  cbn;
  repeat match goal with
         | H : ?x = ?b |- context [?x] => rewrite H
         end;
  reflexivity.

Section ContractCalls.
Import DocumentSharing.
Implicit Type s : t.
Implicit Type msg : Msg.

Lemma addDocument_eq msg documentId hash meta s :
  addDocument msg documentId hash meta s
  = if paused s then (Thrown "Pausable: paused", s)
    else if exists_ (document s documentId)
    then (Thrown "Document already exists", s)
    else if Nat.ltb 0 (String.length hash)
    then (Returned tt,
          mk (<[documentId :=
                  mkDocument hash (sender msg) (timestamp msg) true meta]>
                (documents s))
             (accessList s) (documentAccessors s)
             (<[sender msg := ownedBy s (sender msg) ++ [documentId]]>
                (userDocuments s))
             (userAccessibleDocuments s) (contractOwner s) (paused s)
             (events s ++ [DocumentAdded documentId (sender msg) hash meta]))
    else (Thrown "IPFS hash cannot be empty", s).
Proof. unfold addDocument. contract_unfold. split_guards; same_state. Qed.

Lemma grantAccess_eq msg documentId user s :
  grantAccess msg documentId user s
  = if paused s then (Thrown "Pausable: paused", s)
    else if negb (exists_ (document s documentId))
    then (Thrown "Document does not exist", s)
    else if negb (N.eqb (owner (document s documentId)) (sender msg))
    then (Thrown "Only document owner can perform this action", s)
    else if N.eqb user 0 then (Thrown "Invalid user address", s)
    else if N.eqb user (sender msg)
    then (Thrown "Cannot grant access to yourself", s)
    else if allowed s documentId user
    then (Thrown "User already has access", s)
    else (Returned tt,
          mk (documents s)
             (<[(documentId, user) := true]> (accessList s))
             (<[documentId := accessorsOf s documentId ++ [user]]>
                (documentAccessors s))
             (userDocuments s)
             (<[user := accessibleTo s user ++ [documentId]]>
                (userAccessibleDocuments s))
             (contractOwner s) (paused s)
             (events s ++ [AccessGranted documentId (sender msg) user])).
Proof. unfold grantAccess. contract_unfold. split_guards; same_state. Qed.

Lemma revokeAccess_eq msg documentId user s :
  revokeAccess msg documentId user s
  = if paused s then (Thrown "Pausable: paused", s)
    else if negb (exists_ (document s documentId))
    then (Thrown "Document does not exist", s)
    else if negb (N.eqb (owner (document s documentId)) (sender msg))
    then (Thrown "Only document owner can perform this action", s)
    else if N.eqb user 0 then (Thrown "Invalid user address", s)
    else if negb (allowed s documentId user)
    then (Thrown "User does not have access", s)
    else (Returned tt,
          mk (documents s)
             (<[(documentId, user) := false]> (accessList s))
             (<[documentId :=
                  _removeFromArray (accessorsOf s documentId) user]>
                (documentAccessors s))
             (userDocuments s)
             (<[user :=
                  _removeDocumentFromUserArray (accessibleTo s user)
                                               documentId]>
                (userAccessibleDocuments s))
             (contractOwner s) (paused s)
             (events s ++ [AccessRevoked documentId (sender msg) user])).
Proof. unfold revokeAccess. contract_unfold. split_guards; same_state. Qed.

Lemma hasAccess_eq documentId user s :
  hasAccess documentId user s
  = if exists_ (document s documentId)
    then (Returned (N.eqb (owner (document s documentId)) user
                    || allowed s documentId user), s)
    else (Thrown "Document does not exist", s).
Proof. unfold hasAccess. contract_unfold. split_guards; same_state. Qed.

Lemma getDocumentAccessors_eq msg documentId s :
  getDocumentAccessors msg documentId s
  = if negb (exists_ (document s documentId))
    then (Thrown "Document does not exist", s)
    else if negb (N.eqb (owner (document s documentId)) (sender msg))
    then (Thrown "Only document owner can perform this action", s)
    else (Returned (accessorsOf s documentId), s).
Proof.
  unfold getDocumentAccessors. contract_unfold. split_guards; same_state.
Qed.

Lemma updateDocument_eq msg documentId hash meta s :
  updateDocument msg documentId hash meta s
  = if paused s then (Thrown "Pausable: paused", s)
    else if negb (exists_ (document s documentId))
    then (Thrown "Document does not exist", s)
    else if negb (N.eqb (owner (document s documentId)) (sender msg))
    then (Thrown "Only document owner can perform this action", s)
    else if Nat.ltb 0 (String.length hash)
    then (Returned tt,
          mk (<[documentId :=
                  mkDocument hash (owner (document s documentId))
                             (createdAt (document s documentId))
                             (exists_ (document s documentId)) meta]>
                (documents s))
             (accessList s) (documentAccessors s) (userDocuments s)
             (userAccessibleDocuments s) (contractOwner s) (paused s)
             (events s ++ [DocumentUpdated documentId (sender msg) hash meta]))
    else (Thrown "IPFS hash cannot be empty", s).
Proof.
  unfold updateDocument. contract_unfold. split_guards; same_state.
Qed.

Lemma pause_eq msg s :
  pause msg s
  = if negb (N.eqb (contractOwner s) (sender msg))
    then (Thrown "Ownable: caller is not the owner", s)
    else if paused s then (Thrown "Pausable: paused", s)
    else (Returned tt,
          mk (documents s) (accessList s) (documentAccessors s)
             (userDocuments s) (userAccessibleDocuments s)
             (contractOwner s) true (events s ++ [Paused (sender msg)])).
Proof. unfold pause. contract_unfold. split_guards; same_state. Qed.

Lemma unpause_eq msg s :
  unpause msg s
  = if negb (N.eqb (contractOwner s) (sender msg))
    then (Thrown "Ownable: caller is not the owner", s)
    else if paused s
    then (Returned tt,
          mk (documents s) (accessList s) (documentAccessors s)
             (userDocuments s) (userAccessibleDocuments s)
             (contractOwner s) false (events s ++ [Unpaused (sender msg)]))
    else (Thrown "Pausable: not paused", s).
Proof. unfold unpause. contract_unfold. split_guards; same_state. Qed.

Lemma transferOwnership_eq msg newOwner s :
  transferOwnership msg newOwner s
  = if negb (N.eqb (contractOwner s) (sender msg))
    then (Thrown "Ownable: caller is not the owner", s)
    else if N.eqb newOwner 0
    then (Thrown "Ownable: new owner is the zero address", s)
    else (Returned tt,
          mk (documents s) (accessList s) (documentAccessors s)
             (userDocuments s) (userAccessibleDocuments s)
             newOwner (paused s)
             (events s ++ [OwnershipTransferred (contractOwner s) newOwner])).
Proof.
  unfold transferOwnership. contract_unfold. split_guards; same_state.
Qed.

Lemma renounceOwnership_eq msg s :
  renounceOwnership msg s
  = if negb (N.eqb (contractOwner s) (sender msg))
    then (Thrown "Ownable: caller is not the owner", s)
    else (Returned tt,
          mk (documents s) (accessList s) (documentAccessors s)
             (userDocuments s) (userAccessibleDocuments s)
             0%N (paused s)
             (events s ++ [OwnershipTransferred (contractOwner s) 0%N])).
Proof.
  unfold renounceOwnership. contract_unfold. split_guards; same_state.
Qed.

End ContractCalls.

(** ** The contract: the arrays follow the mappings *)

Ltac contract_reads :=
  unfold DocumentSharing.document, DocumentSharing.allowed,
    DocumentSharing.accessorsOf, DocumentSharing.ownedBy,
    DocumentSharing.accessibleTo;
  cbn [DocumentSharing.documents DocumentSharing.accessList
       DocumentSharing.documentAccessors DocumentSharing.userDocuments
       DocumentSharing.userAccessibleDocuments];
  rewrite ?read_insert, ?read_delete;
  repeat match goal with
    | |- context [default DocumentSharing.zeroDocument
                    (DocumentSharing.documents ?s !! ?i)] =>
        change (default DocumentSharing.zeroDocument
                  (DocumentSharing.documents s !! i))
          with (DocumentSharing.document s i)
    | |- context [default false (DocumentSharing.accessList ?s !! (?i, ?v))] =>
        change (default false (DocumentSharing.accessList s !! (i, v)))
          with (DocumentSharing.allowed s i v)
    | |- context [default [] (DocumentSharing.documentAccessors ?s !! ?i)] =>
        change (default [] (DocumentSharing.documentAccessors s !! i))
          with (DocumentSharing.accessorsOf s i)
    | |- context [default [] (DocumentSharing.userDocuments ?s !! ?v)] =>
        change (default [] (DocumentSharing.userDocuments s !! v))
          with (DocumentSharing.ownedBy s v)
    | |- context [default [] (DocumentSharing.userAccessibleDocuments ?s !! ?v)] =>
        change (default [] (DocumentSharing.userAccessibleDocuments s !! v))
          with (DocumentSharing.accessibleTo s v)
    end.

Ltac settle_decide :=
  solve [ reflexivity | assumption | congruence
        | intros [=]; subst; solve [congruence | tauto]
        | intros [? ?]; subst; solve [congruence | tauto] ].

Ltac settle_decides :=
  repeat first [ rewrite decide_True by settle_decide
               | rewrite decide_False by settle_decide ].

Section ContractInvariant.
Import DocumentSharing.
Implicit Type s : t.
Implicit Type msg : Msg.

Lemma constructor_consistent deployer : consistent (constructor deployer).
Proof.
  split.
  - intros documentId. unfold accessorsOf, allowed, document. cbn.
    rewrite !lookup_empty. cbn.
    repeat split; try apply NoDup_nil_2; try apply not_elem_of_nil;
      try discriminate.
    intros Hin. now apply elem_of_nil in Hin.
  - intros user. unfold ownedBy, accessibleTo, allowed, document. cbn.
    split; [apply NoDup_nil_2 |]. split; [apply NoDup_nil_2 |].
    split; intros documentId; rewrite !lookup_empty; cbn.
    + split; [intros Hin; now apply elem_of_nil in Hin |].
      intros [? _]. discriminate.
    + split; [intros Hin; now apply elem_of_nil in Hin | discriminate].
Qed.

(** One grant, as [grantAccess] and each round of [batchGrantAccess]
    write it. *)
Lemma grant_consistent s documentId user sender co p ev :
  consistent s ->
  exists_ (document s documentId) = true ->
  owner (document s documentId) = sender ->
  user <> 0%N -> user <> sender ->
  allowed s documentId user = false ->
  consistent
    (mk (documents s)
        (<[(documentId, user) := true]> (accessList s))
        (<[documentId := accessorsOf s documentId ++ [user]]>
           (documentAccessors s))
        (userDocuments s)
        (<[user := accessibleTo s user ++ [documentId]]>
           (userAccessibleDocuments s))
        co p ev).
Proof.
  intros [Hdoc Husr] Hex Hown Hnz Hns Hna.
  assert (Hnew : user ∉ accessorsOf s documentId).
  { intros Hin. apply (Hdoc documentId) in Hin. congruence. }
  assert (Hnew' : documentId ∉ accessibleTo s user).
  { intros Hin. apply (Husr user) in Hin. congruence. }
  split.
  - intros i. destruct (Hdoc i) as (Hnd & Hal & Hne & Hno & Hnz0).
    contract_reads.
    destruct (decide (documentId = i)) as [<-|Hi]; settle_decides.
    + split; [| split; [| split; [| split]]].
      * apply NoDup_app. split; [exact Hnd |]. split.
        -- intros x Hx Hx'. apply list_elem_of_singleton in Hx'. now subst.
        -- apply NoDup_singleton.
      * intros v. contract_reads.
        rewrite elem_of_app, list_elem_of_singleton.
        destruct (decide (user = v)) as [<-|Hv]; settle_decides.
        -- tauto.
        -- rewrite Hal. split; [tauto |]. intros [H| ->]; [exact H | congruence].
      * congruence.
      * rewrite elem_of_app, list_elem_of_singleton. intros [H|H]; [tauto |].
        congruence.
      * rewrite elem_of_app, list_elem_of_singleton. intros [H|H]; [tauto |].
        congruence.
    + split; [exact Hnd |]. split; [| tauto].
      intros v. contract_reads. settle_decides. apply Hal.
  - intros v. destruct (Husr v) as (Hnd1 & Hnd2 & Hown' & Hacc).
    contract_reads.
    split; [exact Hnd1 |]. split; [| split; [exact Hown' |]].
    + destruct (decide (user = v)) as [<-|Hv]; settle_decides; [| exact Hnd2].
      apply NoDup_app. split; [exact Hnd2 |]. split.
      * intros x Hx Hx'. apply list_elem_of_singleton in Hx'. now subst.
      * apply NoDup_singleton.
    + intros i. contract_reads.
      destruct (decide (user = v)) as [<-|Hv]; settle_decides.
      * rewrite elem_of_app, list_elem_of_singleton.
        destruct (decide (documentId = i)) as [<-|Hi]; settle_decides.
        -- tauto.
        -- rewrite Hacc. split; [| tauto].
           intros [H| ->]; [exact H | congruence].
      * apply Hacc.
Qed.

Lemma addDocument_consistent s documentId sender d co p ev :
  consistent s ->
  exists_ (document s documentId) = false ->
  exists_ d = true -> owner d = sender ->
  consistent
    (mk (<[documentId := d]> (documents s))
        (accessList s) (documentAccessors s)
        (<[sender := ownedBy s sender ++ [documentId]]> (userDocuments s))
        (userAccessibleDocuments s) co p ev).
Proof.
  intros [Hdoc Husr] Hex Hd Hown.
  assert (Hnew : documentId ∉ ownedBy s sender).
  { intros Hin. apply (Husr sender) in Hin as [Hin _]. congruence. }
  split.
  - intros i. destruct (Hdoc i) as (Hnd & Hal & Hne & Hno & Hnz0).
    contract_reads.
    split; [exact Hnd |]. split; [intros v; contract_reads; apply Hal |].
    destruct (decide (documentId = i)) as [<-|Hi]; settle_decides.
    + rewrite (Hne Hex). split; [congruence |].
      split; apply not_elem_of_nil.
    + tauto.
  - intros v. destruct (Husr v) as (Hnd1 & Hnd2 & Hown' & Hacc).
    contract_reads.
    split; [| split; [exact Hnd2 | split]].
    + destruct (decide (sender = v)) as [<-|Hv]; settle_decides;
        [| exact Hnd1].
      apply NoDup_app. split; [exact Hnd1 |]. split.
      * intros x Hx Hx'. apply list_elem_of_singleton in Hx'. now subst.
      * apply NoDup_singleton.
    + intros i. contract_reads.
      destruct (decide (sender = v)) as [<-|Hv];
        destruct (decide (documentId = i)) as [<-|Hi]; settle_decides.
      * rewrite elem_of_app, list_elem_of_singleton. tauto.
      * rewrite elem_of_app, list_elem_of_singleton, Hown'.
        split; [| tauto]. intros [H| ->]; [exact H | congruence].
      * rewrite Hown'. split; [| intros [_ ?]; congruence].
        intros [? _]. congruence.
      * apply Hown'.
    + intros i. contract_reads. apply Hacc.
Qed.

Lemma updateDocument_consistent s documentId hash meta co p ev :
  consistent s ->
  consistent
    (mk (<[documentId :=
             mkDocument hash (owner (document s documentId))
                        (createdAt (document s documentId))
                        (exists_ (document s documentId)) meta]>
           (documents s))
        (accessList s) (documentAccessors s) (userDocuments s)
        (userAccessibleDocuments s) co p ev).
Proof.
  intros [Hdoc Husr]. split.
  - intros i. destruct (Hdoc i) as (Hnd & Hal & Hne & Hno & Hnz0).
    contract_reads.
    split; [exact Hnd |]. split; [intros v; contract_reads; apply Hal |].
    destruct (decide (documentId = i)) as [<-|Hi]; settle_decides;
      cbn [exists_ owner]; tauto.
  - intros v. destruct (Husr v) as (Hnd1 & Hnd2 & Hown' & Hacc).
    contract_reads.
    split; [exact Hnd1 |]. split; [exact Hnd2 |]. split.
    + intros i. contract_reads.
      destruct (decide (documentId = i)) as [<-|Hi]; settle_decides;
        cbn [exists_ owner]; apply Hown'.
    + intros i. contract_reads. apply Hacc.
Qed.

Lemma revoke_consistent s documentId user co p ev :
  consistent s ->
  allowed s documentId user = true ->
  consistent
    (mk (documents s)
        (<[(documentId, user) := false]> (accessList s))
        (<[documentId := _removeFromArray (accessorsOf s documentId) user]>
           (documentAccessors s))
        (userDocuments s)
        (<[user :=
             _removeDocumentFromUserArray (accessibleTo s user) documentId]>
           (userAccessibleDocuments s))
        co p ev).
Proof.
  intros [Hdoc Husr] Hyes.
  change (_removeDocumentFromUserArray (accessibleTo s user) documentId)
    with (_removeFromArray (accessibleTo s user) documentId).
  split.
  - intros i. destruct (Hdoc i) as (Hnd & Hal & Hne & Hno & Hnz0).
    contract_reads.
    destruct (decide (documentId = i)) as [<-|Hi]; settle_decides.
    + destruct (removeFromArray_NoDup user _ Hnd) as [Hnd' Hin'].
      split; [exact Hnd' |]. split; [| split; [| split]].
      * intros v. contract_reads. rewrite Hin', <- Hal.
        destruct (decide (user = v)) as [<-|Hv]; settle_decides.
        -- split; [discriminate | tauto].
        -- split; [| tauto]. intros H. split; [exact H | congruence].
      * intros Hex. apply Hne in Hex.
        apply (Hal user) in Hyes. rewrite Hex in Hyes.
        now apply elem_of_nil in Hyes.
      * rewrite Hin'. tauto.
      * rewrite Hin'. tauto.
    + split; [exact Hnd |]. split; [| tauto].
      intros v. contract_reads. settle_decides. apply Hal.
  - intros v. destruct (Husr v) as (Hnd1 & Hnd2 & Hown' & Hacc).
    contract_reads.
    split; [exact Hnd1 |]. split; [| split; [exact Hown' |]].
    + destruct (decide (user = v)) as [<-|Hv]; settle_decides;
        [| exact Hnd2].
      now apply removeFromArray_NoDup.
    + intros i. contract_reads.
      destruct (decide (user = v)) as [<-|Hv]; settle_decides.
      * destruct (removeFromArray_NoDup documentId _ Hnd2) as [_ Hin'].
        rewrite Hin', Hacc.
        destruct (decide (documentId = i)) as [<-|Hi]; settle_decides.
        -- split; [tauto | discriminate].
        -- split; [tauto |]. intros H. split; [exact H | congruence].
      * apply Hacc.
Qed.

Lemma flags_consistent s co p ev :
  consistent s ->
  consistent
    (mk (documents s) (accessList s) (documentAccessors s)
        (userDocuments s) (userAccessibleDocuments s) co p ev).
Proof. intros Hs. exact Hs. Qed.

(** The loop of [removeDocument]: only the access flags of the listed
    users and their arrays of accessible documents are written. *)
Lemma revokeEach_spec documentId users : forall s,
  exists al uad,
    revokeEach documentId users s
    = (Returned tt,
       mk (documents s) al (documentAccessors s) (userDocuments s) uad
          (contractOwner s) (paused s) (events s))
    /\ (forall i v,
          default false (al !! (i, v))
          = if decide (i = documentId /\ v ∈ users) then false
            else allowed s i v)
    /\ (NoDup users ->
        forall v,
          default [] (uad !! v)
          = if decide (v ∈ users)
            then _removeDocumentFromUserArray (accessibleTo s v) documentId
            else accessibleTo s v).
Proof.
  induction users as [|user rest IH]; intros s.
  - exists (accessList s), (userAccessibleDocuments s). split; [| split].
    + now destruct s.
    + intros i v. rewrite decide_False; [reflexivity |].
      intros [_ Hin]. now apply elem_of_nil in Hin.
    + intros _ v. rewrite decide_False; [reflexivity |].
      intros Hin. now apply elem_of_nil in Hin.
  - cbn [revokeEach]. contract_unfold.
    cbn [documents accessList documentAccessors userDocuments
         userAccessibleDocuments contractOwner paused events].
    match goal with
    | |- context [revokeEach documentId rest ?s1] =>
        destruct (IH s1) as (al & uad & E & Hal & Huad); rewrite E
    end.
    cbn [documents accessList documentAccessors userDocuments
         userAccessibleDocuments contractOwner paused events] in *.
    exists al, uad. split; [reflexivity |]. split.
    + intros i v. rewrite Hal. contract_reads.
      repeat case_decide; try reflexivity; exfalso.
      all: repeat match goal with
                  | H : context [_ ∈ _ :: _] |- _ => rewrite elem_of_cons in H
                  end.
      all: try match goal with
               | H : (_, _) = (_, _) |- _ => injection H as ? ?; subst
               end.
      all: intuition congruence.
    + intros Hnd v. apply NoDup_cons in Hnd as [Hni Hnd].
      rewrite (Huad Hnd). contract_reads.
      destruct (decide (v = user)) as [->|Hv].
      * rewrite (decide_False (P := user ∈ rest)) by exact Hni.
        rewrite decide_True by reflexivity.
        rewrite decide_True by (apply elem_of_cons; now left). reflexivity.
      * rewrite (decide_False (P := user = v)) by congruence.
        destruct (decide (v ∈ rest)) as [Hin|Hin].
        -- rewrite decide_True by (apply elem_of_cons; now right).
           reflexivity.
        -- rewrite decide_False; [reflexivity |].
           rewrite elem_of_cons. tauto.
Qed.

Lemma removeDocument_eq msg documentId s :
  exists al uad,
    removeDocument msg documentId s
    = (if paused s then (Thrown "Pausable: paused", s)
       else if negb (exists_ (document s documentId))
       then (Thrown "Document does not exist", s)
       else if negb (N.eqb (owner (document s documentId)) (sender msg))
       then (Thrown "Only document owner can perform this action", s)
       else
         (Returned tt,
          mk (<[documentId :=
                  mkDocument (ipfsHash (document s documentId))
                             (owner (document s documentId))
                             (createdAt (document s documentId)) false
                             (metadata (document s documentId))]>
                (documents s))
             al
             (delete documentId (documentAccessors s))
             (<[sender msg :=
                  _removeDocumentFromUserArray (ownedBy s (sender msg))
                                               documentId]>
                (userDocuments s))
             uad (contractOwner s) (paused s)
             (events s ++ [DocumentRemoved documentId (sender msg)])))
    /\ (forall i v,
          default false (al !! (i, v))
          = if decide (i = documentId /\ v ∈ accessorsOf s documentId)
            then false else allowed s i v)
    /\ (NoDup (accessorsOf s documentId) ->
        forall v,
          default [] (uad !! v)
          = if decide (v ∈ accessorsOf s documentId)
            then _removeDocumentFromUserArray (accessibleTo s v) documentId
            else accessibleTo s v).
Proof.
  destruct (revokeEach_spec documentId (accessorsOf s documentId) s)
    as (al & uad & E & Hal & Huad).
  exists al, uad. split; [| split; [exact Hal | exact Huad]].
  unfold removeDocument. contract_unfold.
  destruct (paused s) eqn:Hp; cbn [negb]; [reflexivity |].
  destruct (exists_ (document s documentId)) eqn:Hex; cbn [negb];
    [| reflexivity].
  destruct (N.eqb (owner (document s documentId)) (sender msg)) eqn:Hown;
    cbn [negb]; [| reflexivity].
  rewrite E. cbn. rewrite ?Hp. reflexivity.
Qed.

Lemma removeDocument_consistent s documentId sender al uad co p ev :
  consistent s ->
  exists_ (document s documentId) = true ->
  owner (document s documentId) = sender ->
  (forall i v,
      default false (al !! (i, v))
      = if decide (i = documentId /\ v ∈ accessorsOf s documentId)
        then false else allowed s i v) ->
  (forall v,
      default [] (uad !! v)
      = if decide (v ∈ accessorsOf s documentId)
        then _removeDocumentFromUserArray (accessibleTo s v) documentId
        else accessibleTo s v) ->
  consistent
    (mk (<[documentId :=
             mkDocument (ipfsHash (document s documentId))
                        (owner (document s documentId))
                        (createdAt (document s documentId)) false
                        (metadata (document s documentId))]>
           (documents s))
        al
        (delete documentId (documentAccessors s))
        (<[sender :=
             _removeDocumentFromUserArray (ownedBy s sender) documentId]>
           (userDocuments s))
        uad co p ev).
Proof.
  intros [Hdoc Husr] Hex Hown Hal' Huad'.
  split.
  - intros i. destruct (Hdoc i) as (Hnd & Hal & Hne & Hno & Hnz0).
    unfold allowed. cbn [accessList]. contract_reads.
    destruct (decide (documentId = i)) as [<-|Hi]; settle_decides.
    + split; [apply NoDup_nil_2 |]. split; [| split; [reflexivity |]].
      * intros v. rewrite Hal'.
        destruct (decide (v ∈ accessorsOf s documentId)) as [Hin|Hin].
        -- rewrite decide_True by tauto.
           split; [discriminate | intros H; now apply elem_of_nil in H].
        -- rewrite decide_False by tauto. rewrite Hal.
           split; [tauto | intros H; now apply elem_of_nil in H].
      * split; apply not_elem_of_nil.
    + split; [exact Hnd |]. split; [| tauto].
      intros v. rewrite Hal'. rewrite decide_False by (intros [? _]; congruence).
      apply Hal.
  - intros v. destruct (Husr v) as (Hnd1 & Hnd2 & Hown' & Hacc).
    unfold allowed, accessibleTo.
    cbn [accessList userAccessibleDocuments]. contract_reads.
    change (_removeDocumentFromUserArray (ownedBy s sender) documentId)
      with (_removeFromArray (ownedBy s sender) documentId).
    split; [| split; [| split]].
    + destruct (decide (sender = v)) as [<-|Hv]; settle_decides;
        [| exact Hnd1].
      now apply removeFromArray_NoDup.
    + rewrite Huad'. case_decide; [| exact Hnd2].
      now apply removeFromArray_NoDup.
    + intros i. contract_reads.
      destruct (decide (documentId = i)) as [<-|Hi];
        destruct (decide (sender = v)) as [<-|Hv]; settle_decides;
        cbn [exists_ owner].
      * destruct (removeFromArray_NoDup documentId _ Hnd1) as [_ Hin'].
        rewrite Hin'. split; [tauto | intros [? _]; discriminate].
      * split; [| intros [? _]; discriminate].
        intros Hin. apply Hown' in Hin. destruct Hin; congruence.
      * destruct (removeFromArray_NoDup documentId _ Hnd1) as [_ Hin'].
        rewrite Hin', Hown'. split; [tauto |]. intros H. split; [exact H |].
        congruence.
      * apply Hown'.
    + intros i. rewrite Huad', Hal'.
      destruct (decide (v ∈ accessorsOf s documentId)) as [Hin|Hin].
      * change (_removeDocumentFromUserArray (accessibleTo s v) documentId)
          with (_removeFromArray (accessibleTo s v) documentId).
        destruct (removeFromArray_NoDup documentId _ Hnd2) as [_ Hin'].
        rewrite Hin', Hacc.
        destruct (decide (i = documentId)) as [->|Hi].
        -- rewrite decide_True by tauto. split; [tauto | discriminate].
        -- rewrite decide_False by tauto. tauto.
      * rewrite decide_False by tauto. apply Hacc.
Qed.

(** The loop of [batchGrantAccess]. *)
Lemma grantEach_spec msg documentId users : forall s,
  (Forall (fun u => u <> 0%N /\ u <> sender msg) users ->
   exists s',
     grantEach msg documentId users s = (Returned tt, s')
     /\ documents s' = documents s
     /\ userDocuments s' = userDocuments s
     /\ contractOwner s' = contractOwner s
     /\ paused s' = paused s
     /\ (forall i v,
           allowed s' i v
           = (allowed s i v || bool_decide (i = documentId /\ v ∈ users)))
     /\ (forall i, i <> documentId -> accessorsOf s' i = accessorsOf s i)
     /\ (consistent s ->
         exists_ (document s documentId) = true ->
         owner (document s documentId) = sender msg ->
         consistent s'))
  /\ (~ Forall (fun u => u <> 0%N /\ u <> sender msg) users ->
      exists message s',
        grantEach msg documentId users s = (Thrown message, s')).
Proof.
  induction users as [|user rest IH]; intros s.
  - split.
    + intros _. exists s. do 5 (split; [reflexivity |]).
      split; [| split; [reflexivity | tauto]].
      intros i v. rewrite bool_decide_eq_false_2; [now rewrite orb_false_r |].
      intros [_ Hin]. now apply elem_of_nil in Hin.
    + intros Hn. exfalso. apply Hn. constructor.
  - cbn [grantEach]. contract_unfold.
    destruct (N.eqb_spec user 0) as [Hz|Hz]; cbn [negb].
    { split; [| intros _; eauto].
      intros Hall. apply Forall_cons in Hall as [[? _] _]. contradiction. }
    destruct (N.eqb_spec user (sender msg)) as [Hs|Hs]; cbn [negb].
    { split; [| intros _; eauto].
      intros Hall. apply Forall_cons in Hall as [[_ ?] _]. contradiction. }
    destruct (allowed s documentId user) eqn:Hyes; cbn [negb].
    + destruct (IH s) as [IHok IHfail]. split.
      * intros Hall. apply Forall_cons in Hall as [_ Hall].
        destruct (IHok Hall)
          as (s' & E & Hd & Hu & Hc & Hp & Hal & Hacc & Hcons).
        exists s'. split; [exact E |].
        split; [exact Hd |]. split; [exact Hu |]. split; [exact Hc |].
        split; [exact Hp |]. split; [| split; [exact Hacc | exact Hcons]].
        intros i v. rewrite Hal.
        destruct (decide (i = documentId /\ v = user)) as [[-> ->]|Hne].
        -- rewrite Hyes. reflexivity.
        -- f_equal. apply bool_decide_ext. rewrite elem_of_cons. tauto.
      * intros Hn. apply IHfail. intros Hall. apply Hn.
        apply Forall_cons. tauto.
    + cbn [documents accessList documentAccessors userDocuments
           userAccessibleDocuments contractOwner paused events].
      contract_reads.
      match goal with
      | |- context [grantEach msg documentId rest ?s1] =>
          destruct (IH s1) as [IHok IHfail]
      end.
      split.
      * intros Hall. apply Forall_cons in Hall as [_ Hall].
        destruct (IHok Hall)
          as (s' & E & Hd & Hu & Hc & Hp & Hal & Hacc & Hcons).
        exists s'. split; [exact E |].
        split; [exact Hd |]. split; [exact Hu |]. split; [exact Hc |].
        split; [exact Hp |]. split; [| split].
        -- intros i v. contract_reads. rewrite Hal. contract_reads.
           destruct (decide (i = documentId /\ v = user)) as [[-> ->]|Hne].
           ++ rewrite decide_True by reflexivity.
              rewrite Hyes.
              rewrite (bool_decide_eq_true_2
                         (documentId = documentId /\ user ∈ user :: rest))
                by (split; [reflexivity | now left]).
              reflexivity.
           ++ rewrite decide_False by (intros [=]; subst; tauto).
              f_equal. apply bool_decide_ext. rewrite elem_of_cons. tauto.
        -- intros i Hi. contract_reads. rewrite (Hacc i Hi). contract_reads.
           now rewrite decide_False by congruence.
        -- intros Hs0 Hex Hown. apply Hcons; [| exact Hex | exact Hown].
           now apply grant_consistent with (sender := sender msg).
      * intros Hn. apply IHfail. intros Hall. apply Hn.
        apply Forall_cons. tauto.
Qed.

Lemma batchGrantAccess_eq msg documentId users s :
  batchGrantAccess msg documentId users s
  = if paused s then (Thrown "Pausable: paused", s)
    else if negb (exists_ (document s documentId))
    then (Thrown "Document does not exist", s)
    else if negb (N.eqb (owner (document s documentId)) (sender msg))
    then (Thrown "Only document owner can perform this action", s)
    else if negb (Nat.ltb 0 (length users))
    then (Thrown "Users array cannot be empty", s)
    else if negb (Nat.leb (length users) 50)
    then (Thrown "Too many users in batch", s)
    else match grantEach msg documentId users s with
         | (Returned tt, s') => (Returned tt, s')
         | (Thrown message, _) => (Thrown message, s)
         end.
Proof.
  unfold batchGrantAccess. contract_unfold.
  destruct (paused s); cbn [negb]; [reflexivity |].
  destruct (exists_ (document s documentId)); cbn [negb]; [| reflexivity].
  destruct (N.eqb (owner (document s documentId)) (sender msg));
    cbn [negb]; [| reflexivity].
  destruct (Nat.ltb 0 (length users)); cbn [negb]; [| reflexivity].
  destruct (Nat.leb (length users) 50); cbn [negb]; [| reflexivity].
  destruct (grantEach msg documentId users s) as [[[]|?] ?]; reflexivity.
Qed.

(** Every call keeps the arrays in step with the mappings. *)
Lemma execute_consistent msg call s :
  consistent s -> consistent (snd (execute msg call s)).
Proof.
  intros Hs. destruct call; cbn [execute].
  - rewrite addDocument_eq. split_guards; cbn [snd]; try exact Hs.
    now apply addDocument_consistent.
  - rewrite grantAccess_eq. split_guards; cbn [snd]; try exact Hs.
    apply grant_consistent with (sender := sender msg);
      try assumption.
    + now apply N.eqb_eq.
    + now apply N.eqb_neq.
    + now apply N.eqb_neq.
  - rewrite revokeAccess_eq. split_guards; cbn [snd]; try exact Hs.
    now apply revoke_consistent.
  - rewrite updateDocument_eq. split_guards; cbn [snd]; try exact Hs.
    match goal with
    | H : exists_ (document s ?i) = true |- _ => rewrite <- H
    end.
    now apply updateDocument_consistent.
  - destruct (removeDocument_eq msg documentId s) as (al & uad & E & Hal & Huad).
    rewrite E. split_guards; cbn [snd]; try exact Hs.
    apply removeDocument_consistent; try assumption.
    + now apply N.eqb_eq.
    + apply Huad. apply Hs.
  - rewrite batchGrantAccess_eq. split_guards; cbn [snd]; try exact Hs.
    destruct (grantEach_spec msg documentId users s) as [Hok Hfail].
    destruct (decide (Forall (fun u => u <> 0%N /\ u <> sender msg) users))
      as [Hall|Hall].
    + destruct (Hok Hall) as (s' & E & _ & _ & _ & _ & _ & _ & Hcons).
      rewrite E. cbn [snd]. apply Hcons; try assumption.
      now apply N.eqb_eq.
    + destruct (Hfail Hall) as (m & s' & E). rewrite E. exact Hs.
  - rewrite pause_eq. split_guards; cbn [snd]; exact Hs.
  - rewrite unpause_eq. split_guards; cbn [snd]; exact Hs.
  - rewrite transferOwnership_eq. split_guards; cbn [snd]; exact Hs.
  - rewrite renounceOwnership_eq. split_guards; cbn [snd]; exact Hs.
Qed.

Lemma run_consistent txs : forall s,
  consistent s -> consistent (run txs s).
Proof.
  induction txs as [|[msg call] txs IH]; intros s Hs; cbn; [exact Hs |].
  apply IH. now apply execute_consistent.
Qed.

End ContractInvariant.

(** ** The contract: properties *)

(** X1.  [_removeFromArray] (and [_removeDocumentFromUserArray], which
    has the same body) takes out the first occurrence of the element by
    writing the last entry over it and popping the array: an array that
    does not hold the element is returned as it is; otherwise the result
    is the array with the last entry moved to the place of the first
    occurrence, which holds the other entries of the array, in a
    different order in general. *)
Theorem removeFromArray_moves_last_in (array : list N) (element : N) :
  DocumentSharing._removeDocumentFromUserArray array element
  = DocumentSharing._removeFromArray array element
  /\ (element ∉ array ->
      DocumentSharing._removeFromArray array element = array)
  /\ (forall pre post,
        array = pre ++ element :: post -> element ∉ pre ->
        DocumentSharing._removeFromArray array element
        = List.removelast (pre ++ List.last array 0%N :: post))
  /\ (element ∈ array ->
      element :: DocumentSharing._removeFromArray array element ≡ₚ array
      /\ S (length (DocumentSharing._removeFromArray array element))
         = length array).
Proof.
  split; [reflexivity |]. split; [apply removeFromArray_absent |]. split.
  - intros pre post -> Hpre. now apply removeFromArray_first.
  - intros Hin. pose proof (removeFromArray_permutation element array Hin) as Hp.
    split; [exact Hp |]. apply Permutation_length in Hp. exact Hp.
Qed.

(** Taking 7 out of [5; 7; 9; 11] leaves [5; 11; 9]; taking it out of
    [5; 9] changes nothing. *)
Lemma removeFromArray_moves_last_in_witness :
  DocumentSharing._removeFromArray [5; 7; 9; 11]%N 7%N = [5; 11; 9]%N
  /\ 7%N :: DocumentSharing._removeFromArray [5; 7; 9; 11]%N 7%N
     ≡ₚ [5; 7; 9; 11]%N
  /\ DocumentSharing._removeFromArray [5; 9]%N 7%N = [5; 9]%N.
Proof.
  destruct (removeFromArray_moves_last_in [5; 7; 9; 11]%N 7%N)
    as (_ & _ & Hfirst & Hperm).
  destruct (removeFromArray_moves_last_in [5; 9]%N 7%N)
    as (_ & Habsent & _).
  split; [| split].
  - apply (Hfirst [5%N] [9; 11]%N eq_refl).
    intros Hin. apply list_elem_of_singleton in Hin. discriminate.
  - apply Hperm. apply elem_of_cons. right. apply elem_of_cons. now left.
  - apply Habsent. intros Hin.
    apply elem_of_cons in Hin as [Hin|Hin]; [discriminate |].
    apply list_elem_of_singleton in Hin. discriminate.
Defined.

Section ContractProperties.
Import DocumentSharing.
Implicit Type s : t.
Implicit Type msg : Msg.

(** X2.  After any sequence of transactions since deployment, the
    array [getDocumentAccessors] returns to the owner of a document
    holds no address twice, and holds exactly the addresses other than
    the owner for which [hasAccess] answers true. *)
Theorem accessors_are_the_grantees deployer txs msg documentId accessors :
  fst (getDocumentAccessors msg documentId (run txs (constructor deployer)))
  = Returned accessors ->
  NoDup accessors
  /\ forall user,
       user ∈ accessors
       <-> user <> sender msg
           /\ fst (hasAccess documentId user (run txs (constructor deployer)))
              = Returned true.
Proof.
  pose proof (run_consistent txs _ (constructor_consistent deployer)) as Hs.
  set (s := run txs (constructor deployer)) in *.
  rewrite getDocumentAccessors_eq.
  destruct (exists_ (document s documentId)) eqn:Hex; cbn [negb];
    [| discriminate].
  destruct (N.eqb_spec (owner (document s documentId)) (sender msg))
    as [Hown|Hown]; cbn [negb]; [| discriminate].
  intros [= <-].
  destruct Hs as [Hdoc _].
  destruct (Hdoc documentId) as (Hnd & Hal & _ & Hno & _).
  split; [exact Hnd |]. intros user.
  rewrite hasAccess_eq, Hex. cbn [fst]. rewrite <- Hal, <- Hown. split.
  - intros Hyes. split.
    + intros ->. apply Hno. now apply Hal.
    + now rewrite Hyes, orb_true_r.
  - intros [Hne [= Hor]]. apply orb_true_iff in Hor as [Heq|Hyes];
      [| exact Hyes].
    apply N.eqb_eq in Heq. congruence.
Qed.

(** X3.  After any sequence of transactions since deployment, the two
    arrays kept per user hold no document twice;
    [getUserDocuments(user)] lists exactly the existing documents
    whose owner is [user], [getUserAccessibleDocuments(user)] exactly
    the documents of other owners for which [hasAccess] answers true
    for [user]. *)
Theorem user_arrays_are_the_documents deployer txs user :
  let s := run txs (constructor deployer) in
  exists owned accessible,
    getUserDocuments user s = (Returned owned, s)
    /\ getUserAccessibleDocuments user s = (Returned accessible, s)
    /\ NoDup owned /\ NoDup accessible
    /\ (forall documentId,
          documentId ∈ owned
          <-> exists_ (document s documentId) = true
              /\ owner (document s documentId) = user)
    /\ (forall documentId,
          documentId ∈ accessible
          <-> owner (document s documentId) <> user
              /\ fst (hasAccess documentId user s) = Returned true).
Proof.
  intros s.
  pose proof (run_consistent txs _ (constructor_consistent deployer)) as Hs.
  fold s in Hs. destruct Hs as [Hdoc Husr].
  destruct (Husr user) as (Hnd1 & Hnd2 & Hown & Hacc).
  exists (ownedBy s user), (accessibleTo s user).
  split; [reflexivity |]. split; [reflexivity |].
  split; [exact Hnd1 |]. split; [exact Hnd2 |]. split; [exact Hown |].
  intros documentId. rewrite Hacc, hasAccess_eq.
  destruct (Hdoc documentId) as (_ & Hal & Hne & Hno & _).
  split.
  - intros Hyes. split.
    + intros <-. apply Hno. now apply Hal.
    + destruct (exists_ (document s documentId)) eqn:Hex.
      * cbn [fst]. now rewrite Hyes, orb_true_r.
      * apply Hal in Hyes. rewrite (Hne eq_refl) in Hyes.
        now apply elem_of_nil in Hyes.
  - intros [Hne' Hret].
    destruct (exists_ (document s documentId)); [| discriminate].
    injection Hret as Hor. apply orb_true_iff in Hor as [Heq|Hyes];
      [| exact Hyes].
    apply N.eqb_eq in Heq. congruence.
Qed.

(** X4.  After any sequence of transactions since deployment, when the
    owner's [grantAccess] for [user] goes through, [hasAccess] answers
    true for [user]; a [revokeAccess] by the owner then goes through as
    well, after which [hasAccess] answers false for [user] and the
    access flags, the accessor array of the document and the user's
    array of accessible documents are what they were before the
    grant. *)
Theorem revoke_undoes_grant deployer txs msg msg' documentId user granted :
  let s := run txs (constructor deployer) in
  grantAccess msg documentId user s = (Returned tt, granted) ->
  sender msg' = sender msg ->
  fst (hasAccess documentId user granted) = Returned true
  /\ exists revoked,
       revokeAccess msg' documentId user granted = (Returned tt, revoked)
       /\ fst (hasAccess documentId user revoked) = Returned false
       /\ (forall i v, allowed revoked i v = allowed s i v)
       /\ (forall i, accessorsOf revoked i = accessorsOf s i)
       /\ (forall v, accessibleTo revoked v = accessibleTo s v)
       /\ (forall i, document revoked i = document s i)
       /\ (forall v, ownedBy revoked v = ownedBy s v).
Proof.
  intros s.
  pose proof (run_consistent txs _ (constructor_consistent deployer)) as Hs.
  fold s in Hs. destruct Hs as [Hdoc Husr].
  rewrite grantAccess_eq.
  destruct (paused s) eqn:Hp; [discriminate |].
  destruct (exists_ (document s documentId)) eqn:Hex; cbn [negb];
    [| discriminate].
  destruct (N.eqb_spec (owner (document s documentId)) (sender msg))
    as [Hown|Hown]; cbn [negb]; [| discriminate].
  destruct (N.eqb_spec user 0) as [Hz|Hz]; [discriminate |].
  destruct (N.eqb_spec user (sender msg)) as [Hself|Hself]; [discriminate |].
  destruct (allowed s documentId user) eqn:Hno; [discriminate |].
  intros [= <-] Hsame.
  assert (Hnew : user ∉ accessorsOf s documentId).
  { intros Hin. apply (Hdoc documentId) in Hin. congruence. }
  assert (Hnew' : documentId ∉ accessibleTo s user).
  { intros Hin. apply (Husr user) in Hin. congruence. }
  split.
  - rewrite hasAccess_eq. contract_reads. rewrite Hex. cbn [fst].
    rewrite ?decide_True by reflexivity. now rewrite orb_true_r.
  - rewrite revokeAccess_eq. contract_reads. cbn [paused].
    rewrite ?Hp, ?Hex, ?Hsame. cbn [negb].
    destruct (N.eqb_spec (owner (document s documentId)) (sender msg))
      as [_|?]; [| contradiction]. cbn [negb].
    destruct (N.eqb_spec user 0) as [?|_]; [contradiction |].
    rewrite ?decide_True by reflexivity. cbn [negb].
    eexists. split; [reflexivity |].
    split; [| split; [| split; [| split; [| split]]]].
    + rewrite hasAccess_eq. contract_reads. rewrite Hex. cbn [fst].
      rewrite ?decide_True by reflexivity.
      destruct (N.eqb_spec (owner (document s documentId)) user) as [E|_];
        [congruence | reflexivity].
    + intros i v. contract_reads.
      destruct (decide ((documentId, user) = (i, v))) as [[= <- <-]|Hne].
      * now rewrite Hno.
      * reflexivity.
    + intros i. contract_reads.
      destruct (decide (documentId = i)) as [<-|Hne]; [| reflexivity].
      rewrite ?decide_True by reflexivity.
      etransitivity; [exact (removeFromArray_first user _ [] Hnew) |].
      unfold address. rewrite last_last. apply removelast_last.
    + intros v. contract_reads.
      destruct (decide (user = v)) as [<-|Hne]; [| reflexivity].
      rewrite ?decide_True by reflexivity.
      change (_removeDocumentFromUserArray
                (accessibleTo s user ++ [documentId]) documentId)
        with (_removeFromArray (accessibleTo s user ++ [documentId])
                               documentId).
      etransitivity; [exact (removeFromArray_first documentId _ [] Hnew') |].
      unfold bytes32. rewrite last_last. apply removelast_last.
    + intros i. reflexivity.
    + intros v. reflexivity.
Qed.

(** X5.  No call by a sender other than the owner of an existing
    document changes the record of that document, the access flag of
    any address for it, or its accessor array. *)
Theorem only_the_owner_writes msg call s documentId :
  exists_ (document s documentId) = true ->
  owner (document s documentId) <> sender msg ->
  document (snd (execute msg call s)) documentId = document s documentId
  /\ (forall user,
        allowed (snd (execute msg call s)) documentId user
        = allowed s documentId user)
  /\ accessorsOf (snd (execute msg call s)) documentId
     = accessorsOf s documentId.
Proof.
  intros Hex Hown.
  assert (Hne : N.eqb (owner (document s documentId)) (sender msg) = false)
    by now apply N.eqb_neq.
  destruct call as [i h m | i u | i u | i h m | i | i us | | | n |];
    cbn [execute].
  - rewrite addDocument_eq.
    destruct (decide (i = documentId)) as [->|Hi].
    + rewrite Hex. now destruct (paused s).
    + split_guards; cbn [snd]; try tauto.
      split; [| split]; intros; contract_reads; settle_decides; reflexivity.
  - rewrite grantAccess_eq.
    destruct (decide (i = documentId)) as [->|Hi].
    + rewrite Hex, Hne. now destruct (paused s).
    + split_guards; cbn [snd]; try tauto.
      split; [| split]; intros; contract_reads; settle_decides; reflexivity.
  - rewrite revokeAccess_eq.
    destruct (decide (i = documentId)) as [->|Hi].
    + rewrite Hex, Hne. now destruct (paused s).
    + split_guards; cbn [snd]; try tauto.
      split; [| split]; intros; contract_reads; settle_decides; reflexivity.
  - rewrite updateDocument_eq.
    destruct (decide (i = documentId)) as [->|Hi].
    + rewrite Hex, Hne. now destruct (paused s).
    + split_guards; cbn [snd]; try tauto.
      split; [| split]; intros; contract_reads; settle_decides; reflexivity.
  - destruct (removeDocument_eq msg i s) as (al & uad & E & Hal & _).
    rewrite E.
    destruct (decide (i = documentId)) as [->|Hi].
    + rewrite Hex, Hne. now destruct (paused s).
    + split_guards; cbn [snd]; try tauto.
      split; [| split]; intros; unfold allowed; cbn [accessList];
        rewrite ?Hal; contract_reads; settle_decides; reflexivity.
  - rewrite batchGrantAccess_eq.
    destruct (decide (i = documentId)) as [->|Hi].
    + rewrite Hex, Hne. now destruct (paused s).
    + split_guards; cbn [snd]; try tauto.
      destruct (grantEach_spec msg i us s) as [Hok Hfail].
      destruct (decide (Forall (fun u => u <> 0%N /\ u <> sender msg) us))
        as [Hall|Hall].
      * destruct (Hok Hall) as (s' & E & Hd & _ & _ & _ & Hal & Hacc & _).
        rewrite E. cbn [snd]. split; [| split].
        -- unfold document. now rewrite Hd.
        -- intros user. rewrite Hal.
           rewrite bool_decide_eq_false_2 by (intros [? _]; congruence).
           apply orb_false_r.
        -- apply Hacc. congruence.
      * destruct (Hfail Hall) as (message & s' & E). rewrite E. tauto.
  - rewrite pause_eq. split_guards; cbn [snd]; tauto.
  - rewrite unpause_eq. split_guards; cbn [snd]; tauto.
  - rewrite transferOwnership_eq. split_guards; cbn [snd]; tauto.
  - rewrite renounceOwnership_eq. split_guards; cbn [snd]; tauto.
Qed.

(** X6.  After any sequence of transactions since deployment, a
    [removeDocument] that goes through leaves no address with the
    access flag of the document set, empties its accessor array and
    takes the document out of every user's arrays; [hasAccess] reverts
    for it.  When the same id is added again, [hasAccess] answers true
    for the new owner and for nobody else. *)
Theorem removal_revokes_everyone deployer txs msg documentId removed :
  removeDocument msg documentId (run txs (constructor deployer))
  = (Returned tt, removed) ->
  accessorsOf removed documentId = []
  /\ (forall user,
        allowed removed documentId user = false
        /\ (documentId ∉ accessibleTo removed user)
        /\ (documentId ∉ ownedBy removed user)
        /\ fst (hasAccess documentId user removed)
           = Thrown "Document does not exist")
  /\ forall msg' hash meta added,
       addDocument msg' documentId hash meta removed = (Returned tt, added) ->
       forall user,
         fst (hasAccess documentId user added)
         = Returned (N.eqb (sender msg') user).
Proof.
  intros E.
  pose proof (run_consistent txs _ (constructor_consistent deployer)) as Hs.
  apply (execute_consistent msg (RemoveDocument documentId)) in Hs.
  cbn [execute] in Hs. rewrite E in Hs. cbn [snd] in Hs.
  assert (Hgone : exists_ (document removed documentId) = false).
  { destruct (removeDocument_eq msg documentId (run txs (constructor deployer)))
      as (al & uad & E' & _). rewrite E in E'. revert E'.
    split_guards; try discriminate. intros [= ->]. contract_reads.
    now rewrite decide_True by reflexivity. }
  destruct Hs as [Hdoc Husr].
  destruct (Hdoc documentId) as (_ & Hal & Hne & _ & _).
  pose proof (Hne Hgone) as Hnil.
  assert (Hnone : forall user, allowed removed documentId user = false).
  { intros user. destruct (allowed removed documentId user) eqn:Hyes;
      [| reflexivity].
    apply Hal in Hyes. rewrite Hnil in Hyes. now apply elem_of_nil in Hyes. }
  split; [exact Hnil |]. split.
  - intros user. destruct (Husr user) as (_ & _ & Hown & Hacc).
    split; [apply Hnone |]. split; [| split].
    + rewrite Hacc, Hnone. discriminate.
    + rewrite Hown, Hgone. intros [? _]. discriminate.
    + rewrite hasAccess_eq, Hgone. reflexivity.
  - intros msg' hash meta added. rewrite addDocument_eq, Hgone.
    split_guards; try discriminate. intros [= <-] user.
    rewrite hasAccess_eq. contract_reads.
    rewrite decide_True by reflexivity. cbn [exists_ owner fst].
    now rewrite Hnone, orb_false_r.
Qed.

(** X7.  [batchGrantAccess] by the owner of an existing document, on
    a contract that is not paused, with between 1 and 50 addresses:
    when none of them is the zero address or the sender, the call
    goes through and sets the access flag of the document for exactly
    the listed addresses, in addition to those set before; when one of
    them is, the call reverts and the storage is as before the call,
    whatever came earlier in the list. *)
Theorem batch_grant_all_or_nothing msg documentId users s :
  paused s = false ->
  exists_ (document s documentId) = true ->
  owner (document s documentId) = sender msg ->
  (0 < length users <= 50)%nat ->
  (Forall (fun u => u <> 0%N /\ u <> sender msg) users ->
   exists s',
     batchGrantAccess msg documentId users s = (Returned tt, s')
     /\ (forall i v,
           allowed s' i v
           = (allowed s i v || bool_decide (i = documentId /\ v ∈ users)))
     /\ (forall i, document s' i = document s i)
     /\ (forall i, i <> documentId -> accessorsOf s' i = accessorsOf s i))
  /\ (~ Forall (fun u => u <> 0%N /\ u <> sender msg) users ->
      exists message,
        batchGrantAccess msg documentId users s = (Thrown message, s)).
Proof.
  intros Hp Hex Hown [Hpos Hmax].
  rewrite batchGrantAccess_eq, Hp, Hex, Hown, N.eqb_refl. cbn [negb].
  match goal with
  | |- context [negb (Nat.ltb 0 ?n)] =>
      replace (Nat.ltb 0 n) with true
        by (symmetry; apply Nat.ltb_lt; exact Hpos);
      replace (Nat.leb n 50) with true
        by (symmetry; apply Nat.leb_le; exact Hmax)
  end.
  cbn [negb].
  destruct (grantEach_spec msg documentId users s) as [Hok Hfail].
  split.
  - intros Hall.
    destruct (Hok Hall) as (s' & E & Hd & _ & _ & _ & Hal & Hacc & _).
    exists s'. rewrite E. split; [reflexivity |]. split; [exact Hal |].
    split; [| exact Hacc]. intros i. unfold document. now rewrite Hd.
  - intros Hall. destruct (Hfail Hall) as (message & s' & E).
    exists message. now rewrite E.
Qed.


End ContractProperties.

Section ContractExamples.
Local Open Scope N_scope.

(** Worked examples: address 10 adds document 7, grants it to 20 and 30,
    and revokes it from 20. *)

Lemma accessors_are_the_grantees_witness :
  let s :=
    DocumentSharing.run
      [(DocumentSharing.mkMsg 10 100, DocumentSharing.AddDocument 7 "Qmabc" "{}");
       (DocumentSharing.mkMsg 10 101, DocumentSharing.GrantAccess 7 20);
       (DocumentSharing.mkMsg 10 102, DocumentSharing.GrantAccess 7 30);
       (DocumentSharing.mkMsg 10 103, DocumentSharing.RevokeAccess 7 20)]
      (DocumentSharing.constructor 1) in
  fst (DocumentSharing.getDocumentAccessors (DocumentSharing.mkMsg 10 104) 7 s)
  = Returned [30]
  /\ fst (DocumentSharing.hasAccess 7 30 s) = Returned true
  /\ fst (DocumentSharing.hasAccess 7 20 s) <> Returned true.
Proof.
  intros s.
  assert (H : fst (DocumentSharing.getDocumentAccessors
                     (DocumentSharing.mkMsg 10 104) 7 s)
              = Returned [30]) by (vm_compute; reflexivity).
  destruct (accessors_are_the_grantees 1 _ _ _ _ H) as [_ Hiff].
  split; [exact H |]. split.
  - apply (Hiff 30). now apply list_elem_of_singleton.
  - intros Hyes. assert (Hin : 20 ∈ [30])
      by (apply Hiff; split; [discriminate | exact Hyes]).
    apply list_elem_of_singleton in Hin. discriminate.
Defined.

Lemma revoke_undoes_grant_witness :
  let s :=
    DocumentSharing.run
      [(DocumentSharing.mkMsg 10 100, DocumentSharing.AddDocument 7 "Qmabc" "{}");
       (DocumentSharing.mkMsg 10 101, DocumentSharing.GrantAccess 7 30)]
      (DocumentSharing.constructor 1) in
  let granted :=
    snd (DocumentSharing.grantAccess (DocumentSharing.mkMsg 10 102) 7 20 s) in
  fst (DocumentSharing.hasAccess 7 20 granted) = Returned true
  /\ exists revoked,
       DocumentSharing.revokeAccess (DocumentSharing.mkMsg 10 103) 7 20 granted
       = (Returned tt, revoked)
       /\ fst (DocumentSharing.hasAccess 7 20 revoked) = Returned false
       /\ DocumentSharing.accessorsOf revoked 7 = [30].
Proof.
  intros s granted.
  assert (E0 : DocumentSharing.grantAccess (DocumentSharing.mkMsg 10 102)
                 7 20 s
               = (Returned tt, granted)) by (vm_compute; reflexivity).
  destruct (revoke_undoes_grant 1 _ (DocumentSharing.mkMsg 10 102)
              (DocumentSharing.mkMsg 10 103) 7 20 granted E0 eq_refl)
    as (Hyes & revoked & E & Hno & _ & Hacc & _).
  split; [exact Hyes |]. exists revoked. split; [exact E |].
  split; [exact Hno |]. rewrite Hacc. reflexivity.
Defined.

(** Address 99 owns nothing: its [revokeAccess] for 30 changes nothing. *)
Lemma only_the_owner_writes_witness :
  let s :=
    DocumentSharing.run
      [(DocumentSharing.mkMsg 10 100, DocumentSharing.AddDocument 7 "Qmabc" "{}");
       (DocumentSharing.mkMsg 10 101, DocumentSharing.GrantAccess 7 30)]
      (DocumentSharing.constructor 1) in
  let s' :=
    snd (DocumentSharing.execute (DocumentSharing.mkMsg 99 102)
           (DocumentSharing.RevokeAccess 7 30) s) in
  DocumentSharing.allowed s' 7 30 = true
  /\ DocumentSharing.accessorsOf s' 7 = [30].
Proof.
  intros s s'.
  destruct (only_the_owner_writes (DocumentSharing.mkMsg 99 102)
              (DocumentSharing.RevokeAccess 7 30) s 7 eq_refl)
    as (_ & Hal & Hacc).
  - vm_compute. discriminate.
  - unfold s'. rewrite Hal, Hacc. split; vm_compute; reflexivity.
Defined.

(** The owner removes document 7; address 40 adds the id again. *)
Lemma removal_revokes_everyone_witness :
  let txs :=
    [(DocumentSharing.mkMsg 10 100, DocumentSharing.AddDocument 7 "Qmabc" "{}");
     (DocumentSharing.mkMsg 10 101, DocumentSharing.GrantAccess 7 30)] in
  let removed :=
    snd (DocumentSharing.removeDocument (DocumentSharing.mkMsg 10 102) 7
           (DocumentSharing.run txs (DocumentSharing.constructor 1))) in
  let added :=
    snd (DocumentSharing.addDocument (DocumentSharing.mkMsg 40 103) 7
           "Qmxyz" "{}" removed) in
  fst (DocumentSharing.hasAccess 7 30 removed)
  = Thrown "Document does not exist"
  /\ fst (DocumentSharing.hasAccess 7 30 added) = Returned false
  /\ fst (DocumentSharing.hasAccess 7 40 added) = Returned true.
Proof.
  intros txs removed added.
  assert (E0 : DocumentSharing.removeDocument (DocumentSharing.mkMsg 10 102)
                 7 (DocumentSharing.run txs (DocumentSharing.constructor 1))
               = (Returned tt, removed)) by (vm_compute; reflexivity).
  assert (E1 : DocumentSharing.addDocument (DocumentSharing.mkMsg 40 103) 7
                 "Qmxyz" "{}" removed
               = (Returned tt, added)) by (vm_compute; reflexivity).
  destruct (removal_revokes_everyone 1 txs (DocumentSharing.mkMsg 10 102) 7
              removed E0)
    as (_ & Hgone & Hagain).
  split; [apply Hgone |].
  split; [exact (Hagain _ _ _ _ E1 30) | exact (Hagain _ _ _ _ E1 40)].
Defined.

(** A batch for 20, 30 and the zero address grants nothing; a batch for
    20 and 30 grants both. *)
Lemma batch_grant_all_or_nothing_witness :
  let s :=
    DocumentSharing.run
      [(DocumentSharing.mkMsg 10 100, DocumentSharing.AddDocument 7 "Qmabc" "{}")]
      (DocumentSharing.constructor 1) in
  (exists message,
      DocumentSharing.batchGrantAccess (DocumentSharing.mkMsg 10 101) 7
        [20; 30; 0] s
      = (Thrown message, s))
  /\ exists s',
       DocumentSharing.batchGrantAccess (DocumentSharing.mkMsg 10 101) 7
         [20; 30] s
       = (Returned tt, s')
       /\ DocumentSharing.allowed s' 7 20 = true
       /\ DocumentSharing.allowed s' 7 30 = true
       /\ DocumentSharing.allowed s' 7 40 = false.
Proof.
  intros s. split.
  - destruct (batch_grant_all_or_nothing (DocumentSharing.mkMsg 10 101) 7
                [20; 30; 0] s eq_refl eq_refl eq_refl)
      as [_ Hfail]; [cbn; lia |].
    apply Hfail. intros Hall.
    apply Forall_cons in Hall as [_ Hall].
    apply Forall_cons in Hall as [_ Hall].
    apply Forall_cons in Hall as [[Hz _] _]. now apply Hz.
  - destruct (batch_grant_all_or_nothing (DocumentSharing.mkMsg 10 101) 7
                [20; 30] s eq_refl eq_refl eq_refl)
      as [Hok _]; [cbn; lia |].
    destruct Hok as (s' & E & Hal & _).
    + repeat constructor; discriminate.
    + exists s'. split; [exact E |]. rewrite !Hal. vm_compute. tauto.
Defined.


End ContractExamples.

(** ** models/Document.js: the two methods that edit the shared-with list *)

Section SharedWithList.
Variable userId : ObjectId.

Lemma find_app_other (l : list Share.t) entry :
  Share.user entry <> userId ->
  find (Document.isShareOf userId) (l ++ [entry])
  = find (Document.isShareOf userId) l.
Proof.
  intros Hu. induction l as [|share rest IH]; cbn.
  - apply eqs_false in Hu. unfold Document.isShareOf. now rewrite Hu.
  - destruct (Document.isShareOf userId share); [reflexivity | exact IH].
Qed.

Lemma find_updateFirst_same permissions now (l : list Share.t) existing :
  find (Document.isShareOf userId) l = Some existing ->
  find (Document.isShareOf userId)
       (Document.updateFirst userId permissions now l)
  = Some (Share.mk (Share.user existing) now permissions).
Proof.
  induction l as [|share rest IH]; cbn; [discriminate |].
  destruct (Document.isShareOf userId share) eqn:E.
  - intros [= <-]. cbn. unfold Document.isShareOf in *. cbn. now rewrite E.
  - intros Hf. cbn. rewrite E. now apply IH.
Qed.

Lemma find_updateFirst_other other permissions now (l : list Share.t) :
  other <> userId ->
  find (Document.isShareOf other)
       (Document.updateFirst userId permissions now l)
  = find (Document.isShareOf other) l.
Proof.
  intros Hne. induction l as [|share rest IH]; cbn; [reflexivity |].
  destruct (Document.isShareOf userId share) eqn:E; cbn.
  - apply isShareOf_true in E.
    assert (Document.isShareOf other share = false) as ->.
    { apply eqs_false. congruence. }
    assert (Document.isShareOf other
              (Share.mk (Share.user share) now permissions) = false) as ->.
    { apply eqs_false. cbn. congruence. }
    reflexivity.
  - destruct (Document.isShareOf other share); [reflexivity | exact IH].
Qed.

Lemma map_user_updateFirst permissions now (l : list Share.t) :
  map Share.user (Document.updateFirst userId permissions now l)
  = map Share.user l.
Proof.
  induction l as [|share rest IH]; cbn; [reflexivity |].
  destruct (Document.isShareOf userId share); cbn; [reflexivity |].
  now rewrite IH.
Qed.

Lemma find_filter_other other (l : list Share.t) :
  other <> userId ->
  find (Document.isShareOf other)
       (List.filter (fun share => negb (Document.isShareOf userId share)) l)
  = find (Document.isShareOf other) l.
Proof.
  intros Hne. induction l as [|share rest IH]; cbn; [reflexivity |].
  destruct (Document.isShareOf userId share) eqn:E; cbn.
  - apply isShareOf_true in E.
    assert (Document.isShareOf other share = false) as ->.
    { apply eqs_false. congruence. }
    exact IH.
  - destruct (Document.isShareOf other share); [reflexivity | exact IH].
Qed.

Lemma filter_keeps_all (l : list Share.t) :
  existsb (Document.isShareOf userId) l = false ->
  List.filter (fun share => negb (Document.isShareOf userId share)) l = l.
Proof.
  induction l as [|share rest IH]; cbn; [reflexivity |].
  destruct (Document.isShareOf userId share); cbn; [discriminate |].
  intros Hn. now rewrite IH.
Qed.

Lemma find_none_existsb (l : list Share.t) :
  find (Document.isShareOf userId) l = None
  <-> existsb (Document.isShareOf userId) l = false.
Proof.
  induction l as [|share rest IH]; cbn; [tauto |].
  destruct (Document.isShareOf userId share); cbn; [| exact IH].
  split; discriminate.
Qed.

Lemma find_some_user (l : list Share.t) existing :
  find (Document.isShareOf userId) l = Some existing ->
  Share.user existing = userId
  /\ existsb (Document.isShareOf userId) l = true.
Proof.
  intros Hf. split.
  - apply find_some in Hf as [_ Hu]. now apply isShareOf_true.
  - destruct (existsb (Document.isShareOf userId) l) eqn:E; [reflexivity |].
    apply find_none_existsb in E. congruence.
Qed.

End SharedWithList.

Lemma existsb_users (userId : ObjectId) (l l' : list Share.t) :
  map Share.user l = map Share.user l' ->
  existsb (Document.isShareOf userId) l
  = existsb (Document.isShareOf userId) l'.
Proof.
  intros Hm. apply eq_true_iff_eq. rewrite !shared_iff. now rewrite Hm.
Qed.

(** X9.  [shareWith(userId, permissions)] always returns.  For the
    owner it returns false and changes nothing.  For anyone else the
    user ends up with exactly [permissions] and with access; the call
    returns false, changing nothing and reading no clock, exactly when
    the user already had that permission; only the shared-with list is
    written; the users listed are the ones listed before, followed by
    [userId] when it was not among them; and the permission and access
    of every other user are as before. *)
Theorem shareWith_gives_the_permission d userId permissions a :
  exists changed d' a',
    Document.shareWith d userId permissions a = (Returned (changed, d'), a')
    /\ Document.set_sharedWith d' (Document.sharedWith d) = d
    /\ (Document.owner d = userId -> changed = false /\ d' = d /\ a' = a)
    /\ (Document.owner d <> userId ->
        Document.getUserPermission d' userId = Some permissions
        /\ Document.hasAccess d' userId = true
        /\ (changed = false
            <-> Document.getUserPermission d userId = Some permissions)
        /\ (changed = false -> d' = d /\ a' = a)
        /\ map Share.user (Document.sharedWith d')
           = map Share.user (Document.sharedWith d)
             ++ (if existsb (Document.isShareOf userId) (Document.sharedWith d)
                 then [] else [userId])
        /\ forall other,
             other <> userId ->
             Document.getUserPermission d' other
             = Document.getUserPermission d other
             /\ Document.hasAccess d' other = Document.hasAccess d other).
Proof.
  unfold Document.shareWith.
  destruct (Js.eqs (Document.owner d) userId) eqn:Eo.
  { apply eqs_true in Eo. exists false, d, a. split; [reflexivity |].
    split; [now destruct d |]. split; [tauto |]. intros Hne. contradiction. }
  apply eqs_false in Eo.
  assert (Hperm : forall l,
             Document.getUserPermission (Document.set_sharedWith d l) userId
             = match find (Document.isShareOf userId) l with
               | Some entry => Some (Share.permissions entry)
               | None => None
               end).
  { intros l. unfold Document.getUserPermission. cbn.
    apply eqs_false in Eo. now rewrite Eo. }
  assert (Hframe : forall l other,
             other <> userId ->
             find (Document.isShareOf other) l
             = find (Document.isShareOf other) (Document.sharedWith d) ->
             map Share.user l
             = map Share.user (Document.sharedWith d)
               ++ (if existsb (Document.isShareOf userId)
                        (Document.sharedWith d)
                   then [] else [userId]) ->
             Document.getUserPermission (Document.set_sharedWith d l) other
             = Document.getUserPermission d other
             /\ Document.hasAccess (Document.set_sharedWith d l) other
                = Document.hasAccess d other).
  { intros l other Hne Hfind Hmap. split.
    - unfold Document.getUserPermission. cbn. now rewrite Hfind.
    - unfold Document.hasAccess. cbn.
      destruct (Js.eqs (Document.owner d) other); [reflexivity |].
      apply eq_true_iff_eq. rewrite !shared_iff, Hmap, in_app_iff.
      split; [| tauto]. intros [H|H]; [exact H |].
      destruct (existsb _ _); cbn in H; [tauto |].
      destruct H as [H|[]]. congruence. }
  destruct (find (Document.isShareOf userId) (Document.sharedWith d))
    as [existing|] eqn:Ef.
  - destruct (find_some_user userId _ _ Ef) as [Hu Hex].
    destruct (Js.eqs (Share.permissions existing) permissions) eqn:Ep;
      cbn [negb].
    + apply eqs_true in Ep. exists false, d, a.
      split; [reflexivity |]. split; [now destruct d |].
      split; [tauto |]. intros _.
      assert (Hsame : Document.getUserPermission d userId = Some permissions).
      { unfold Document.getUserPermission.
        apply eqs_false in Eo. rewrite Eo, Ef. now rewrite Ep. }
      split; [exact Hsame |]. split.
      { apply hasAccess_iff. right. now apply shared_iff. }
      split; [tauto |]. split; [tauto |]. split.
      { rewrite Hex. now rewrite app_nil_r. }
      tauto.
    + apply eqs_false in Ep.
      unfold bind, Ambient.now, Ambient.read, ret. cbn beta iota.
      eexists true, _, _. split; [reflexivity |].
      split; [now destruct d |]. split; [tauto |]. intros _.
      split.
      { rewrite Hperm.
        now rewrite (find_updateFirst_same userId _ _ _ _ Ef). }
      split.
      { apply hasAccess_iff. right. cbn. rewrite map_user_updateFirst.
        now apply shared_iff. }
      split.
      { split; [discriminate |]. intros Hsame.
        unfold Document.getUserPermission in Hsame.
        apply eqs_false in Eo. rewrite Eo, Ef in Hsame. congruence. }
      split; [discriminate |]. split.
      { cbn. rewrite map_user_updateFirst, Hex. now rewrite app_nil_r. }
      intros other Hne. apply Hframe; [exact Hne | |].
      * now apply find_updateFirst_other.
      * rewrite map_user_updateFirst, Hex. now rewrite app_nil_r.
  - assert (Hex : existsb (Document.isShareOf userId) (Document.sharedWith d)
                  = false) by now apply find_none_existsb.
    unfold bind, Ambient.now, Ambient.read, ret. cbn beta iota.
    eexists true, _, _. split; [reflexivity |].
    split; [now destruct d |]. split; [tauto |]. intros _.
    split.
    { rewrite Hperm. erewrite find_app_new; [reflexivity | exact Ef | reflexivity]. }
    split.
    { apply hasAccess_iff. right. cbn. rewrite map_app, in_app_iff.
      right. now left. }
    split.
    { split; [discriminate |]. intros Hsame.
      unfold Document.getUserPermission in Hsame.
      apply eqs_false in Eo. rewrite Eo, Ef in Hsame. discriminate. }
    split; [discriminate |]. split.
    { cbn. now rewrite map_app, Hex. }
    intros other Hne. apply Hframe; [exact Hne | |].
    + apply find_app_other. cbn. congruence.
    + now rewrite map_app, Hex.
Qed.

(** X10.  [unshareWith(userId)] removes every entry of the user: it
    returns true exactly when there was one; afterwards the user has
    access only if it is the owner; only the shared-with list is
    written; the permission and access of every other user are as
    before.  It undoes a [shareWith] that added the user. *)
Theorem unshareWith_takes_access_away d userId :
  (fst (Document.unshareWith d userId) = true
   <-> existsb (Document.isShareOf userId) (Document.sharedWith d) = true)
  /\ Document.set_sharedWith (snd (Document.unshareWith d userId))
                             (Document.sharedWith d) = d
  /\ Document.hasAccess (snd (Document.unshareWith d userId)) userId
     = Js.eqs (Document.owner d) userId
  /\ ~ In userId
         (map Share.user
              (Document.sharedWith (snd (Document.unshareWith d userId))))
  /\ (forall other,
        other <> userId ->
        Document.getUserPermission (snd (Document.unshareWith d userId)) other
        = Document.getUserPermission d other
        /\ Document.hasAccess (snd (Document.unshareWith d userId)) other
           = Document.hasAccess d other)
  /\ (forall permissions a shared a',
        existsb (Document.isShareOf userId) (Document.sharedWith d) = false ->
        Document.shareWith d userId permissions a
        = (Returned (true, shared), a') ->
        Document.unshareWith shared userId = (true, d)).
Proof.
  split; [| split; [| split; [| split; [| split]]]].
  - unfold Document.unshareWith. cbn [fst]. split.
    + intros Hlt. apply Nat.ltb_lt in Hlt.
      destruct (existsb _ _) eqn:E; [reflexivity |].
      rewrite (filter_keeps_all userId _ E) in Hlt. lia.
    + intros Hex. apply Nat.ltb_lt. now apply filter_drops_some.
  - now destruct d.
  - unfold Document.unshareWith, Document.hasAccess. cbn.
    destruct (Js.eqs (Document.owner d) userId); [reflexivity |].
    destruct (existsb _ _) eqn:E; [| reflexivity].
    apply shared_iff in E. now apply unshared_absent in E.
  - cbn. apply unshared_absent.
  - intros other Hne. cbn. split.
    + unfold Document.getUserPermission. cbn.
      now rewrite (find_filter_other userId other _ Hne).
    + unfold Document.hasAccess. cbn.
      destruct (Js.eqs (Document.owner d) other); [reflexivity |].
      pose proof (find_filter_other userId other (Document.sharedWith d) Hne)
        as Hf.
      destruct (existsb (Document.isShareOf other) (Document.sharedWith d))
        eqn:E.
      * destruct (existsb _ (List.filter _ _)) eqn:E'; [reflexivity |].
        apply find_none_existsb in E'. rewrite Hf in E'.
        apply find_none_existsb in E'. congruence.
      * apply find_none_existsb in E. rewrite <- Hf in E.
        now apply find_none_existsb in E.
  - intros permissions a shared a' Hex Hshare.
    unfold Document.shareWith in Hshare.
    destruct (Js.eqs (Document.owner d) userId); [discriminate |].
    pose proof Hex as Hnone. apply find_none_existsb in Hnone.
    rewrite Hnone in Hshare.
    unfold bind, Ambient.now, Ambient.read, ret in Hshare.
    cbn beta iota in Hshare. injection Hshare as <- _.
    unfold Document.unshareWith. cbn.
    rewrite List.filter_app. cbn.
    assert (Document.isShareOf userId
              (Share.mk userId
                 (Z.of_N (Ambient.reading a (Ambient.cursor a))) permissions)
            = true) as -> by (apply isShareOf_true; reflexivity).
    cbn. rewrite app_nil_r, (filter_keeps_all userId _ Hex).
    f_equal.
    + apply Nat.ltb_lt. rewrite length_app. cbn. lia.
    + now destruct d.
Qed.

(** Alice's report is shared with Bob for reading; sharing it with him
    for writing rewrites his entry and leaves Carol without access. *)
Lemma shareWith_gives_the_permission_witness :
  exists d' a',
    Document.shareWith Fixture.sharedReport "b2" "write" Fixture.readings
    = (Returned (true, d'), a')
    /\ Document.getUserPermission d' "b2" = Some "write"
    /\ map Share.user (Document.sharedWith d') = ["b2"]
    /\ Document.hasAccess d' "c3" = false.
Proof.
  destruct (shareWith_gives_the_permission Fixture.sharedReport "b2" "write"
              Fixture.readings)
    as (changed & d' & a' & E & _ & _ & Hother).
  destruct Hother as (Hp & _ & Hch & _ & Hmap & Hframe); [discriminate |].
  exists d', a'. destruct changed.
  - split; [exact E |]. split; [exact Hp |]. split; [exact Hmap |].
    destruct (Hframe "c3") as [_ Ha]; [discriminate |].
    rewrite Ha. reflexivity.
  - exfalso. destruct Hch as [Hch _]. specialize (Hch eq_refl). discriminate.
Defined.

(** Taking the report back from Bob; and sharing Alice's unshared report
    with Bob, then taking it back. *)
Lemma unshareWith_takes_access_away_witness :
  fst (Document.unshareWith Fixture.sharedReport "b2") = true
  /\ Document.hasAccess (snd (Document.unshareWith Fixture.sharedReport "b2"))
                        "b2" = false
  /\ forall shared a',
       Document.shareWith Fixture.report "b2" "read" Fixture.readings
       = (Returned (true, shared), a') ->
       Document.unshareWith shared "b2" = (true, Fixture.report).
Proof.
  destruct (unshareWith_takes_access_away Fixture.sharedReport "b2")
    as (Hch & _ & Ha & _).
  destruct (unshareWith_takes_access_away Fixture.report "b2")
    as (_ & _ & _ & _ & _ & Hround).
  split; [now apply Hch |]. split; [rewrite Ha; reflexivity |].
  intros shared a'. apply Hround. reflexivity.
Defined.

(** ** The development blob store *)

Lemma hex_length bs : String.length (Encoding.hex bs) = (2 * length bs)%nat.
Proof.
  induction bs as [|b bs IH]; [reflexivity |].
  change (Encoding.hex (b :: bs))
    with (String (Encoding.hexDigit (Byte.to_N b / 16))
            (String (Encoding.hexDigit (Byte.to_N b mod 16))
               (Encoding.hex bs))).
  cbn [String.length length]. rewrite IH. lia.
Qed.

Lemma substring_length n (s : string) :
  (n <= String.length s)%nat -> String.length (substring 0 n s) = n.
Proof.
  revert s. induction n as [|n IH]; intros s Hn.
  - now destruct s.
  - destruct s as [|c s]; cbn in *; [lia |]. rewrite IH; [reflexivity | lia].
Qed.

Section DevStore.
Context `{NodeCrypto}.
Implicit Type this : DevIPFSService.t.

Lemma startsWithQm_fake blob :
  DevIPFSService.startsWithQm (DevIPFSService.generateFakeIPFSHash blob)
  = true.
Proof.
  unfold DevIPFSService.startsWithQm, DevIPFSService.generateFakeIPFSHash.
  simpl. destruct (substring 0 44 (sha256hex blob)); simpl; apply eqs_refl.
Qed.

Lemma fake_nonempty blob :
  Js.eqs (DevIPFSService.generateFakeIPFSHash blob) "" = false.
Proof. now apply eqs_false. Qed.

Lemma dev_upload_plain buffer this :
  DevIPFSService.isConnected this = true ->
  DevIPFSService.uploadFile buffer false this
  = (Returned (Upload.mk (DevIPFSService.generateFakeIPFSHash buffer)
                         (length buffer) None),
     DevIPFSService.mk true
       (<[DevIPFSService.generateFakeIPFSHash buffer := buffer]>
          (DevIPFSService.storage this))
       (DevIPFSService.ambient this)).
Proof.
  intros Hc. unfold DevIPFSService.uploadFile.
  unfold bind at 1, get at 1. rewrite Hc. cbn [negb].
  unfold try_catch, bind, ret, DevIPFSService.writeFileSync, modify.
  cbn. now rewrite Hc.
Qed.

(** Downloading what is stored under an address of the store. *)
Lemma dev_download_stored blob key this :
  DevIPFSService.isConnected this = true ->
  DevIPFSService.storage this !! DevIPFSService.generateFakeIPFSHash blob
  = Some blob ->
  DevIPFSService.downloadFile (DevIPFSService.generateFakeIPFSHash blob)
                              key this
  = (match key with
     | Some k =>
         if Js.eqs k "" then Returned blob
         else match DevIPFSService.decryptBuffer blob k with
              | Returned bytes => Returned bytes
              | Thrown message =>
                  Thrown ("Failed to download file from dev storage: "
                          ++ message)%string
              end
     | None => Returned blob
     end, this).
Proof.
  intros Hc Hs. unfold DevIPFSService.downloadFile.
  unfold bind at 1, get at 1. rewrite Hc. cbn [negb].
  rewrite fake_nonempty, startsWithQm_fake. cbn [negb orb].
  rewrite Hs. unfold try_catch, ret, throw.
  destruct key as [k|]; [| reflexivity].
  destruct (Js.eqs k ""); [reflexivity |].
  now destruct (DevIPFSService.decryptBuffer blob k).
Qed.

(** X12.  [downloadFile] of the development store, by case: without a
    connection it throws [Dev IPFS storage not available]; for an
    empty address or one that does not start with [Qm] it throws
    [Invalid IPFS hash format] behind the prefix
    [Failed to download file from dev storage: ]; for an address that
    names a file of the directory (no path separator in it) and that
    nothing is stored under, [File not found in dev storage] behind
    the same prefix; when the cipher rejects the key, a message with
    that prefix; with no key, or an empty one, it returns the stored
    bytes as they are.  In every case the store is left as it was. *)
Theorem dev_download_by_case this ipfsHash key :
  snd (DevIPFSService.downloadFile ipfsHash key this) = this
  /\ (DevIPFSService.isConnected this = false ->
      fst (DevIPFSService.downloadFile ipfsHash key this)
      = Thrown "Dev IPFS storage not available")
  /\ (DevIPFSService.isConnected this = true ->
      (ipfsHash = "" \/ DevIPFSService.startsWithQm ipfsHash = false ->
       fst (DevIPFSService.downloadFile ipfsHash key this)
       = Thrown
           "Failed to download file from dev storage: Invalid IPFS hash format")
      /\ (DevIPFSService.startsWithQm ipfsHash = true ->
          Js.contains ipfsHash "/" = false ->
          (DevIPFSService.storage this !! ipfsHash = None ->
           fst (DevIPFSService.downloadFile ipfsHash key this)
           = Thrown
               "Failed to download file from dev storage: File not found in dev storage")
          /\ forall blob,
               DevIPFSService.storage this !! ipfsHash = Some blob ->
               (key = None \/ key = Some "" ->
                fst (DevIPFSService.downloadFile ipfsHash key this)
                = Returned blob)
               /\ forall k,
                    key = Some k -> k <> "" ->
                    gcmOpen (fromBase64 k) ipfsDocumentAAD
                            (subarray 16 32 blob) (subarrayFrom 32 blob)
                    = None ->
                    exists reason,
                      fst (DevIPFSService.downloadFile ipfsHash key this)
                      = Thrown
                          ("Failed to download file from dev storage: "
                           ++ reason))).
Proof.
  unfold DevIPFSService.downloadFile.
  unfold bind at 1 2 3 4 5 6, get at 1 2 3 4 5 6. cbn beta iota.
  destruct (DevIPFSService.isConnected this) eqn:Hc; cbn [negb].
  - split; [| split; [discriminate |]].
    + unfold try_catch, throw, ret.
      destruct (Js.eqs ipfsHash "" || negb _)%bool; [reflexivity |].
      destruct (DevIPFSService.storage this !! ipfsHash); [| reflexivity].
      destruct key as [k|]; [| reflexivity].
      destruct (Js.eqs k ""); [reflexivity |].
      now destruct (DevIPFSService.decryptBuffer l k).
    + intros _. split.
      * intros Hbad.
        assert (Js.eqs ipfsHash "" || negb (DevIPFSService.startsWithQm ipfsHash)
                = true)%bool as ->.
        { destruct Hbad as [-> | ->]; [reflexivity | apply orb_true_r]. }
        reflexivity.
      * intros Hqm _.
        assert (Hne : Js.eqs ipfsHash "" = false).
        { apply eqs_false. intros ->. discriminate Hqm. }
        rewrite Hne, Hqm.
        cbn [negb orb]. split.
        -- intros ->. reflexivity.
        -- intros blob ->. unfold try_catch, ret. split.
           ++ intros [-> | ->]; reflexivity.
           ++ intros k -> Hk Hopen. apply eqs_false in Hk. rewrite Hk.
              unfold DevIPFSService.decryptBuffer. cbn zeta.
              rewrite Hopen. eexists. reflexivity.
  - split; [reflexivity |]. split; [reflexivity | discriminate].
Qed.

(** X13.  When the digest has at least 22 bytes (SHA-256 gives 32), the
    address [generateFakeIPFSHash] makes up is the two letters [Qm]
    followed by the first 44 hexadecimal digits of the digest: it has
    46 characters and passes [isValidIPFSHash] of the development
    service. *)
Theorem fake_hash_is_valid fileBuffer :
  (22 <= length (sha256 fileBuffer))%nat ->
  String.length (DevIPFSService.generateFakeIPFSHash fileBuffer) = 46%nat
  /\ DevIPFSService.isValidIPFSHash
       (DevIPFSService.generateFakeIPFSHash fileBuffer) = true
  /\ DevIPFSService.generateFakeIPFSHash fileBuffer
     = ("Qm" ++ substring 0 44 (Encoding.hex (sha256 fileBuffer)))%string.
Proof.
  intros Hlen.
  assert (Hl : String.length (DevIPFSService.generateFakeIPFSHash fileBuffer)
               = 46%nat).
  { unfold DevIPFSService.generateFakeIPFSHash, sha256hex.
    change (String.length ("Qm" ++ ?x)%string)
      with (S (S (String.length x))).
    rewrite substring_length; [reflexivity |].
    rewrite hex_length. lia. }
  split; [exact Hl |]. split; [| reflexivity].
  unfold DevIPFSService.isValidIPFSHash.
  rewrite fake_nonempty, startsWithQm_fake, Hl. reflexivity.
Qed.

(** X14.  The development store is addressed by content.  Uploading a
    buffer without encryption on a connected store returns the address
    made from the buffer, writes the buffer under it and touches no
    other address; [verifyUpload] then answers true for the address;
    uploading the same buffer again returns the same result and leaves
    the store exactly as it was; [pinFile] and [unpinFile] answer true
    and remove nothing. *)
Theorem dev_store_is_content_addressed buffer this :
  DevIPFSService.isConnected this = true ->
  exists uploaded this',
    DevIPFSService.uploadFile buffer false this = (Returned uploaded, this')
    /\ uploaded
       = Upload.mk (DevIPFSService.generateFakeIPFSHash buffer)
                   (length buffer) None
    /\ DevIPFSService.storage this' !! Upload.ipfsHash uploaded = Some buffer
    /\ (forall other,
          other <> Upload.ipfsHash uploaded ->
          DevIPFSService.storage this' !! other
          = DevIPFSService.storage this !! other)
    /\ DevIPFS.verifyUpload (Upload.ipfsHash uploaded) this'
       = (Returned true, this')
    /\ DevIPFSService.uploadFile buffer false this'
       = (Returned uploaded, this')
    /\ DevIPFSService.unpinFile (Upload.ipfsHash uploaded) this'
       = (Returned true, this')
    /\ DevIPFS.pinFile (Upload.ipfsHash uploaded) this'
       = (Returned true, this').
Proof.
  intros Hc. eexists _, _.
  split; [now apply dev_upload_plain |]. split; [reflexivity |].
  cbn [Upload.ipfsHash DevIPFSService.storage].
  split; [apply lookup_insert_eq |]. split.
  { intros other Hne. now apply lookup_insert_ne. }
  split.
  { unfold DevIPFS.verifyUpload, bind, get, ret. cbn.
    rewrite lookup_insert_eq. now rewrite bool_decide_eq_true_2. }
  split; [| split; reflexivity].
  rewrite dev_upload_plain by reflexivity. cbn.
  now rewrite insert_insert_eq.
Qed.

End DevStore.

Section DevStoreRoundTrip.
Context `{NodeCrypto}.

(** What the services rely on from Node's [crypto] and [Buffer]. *)
Hypothesis open_seal : forall key aad data,
  gcmOpen key aad (snd (gcmSeal key aad data)) (fst (gcmSeal key aad data))
  = Some data.
Hypothesis tag_length : forall key aad data,
  length (snd (gcmSeal key aad data)) = 16%nat.
Hypothesis base64_decodes : forall bytes, fromBase64 (toBase64 bytes) = bytes.

Hypothesis base64_nonempty : forall bytes,
  bytes <> [] -> toBase64 bytes <> "".

Lemma sealed_length buffer a :
  length (Encrypted.encryptedBuffer (sealedWith buffer a))
  = (32 + length (fst (gcmSeal (Ambient.upcoming a 0 32)
                               ipfsDocumentAAD buffer)))%nat.
Proof.
  unfold sealedWith, Encrypted.encryptedBuffer.
  rewrite !length_app, upcoming_length, tag_length. lia.
Qed.

(** X11.  On a connected development store, whatever is uploaded comes
    back: [downloadFile] with the address and the key [uploadFile]
    returned (no key without encryption) returns the uploaded buffer
    and leaves the store as it is.  The size [uploadFile] reports is
    that of the stored bytes; with encryption these are not the buffer
    but IV, tag and ciphertext, 32 bytes more than the ciphertext, and
    a download without the key returns them undecrypted. *)
Theorem dev_upload_then_download buffer encrypt this :
  DevIPFSService.isConnected this = true ->
  exists uploaded this' blob,
    DevIPFSService.uploadFile buffer encrypt this = (Returned uploaded, this')
    /\ (Upload.encryptionKey uploaded = None <-> encrypt = false)
    /\ DevIPFSService.downloadFile (Upload.ipfsHash uploaded)
                                   (Upload.encryptionKey uploaded) this'
       = (Returned buffer, this')
    /\ DevIPFSService.storage this' !! Upload.ipfsHash uploaded = Some blob
    /\ Upload.size uploaded = length blob
    /\ DevIPFSService.downloadFile (Upload.ipfsHash uploaded) None this'
       = (Returned blob, this')
    /\ (encrypt = false -> blob = buffer)
    /\ (encrypt = true ->
        blob = Encrypted.encryptedBuffer
                 (sealedWith buffer (DevIPFSService.ambient this))
        /\ length blob
           = (32 + length
                     (fst (gcmSeal
                             (Ambient.upcoming (DevIPFSService.ambient this)
                                               0 32)
                             ipfsDocumentAAD buffer)))%nat).
Proof.
  intros Hc. destruct encrypt.
  - eexists _, _, _.
    split; [apply dev_upload_encrypted; exact Hc |].
    cbn [Upload.encryptionKey Upload.ipfsHash Upload.size].
    split; [split; discriminate |]. split.
    { rewrite dev_download_stored;
        [| reflexivity | cbn; apply lookup_insert_eq].
      rewrite (dev_decrypt_sealed open_seal tag_length base64_decodes).
      assert (Js.eqs (Encrypted.key
                        (sealedWith buffer (DevIPFSService.ambient this))) ""
              = false) as ->; [| reflexivity].
      apply eqs_false. apply base64_nonempty. intros Hnil.
      apply (f_equal (@length byte)) in Hnil.
      rewrite upcoming_length in Hnil. discriminate. }
    split; [cbn; apply lookup_insert_eq |]. split; [reflexivity |]. split.
    { rewrite dev_download_stored;
        [reflexivity | reflexivity | cbn; apply lookup_insert_eq]. }
    split; [discriminate |]. intros _. split; [reflexivity |].
    exact (sealed_length buffer (DevIPFSService.ambient this)).
  - eexists _, _, _. split; [now apply dev_upload_plain |].
    cbn [Upload.encryptionKey Upload.ipfsHash Upload.size].
    split; [tauto |]. split.
    { rewrite dev_download_stored;
        [reflexivity | reflexivity | cbn; apply lookup_insert_eq]. }
    split; [cbn; apply lookup_insert_eq |]. split; [reflexivity |]. split.
    { rewrite dev_download_stored;
        [reflexivity | reflexivity | cbn; apply lookup_insert_eq]. }
    split; [reflexivity | discriminate].
Qed.

End DevStoreRoundTrip.

Lemma fixture_base64_nonempty bytes :
  bytes <> [] -> @toBase64 Fixture.crypto bytes <> "".
Proof. destruct bytes; [congruence |]. discriminate. Qed.

(** The three bytes ["abc"], uploaded with encryption to an empty store
    and downloaded with the key that came back. *)
Lemma dev_upload_then_download_witness :
  exists uploaded this',
    @DevIPFSService.uploadFile Fixture.crypto
      [Byte.x61; Byte.x62; Byte.x63] true Fixture.devIpfs
    = (Returned uploaded, this')
    /\ Upload.size uploaded = 35%nat
    /\ @DevIPFSService.downloadFile Fixture.crypto (Upload.ipfsHash uploaded)
         (Upload.encryptionKey uploaded) this'
       = (Returned [Byte.x61; Byte.x62; Byte.x63], this').
Proof.
  destruct (@dev_upload_then_download Fixture.crypto fixture_open_seal
              fixture_tag_length fixture_base64 fixture_base64_nonempty
              [Byte.x61; Byte.x62; Byte.x63] true Fixture.devIpfs eq_refl)
    as (uploaded & this' & blob & E & _ & Hdown & _ & Hsize & _ & _ & Hlen).
  exists uploaded, this'. split; [exact E |]. split; [| exact Hdown].
  destruct (Hlen eq_refl) as [_ Hl]. rewrite Hsize, Hl. reflexivity.
Defined.

(** A store that holds one file.  A download by an address that is not
    there, by one that does not start with [Qm], with a key the cipher
    rejects, and without a key. *)
Lemma dev_download_by_case_witness :
  let this :=
    DevIPFSService.mk true {[ "Qmabc" := [Byte.x61] ]} Fixture.readings in
  fst (@DevIPFSService.downloadFile Fixture.crypto "Qmxyz" None this)
  = Thrown
      "Failed to download file from dev storage: File not found in dev storage"
  /\ fst (@DevIPFSService.downloadFile Fixture.crypto "abc" None this)
     = Thrown
         "Failed to download file from dev storage: Invalid IPFS hash format"
  /\ (exists reason,
        fst (@DevIPFSService.downloadFile Fixture.crypto "Qmabc" (Some "k")
               this)
        = Thrown ("Failed to download file from dev storage: " ++ reason))
  /\ fst (@DevIPFSService.downloadFile Fixture.crypto "Qmabc" None this)
     = Returned [Byte.x61].
Proof.
  intros this.
  destruct (@dev_download_by_case Fixture.crypto this "Qmxyz" None)
    as (_ & _ & Hmissing).
  destruct (Hmissing eq_refl) as [_ Hmissing'].
  destruct (Hmissing' eq_refl eq_refl) as [Hnone _].
  destruct (@dev_download_by_case Fixture.crypto this "abc" None)
    as (_ & _ & Hbad).
  destruct (Hbad eq_refl) as [Hbad' _].
  destruct (@dev_download_by_case Fixture.crypto this "Qmabc" (Some "k"))
    as (_ & _ & Hkey).
  destruct (Hkey eq_refl) as [_ Hkey'].
  destruct (Hkey' eq_refl eq_refl) as [_ Hstored].
  destruct (Hstored [Byte.x61] eq_refl) as [_ Hreject].
  destruct (@dev_download_by_case Fixture.crypto this "Qmabc" None)
    as (_ & _ & Hplain).
  destruct (Hplain eq_refl) as [_ Hplain'].
  destruct (Hplain' eq_refl eq_refl) as [_ Hstored'].
  destruct (Hstored' [Byte.x61] eq_refl) as [Hraw _].
  split; [apply Hnone; reflexivity |].
  split; [apply Hbad'; right; reflexivity |].
  split; [apply (Hreject "k" eq_refl); [discriminate | reflexivity] |].
  apply Hraw. now left.
Defined.

(** With the stand-in digest (the identity) a buffer of 22 bytes gives a
    valid address. *)
Lemma fake_hash_is_valid_witness :
  DevIPFSService.isValidIPFSHash
    (@DevIPFSService.generateFakeIPFSHash Fixture.crypto (repeat Byte.x61 22))
  = true.
Proof.
  destruct (@fake_hash_is_valid Fixture.crypto (repeat Byte.x61 22))
    as (_ & Hvalid & _); [cbn; lia | exact Hvalid].
Defined.

Lemma dev_store_is_content_addressed_witness :
  exists uploaded this',
    @DevIPFSService.uploadFile Fixture.crypto [Byte.x61] false Fixture.devIpfs
    = (Returned uploaded, this')
    /\ @DevIPFSService.uploadFile Fixture.crypto [Byte.x61] false this'
       = (Returned uploaded, this')
    /\ DevIPFS.verifyUpload (Upload.ipfsHash uploaded) this'
       = (Returned true, this').
Proof.
  destruct (@dev_store_is_content_addressed Fixture.crypto [Byte.x61]
              Fixture.devIpfs eq_refl)
    as (uploaded & this' & E & _ & _ & _ & Hverify & Hagain & _).
  exists uploaded, this'. split; [exact E |]. split; [exact Hagain |].
  exact Hverify.
Defined.

(** ** The maps of the simulated ledger *)

Section JsMapFacts.
Context {V : Type}.
Implicit Type m : JsMap.t V.

Lemma JsMap_has_In key m :
  JsMap.has key m = true <-> In key (map fst m).
Proof.
  induction m as [|[k x] m IH]; cbn; [split; [discriminate | tauto] |].
  destruct (Js.eqs k key) eqn:E.
  - apply eqs_true in E. tauto.
  - apply eqs_false in E. rewrite IH. split; [tauto |].
    intros [Hk | Hin]; [contradiction | assumption].
Qed.

Lemma JsMap_has_false key m :
  JsMap.has key m = false <-> ~ In key (map fst m).
Proof.
  rewrite <- JsMap_has_In. destruct (JsMap.has key m); split;
    congruence.
Qed.

Lemma JsMap_has_set_other key other (v : V) m :
  other <> key ->
  JsMap.has key (JsMap.set other v m) = JsMap.has key m.
Proof.
  intros Hne. induction m as [|[k x] m IH]; cbn.
  - apply eqs_false in Hne. now rewrite Hne.
  - destruct (Js.eqs k other) eqn:Eo; cbn; [reflexivity |].
    now rewrite IH.
Qed.

Lemma JsMap_has_delete_ne key other m :
  other <> key ->
  JsMap.has key (JsMap.delete other m) = JsMap.has key m.
Proof.
  intros Hne. induction m as [|[k x] m IH]; cbn; [reflexivity |].
  destruct (Js.eqs k other) eqn:Eo; cbn.
  - apply eqs_true in Eo. subst k. apply eqs_false in Hne.
    now rewrite Hne.
  - now rewrite IH.
Qed.

Lemma JsMap_delete_keys key m x :
  In x (map fst (JsMap.delete key m)) -> In x (map fst m).
Proof.
  induction m as [|[k y] m IH]; cbn; [tauto |].
  destruct (Js.eqs k key); cbn; tauto.
Qed.

Lemma JsMap_delete_NoDup key m :
  List.NoDup (map fst m) -> List.NoDup (map fst (JsMap.delete key m)).
Proof.
  induction m as [|[k y] m IH]; cbn; [trivial |].
  rewrite List.NoDup_cons_iff. intros [Hk Hm].
  destruct (Js.eqs k key); cbn; [assumption |].
  apply List.NoDup_cons_iff. split; [| now apply IH].
  intros Hin. apply Hk. eapply JsMap_delete_keys, Hin.
Qed.

Lemma JsMap_has_delete_same key m :
  List.NoDup (map fst m) -> JsMap.has key (JsMap.delete key m) = false.
Proof.
  induction m as [|[k y] m IH]; cbn; [reflexivity |].
  rewrite List.NoDup_cons_iff. intros [Hk Hm].
  destruct (Js.eqs k key) eqn:E; cbn.
  - apply eqs_true in E. subst k. now apply JsMap_has_false.
  - rewrite E. now apply IH.
Qed.

Lemma JsMap_set_keys key (v : V) m x :
  In x (map fst (JsMap.set key v m)) -> x = key \/ In x (map fst m).
Proof.
  induction m as [|[k y] m IH]; cbn; [intuition auto |].
  destruct (Js.eqs k key); cbn; tauto.
Qed.

Lemma JsMap_set_NoDup key (v : V) m :
  List.NoDup (map fst m) -> List.NoDup (map fst (JsMap.set key v m)).
Proof.
  induction m as [|[k y] m IH]; cbn.
  - intros _. repeat constructor. tauto.
  - rewrite List.NoDup_cons_iff. intros [Hk Hm].
    destruct (Js.eqs k key) eqn:E; cbn.
    + apply List.NoDup_cons_iff. now split.
    + apply List.NoDup_cons_iff. split; [| now apply IH].
      intros Hin. apply JsMap_set_keys in Hin as [-> | Hin];
        [| contradiction].
      apply eqs_false in E. congruence.
Qed.

(** Setting a key the map does not hold appends it: deleting it again
    gives the map back. *)
Lemma JsMap_delete_set_absent key (v : V) m :
  JsMap.has key m = false -> JsMap.delete key (JsMap.set key v m) = m.
Proof.
  induction m as [|[k y] m IH]; cbn.
  - intros _. now rewrite eqs_refl.
  - destruct (Js.eqs k key) eqn:E; [discriminate |].
    intros Hk. cbn. rewrite E. now rewrite IH.
Qed.

End JsMapFacts.

Lemma wellKept_set key m :
  Ledger.wellKept m -> Ledger.wellKept (JsMap.set key true m).
Proof.
  intros [Hn Ht]. split; [now apply JsMap_set_NoDup |].
  clear Hn. induction m as [|[k y] m IH]; cbn.
  - repeat constructor.
  - apply Forall_cons_iff in Ht as [Hy Ht].
    destruct (Js.eqs k key); constructor; auto.
Qed.

Lemma wellKept_delete key m :
  Ledger.wellKept m -> Ledger.wellKept (JsMap.delete key m).
Proof.
  intros [Hn Ht]. split; [now apply JsMap_delete_NoDup |].
  clear Hn. induction m as [|[k y] m IH]; cbn; [constructor |].
  apply Forall_cons_iff in Ht as [Hy Ht].
  destruct (Js.eqs k key); [assumption |]. constructor; auto.
Qed.

Lemma wellKept_held key m :
  Ledger.wellKept m -> JsMap.has key m = true -> In (key, true) m.
Proof.
  intros [_ Ht]. induction m as [|[k y] m IH]; cbn; [discriminate |].
  apply Forall_cons_iff in Ht as [Hy Ht]. cbn in Hy. subst y.
  destruct (Js.eqs k key) eqn:E.
  - apply eqs_true in E. subst k. now left.
  - intros Hk. right. now apply IH.
Qed.

Lemma In_elem_of {A} (x : A) (l : list A) : In x l <-> x ∈ l.
Proof.
  induction l as [|y l IH]; cbn.
  - split; [tauto | intros Hx; now apply elem_of_nil in Hx].
  - rewrite elem_of_cons, IH. split; intros [E | Hin]; auto.
Qed.

(** *** Keys and addresses *)

Lemma colonFree_app a b :
  Ledger.colonFree (a ++ b)
  = (Ledger.colonFree a && Ledger.colonFree b)%bool.
Proof.
  induction a as [|c a IH]; [reflexivity |].
  change (Ledger.colonFree (String c a ++ b))
    with (negb (Ascii.eqb c ":") && Ledger.colonFree (a ++ b))%bool.
  rewrite IH. cbn [Ledger.colonFree]. now rewrite andb_assoc.
Qed.

Lemma colonFree_substring n : forall m s,
  Ledger.colonFree s = true -> Ledger.colonFree (substring m n s) = true.
Proof.
  induction n as [|n IH]; intros m s Hs.
  - destruct m, s; cbn in *; try reflexivity.
    apply andb_prop in Hs as [_ Hs].
    revert s Hs. induction m as [|m IHm]; intros s Hs.
    + now destruct s.
    + destruct s as [|c s]; [reflexivity |]. cbn in Hs.
      apply andb_prop in Hs as [_ Hs]. cbn. now apply IHm.
  - revert s Hs. induction m as [|m IHm]; intros s Hs.
    + destruct s as [|c s]; [reflexivity |]. cbn in *.
      apply andb_prop in Hs as [Hc Hs]. rewrite Hc. cbn. now apply IH.
    + destruct s as [|c s]; [reflexivity |]. cbn in *.
      apply andb_prop in Hs as [_ Hs]. now apply IHm.
Qed.

Lemma colonFree_hex bs : Ledger.colonFree (Encoding.hex bs) = true.
Proof.
  induction bs as [|b bs IH]; [reflexivity |].
  change (Encoding.hex (b :: bs))
    with (Encoding.hexByte b ++ Encoding.hex bs)%string.
  rewrite colonFree_app, IH, andb_true_r.
  destruct b; reflexivity.
Qed.

Lemma cutAtColon_free s :
  Ledger.colonFree s = true ->
  DevBlockchainService.cutAtColon s = (s, None).
Proof.
  induction s as [|c s IH]; [reflexivity |].
  cbn [Ledger.colonFree DevBlockchainService.cutAtColon].
  intros Hs. apply andb_prop in Hs as [Hc Hs].
  apply negb_true_iff in Hc. rewrite Hc, (IH Hs). reflexivity.
Qed.

Lemma cutAtColon_key d rest :
  Ledger.colonFree d = true ->
  DevBlockchainService.cutAtColon (d ++ ":" ++ rest) = (d, Some rest).
Proof.
  induction d as [|c d IH]; [reflexivity |].
  change (String c d ++ ":" ++ rest)%string
    with (String c (d ++ ":" ++ rest))%string.
  cbn [Ledger.colonFree DevBlockchainService.cutAtColon].
  intros Hs. apply andb_prop in Hs as [Hc Hs].
  apply negb_true_iff in Hc. rewrite Hc, (IH Hs). reflexivity.
Qed.

Lemma splitKey_key d a :
  Ledger.colonFree d = true -> Ledger.colonFree a = true ->
  DevBlockchainService.splitKey (DevBlockchainService.permissionKey d a)
  = (d, Some a).
Proof.
  intros Hd Ha. unfold DevBlockchainService.splitKey,
    DevBlockchainService.permissionKey.
  rewrite (cutAtColon_key d a Hd), (cutAtColon_free a Ha). reflexivity.
Qed.

Lemma permissionKey_inj d a b :
  DevBlockchainService.permissionKey d a
  = DevBlockchainService.permissionKey d b -> a = b.
Proof.
  unfold DevBlockchainService.permissionKey.
  induction d as [|c d IH]; cbn; intros E; [now injection E |].
  injection E as E. now apply IH.
Qed.

Section LedgerCalls.
Context `{NodeCrypto}.
Import DevBlockchainService.
Implicit Type this : DevBlockchainService.t.

Lemma addressOf_colonFree userId :
  Ledger.colonFree (Ledger.addressOf userId) = true.
Proof.
  unfold Ledger.addressOf, derivedWallet, sha256text, sha256hex.
  cbn [Wallet.address].
  change (Ledger.colonFree ("0x" ++ ?s))
    with (Ledger.colonFree s).
  apply colonFree_substring, colonFree_hex.
Qed.

Lemma generateDocumentId_colonFree userId filename timestamp :
  Ledger.colonFree (generateDocumentId userId filename timestamp) = true.
Proof.
  unfold generateDocumentId, sha256text, sha256hex.
  change (Ledger.colonFree ("0x" ++ ?s))
    with (Ledger.colonFree s).
  apply colonFree_hex.
Qed.

(** Steps over a reading of the environment at the head of a [bind]. *)
Ltac ledger_reading lemma :=
  match goal with
  | |- context [bind (withAmbient ?c) ?k ?s] =>
      let x := fresh "x" in
      let a := fresh "a" in
      let E := fresh "E" in
      destruct (lemma (ambient s)) as (x & a & E);
      rewrite (bind_returned (withAmbient c) k s x _
                 (withAmbient_returns c s x a E))
  end.

Lemma cached_refl this : settled this -> Ledger.cached this this.
Proof. intros Hs. repeat split; apply Hs. Qed.

Lemma cached_trans this this1 this2 :
  Ledger.cached this this1 -> Ledger.cached this1 this2 ->
  Ledger.cached this this2.
Proof.
  intros (_ & Hp1 & Hd1 & Ha1) (Hs2 & Hp2 & Hd2 & Ha2).
  split; [assumption |]. repeat split; congruence.
Qed.

Lemma getUserWallet_cached userId this :
  settled this ->
  exists this1,
    getUserWallet userId this = (Returned (derivedWallet userId), this1)
    /\ Ledger.cached this this1.
Proof.
  intros Hs.
  destruct (getUserWallet_derived userId this Hs)
    as (this1 & E & Hs1 & Hp & Hd & Ha).
  exists this1. split; [exact E |]. repeat split; try assumption;
    apply Hs1.
Qed.

Lemma hasAccess_result userId documentId this :
  settled this ->
  exists this1,
    hasAccess userId documentId this
    = (Returned (JsMap.has (Ledger.grantKey documentId userId)
                           (permissions this)),
       this1)
    /\ Ledger.cached this this1.
Proof.
  intros Hs. pose proof Hs as [Hc _].
  unfold hasAccess. unfold bind at 1, get at 1. rewrite Hc. cbn [negb].
  destruct (getUserWallet_cached userId this Hs)
    as (this1 & E1 & Hc1).
  unfold try_catch. rewrite (bind_returned _ _ _ _ _ E1).
  run. destruct Hc1 as (Hs1 & Hp1 & Hd1 & Ha1). rewrite Hp1.
  exists this1. split; [reflexivity |]. repeat split; try assumption;
    apply Hs1.
Qed.

Lemma grantAccess_result ownerUserId documentId email targetUserId this :
  settled this ->
  exists this1,
    Ledger.cached this this1
    /\ match documents this !! documentId with
       | None =>
           grantAccess ownerUserId documentId email targetUserId this
           = (Thrown
                "Failed to grant access on dev blockchain: Document not found",
              this1)
       | Some document =>
           if Js.eqs (LedgerDocument.owner document)
                     (Ledger.addressOf ownerUserId)
           then
             exists transactionHash blockNumber a',
               grantAccess ownerUserId documentId email targetUserId this
               = (Returned (Tx.mk transactionHash blockNumber
                              (Ledger.addressOf targetUserId)),
                  mk true (userWallets this1) (documents this)
                     (JsMap.set (Ledger.grantKey documentId targetUserId)
                                true (permissions this))
                     a')
           else
             grantAccess ownerUserId documentId email targetUserId this
             = (Thrown
                  "Failed to grant access on dev blockchain: Only document owner can grant access",
                this1)
       end.
Proof.
  intros Hs. pose proof Hs as [Hc _].
  destruct (getUserWallet_cached ownerUserId this Hs)
    as (this1 & E1 & Hc1).
  destruct (getUserWallet_cached targetUserId this1 (proj1 Hc1))
    as (this2 & E2 & Hc2).
  pose proof (cached_trans _ _ _ Hc1 Hc2) as (Hs2 & Hp2 & Hd2 & Ha2).
  exists this2. split; [repeat split; try assumption; apply Hs2 |].
  unfold Ledger.addressOf, Ledger.grantKey.
  destruct (documents this !! documentId) as [document|] eqn:Ed;
    [destruct (Js.eqs (LedgerDocument.owner document)
                      (Wallet.address (derivedWallet ownerUserId)))
       eqn:Eo |].
  all: unfold grantAccess; unfold bind at 1, get at 1; rewrite Hc; cbn [negb];
    unfold try_catch;
    rewrite (bind_returned _ _ _ _ _ E1);
    rewrite (bind_returned _ _ _ _ _ E2);
    unfold bind at 1, get at 1; rewrite Hd2, Ed; try rewrite Eo;
    cbn [negb]; try reflexivity.
  unfold set_permissions. unfold bind at 1, modify at 1.
  ledger_reading fakeTransactionHash_returns.
  ledger_reading fakeBlockNumber_returns.
  unfold ret. cbn. rewrite Hp2, Hd2. destruct Hs2 as [-> _].
  eexists _, _, _. reflexivity.
Qed.

Lemma revokeAccess_result ownerUserId documentId targetUserId this :
  settled this ->
  exists this1,
    Ledger.cached this this1
    /\ match documents this !! documentId with
       | None =>
           revokeAccess ownerUserId documentId targetUserId this
           = (Thrown
                "Failed to revoke access on dev blockchain: Document not found",
              this1)
       | Some document =>
           if Js.eqs (LedgerDocument.owner document)
                     (Ledger.addressOf ownerUserId)
           then
             exists transactionHash blockNumber a',
               revokeAccess ownerUserId documentId targetUserId this
               = (Returned (Tx.mk transactionHash blockNumber
                              (Ledger.addressOf targetUserId)),
                  mk true (userWallets this1) (documents this)
                     (JsMap.delete (Ledger.grantKey documentId targetUserId)
                                   (permissions this))
                     a')
           else
             revokeAccess ownerUserId documentId targetUserId this
             = (Thrown
                  "Failed to revoke access on dev blockchain: Only document owner can revoke access",
                this1)
       end.
Proof.
  intros Hs. pose proof Hs as [Hc _].
  destruct (getUserWallet_cached ownerUserId this Hs)
    as (this1 & E1 & Hc1).
  destruct (getUserWallet_cached targetUserId this1 (proj1 Hc1))
    as (this2 & E2 & Hc2).
  pose proof (cached_trans _ _ _ Hc1 Hc2) as (Hs2 & Hp2 & Hd2 & Ha2).
  exists this2. split; [repeat split; try assumption; apply Hs2 |].
  unfold Ledger.addressOf, Ledger.grantKey.
  destruct (documents this !! documentId) as [document|] eqn:Ed;
    [destruct (Js.eqs (LedgerDocument.owner document)
                      (Wallet.address (derivedWallet ownerUserId)))
       eqn:Eo |].
  all: unfold revokeAccess; unfold bind at 1, get at 1; rewrite Hc; cbn [negb];
    unfold try_catch;
    rewrite (bind_returned _ _ _ _ _ E1);
    rewrite (bind_returned _ _ _ _ _ E2);
    unfold bind at 1, get at 1; rewrite Hd2, Ed; try rewrite Eo;
    cbn [negb]; try reflexivity.
  unfold set_permissions. unfold bind at 1, modify at 1.
  ledger_reading fakeTransactionHash_returns.
  ledger_reading fakeBlockNumber_returns.
  unfold ret. cbn. rewrite Hp2, Hd2. destruct Hs2 as [-> _].
  eexists _, _, _. reflexivity.
Qed.

Lemma grantEach_result documentId targetUserIds : forall this,
  settled this ->
  exists this',
    grantEach documentId targetUserIds this
    = (Returned (map Ledger.addressOf targetUserIds), this')
    /\ settled this'
    /\ documents this' = documents this
    /\ ambient this' = ambient this
    /\ permissions this'
       = Ledger.grantAll documentId targetUserIds (permissions this).
Proof.
  induction targetUserIds as [|userId rest IH]; intros this Hs.
  - cbn. unfold ret. exists this. repeat split; apply Hs.
  - cbn [grantEach].
    destruct (getUserWallet_cached userId this Hs)
      as (this1 & E1 & Hs1 & Hp1 & Hd1 & Ha1).
    rewrite (bind_returned _ _ _ _ _ E1).
    unfold set_permissions. unfold bind at 1, modify at 1.
    match goal with
    | |- context [bind (grantEach documentId rest) _ ?s] =>
        destruct (IH s) as (this2 & E2 & Hs2 & Hd2 & Ha2 & Hp2)
    end.
    { destruct Hs1 as [Hc1 Hw1]. split; assumption. }
    rewrite (bind_returned _ _ _ _ _ E2). unfold ret.
    exists this2. split; [reflexivity |]. split; [assumption |].
    cbn in Hd2, Ha2, Hp2. repeat split; try congruence.
    rewrite Hp2, Hp1. reflexivity.
Qed.

Lemma batchGrantAccess_result ownerUserId documentId targetUserIds this :
  settled this ->
  exists transactionHash blockNumber this',
    batchGrantAccess ownerUserId documentId targetUserIds this
    = (Returned (BatchTx.mk transactionHash blockNumber
                   (map Ledger.addressOf targetUserIds)),
       this')
    /\ settled this'
    /\ documents this' = documents this
    /\ permissions this'
       = Ledger.grantAll documentId targetUserIds (permissions this).
Proof.
  intros Hs. pose proof Hs as [Hc _].
  unfold batchGrantAccess. unfold bind at 1, get at 1. rewrite Hc.
  cbn [negb].
  destruct (getUserWallet_cached ownerUserId this Hs)
    as (this1 & E1 & Hs1 & Hp1 & Hd1 & Ha1).
  destruct (grantEach_result documentId targetUserIds this1 Hs1)
    as (this2 & E2 & Hs2 & Hd2 & Ha2 & Hp2).
  unfold try_catch.
  rewrite (bind_returned _ _ _ _ _ E1).
  rewrite (bind_returned _ _ _ _ _ E2).
  ledger_reading fakeTransactionHash_returns.
  ledger_reading fakeBlockNumber_returns.
  unfold ret. eexists _, _, _. split; [reflexivity |]. cbn.
  split; [split; apply Hs2 |]. split; congruence.
Qed.

Lemma getDocument_result userId documentId this :
  settled this ->
  exists this1,
    Ledger.cached this this1
    /\ getDocument userId documentId this
       = (if JsMap.has (Ledger.grantKey documentId userId)
                       (permissions this)
          then
            match documents this !! documentId with
            | Some document => Returned document
            | None =>
                Thrown
                  "Failed to get document from dev blockchain: Document not found"
            end
          else
            Thrown
              "Failed to get document from dev blockchain: Access denied to document",
          this1).
Proof.
  intros Hs. pose proof Hs as [Hc _].
  unfold getDocument. unfold bind at 1, get at 1. rewrite Hc. cbn [negb].
  destruct (getUserWallet_cached userId this Hs) as (this1 & E1 & Hc1).
  destruct (hasAccess_result userId documentId this1 (proj1 Hc1))
    as (this2 & E2 & Hc2).
  pose proof (cached_trans _ _ _ Hc1 Hc2) as Hc12.
  exists this2. split; [assumption |].
  unfold try_catch.
  rewrite (bind_returned _ _ _ _ _ E1).
  rewrite (bind_returned _ _ _ _ _ E2).
  destruct Hc1 as (_ & -> & _). destruct Hc12 as (_ & _ & Hd & _).
  destruct (JsMap.has _ (permissions this)); cbn [negb]; [| reflexivity].
  unfold bind at 1, get at 1. rewrite Hd.
  destruct (documents this !! documentId) as [[i o m c]|]; reflexivity.
Qed.

Lemma getDocumentAccessors_result ownerUserId documentId this :
  settled this ->
  exists this1,
    Ledger.cached this this1
    /\ getDocumentAccessors ownerUserId documentId this
       = (if match documents this !! documentId with
             | Some document =>
                 Js.eqs (LedgerDocument.owner document)
                        (Ledger.addressOf ownerUserId)
             | None => false
             end
          then
            Returned
              (omap (accessorOf documentId (Ledger.addressOf ownerUserId))
                    (JsMap.entries (permissions this)))
          else
            Thrown
              "Failed to get document accessors: Only document owner can view accessors",
          this1).
Proof.
  intros Hs. pose proof Hs as [Hc _].
  unfold getDocumentAccessors. unfold bind at 1, get at 1. rewrite Hc.
  cbn [negb].
  destruct (getUserWallet_cached ownerUserId this Hs)
    as (this1 & E1 & Hc1).
  exists this1. split; [assumption |].
  unfold try_catch. rewrite (bind_returned _ _ _ _ _ E1).
  unfold bind at 1, get at 1.
  destruct Hc1 as (_ & -> & -> & _).
  change (Wallet.address (derivedWallet ownerUserId))
    with (Ledger.addressOf ownerUserId).
  destruct (match documents this !! documentId with
            | Some _ => _ | None => _ end); reflexivity.
Qed.

Lemma getUserWalletAddress_result userId this :
  settled this ->
  exists this1,
    Ledger.cached this this1
    /\ getUserWalletAddress userId this
       = (Returned (Ledger.addressOf userId), this1).
Proof.
  intros Hs.
  destruct (getUserWallet_cached userId this Hs) as (this1 & E1 & Hc1).
  exists this1. split; [assumption |].
  unfold getUserWalletAddress, try_catch.
  now rewrite (bind_returned _ _ _ _ _ E1).
Qed.

Lemma getWalletBalance_result userId this :
  settled this ->
  exists this1,
    Ledger.cached this this1
    /\ getWalletBalance userId this
       = (Returned (Ledger.addressOf userId), this1).
Proof.
  intros Hs.
  destruct (getUserWallet_cached userId this Hs) as (this1 & E1 & Hc1).
  exists this1. split; [assumption |].
  unfold getWalletBalance, try_catch.
  now rewrite (bind_returned _ _ _ _ _ E1).
Qed.

(** *** The state of the maps after any calls *)

Lemma grantAll_wellKept documentId targetUserIds : forall m,
  Ledger.wellKept m ->
  Ledger.wellKept (Ledger.grantAll documentId targetUserIds m).
Proof.
  induction targetUserIds as [|u rest IH]; intros m Hm; [assumption |].
  apply IH. now apply wellKept_set.
Qed.

Lemma perform_wellKept op this :
  settled this ->
  Ledger.wellKept (permissions this) ->
  Ledger.wellKept (permissions (perform op this)).
Proof.
  intros Hs Hk. destruct op; cbn [perform].
  - destruct (addDocument_grants userId ipfsHash metadata this Hs)
      as (tx & this' & E & _ & _ & Hp & _).
    rewrite E. cbn [snd]. rewrite Hp. now apply wellKept_set.
  - destruct (grantAccess_result ownerUserId documentId targetUserEmail
                targetUserId this Hs) as (this1 & (_ & Hp & _) & E).
    destruct (documents this !! documentId) as [document|];
      [| rewrite E; cbn; now rewrite Hp].
    destruct (Js.eqs _ _); [| rewrite E; cbn; now rewrite Hp].
    destruct E as (h & n & a & ->). cbn. now apply wellKept_set.
  - destruct (revokeAccess_result ownerUserId documentId targetUserId
                this Hs) as (this1 & (_ & Hp & _) & E).
    destruct (documents this !! documentId) as [document|];
      [| rewrite E; cbn; now rewrite Hp].
    destruct (Js.eqs _ _); [| rewrite E; cbn; now rewrite Hp].
    destruct E as (h & n & a & ->). cbn. now apply wellKept_delete.
  - destruct (hasAccess_result userId documentId this Hs)
      as (this1 & -> & (_ & Hp & _)). cbn. now rewrite Hp.
  - destruct (getDocument_result userId documentId this Hs)
      as (this1 & (_ & Hp & _) & ->). cbn. now rewrite Hp.
  - destruct (getDocumentAccessors_result ownerUserId documentId this Hs)
      as (this1 & (_ & Hp & _) & ->). cbn. now rewrite Hp.
  - destruct (getUserWalletAddress_result userId this Hs)
      as (this1 & (_ & Hp & _) & ->). cbn. now rewrite Hp.
  - destruct (getWalletBalance_result userId this Hs)
      as (this1 & (_ & Hp & _) & ->). cbn. now rewrite Hp.
  - unfold fundUserWallet.
    destruct (fakeTransactionHash_returns (ambient this)) as (h & a & E).
    now rewrite (withAmbient_returns _ _ _ _ E).
  - destruct (batchGrantAccess_result ownerUserId documentId targetUserIds
                this Hs) as (h & n & this' & -> & _ & _ & Hp).
    cbn. rewrite Hp. now apply grantAll_wellKept.
  - assumption.
Qed.

Lemma performAll_wellKept ops : forall this,
  settled this ->
  Ledger.wellKept (permissions this) ->
  settled (performAll ops this)
  /\ Ledger.wellKept (permissions (performAll ops this)).
Proof.
  induction ops as [|op rest IH]; intros this Hs Hk; [now split |].
  cbn. apply IH; [now apply perform_settled | now apply perform_wellKept].
Qed.

Lemma after_wellKept readings calls :
  settled (Ledger.after readings calls)
  /\ Ledger.wellKept (permissions (Ledger.after readings calls)).
Proof.
  apply performAll_wellKept; [apply constructor_settled |].
  split; constructor.
Qed.

End LedgerCalls.

Section LedgerProperties.
Context `{NodeCrypto}.
Import DevBlockchainService.
Variable readings : Ambient.t.
Variable calls : list Op.

Local Abbreviation this := (Ledger.after readings calls).

Lemma hasAccess_answer userId documentId (s : DevBlockchainService.t) :
  settled s ->
  fst (hasAccess userId documentId s)
  = Returned (JsMap.has (Ledger.grantKey documentId userId)
                        (permissions s)).
Proof.
  intros Hs.
  destruct (hasAccess_result userId documentId s Hs) as (s1 & -> & _).
  reflexivity.
Qed.

Lemma settled_with (s1 : DevBlockchainService.t) docs perms a :
  settled s1 -> settled (mk true (userWallets s1) docs perms a).
Proof. intros [_ Hw]. split; [reflexivity | exact Hw]. Qed.

Lemma grantAll_has documentId targetUserIds : forall m key,
  JsMap.has key (Ledger.grantAll documentId targetUserIds m) = true
  <-> JsMap.has key m = true
      \/ exists userId,
           In userId targetUserIds
           /\ key = Ledger.grantKey documentId userId.
Proof.
  induction targetUserIds as [|u rest IH]; intros m key.
  - cbn. split; [tauto |]. intros [Hk | (? & [] & _)]. exact Hk.
  - cbn [Ledger.grantAll fold_left].
    change (fold_left _ rest ?m0)
      with (Ledger.grantAll documentId rest m0).
    rewrite IH. split.
    + intros [Hk | (v & Hin & ->)].
      * destruct (decide (Ledger.grantKey documentId u = key))
          as [<- | Hne].
        -- right. exists u. split; [now left | reflexivity].
        -- left. now rewrite JsMap_has_set_other in Hk.
      * right. exists v. split; [now right | reflexivity].
    + intros [Hk | (v & [<- | Hin] & ->)].
      * left. now apply JsMap_has_set_keeps.
      * left. apply JsMap_has_set_same.
      * right. exists v. now split.
Qed.

(** X15.  [grantAccess] of the simulated ledger, after any calls on a
    new service object.  It never touches [documents].  For an id
    nothing is registered under it throws [Document not found], and
    when the caller's address is not the registered owner's
    [Only document owner can grant access], each behind the prefix
    [Failed to grant access on dev blockchain: ], and no grant
    changes.  For the owner it returns the target's address,
    [hasAccess] then answers true for the target on that document, and
    answers as before wherever another key is asked for. *)
Theorem ledger_grant_by_case ownerUserId documentId email targetUserId :
  let result :=
    grantAccess ownerUserId documentId email targetUserId this in
  documents (snd result) = documents this
  /\ (documents this !! documentId = None ->
      fst result
      = Thrown
          "Failed to grant access on dev blockchain: Document not found"
      /\ permissions (snd result) = permissions this)
  /\ (forall document,
        documents this !! documentId = Some document ->
        LedgerDocument.owner document <> Ledger.addressOf ownerUserId ->
        fst result
        = Thrown
            "Failed to grant access on dev blockchain: Only document owner can grant access"
        /\ permissions (snd result) = permissions this)
  /\ (forall document,
        documents this !! documentId = Some document ->
        LedgerDocument.owner document = Ledger.addressOf ownerUserId ->
        (exists tx,
           fst result = Returned tx
           /\ Tx.targetWalletAddress tx = Ledger.addressOf targetUserId)
        /\ fst (hasAccess targetUserId documentId (snd result))
           = Returned true
        /\ forall userId d,
             Ledger.grantKey d userId
             <> Ledger.grantKey documentId targetUserId ->
             fst (hasAccess userId d (snd result))
             = fst (hasAccess userId d this)).
Proof.
  destruct (after_wellKept readings calls) as [Hs Hk].
  destruct (grantAccess_result ownerUserId documentId email targetUserId
              this Hs) as (this1 & (Hs1 & Hp1 & Hd1 & _) & E).
  cbn zeta.
  destruct (documents this !! documentId) as [document|] eqn:Ed.
  - destruct (Js.eqs (LedgerDocument.owner document)
                     (Ledger.addressOf ownerUserId)) eqn:Eo.
    + destruct E as (h & n & a & E). rewrite E. cbn [fst snd documents].
      split; [reflexivity |]. split; [discriminate |].
      split.
      { intros doc [= <-] Hne. apply eqs_true in Eo. contradiction. }
      intros doc _ _. split; [eexists; split; reflexivity |].
      pose proof (settled_with this1 (documents this)
                    (JsMap.set (Ledger.grantKey documentId targetUserId)
                               true (permissions this)) a Hs1) as Hs'.
      split.
      * rewrite (hasAccess_answer _ _ _ Hs'). cbn [permissions].
        now rewrite JsMap_has_set_same.
      * intros userId d Hne.
        rewrite (hasAccess_answer _ _ _ Hs'), (hasAccess_answer _ _ _ Hs).
        cbn [permissions]. f_equal.
        apply JsMap_has_set_other. congruence.
    + rewrite E. cbn [fst snd]. split; [exact Hd1 |].
      split; [discriminate |]. split.
      { intros doc _ _. split; [reflexivity | exact Hp1]. }
      intros doc [= <-] Ho. apply eqs_false in Eo. contradiction.
  - rewrite E. cbn [fst snd]. split; [exact Hd1 |].
    split; [intros _; split; [reflexivity | exact Hp1] |].
    split; intros doc [=].
Qed.

(** X16.  [revokeAccess] of the simulated ledger, after any calls on a
    new service object.  It never touches [documents].  For an id
    nothing is registered under it throws [Document not found], and
    when the caller's address is not the registered owner's
    [Only document owner can revoke access], each behind the prefix
    [Failed to revoke access on dev blockchain: ], and no grant
    changes.  For the owner it returns the target's address,
    [hasAccess] then answers false for the target on that document,
    and answers as before wherever another key is asked for.  Revoking
    a grant just made to a target that had none leaves [permissions]
    exactly as it was before the grant. *)
Theorem ledger_revoke_by_case ownerUserId documentId targetUserId :
  let result := revokeAccess ownerUserId documentId targetUserId this in
  documents (snd result) = documents this
  /\ (documents this !! documentId = None ->
      fst result
      = Thrown
          "Failed to revoke access on dev blockchain: Document not found"
      /\ permissions (snd result) = permissions this)
  /\ (forall document,
        documents this !! documentId = Some document ->
        LedgerDocument.owner document <> Ledger.addressOf ownerUserId ->
        fst result
        = Thrown
            "Failed to revoke access on dev blockchain: Only document owner can revoke access"
        /\ permissions (snd result) = permissions this)
  /\ (forall document,
        documents this !! documentId = Some document ->
        LedgerDocument.owner document = Ledger.addressOf ownerUserId ->
        (exists tx,
           fst result = Returned tx
           /\ Tx.targetWalletAddress tx = Ledger.addressOf targetUserId)
        /\ fst (hasAccess targetUserId documentId (snd result))
           = Returned false
        /\ (forall userId d,
              Ledger.grantKey d userId
              <> Ledger.grantKey documentId targetUserId ->
              fst (hasAccess userId d (snd result))
              = fst (hasAccess userId d this))
        /\ forall email,
             fst (hasAccess targetUserId documentId this)
             = Returned false ->
             permissions
               (snd (revokeAccess ownerUserId documentId targetUserId
                       (snd (grantAccess ownerUserId documentId email
                               targetUserId this))))
             = permissions this).
Proof.
  destruct (after_wellKept readings calls) as [Hs Hk].
  destruct (revokeAccess_result ownerUserId documentId targetUserId
              this Hs) as (this1 & (Hs1 & Hp1 & Hd1 & _) & E).
  cbn zeta.
  destruct (documents this !! documentId) as [document|] eqn:Ed.
  - destruct (Js.eqs (LedgerDocument.owner document)
                     (Ledger.addressOf ownerUserId)) eqn:Eo.
    + destruct E as (h & n & a & E). rewrite E. cbn [fst snd documents].
      split; [reflexivity |]. split; [discriminate |].
      split.
      { intros doc [= <-] Hne. apply eqs_true in Eo. contradiction. }
      intros doc _ _. split; [eexists; split; reflexivity |].
      pose proof (settled_with this1 (documents this)
                    (JsMap.delete (Ledger.grantKey documentId targetUserId)
                                  (permissions this)) a Hs1) as Hs'.
      split; [| split].
      * rewrite (hasAccess_answer _ _ _ Hs'). cbn [permissions].
        rewrite JsMap_has_delete_same; [reflexivity | apply Hk].
      * intros userId d Hne.
        rewrite (hasAccess_answer _ _ _ Hs'), (hasAccess_answer _ _ _ Hs).
        cbn [permissions]. f_equal.
        apply JsMap_has_delete_ne. congruence.
      * intros email Hnone.
        rewrite (hasAccess_answer _ _ _ Hs) in Hnone.
        injection Hnone as Hnone.
        destruct (grantAccess_result ownerUserId documentId email
                    targetUserId this Hs) as (this2 & (Hs2 & _) & Eg).
        rewrite Ed, Eo in Eg. destruct Eg as (h2 & n2 & a2 & ->).
        cbn [snd].
        match goal with
        | |- context [revokeAccess _ _ _ ?s] =>
            assert (Hs3 : settled s) by (now apply settled_with);
            destruct (revokeAccess_result ownerUserId documentId
                        targetUserId s Hs3) as (this3 & _ & Er)
        end.
        cbn [documents permissions] in Er. rewrite Ed, Eo in Er.
        destruct Er as (h3 & n3 & a3 & ->). cbn [snd permissions].
        now apply JsMap_delete_set_absent.
    + rewrite E. cbn [fst snd]. split; [exact Hd1 |].
      split; [discriminate |]. split.
      { intros doc _ _. split; [reflexivity | exact Hp1]. }
      intros doc [= <-] Ho. apply eqs_false in Eo. contradiction.
  - rewrite E. cbn [fst snd]. split; [exact Hd1 |].
    split; [intros _; split; [reflexivity | exact Hp1] |].
    split; intros doc [=].
Qed.

(** X17.  [batchGrantAccess] of the simulated ledger checks neither
    that the document is registered nor that the caller owns it: after
    any calls on a new service object, for every caller, every
    document id and every list of targets it returns the targets'
    addresses in order, [hasAccess] then answers true for each target
    on that id, every access held before is still held, and
    [documents] is untouched. *)
Theorem ledger_batch_grant_is_unchecked ownerUserId documentId
        targetUserIds :
  exists tx this',
    batchGrantAccess ownerUserId documentId targetUserIds this
    = (Returned tx, this')
    /\ BatchTx.targetAddresses tx = map Ledger.addressOf targetUserIds
    /\ documents this' = documents this
    /\ (forall userId,
          In userId targetUserIds ->
          fst (hasAccess userId documentId this') = Returned true)
    /\ (forall userId d,
          fst (hasAccess userId d this) = Returned true ->
          fst (hasAccess userId d this') = Returned true).
Proof.
  destruct (after_wellKept readings calls) as [Hs Hk].
  destruct (batchGrantAccess_result ownerUserId documentId targetUserIds
              this Hs) as (h & n & this' & E & Hs' & Hd & Hp).
  eexists _, this'. split; [exact E |]. split; [reflexivity |].
  split; [exact Hd |]. split.
  - intros userId Hin. rewrite (hasAccess_answer _ _ _ Hs'), Hp.
    f_equal. apply grantAll_has. right. now exists userId.
  - intros userId d.
    rewrite (hasAccess_answer _ _ _ Hs'), (hasAccess_answer _ _ _ Hs), Hp.
    intros [= Hheld]. f_equal. apply grantAll_has. now left.
Qed.

(** X18.  [getDocument] of the simulated ledger, after any calls on a
    new service object: it changes neither [documents] nor
    [permissions]; for a user [hasAccess] answers false for it throws
    [Access denied to document], whether or not the document is
    registered; for a user with access to an id nothing is registered
    under, [Document not found]; each behind the prefix
    [Failed to get document from dev blockchain: ]; otherwise it
    returns the registered document. *)
Theorem ledger_getDocument_by_case userId documentId :
  let result := getDocument userId documentId this in
  permissions (snd result) = permissions this
  /\ documents (snd result) = documents this
  /\ (fst (hasAccess userId documentId this) = Returned false ->
      fst result
      = Thrown
          "Failed to get document from dev blockchain: Access denied to document")
  /\ (fst (hasAccess userId documentId this) = Returned true ->
      (documents this !! documentId = None ->
       fst result
       = Thrown
           "Failed to get document from dev blockchain: Document not found")
      /\ forall document,
           documents this !! documentId = Some document ->
           fst result = Returned document).
Proof.
  destruct (after_wellKept readings calls) as [Hs Hk].
  destruct (getDocument_result userId documentId this Hs)
    as (this1 & (Hs1 & Hp1 & Hd1 & _) & E).
  cbn zeta. rewrite E, (hasAccess_answer _ _ _ Hs). cbn [fst snd].
  split; [exact Hp1 |]. split; [exact Hd1 |]. split.
  - intros [= ->]. reflexivity.
  - intros [= ->]. split.
    + intros ->. reflexivity.
    + intros document ->. reflexivity.
Qed.

(** X19.  What [addDocument] registers can be read back: after any
    calls on a new service object, [addDocument] returns an id under
    which [getDocument], asked by the same user, returns the content
    address and the metadata that were given, with the user's derived
    address as owner. *)
Theorem ledger_add_then_get userId ipfsHash metadata :
  exists tx this' createdAt,
    addDocument userId ipfsHash metadata this = (Returned tx, this')
    /\ fst (getDocument userId (AddTx.documentId tx) this')
       = Returned (LedgerDocument.mk ipfsHash (Ledger.addressOf userId)
                                     metadata createdAt).
Proof.
  destruct (after_wellKept readings calls) as [Hs Hk].
  destruct (addDocument_grants userId ipfsHash metadata this Hs)
    as (tx & this' & E & Hs' & Hw & Hp & createdAt & Hd).
  exists tx, this', createdAt. split; [exact E |].
  destruct (getDocument_result userId (AddTx.documentId tx) this' Hs')
    as (this1 & _ & ->). cbn [fst].
  rewrite Hp. unfold Ledger.grantKey, Ledger.addressOf.
  now rewrite JsMap_has_set_same, Hd.
Qed.

(** X20.  [getDocumentAccessors] of the simulated ledger, after any
    calls on a new service object: it changes neither [documents] nor
    [permissions]; unless the id is registered with the caller's
    address as owner it throws
    [Failed to get document accessors: Only document owner can view accessors];
    for the owner it returns a list that never holds the owner's own
    address and, when the id has no [':'] in it, holds the address of
    every user with another address for whom [hasAccess] answers
    true. *)
Theorem ledger_accessors_list_the_grantees ownerUserId documentId :
  let result := getDocumentAccessors ownerUserId documentId this in
  permissions (snd result) = permissions this
  /\ documents (snd result) = documents this
  /\ ((documents this !! documentId = None
       \/ exists document,
            documents this !! documentId = Some document
            /\ LedgerDocument.owner document
               <> Ledger.addressOf ownerUserId) ->
      fst result
      = Thrown
          "Failed to get document accessors: Only document owner can view accessors")
  /\ (forall document,
        documents this !! documentId = Some document ->
        LedgerDocument.owner document = Ledger.addressOf ownerUserId ->
        exists accessors,
          fst result = Returned accessors
          /\ ~ In (Ledger.addressOf ownerUserId) accessors
          /\ (Ledger.colonFree documentId = true ->
              forall userId,
                Ledger.addressOf userId <> Ledger.addressOf ownerUserId ->
                fst (hasAccess userId documentId this) = Returned true ->
                In (Ledger.addressOf userId) accessors)).
Proof.
  destruct (after_wellKept readings calls) as [Hs Hk].
  destruct (getDocumentAccessors_result ownerUserId documentId this Hs)
    as (this1 & (Hs1 & Hp1 & Hd1 & _) & E).
  cbn zeta. rewrite E. cbn [fst snd].
  split; [exact Hp1 |]. split; [exact Hd1 |]. split.
  - intros [-> | (document & -> & Hne)]; [reflexivity |].
    apply eqs_false in Hne. now rewrite Hne.
  - intros document -> Ho. apply eqs_true in Ho. rewrite Ho.
    eexists. split; [reflexivity |]. split.
    + rewrite In_elem_of, list_elem_of_omap.
      intros ([key held] & _ & Hacc). unfold accessorOf in Hacc.
      destruct (splitKey key) as [docId [address|]]; [| discriminate].
      destruct (Js.eqs docId documentId && held
                && negb (Js.eqs address (Ledger.addressOf ownerUserId)))%bool
        eqn:Et; [| discriminate].
      injection Hacc as ->.
      apply andb_prop in Et as [_ Et]. apply negb_true_iff in Et.
      now rewrite eqs_refl in Et.
    + intros Hfree userId Hne. rewrite (hasAccess_answer _ _ _ Hs).
      intros [= Hheld].
      rewrite In_elem_of, list_elem_of_omap.
      exists (Ledger.grantKey documentId userId, true). split.
      * apply In_elem_of. now apply wellKept_held.
      * unfold accessorOf, Ledger.grantKey.
        rewrite (splitKey_key _ _ Hfree (addressOf_colonFree userId)).
        rewrite eqs_refl. apply eqs_false in Hne. now rewrite Hne.
Qed.

Lemma getUserWalletAddress_held userId (s : DevBlockchainService.t) :
  userWallets s !! userId = Some (derivedWallet userId) ->
  getUserWalletAddress userId s
  = (Returned (Ledger.addressOf userId), s).
Proof.
  intros E. unfold getUserWalletAddress, try_catch, getUserWallet.
  unfold bind at 1 2, get at 1. now rewrite E.
Qed.

(** X21.  Wallets are derived from the user id alone.  After any calls
    on a new service object, [getUserWalletAddress] returns ["0x"]
    followed by the first 40 hexadecimal digits of the SHA-256 digest
    of the user id with [_wallet_seed] appended, whatever was called
    before; it changes neither [documents] nor [permissions]; asked
    again it gives the same answer and changes nothing at all.  When
    the digest has at least 20 bytes (SHA-256 gives 32) the address has
    42 characters. *)
Theorem wallet_address_is_derived userId :
  exists this',
    getUserWalletAddress userId this
    = (Returned
         ("0x" ++ substring 0 40
                    (Encoding.hex
                       (sha256 (Encoding.utf8
                                  (userId ++ "_wallet_seed")))))%string,
       this')
    /\ permissions this' = permissions this
    /\ documents this' = documents this
    /\ getUserWalletAddress userId this'
       = (Returned (Ledger.addressOf userId), this')
    /\ ((20 <= length (sha256 (Encoding.utf8
                                  (userId ++ "_wallet_seed")%string)))%nat
        -> String.length (Ledger.addressOf userId) = 42%nat).
Proof.
  destruct (after_wellKept readings calls) as [Hs Hk].
  pose proof Hs as [_ Hw].
  assert (Hlength :
            (20 <= length (sha256 (Encoding.utf8
                                     (userId ++ "_wallet_seed")%string)))%nat
            -> String.length (Ledger.addressOf userId) = 42%nat).
  { intros Hlen. unfold Ledger.addressOf, derivedWallet, sha256text,
      sha256hex. cbn [Wallet.address].
    change (String.length ("0x" ++ ?x)%string)
      with (S (S (String.length x))).
    rewrite substring_length; [reflexivity |].
    rewrite hex_length. lia. }
  destruct (userWallets this !! userId) as [wallet|] eqn:Ew.
  - pose proof (Hw _ _ Ew) as ->. exists this.
    pose proof (getUserWalletAddress_held userId this Ew) as E.
    split; [exact E |]. split; [reflexivity |].
    split; [reflexivity |]. split; [exact E | exact Hlength].
  - eexists. split.
    { unfold getUserWalletAddress, try_catch, getUserWallet.
      unfold bind at 1 2, get at 1. rewrite Ew.
      unfold set_userWallets. run. reflexivity. }
    cbn [permissions documents]. split; [reflexivity |].
    split; [reflexivity |]. split; [| exact Hlength].
    apply getUserWalletAddress_held. cbn [userWallets].
    apply lookup_insert_eq.
Qed.

End LedgerProperties.

(** The examples below start from a new service object on which Alice
    ([a1]) has registered one document. *)
Section LedgerExamples.
Import DevBlockchainService.

Local Abbreviation calls := [AddDocument "a1" "Qmabc" "{}"].
Local Abbreviation this := (@Ledger.after Fixture.crypto Fixture.readings calls).
Local Abbreviation documentId := "0x61312d516d6162632d30"%string.
Local Abbreviation registered :=
  (LedgerDocument.mk "Qmabc" "0x61315f77616c6c65745f73656564" "{}" 1).

(** Alice grants Bob access; Bob may not grant Carol access; nobody
    can grant access to a document that is not registered. *)
Lemma ledger_grant_by_case_witness :
  fst (@hasAccess Fixture.crypto "b2" documentId
         (snd (@grantAccess Fixture.crypto "a1" documentId
                 "bob@example.com" "b2" this)))
  = Returned true
  /\ fst (@grantAccess Fixture.crypto "b2" documentId
            "carol@example.com" "c3" this)
     = Thrown
         "Failed to grant access on dev blockchain: Only document owner can grant access"
  /\ fst (@grantAccess Fixture.crypto "a1" "0x00" "bob@example.com" "b2"
            this)
     = Thrown
         "Failed to grant access on dev blockchain: Document not found".
Proof.
  destruct (@ledger_grant_by_case Fixture.crypto Fixture.readings calls
              "a1" documentId "bob@example.com" "b2")
    as (_ & _ & _ & Hown).
  destruct (Hown registered) as (_ & Hheld & _);
    [vm_compute; reflexivity | reflexivity |].
  destruct (@ledger_grant_by_case Fixture.crypto Fixture.readings calls
              "b2" documentId "carol@example.com" "c3")
    as (_ & _ & Hother & _).
  destruct (Hother registered) as (Hrefused & _);
    [vm_compute; reflexivity | vm_compute; discriminate |].
  destruct (@ledger_grant_by_case Fixture.crypto Fixture.readings calls
              "a1" "0x00" "bob@example.com" "b2")
    as (_ & Hnone & _).
  destruct Hnone as (Hmissing & _); [vm_compute; reflexivity |].
  split; [exact Hheld |]. split; [exact Hrefused | exact Hmissing].
Defined.

(** Alice revokes the access Bob does not have, which leaves him
    without; she grants it and revokes it again, which leaves the
    grants as they were; Bob may not revoke Alice's access. *)
Lemma ledger_revoke_by_case_witness :
  fst (@hasAccess Fixture.crypto "b2" documentId
         (snd (@revokeAccess Fixture.crypto "a1" documentId "b2" this)))
  = Returned false
  /\ permissions
       (snd (@revokeAccess Fixture.crypto "a1" documentId "b2"
               (snd (@grantAccess Fixture.crypto "a1" documentId
                       "bob@example.com" "b2" this))))
     = permissions this
  /\ fst (@revokeAccess Fixture.crypto "b2" documentId "a1" this)
     = Thrown
         "Failed to revoke access on dev blockchain: Only document owner can revoke access".
Proof.
  destruct (@ledger_revoke_by_case Fixture.crypto Fixture.readings calls
              "a1" documentId "b2")
    as (_ & _ & _ & Hown).
  destruct (Hown registered) as (_ & Hgone & _ & Hundo);
    [vm_compute; reflexivity | reflexivity |].
  destruct (@ledger_revoke_by_case Fixture.crypto Fixture.readings calls
              "b2" documentId "a1")
    as (_ & _ & Hother & _).
  destruct (Hother registered) as (Hrefused & _);
    [vm_compute; reflexivity | vm_compute; discriminate |].
  split; [exact Hgone |]. split; [| exact Hrefused].
  apply (Hundo "bob@example.com"). vm_compute. reflexivity.
Defined.

(** Carol, who owns nothing, grants Bob and herself access to Alice's
    document and to an id nothing is registered under. *)
Lemma ledger_batch_grant_is_unchecked_witness :
  (exists tx this',
     @batchGrantAccess Fixture.crypto "c3" documentId ["b2"; "c3"] this
     = (Returned tx, this')
     /\ fst (@hasAccess Fixture.crypto "c3" documentId this')
        = Returned true)
  /\ (exists tx this',
        @batchGrantAccess Fixture.crypto "c3" "0x00" ["b2"] this
        = (Returned tx, this')
        /\ fst (@hasAccess Fixture.crypto "b2" "0x00" this')
           = Returned true).
Proof.
  split.
  - destruct (@ledger_batch_grant_is_unchecked Fixture.crypto
                Fixture.readings calls "c3" documentId ["b2"; "c3"])
      as (tx & this' & E & _ & _ & Hheld & _).
    exists tx, this'. split; [exact E |]. apply Hheld. right. now left.
  - destruct (@ledger_batch_grant_is_unchecked Fixture.crypto
                Fixture.readings calls "c3" "0x00" ["b2"])
      as (tx & this' & E & _ & _ & Hheld & _).
    exists tx, this'. split; [exact E |]. apply Hheld. now left.
Defined.

(** Alice reads her document; Bob is denied; after a batch grant on an
    id nothing is registered under, the document is not found. *)
Lemma ledger_getDocument_by_case_witness :
  fst (@getDocument Fixture.crypto "a1" documentId this)
  = Returned registered
  /\ fst (@getDocument Fixture.crypto "b2" documentId this)
     = Thrown
         "Failed to get document from dev blockchain: Access denied to document"
  /\ fst (@getDocument Fixture.crypto "b2" "0x00"
            (@Ledger.after Fixture.crypto Fixture.readings
               [BatchGrantAccess "c3" "0x00" ["b2"]]))
     = Thrown
         "Failed to get document from dev blockchain: Document not found".
Proof.
  destruct (@ledger_getDocument_by_case Fixture.crypto Fixture.readings
              calls "a1" documentId) as (_ & _ & _ & Hheld).
  destruct (Hheld eq_refl) as [_ Hfound].
  destruct (@ledger_getDocument_by_case Fixture.crypto Fixture.readings
              calls "b2" documentId) as (_ & _ & Hdenied & _).
  destruct (@ledger_getDocument_by_case Fixture.crypto Fixture.readings
              [BatchGrantAccess "c3" "0x00" ["b2"]] "b2" "0x00")
    as (_ & _ & _ & Hheld').
  destruct (Hheld' eq_refl) as [Hmissing _].
  split; [apply Hfound; vm_compute; reflexivity |].
  split; [apply Hdenied; reflexivity |].
  apply Hmissing. vm_compute. reflexivity.
Defined.

Lemma ledger_add_then_get_witness :
  exists tx this' createdAt,
    @addDocument Fixture.crypto "b2" "Qmxyz" "{}" this
    = (Returned tx, this')
    /\ fst (@getDocument Fixture.crypto "b2" (AddTx.documentId tx) this')
       = Returned (LedgerDocument.mk "Qmxyz"
                     "0x62325f77616c6c65745f73656564" "{}" createdAt).
Proof.
  exact (@ledger_add_then_get Fixture.crypto Fixture.readings calls
           "b2" "Qmxyz" "{}").
Defined.

(** After Alice has granted Bob access, her list holds Bob's address
    and not her own; Bob may not see the list. *)
Lemma ledger_accessors_list_the_grantees_witness :
  let granted :=
    [AddDocument "a1" "Qmabc" "{}";
     GrantAccess "a1" documentId "bob@example.com" "b2"] in
  (exists accessors,
     fst (@getDocumentAccessors Fixture.crypto "a1" documentId
            (@Ledger.after Fixture.crypto Fixture.readings granted))
     = Returned accessors
     /\ In "0x62325f77616c6c65745f73656564"%string accessors
     /\ ~ In "0x61315f77616c6c65745f73656564"%string accessors)
  /\ fst (@getDocumentAccessors Fixture.crypto "b2" documentId
            (@Ledger.after Fixture.crypto Fixture.readings granted))
     = Thrown
         "Failed to get document accessors: Only document owner can view accessors".
Proof.
  intros granted. split.
  - destruct (@ledger_accessors_list_the_grantees Fixture.crypto
                Fixture.readings granted "a1" documentId)
      as (_ & _ & _ & Hown).
    destruct (Hown registered) as (accessors & E & Hnot & Hlisted);
      [vm_compute; reflexivity | reflexivity |].
    exists accessors. split; [exact E |]. split; [| exact Hnot].
    apply (Hlisted eq_refl "b2"); [vm_compute; discriminate |].
    vm_compute. reflexivity.
  - destruct (@ledger_accessors_list_the_grantees Fixture.crypto
                Fixture.readings granted "b2" documentId)
      as (_ & _ & Hother & _).
    apply Hother. right. exists registered.
    split; [vm_compute; reflexivity | vm_compute; discriminate].
Defined.

(** The address of a user whose id has eight characters. *)
Lemma wallet_address_is_derived_witness :
  fst (@getUserWalletAddress Fixture.crypto "a1234567" this)
  = Returned "0x61313233343536375f77616c6c65745f73656564"
  /\ String.length (@Ledger.addressOf Fixture.crypto "a1234567") = 42%nat.
Proof.
  destruct (@wallet_address_is_derived Fixture.crypto Fixture.readings
              calls "a1234567") as (this' & E & _ & _ & _ & Hlength).
  split; [rewrite E; reflexivity |].
  apply Hlength. vm_compute. lia.
Defined.

End LedgerExamples.

(** ** The check of an address in services/ipfs.js *)

Lemma string_length_app (a b : string) :
  String.length (a ++ b) = (String.length a + String.length b)%nat.
Proof.
  induction a as [|c a IH]; [reflexivity |].
  change (String c a ++ b)%string with (String c (a ++ b)).
  cbn [String.length]. now rewrite IH.
Qed.

Lemma leading_length class s :
  (IPFSAddress.leading class s <= String.length s)%nat.
Proof.
  induction s as [|c s IH]; cbn; [lia |]. destruct (class c); lia.
Qed.

Lemma leading_app class s suffix :
  (IPFSAddress.leading class s
   <= IPFSAddress.leading class (s ++ suffix))%nat.
Proof.
  induction s as [|c s IH]; [cbn; lia |].
  change (String c s ++ suffix)%string with (String c (s ++ suffix)).
  cbn [IPFSAddress.leading]. destruct (class c); lia.
Qed.

Lemma cidv1_starts_ba hash :
  IPFSAddress.cidv1 hash = true ->
  exists c rest,
    hash = String "b" (String "a" (String c rest))
    /\ (48 <= IPFSAddress.leading IPFSAddress.isBase32 rest)%nat.
Proof.
  destruct hash as [|a [|b [|c rest]]]; try discriminate.
  unfold IPFSAddress.cidv1. intros Hv. apply andb_prop in Hv as [Hp Hl].
  apply Nat.leb_le in Hl. exists c, rest. split; [| exact Hl].
  apply includes_In in Hp. unfold IPFSAddress.cidv1Prefixes in Hp.
  cbn [In] in Hp.
  repeat (destruct Hp as [Hp | Hp];
          [injection Hp as <- <- <-; reflexivity |]).
  contradiction.
Qed.

Lemma cidv0_starts_Qm hash :
  IPFSAddress.cidv0 hash = true ->
  exists rest,
    hash = String "Q" (String "m" rest)
    /\ (Nat.eqb (String.length rest) 44
        && forallb IPFSAddress.isBase58 (list_ascii_of_string rest))%bool
       = true.
Proof.
  destruct hash as [|a hash]; [discriminate |].
  destruct a as [[] [] [] [] [] [] [] []]; try discriminate.
  destruct hash as [|b rest]; [discriminate |].
  destruct b as [[] [] [] [] [] [] [] []]; try discriminate.
  intros E. now exists rest.
Qed.

(** X22.  What [isValidIPFSHash] of the production service accepts.  An
    accepted address either starts with [Qm] and has exactly 46
    characters, or starts with [ba] and has at least 51.  The second
    pattern is not anchored at the end: an address it accepts stays
    accepted whatever is appended, while nothing can be appended to one
    the first pattern accepts.  What the first pattern accepts the
    development service accepts too; what the second accepts (the kind
    of address production uploads ask for) does not start with [Qm], so
    the development service rejects it. *)
Theorem production_validator_shape hash :
  IPFSAddress.isValidIPFSHash hash = true ->
  (IPFSAddress.cidv0 hash = true
   /\ substring 0 2 hash = "Qm" /\ String.length hash = 46%nat
   /\ DevIPFSService.isValidIPFSHash hash = true
   /\ forall suffix,
        suffix <> "" ->
        IPFSAddress.isValidIPFSHash (hash ++ suffix) = false)
  \/ (IPFSAddress.cidv1 hash = true
      /\ substring 0 2 hash = "ba" /\ (51 <= String.length hash)%nat
      /\ DevIPFSService.startsWithQm hash = false
      /\ DevIPFSService.isValidIPFSHash hash = false
      /\ forall suffix,
           IPFSAddress.isValidIPFSHash (hash ++ suffix) = true).
Proof.
  unfold IPFSAddress.isValidIPFSHash.
  destruct (IPFSAddress.cidv0 hash) eqn:E0; cbn [orb].
  - intros _. left. split; [reflexivity |].
    destruct (cidv0_starts_Qm hash E0) as (rest & -> & E0').
    clear E0. rename E0' into E0.
    apply andb_prop in E0 as [Hl Hc]. apply Nat.eqb_eq in Hl.
    split; [now destruct rest |].
    split; [cbn; now rewrite Hl |].
    split.
    { unfold DevIPFSService.isValidIPFSHash, DevIPFSService.startsWithQm.
      cbn [String.length]. rewrite Hl.
      destruct rest; reflexivity. }
    intros suffix Hne.
    change (String "Q" (String "m" rest) ++ suffix)%string
      with (String "Q" (String "m" (rest ++ suffix))).
    assert (Hlong : Nat.eqb (String.length (rest ++ suffix)) 44 = false).
    { apply Nat.eqb_neq. rewrite string_length_app, Hl.
      destruct suffix; [contradiction | cbn; lia]. }
    unfold IPFSAddress.cidv0, IPFSAddress.cidv1. rewrite Hlong.
    cbn [andb orb].
    destruct (rest ++ suffix)%string as [|c rest']; [reflexivity |].
    reflexivity.
  - intros E1. right. split; [exact E1 |].
    destruct (cidv1_starts_ba hash E1) as (c & rest & -> & Hl).
    split; [reflexivity |].
    pose proof (leading_length IPFSAddress.isBase32 rest) as Hlen.
    split; [cbn [String.length]; lia |].
    split; [reflexivity |]. split; [reflexivity |].
    intros suffix.
    change (String "b" (String "a" (String c rest)) ++ suffix)%string
      with (String "b" (String "a" (String c (rest ++ suffix)))).
    assert (Hv : IPFSAddress.cidv1
                   (String "b" (String "a" (String c (rest ++ suffix))))
                 = true); [| now rewrite Hv, orb_true_r].
    unfold IPFSAddress.cidv1 in *. apply andb_prop in E1 as [Hp _].
    rewrite Hp. cbn [andb]. apply Nat.leb_le.
    pose proof (leading_app IPFSAddress.isBase32 rest suffix). lia.
Qed.

(** An address of each kind. *)
Lemma production_validator_shape_witness :
  String.length "QmYwAPJzv5CZsnAzt8auVZRn9p6nxfZmZ75W6rS4ju4nUN" = 46%nat
  /\ IPFSAddress.isValidIPFSHash
       "bafybeigdyrzt5sfp7udm7hu76uh7y26nf3efuylqabf3oclgtqy55fbzdi/../x"
     = true.
Proof.
  destruct (production_validator_shape
              "QmYwAPJzv5CZsnAzt8auVZRn9p6nxfZmZ75W6rS4ju4nUN" eq_refl)
    as [(_ & _ & Hlength & _) | (Hv1 & _)]; [| discriminate Hv1].
  destruct (production_validator_shape
              "bafybeigdyrzt5sfp7udm7hu76uh7y26nf3efuylqabf3oclgtqy55fbzdi"
              eq_refl)
    as [(Hv0 & _) | (_ & _ & _ & _ & _ & Hmore)]; [discriminate Hv0 |].
  split; [exact Hlength | exact (Hmore "/../x")].
Defined.

(** ** What a request may do to a stored document *)

Lemma saved_lastAccessedAt d now :
  Document.set_encryptionKey
    (Document.set_lastAccessedAt (Document.deselect d) now)
    (Document.encryptionKey d)
  = Document.set_lastAccessedAt d now.
Proof. now destruct d. Qed.

Lemma saved_downloaded d now :
  Document.set_encryptionKey
    (Document.set_lastAccessedAt
       (Document.set_downloadCount
          (Document.deselect d)
          (Document.downloadCount (Document.deselect d) + 1))
       now)
    (Document.encryptionKey d)
  = Document.set_lastAccessedAt
      (Document.set_downloadCount d (Document.downloadCount d + 1)) now.
Proof. now destruct d. Qed.

Lemma saved_isActive d b :
  Document.set_encryptionKey
    (Document.set_isActive (Document.deselect d) b)
    (Document.encryptionKey d)
  = Document.set_isActive d b.
Proof. now destruct d. Qed.

Lemma saved_title d title :
  Document.set_encryptionKey
    (Document.set_title (Document.deselect d) title)
    (Document.encryptionKey d)
  = Document.set_title d title.
Proof. now destruct d. Qed.

Lemma saved_sharedWith d l :
  Document.set_encryptionKey
    (Document.set_sharedWith (Document.deselect d) l)
    (Document.encryptionKey d)
  = Document.set_sharedWith d l.
Proof. now destruct d. Qed.

(** The world is as it was. *)
Ltac same_world :=
  eexists; split; [eassumption | apply Kept.unchanged].

(** The handler saved the document it had loaded: either that is
    another document, or the loaded one is the stored one without its
    key. *)
Ltac saved_document Hd :=
  match goal with
  | Hl : Document.deselect <$> World.documents ?w !! ?documentId = Some ?t
    |- context [<[?documentId := _]> _ !! ?id] =>
      let E := fresh "E" in
      destruct (decide (documentId = id)) as [E|E];
      [ subst documentId; rewrite lookup_insert_eq;
        rewrite Hd in Hl; cbn in Hl; injection Hl as <-;
        unfold World.stored; rewrite Hd;
        eexists; split; [reflexivity |]
      | rewrite lookup_insert_ne by exact E; same_world ]
  end.

(** A guard the handler has passed. *)
Ltac passed :=
  match goal with
  | Hg : negb (Document.isActive (Document.deselect ?d)) = false
    |- Document.isActive ?d = true =>
      apply negb_false_iff in Hg; exact Hg
  | Hg : negb (Document.hasAccess (Document.deselect ?d) ?u) = false
    |- Document.hasAccess ?d ?u = true =>
      apply negb_false_iff in Hg; exact Hg
  | Hg : negb (Js.eqs (Document.owner (Document.deselect ?d)) ?u) = false
    |- Document.owner ?d = ?u =>
      apply negb_false_iff, eqs_true in Hg; exact Hg
  end.

(** The handler saved nothing under an id that holds no document. *)
Ltac nothing_new Hd :=
  first
    [ exact Hd
    | match goal with
      | Hl : Document.deselect <$> World.documents ?w !! ?documentId = Some ?t
        |- <[?documentId := _]> _ !! ?id = None =>
          rewrite lookup_insert_ne; [exact Hd |];
          intros ->; rewrite Hd in Hl; discriminate Hl
      end ].

Ltac stays_empty Hd :=
  let Hnew := fresh "Hnew" in
  intros Hnew; exfalso; revert Hnew;
  match goal with
  | |- ?x = Some _ -> False =>
      assert (x = None) as -> by nothing_new Hd; discriminate
  end.

Lemma extends_refl owner l : Kept.extends owner l l.
Proof.
  exists []. split; [now rewrite app_nil_r |].
  split; [constructor | intros u []].
Qed.

Lemma extends_users owner l l' :
  Kept.usersOf l' = Kept.usersOf l -> Kept.extends owner l l'.
Proof.
  intros E. exists []. split; [now rewrite app_nil_r |].
  split; [constructor | intros u []].
Qed.

Lemma extends_trans owner l l' l'' :
  Kept.extends owner l l' -> Kept.extends owner l' l'' ->
  Kept.extends owner l l''.
Proof.
  intros (added1 & E1 & N1 & H1) (added2 & E2 & N2 & H2).
  exists (added1 ++ added2). split; [now rewrite E2, E1, app_assoc |].
  split.
  - apply List.NoDup_app; [assumption | assumption |].
    intros u Hu1 Hu2. apply H2 in Hu2 as [_ Hu2]. apply Hu2.
    rewrite E1. apply in_or_app. now right.
  - intros u Hu. apply in_app_or in Hu as [Hu | Hu]; [now apply H1 |].
    apply H2 in Hu as [Ho Hu]. split; [assumption |].
    intros Hin. apply Hu. rewrite E1. apply in_or_app. now left.
Qed.

Lemma extends_add owner l entry :
  Share.user entry <> owner ->
  ~ In (Share.user entry) (Kept.usersOf l) ->
  Kept.extends owner l (l ++ [entry]).
Proof.
  intros Ho Hn. exists [Share.user entry].
  split; [unfold Kept.usersOf; now rewrite map_app |].
  split; [repeat constructor; tauto |].
  intros u [<- | []]. now split.
Qed.

Lemma set_sharedWith_same d :
  Document.set_sharedWith d (Document.sharedWith d) = d.
Proof. now destruct d. Qed.

(** [shareWith] only ever extends the shared-with list. *)
Lemma shareWith_extends d u permissions a changed d' a' :
  Document.shareWith d u permissions a = (Returned (changed, d'), a') ->
  exists l',
    d' = Document.set_sharedWith d l'
    /\ Kept.extends (Document.owner d) (Document.sharedWith d) l'.
Proof.
  unfold Document.shareWith.
  destruct (Js.eqs (Document.owner d) u) eqn:Eo.
  { intros [= <- <- <-]. exists (Document.sharedWith d).
    split; [now rewrite set_sharedWith_same | apply extends_refl]. }
  destruct (find (Document.isShareOf u) (Document.sharedWith d))
    as [existing|] eqn:Ef.
  - destruct (negb _).
    + unfold Ambient.now, Ambient.read. run. intros [= <- <- <-].
      eexists. split; [reflexivity |]. apply extends_users.
      unfold Kept.usersOf. apply map_user_updateFirst.
    + intros [= <- <- <-]. exists (Document.sharedWith d).
      split; [now rewrite set_sharedWith_same | apply extends_refl].
  - unfold Ambient.now, Ambient.read. run. intros [= <- <- <-].
    eexists. split; [reflexivity |]. apply extends_add; cbn.
    + apply eqs_false in Eo. congruence.
    + apply find_none_existsb in Ef. intros Hin.
      apply shared_iff in Hin. congruence.
Qed.

Section Changes.
Context {L B : Type} `{BlockchainService L} `{IpfsService B}.
Variable env : ServiceConfig.ProcessEnv.
Implicit Type w : World.t L B.
Variable id : ObjectId.

(** The loop of [POST /batch-grant] only ever extends the shared-with
    list of the document it holds, and saves nothing. *)
Lemma shareEach_extends validUsers permissions : forall document w,
  exists l' results w',
    Sharing.shareEach validUsers permissions document w
    = (Returned (Document.set_sharedWith document l', results), w')
    /\ World.documents w' = World.documents w
    /\ Kept.extends (Document.owner document)
                    (Document.sharedWith document) l'.
Proof.
  induction validUsers as [|user rest IH]; intros document w.
  - cbn. unfold ret. exists (Document.sharedWith document), [], w.
    split; [now rewrite set_sharedWith_same |].
    split; [reflexivity | apply extends_refl].
  - cbn [Sharing.shareEach].
    destruct (shareWith_returns document (User._id user) permissions
                (World.clock w)) as (success & d1 & a1 & E).
    destruct (shareWith_extends _ _ _ _ _ _ _ E) as (l1 & -> & Hx1).
    unfold bind at 1. unfold World.withClock at 1. rewrite E.
    destruct success.
    + rewrite (bind_returned _ _ _ _ _ (newDate_eq _)).
      match goal with
      | |- context [bind (Sharing.shareEach rest permissions ?d1) _ ?w1] =>
          destruct (IH d1 w1) as (l2 & results & w2 & E2 & Hd & Hx2)
      end.
      rewrite (bind_returned _ _ _ _ _ E2). unfold ret.
      eexists l2, _, _. split; [reflexivity |]. split; [exact Hd |].
      eapply extends_trans; [exact Hx1 | exact Hx2].
    + match goal with
      | |- context [Sharing.shareEach rest permissions ?d1 ?w1] =>
          destruct (IH d1 w1) as (l2 & results & w2 & E2 & Hd & Hx2)
      end.
      rewrite E2. eexists l2, _, _. split; [reflexivity |].
      split; [exact Hd |].
      eapply extends_trans; [exact Hx1 | exact Hx2].
Qed.

Section Stored.
Variable d : Document.t.

Lemma fetch_changes w userId documentId :
  World.documents w !! id = Some d ->
  exists d',
    World.documents (snd (Documents.fetch userId documentId w)) !! id
    = Some d'
    /\ Kept.change userId d d'.
Proof.
  intros Hd. unfold Documents.fetch. unfold_world. split_tests.
  all: try same_world.
  saved_document Hd.
  rewrite saved_lastAccessedAt. apply Kept.read; passed.
Qed.

Lemma download_changes w userId documentId :
  World.documents w !! id = Some d ->
  exists d',
    World.documents (snd (Documents.download env userId documentId w)) !! id
    = Some d'
    /\ Kept.change userId d d'.
Proof.
  intros Hd. unfold Documents.download. unfold_world. split_tests.
  all: try same_world.
  all: saved_document Hd.
  all: rewrite saved_downloaded; apply Kept.downloaded; passed.
Qed.

Lemma delete_changes w userId documentId :
  World.documents w !! id = Some d ->
  exists d',
    World.documents (snd (Documents.delete userId documentId w)) !! id
    = Some d'
    /\ Kept.change userId d d'.
Proof.
  intros Hd. unfold Documents.delete. unfold_world. split_tests.
  all: try same_world.
  all: saved_document Hd.
  all: rewrite saved_isActive; apply Kept.deleted; passed.
Qed.

Lemma update_changes w userId documentId title description :
  World.documents w !! id = Some d ->
  exists d',
    World.documents
      (snd (Documents.update userId documentId title description w)) !! id
    = Some d'
    /\ Kept.change userId d d'.
Proof.
  intros Hd. unfold Documents.update. unfold_world. split_tests.
  all: try same_world.
  all: saved_document Hd.
  all: rewrite saved_title; apply Kept.retitled; passed.
Qed.

Lemma access_changes w userId documentId :
  World.documents w !! id = Some d ->
  exists d',
    World.documents (snd (Sharing.access userId documentId w)) !! id
    = Some d'
    /\ Kept.change userId d d'.
Proof.
  intros Hd. unfold Sharing.access. unfold_world. split_tests.
  all: same_world.
Qed.

Lemma sharingInfo_changes w userId documentId :
  World.documents w !! id = Some d ->
  exists d',
    World.documents (snd (Sharing.sharingInfo userId documentId w)) !! id
    = Some d'
    /\ Kept.change userId d d'.
Proof.
  intros Hd. unfold Sharing.sharingInfo. unfold_world. split_tests.
  all: same_world.
Qed.

Lemma revoke_changes w ownerId documentId userId :
  World.documents w !! id = Some d ->
  exists d',
    World.documents
      (snd (Sharing.revoke env ownerId documentId userId w)) !! id
    = Some d'
    /\ Kept.change ownerId d d'.
Proof.
  intros Hd. unfold Sharing.revoke. unfold_world. split_tests.
  all: try same_world.
  all: saved_document Hd.
  all: unfold Document.unshareWith in *.
  all: match goal with
       | Hu : (_, _) = (_, ?t1) |- _ => injection Hu as _ <-
       end.
  all: rewrite saved_sharedWith; apply Kept.unshared; passed.
Qed.

Lemma grant_changes w ownerId documentId userEmail permissions :
  World.documents w !! id = Some d ->
  exists d',
    World.documents
      (snd (Sharing.grant env ownerId documentId userEmail permissions w))
      !! id
    = Some d'
    /\ Kept.change ownerId d d'.
Proof.
  intros Hd. unfold Sharing.grant. unfold_world. split_tests.
  all: try same_world.
  all: saved_document Hd.
  all: try match goal with
           | Hs : Document.shareWith _ _ _ _ = (Returned (_, _), _) |- _ =>
               destruct (shareWith_extends _ _ _ _ _ _ _ Hs)
                 as (l' & -> & Hx)
           end.
  all: rewrite saved_sharedWith; apply Kept.shared; try passed.
  all: try exact Hx.
  all: apply extends_users; unfold Kept.usersOf; apply map_user_updateFirst.
Qed.

Lemma batchGrant_changes w ownerId documentId userEmails permissions :
  World.documents w !! id = Some d ->
  exists d',
    World.documents
      (snd (Sharing.batchGrant env ownerId documentId userEmails
              permissions w)) !! id
    = Some d'
    /\ Kept.change ownerId d d'.
Proof.
  intros Hd. unfold Sharing.batchGrant. unfold_world.
  repeat (first
            [ match goal with
              | |- context [match Sharing.shareEach ?us ?p ?doc ?w1
                            with _ => _ end] =>
                  let E := fresh "E" in
                  let Hdocs := fresh "Hdocs" in
                  let Hx := fresh "Hx" in
                  destruct (shareEach_extends us p doc w1)
                    as (? & ? & ? & E & Hdocs & Hx);
                  rewrite E; try rewrite Hdocs
              end
            | match goal with
              | |- context [match ?x with _ => _ end] =>
                  match x with
                  | context [match _ with _ => _ end] => fail 1
                  | _ => destruct x eqn:?
                  end
              end ];
          cbn [World.documents World.users World.blockchain World.ipfs
               World.clock World.calls fst snd fmap option_fmap option_map]).
  all: try same_world.
  all: saved_document Hd.
  all: rewrite saved_sharedWith; apply Kept.shared; try passed.
  all: assumption.
Qed.

Lemma upload_changes w user file title description encrypt :
  World.documents w !! id = Some d ->
  exists d',
    World.documents
      (snd (Documents.upload env user file title description encrypt w))
      !! id
    = Some d'
    /\ Kept.change (User._id user) d d'.
Proof.
  intros Hd. unfold Documents.upload. unfold_world. split_tests.
  all: try same_world.
  all: rewrite lookup_insert_ne; [same_world |].
  all: intros E; pose proof (is_fresh (dom (World.documents w))) as Hfresh;
    rewrite E in Hfresh; apply Hfresh, elem_of_dom; eauto.
Qed.

(** Whatever the request, the stored document changes in one of the
    listed ways. *)
Lemma handle_changes (r : Api.Request) w :
  World.documents w !! id = Some d ->
  exists d',
    World.documents (snd (Api.handle env r w)) !! id = Some d'
    /\ Kept.change (Kept.requester r) d d'.
Proof.
  intros Hd. destruct r; cbn [Api.handle Kept.requester].
  - now apply upload_changes.
  - now apply fetch_changes.
  - now apply download_changes.
  - now apply delete_changes.
  - now apply update_changes.
  - now apply grant_changes.
  - now apply revoke_changes.
  - now apply sharingInfo_changes.
  - now apply batchGrant_changes.
  - now apply access_changes.
Qed.

End Stored.

(** Only [POST /upload] stores a document under an id that held none,
    and it stores it as the requester's, shared with nobody. *)
Lemma handle_creates (r : Api.Request) w d' :
  World.documents w !! id = None ->
  World.documents (snd (Api.handle env r w)) !! id = Some d' ->
  Kept.created (Kept.requester r) d'.
Proof.
  intros Hd. destruct r; cbn [Api.handle Kept.requester].
  - unfold Documents.upload. unfold_world. split_tests.
    all: try (rewrite Hd; discriminate).
    all: destruct (decide (fresh (dom (World.documents w)) = id)) as [E|E];
      [ rewrite E, lookup_insert_eq; intros [= <-]; repeat split
      | rewrite lookup_insert_ne by exact E; rewrite Hd; discriminate ].
  - unfold Documents.fetch. unfold_world. split_tests.
    all: stays_empty Hd.
  - unfold Documents.download. unfold_world. split_tests.
    all: stays_empty Hd.
  - unfold Documents.delete. unfold_world. split_tests.
    all: stays_empty Hd.
  - unfold Documents.update. unfold_world. split_tests.
    all: stays_empty Hd.
  - unfold Sharing.grant. unfold_world. split_tests.
    all: stays_empty Hd.
  - unfold Sharing.revoke. unfold_world. split_tests.
    all: stays_empty Hd.
  - unfold Sharing.sharingInfo. unfold_world. split_tests.
    all: stays_empty Hd.
  - unfold Sharing.batchGrant. unfold_world.
    repeat (first
              [ match goal with
                | |- context [match Sharing.shareEach ?us ?p ?doc ?w1
                              with _ => _ end] =>
                    let E := fresh "E" in
                    let Hdocs := fresh "Hdocs" in
                    destruct (shareEach_extends us p doc w1)
                      as (? & ? & ? & E & Hdocs & _);
                    rewrite E; try rewrite Hdocs
                end
              | match goal with
                | |- context [match ?x with _ => _ end] =>
                    match x with
                    | context [match _ with _ => _ end] => fail 1
                    | _ => destruct x eqn:?
                    end
                end ];
            cbn [World.documents World.users World.blockchain World.ipfs
                 World.clock World.calls fst snd fmap option_fmap
                 option_map]).
    all: stays_empty Hd.
  - unfold Sharing.access. unfold_world. split_tests.
    all: stays_empty Hd.
Qed.

  End Changes.

(** *** What follows for a stored document *)

Lemma sameIdentity_refl d : Kept.sameIdentity d d.
Proof. repeat split; auto. Qed.

Lemma sameIdentity_trans d d' d'' :
  Kept.sameIdentity d d' -> Kept.sameIdentity d' d'' ->
  Kept.sameIdentity d d''.
Proof.
  unfold Kept.sameIdentity. intros H1 H2.
  repeat match goal with
         | Hc : _ /\ _ |- _ => destruct Hc
         end.
  repeat split; try congruence; [lia | auto].
Qed.

Lemma change_sameIdentity u d d' :
  Kept.change u d d' -> Kept.sameIdentity d d'.
Proof.
  intros [| | | | | |]; repeat split; cbn; auto; try lia; discriminate.
Qed.

Lemma usersOf_filter_In target l u :
  In u (Kept.usersOf
          (List.filter (fun share => negb (Document.isShareOf target share))
                       l)) ->
  In u (Kept.usersOf l).
Proof.
  unfold Kept.usersOf. rewrite !in_map_iff.
  intros (share & Hu & Hin). apply List.filter_In in Hin as [Hin _]. eauto.
Qed.

Lemma usersOf_filter_NoDup target l :
  List.NoDup (Kept.usersOf l) ->
  List.NoDup
    (Kept.usersOf
       (List.filter (fun share => negb (Document.isShareOf target share))
                    l)).
Proof.
  induction l as [|share rest IH]; cbn; [trivial |].
  rewrite List.NoDup_cons_iff. intros [Hn Hrest].
  destruct (negb (Document.isShareOf target share)); cbn; [| now apply IH].
  apply List.NoDup_cons_iff. split; [| now apply IH].
  intros Hin. apply Hn. eapply usersOf_filter_In, Hin.
Qed.

Lemma change_wellShared u d d' :
  Kept.change u d d' -> Kept.wellShared d -> Kept.wellShared d'.
Proof.
  intros [| | | | | l' _ _ (added & E & Hn & Ha) | target _ _] [Ho Hd];
    try (split; assumption).
  - unfold Kept.wellShared. cbn [Document.owner Document.sharedWith
                                 Document.set_sharedWith]. rewrite E. split.
    + intros Hin. apply in_app_or in Hin as [Hin | Hin]; [now apply Ho |].
      apply Ha in Hin as [Hin _]. now apply Hin.
    + apply List.NoDup_app; [assumption | assumption |].
      intros x Hx Hx'. apply Ha in Hx' as [_ Hx']. now apply Hx'.
  - unfold Kept.wellShared. cbn [Document.owner Document.sharedWith
                                 Document.set_sharedWith]. split.
    + intros Hin. apply Ho. eapply usersOf_filter_In, Hin.
    + now apply usersOf_filter_NoDup.
Qed.

Section Invariants.
Context {L B : Type} `{BlockchainService L} `{IpfsService B}.
Variable env : ServiceConfig.ProcessEnv.
Implicit Type w : World.t L B.

(** X23.  No sequence of requests removes a stored document or changes
    what it stands for: its original name, type and size, its content
    address, its ledger id, its owner, whether it is encrypted and its
    key stay as they were stored; its download count never goes down;
    and once deleted it is never active again. *)
Theorem stored_documents_keep_their_identity
        (requests : list Api.Request) : forall w id d,
  World.documents w !! id = Some d ->
  exists d',
    World.documents (Api.serve env requests w) !! id = Some d'
    /\ Kept.sameIdentity d d'.
Proof.
  induction requests as [|r rest IH]; intros w id d Hd; cbn.
  - exists d. split; [assumption | apply sameIdentity_refl].
  - destruct (handle_changes env id d r w Hd) as (d1 & Hd1 & Hc).
    destruct (IH _ id d1 Hd1) as (d' & Hd' & Hs).
    exists d'. split; [assumption |].
    eapply sameIdentity_trans; [| exact Hs].
    eapply change_sameIdentity, Hc.
Qed.

(** X24.  A document is never shared with its owner and never lists a
    user twice: when this holds of every stored document, it holds of
    every stored document after any sequence of requests. *)
Theorem shared_lists_stay_well_formed (requests : list Api.Request) :
  forall w,
    (forall id d, World.documents w !! id = Some d -> Kept.wellShared d) ->
    forall id d,
      World.documents (Api.serve env requests w) !! id = Some d ->
      Kept.wellShared d.
Proof.
  induction requests as [|r rest IH]; intros w Hw id d; cbn;
    [apply Hw |].
  apply IH. clear id d. intros id d' Hd'.
  destruct (World.documents w !! id) as [d|] eqn:Hd.
  - destruct (handle_changes env id d r w Hd) as (d1 & Hd1 & Hc).
    assert (d1 = d') as -> by congruence.
    eapply change_wellShared; [exact Hc | eapply Hw, Hd].
  - destruct (handle_creates env id r w d' Hd Hd') as (_ & Hs & _).
    unfold Kept.wellShared. rewrite Hs. split; [intros [] | constructor].
Qed.

(** X25.  Only its owner edits a document.  A request made by anyone
    else leaves the title, the shared-with list and the active flag of
    every stored document as they were, and a request made by a user
    who is neither the owner nor in the shared-with list leaves the
    whole document as it was. *)
Theorem only_the_owner_edits (r : Api.Request) w id d :
  World.documents w !! id = Some d ->
  Kept.requester r <> Document.owner d ->
  exists d',
    World.documents (snd (Api.handle env r w)) !! id = Some d'
    /\ Document.title d' = Document.title d
    /\ Document.sharedWith d' = Document.sharedWith d
    /\ Document.isActive d' = Document.isActive d
    /\ (Document.hasAccess d (Kept.requester r) = false -> d' = d).
Proof.
  intros Hd Hne.
  destruct (handle_changes env id d r w Hd) as (d' & Hd' & Hc).
  exists d'. split; [assumption |].
  destruct Hc as [| now Ha _ | now Ha _ | Ho | title Ho | l' Ho | t Ho];
    try (symmetry in Ho; contradiction).
  - repeat split.
  - repeat split. congruence.
  - repeat split. congruence.
Qed.

End Invariants.

(** Alice retitles her report, shares it with Bob, and deletes it; Bob
    fetches it in between. *)
Lemma stored_documents_keep_their_identity_witness :
  exists d',
    World.documents
      (@Api.serve _ _ (@DevBlockchainService.service Fixture.crypto)
         (@DevIPFSService.service Fixture.crypto) Fixture.development
         [Api.Update "a1" "d1" (Some "Plan") None;
          Api.Grant "a1" (Some "d1") (Some "bob@example.com") (Some "read");
          Api.Fetch "b2" "d1";
          Api.Delete "a1" "d1"]
         (Fixture.devWorld {[ "d1" := Fixture.report ]}))
      !! "d1" = Some d'
    /\ Document.owner d' = "a1"
    /\ Document.ipfsHash d' = "Qmabc"
    /\ Document.blockchainDocumentId d' = "0xd0c".
Proof.
  destruct (@stored_documents_keep_their_identity _ _
              (@DevBlockchainService.service Fixture.crypto)
              (@DevIPFSService.service Fixture.crypto) Fixture.development
              [Api.Update "a1" "d1" (Some "Plan") None;
               Api.Grant "a1" (Some "d1") (Some "bob@example.com")
                         (Some "read");
               Api.Fetch "b2" "d1";
               Api.Delete "a1" "d1"]
              (Fixture.devWorld {[ "d1" := Fixture.report ]})
              "d1" Fixture.report)
    as (d' & Hd' & (_ & _ & _ & Hi & Hb & Ho & _)); [reflexivity |].
  exists d'. split; [exact Hd' |]. split; [exact Ho |].
  split; [exact Hi | exact Hb].
Defined.

(** Alice shares her report with Bob twice, and with herself. *)
Lemma shared_lists_stay_well_formed_witness :
  exists d,
    World.documents
      (@Api.serve _ _ (@DevBlockchainService.service Fixture.crypto)
         (@DevIPFSService.service Fixture.crypto) Fixture.development
         [Api.Grant "a1" (Some "d1") (Some "bob@example.com") (Some "read");
          Api.Grant "a1" (Some "d1") (Some "bob@example.com") (Some "write");
          Api.BatchGrant "a1" (Some "d1")
            (Some ["alice@example.com"; "bob@example.com"]) None]
         (Fixture.devWorld {[ "d1" := Fixture.report ]}))
      !! "d1" = Some d
    /\ Kept.usersOf (Document.sharedWith d) = ["b2"]
    /\ Kept.wellShared d.
Proof.
  match goal with
  | |- exists d, ?lookup = Some d /\ _ =>
      destruct lookup as [d|] eqn:E; [| vm_compute in E; discriminate E]
  end.
  exists d. split; [reflexivity |]. split.
  - vm_compute in E. injection E as <-. reflexivity.
  - revert E.
    apply (@shared_lists_stay_well_formed _ _
             (@DevBlockchainService.service Fixture.crypto)
             (@DevIPFSService.service Fixture.crypto) Fixture.development).
    intros id d0 Hl. unfold Fixture.devWorld in Hl.
    cbn [World.documents] in Hl.
    apply lookup_singleton_Some in Hl as [_ <-].
    split; [intros [] | constructor].
Defined.

(** Carol, who is not on the list, and Bob, who is, ask for Alice's
    shared report to be retitled, deleted and downloaded. *)
Lemma only_the_owner_edits_witness :
  World.documents
    (snd (@Api.handle _ _ (@DevBlockchainService.service Fixture.crypto)
            (@DevIPFSService.service Fixture.crypto) Fixture.development
            (Api.Update "c3" "d1" (Some "Mine") None)
            (Fixture.devWorld {[ "d1" := Fixture.sharedReport ]})))
    !! "d1" = Some Fixture.sharedReport
  /\ exists d',
       World.documents
         (snd (@Api.handle _ _ (@DevBlockchainService.service Fixture.crypto)
                 (@DevIPFSService.service Fixture.crypto)
                 Fixture.development
                 (Api.Delete "b2" "d1")
                 (Fixture.devWorld {[ "d1" := Fixture.sharedReport ]})))
         !! "d1" = Some d'
       /\ Document.isActive d' = true.
Proof.
  split.
  - destruct (@only_the_owner_edits _ _
                (@DevBlockchainService.service Fixture.crypto)
                (@DevIPFSService.service Fixture.crypto) Fixture.development
                (Api.Update "c3" "d1" (Some "Mine") None)
                (Fixture.devWorld {[ "d1" := Fixture.sharedReport ]})
                "d1" Fixture.sharedReport)
      as (d' & Hd' & _ & _ & _ & Hsame); [reflexivity | discriminate |].
    pose proof (Hsame eq_refl) as E. rewrite E in Hd'. exact Hd'.
  - destruct (@only_the_owner_edits _ _
                (@DevBlockchainService.service Fixture.crypto)
                (@DevIPFSService.service Fixture.crypto) Fixture.development
                (Api.Delete "b2" "d1")
                (Fixture.devWorld {[ "d1" := Fixture.sharedReport ]})
                "d1" Fixture.sharedReport)
      as (d' & Hd' & _ & _ & Hactive & _); [reflexivity | discriminate |].
    exists d'. split; [exact Hd' | exact Hactive].
Defined.

(** ** The listings and the access check *)

Section ListingsAndAccess.
Variable regex : string -> string -> bool.
Implicit Type docs : gmap ObjectId Document.t.

Lemma find_selects (filter : Document.t -> bool) docs id d :
  docs !! id = Some d ->
  (is_Some (Listing.find filter docs !! id) <-> filter d = true).
Proof.
  intros Hd. unfold Listing.find. split.
  - intros [d' Hf]. apply map_lookup_filter_Some in Hf as [Hd' Hf].
    cbn in Hf. congruence.
  - intros Hf. exists d. apply map_lookup_filter_Some. now split.
Qed.

Lemma searched_none d : Listing.searched regex None d = true.
Proof. reflexivity. Qed.

(** X26.  What a user is shown is what the user may open.  Without a
    search text, a stored document is selected by the filter of
    [GET /documents/mine] or by that of [GET /documents/shared-with-me]
    exactly when it is active and [hasAccess] holds for the user; a
    document whose shared-with list does not name its owner is never
    selected by both; [GET /sharing/my-shares] selects the documents
    of [/mine] that are shared with somebody; and a search text only
    ever narrows a listing. *)
Theorem listings_show_the_accessible_documents docs userId id d :
  docs !! id = Some d ->
  let listedMine search :=
    is_Some (Listing.find (Listing.mine regex userId search) docs !! id) in
  let listedShared search :=
    is_Some (Listing.find (Listing.sharedWithMe regex userId search) docs
             !! id) in
  (listedMine None \/ listedShared None
   <-> Document.isActive d = true /\ Document.hasAccess d userId = true)
  /\ (~ In (Document.owner d) (Kept.usersOf (Document.sharedWith d)) ->
      ~ (listedMine None /\ listedShared None))
  /\ (is_Some (Listing.find (Listing.myShares userId) docs !! id)
      <-> listedMine None /\ Document.sharedWith d <> [])
  /\ (forall search,
        (listedMine search -> listedMine None)
        /\ (listedShared search -> listedShared None)).
Proof.
  intros Hd listedMine listedShared. subst listedMine listedShared.
  cbn beta. rewrite !(find_selects _ docs id d Hd).
  unfold Listing.mine, Listing.sharedWithMe, Listing.myShares.
  rewrite searched_none, !andb_true_r.
  change (fun share : Share.t => Js.eqs (Share.user share) userId)
    with (Document.isShareOf userId).
  split; [| split; [| split]].
  - unfold Document.hasAccess.
    destruct (Js.eqs (Document.owner d) userId),
      (existsb (Document.isShareOf userId) (Document.sharedWith d)),
      (Document.isActive d); cbn; intuition congruence.
  - intros Ho [Hm Hs].
    apply andb_prop in Hm as [Hm _]. apply andb_prop in Hs as [Hs _].
    apply eqs_true in Hm. apply shared_iff in Hs. subst userId.
    now apply Ho.
  - destruct (Js.eqs (Document.owner d) userId), (Document.isActive d),
      (Document.sharedWith d); cbn; intuition congruence.
  - intros search. rewrite !(find_selects _ docs id d Hd).
    split; intros Hl; apply andb_prop in Hl as [Hl _];
      now rewrite Hl, searched_none.
Qed.

End ListingsAndAccess.

(** Alice's report, shared with Bob: she finds it under her documents
    and her shares, Bob under the documents shared with him, Carol
    nowhere. *)
Lemma listings_show_the_accessible_documents_witness :
  let docs : gmap ObjectId Document.t := {[ "d1" := Fixture.sharedReport ]} in
  let regex := fun pattern text : string => Js.contains text pattern in
  is_Some (Listing.find (Listing.mine regex "a1" None) docs !! "d1")
  /\ is_Some (Listing.find (Listing.sharedWithMe regex "b2" None) docs !! "d1")
  /\ ~ is_Some (Listing.find (Listing.sharedWithMe regex "a1" None) docs
                !! "d1")
  /\ ~ is_Some (Listing.find (Listing.mine regex "c3" None) docs !! "d1").
Proof.
  intros docs regex.
  destruct (listings_show_the_accessible_documents regex docs "a1" "d1"
              Fixture.sharedReport eq_refl) as (Ha & Hnot & _).
  destruct (listings_show_the_accessible_documents regex docs "b2" "d1"
              Fixture.sharedReport eq_refl) as (Hb & Hnotb & _).
  destruct (listings_show_the_accessible_documents regex docs "c3" "d1"
              Fixture.sharedReport eq_refl) as (Hc & _).
  assert (Hw : ~ In (Document.owner Fixture.sharedReport)
                    (Kept.usersOf (Document.sharedWith Fixture.sharedReport))).
  { intros [E | []]; discriminate E. }
  assert (Hmine : is_Some (Listing.find (Listing.mine regex "a1" None) docs
                           !! "d1")).
  { destruct (proj2 Ha (conj eq_refl eq_refl)) as [Hm | Hs];
      [exact Hm | exfalso].
    destruct Hs as [x Hs]. vm_compute in Hs. discriminate Hs. }
  assert (Hshared : is_Some (Listing.find (Listing.sharedWithMe regex "b2"
                                             None) docs !! "d1")).
  { destruct (proj2 Hb (conj eq_refl eq_refl)) as [Hm | Hs];
      [exfalso | exact Hs].
    destruct Hm as [x Hm]. vm_compute in Hm. discriminate Hm. }
  split; [exact Hmine |]. split; [exact Hshared |]. split.
  - intros Hs. apply (Hnot Hw). now split.
  - intros Hm. destruct (proj1 Hc (or_introl Hm)) as [_ Hacc].
    discriminate Hacc.
Defined.
